(* ===== verification/_CoqProject ===== *)
-Q . S2P
Prelude.v
Discord.v
Queue.v
Roles.v
Notifier.v
Ticket.v
Bot.v
Spec.v
Legacy.v
Interaction.v
Commands.v
Gateway.v
Lifecycle.v
LegacyCommands.v
Listing.v
Program.v
