(* ===== verification/Prelude.v ===== *)
(** * GlassyNET role-manager bot: a verification development

    ** The program

    GlassyNET is a Discord moderation bot written on discord.py.  Its
    sources are [src/bot/bot_class.py] (class [RoleManagerBot]: the state
    of the bot and its event handlers), [src/bot/verification.py] (the
    notification message and its delayed deletion), [src/bot/commands.py]
    and [src/bot/utils.py] (slash commands and the role selector),
    [src/bot/messages.py] (message constants), [src/main.py] (start-up)
    and [src/src/main.py] (the older single-file version of the same bot).

    The part with real logic is the role-update coalescing subsystem:
    [on_member_update] turns each "roles of a member changed" event into
    an append to a per-member pending list ([role_update_queue]) and
    starts one settling task per member; [process_role_queue] sleeps five
    seconds, pops the list and calls [send_verification_message], which
    composes one message for all the roles popped and starts
    [delete_message_after_delay], which deletes the message a day later.
    Beside it the bot gives every member a fixed role, when the member
    joins and in a sweep over all members every twelve hours, and shows
    the member count as its activity.  Administrators grant and revoke
    the roles of the table with the commands [/add] and [/remove], whose
    selector calls [add_roles] once for each role chosen; each grant
    comes back to the bot as a member update, so a choice of several
    roles is a burst of updates for [on_member_update] to coalesce.

    ** The files

    - [Prelude] (this file): the result type for calls that may raise,
      the monad [Prog] of handlers (state and exceptions, with
      [try_except] and its laws), the Python list and dict idioms the
      sources use (membership and deduplication by a key, [l[-1]],
      [l[:-1]], [sep.join(l)], [d.get(k)], [d.keys()], [str] and [int]
      of an integer), their lemmas, and the tactics and hint databases
      ([py], [py_rw]) the component files share.
    - [Discord]: what the model keeps of discord.py (roles and members
      compared by id, embeds, messages, the [HTTPException] hierarchy,
      the log) and of the platform ([Platform]: the channels in the cache
      and the messages that exist, with [channel_send] and
      [message_delete]).  Two interfaces are type classes: [PyRuntime]
      (the iteration order of a [set], any permutation, and [strftime])
      and [Logger] ([logging] or [print]); each has two instances.
      [Module Sample] holds the data the witnesses run on.
    - [Queue]: [RoleManagerBot] with [role_to_channel] as an association
      list in insertion order and [role_update_queue] as a [gmap] from
      member id to the pending list.  [enqueue] is lines 133-144 of
      [on_member_update], one definition for each statement
      ([new_roles], [added_roles], [queued_roles], [unique_roles],
      [queue_extend]), the aliasing between [queued_roles] and the list
      stored in the dict written out in [queued_roles_after_extend];
      [drain] is the [pop] of [process_role_queue].
    - [Roles]: [assign_role_to_member], [on_member_join],
      [on_member_remove], [check_and_assign_role] ([sweep] is its
      [while True], [assign_page] its [async for]),
      [periodic_role_check] (one turn of its loop) and
      [update_bot_activity] with the thousands separators of
      [f"{member_count:,}"] ([format_commas]).
    - [Notifier]: [send_verification_message] of
      [src/bot/verification.py], split at its one [await]:
      [send_verification_message] is the function up to
      [channel.send] (its result [SendStart] says whether it returned,
      raised or suspended), [send_verification_reply] what it does with
      the answer; [compose_embed] and [compose_texts] are the body of
      its [try].
    - [Ticket]: [delete_message_after_delay], both the function of
      [verification.py] that is used and the static method of
      [RoleManagerBot] that is not.
    - [Bot]: the handlers on the asyncio event loop, in [Module
      Handlers].  [System] is the bot
      object, the suspended coroutines ([Task], one constructor for each
      [await] of the notification path), the log, the clock and the
      platform; [step] runs, for an [Event] (a member update, time
      passing, the end of a sleep, the answer to a REST call, a deletion
      by another user), the code from one suspension to the next;
      [reachable] is the states a run from [__init__] reaches.
      [Module Scenario] is a sample run.
    - [Spec]: the coalescing machine of the design (pending sets and a
      multiset of timers, [spec_enqueue], [spec_flush]), the
      [abstraction] that reads a [System] as a state of that machine, and
      the refinement.
    - [Legacy]: the handlers of [src/src/main.py] under [Module Legacy],
      and the relation [mirrors] between its states and the package's.
    - [Interaction]: the texts of [src/bot/messages.py]
      ([Module messages]), the environment of a command handler ([Env]:
      the guild, the messages of the platform, the answers given, the
      log, and the member updates caused), and one definition for each
      call a handler makes ([response_send_message], [response_defer],
      [followup_send], [member_add_roles], [member_remove_roles],
      [channel_purge]), with the answer of the platform as a parameter.
    - [Commands]: [RoleSelector] and [RoleView] of [src/bot/utils.py]
      ([RoleSelector_init], [RoleView], [callback] with [add_each] as
      its loop) and the cog of [src/bot/commands.py] ([add], [remove],
      [clear], [verify], under [has_permissions]), each a handler in
      [Prog] with the [try] and the [except] clauses of the code.
    - [Gateway]: the member updates a handler has caused, delivered to
      the bot as events ([deliver], [selection_events]).
    - [Lifecycle]: [send_startup_message], [send_shutdown_message],
      [close], [close_http_session] and [periodic_role_check] of
      [bot_class.py], [on_ready] and [main] of [src/main.py], on a
      [Client] (platform, guilds, log, clock, cogs, presence, connector).
    - [LegacyCommands]: the copy of the cog, of the selector and of
      [on_ready] in [src/src/main.py], under [Module LegacyCog].
    - [Listing]: the loop of [check_and_assign_role] with the answer of
      each [guild.fetch_members] request as a parameter
      ([sweep_listing], [check_and_assign_role_listing]): a request
      that fails raises, and what the pages before it did stays done.
    - [Program]: the whole bot as one machine.  [World] is the state of
      the process: the [System] of the notification path, the guilds of
      the cache, the session (cogs, presence, connector, closed), the
      [periodic_role_check] coroutines asleep, the member updates
      waiting at the gateway, the answers given and the exceptions
      reported.  An [Action] is what the event loop runs next, and
      [wstep] runs it with the handler of the file that models it:
      [step] of [Bot] for [Loop], [on_member_update] for [Deliver],
      [on_ready] for [Ready], [check_and_assign_role_listing] for
      [LoopWake], [on_member_join] and [on_member_remove] for [Join] and
      [Leave], the commands and [callback] of [Commands] for [Slash] and
      [Select], [close] for [Close].  [Ready] cannot happen once the
      client is closed.

    ** What is proved

    - Queue: [enqueue] and [drain] keep the invariant [queue_wf] (no
      empty list, no role twice, only roles of the table); a task is
      started exactly on the transition from no pending role to some;
      redelivered and irrelevant updates change nothing; the pending ids
      after an update are the pending ids before plus the eligible new
      ones.
    - Bot: in every reachable state a member has one settling task
      exactly when it has an entry in the queue, and never two
      ([sys_inv], by induction on [reachable]); an update during the
      settling window is appended and starts nothing; the wake of the
      task pops the entry and starts one send whose fields are the roles
      pending then; a pending entry is always flushed within the delay
      ([deadline_inv]); a failed send leaves no ticket and does not
      requeue; a sent message gets one ticket and no message has two
      ([ticket_inv]); answers of the platform never touch the queue.
    - Notifier and Ticket: the text of the message against the wording of
      the design for one and for several roles, the fields against the
      table, each way the function ends without sending, and what each
      answer to a deletion logs.
    - Spec: every step of the system is the step of the design's machine
      for its label (a forward simulation with the abstraction as a
      function), so every run refines a run of the machine and inherits
      its promise.
    - Roles: the sweep terminates on every guild; on a guild listed in
      ascending order of id it is one pass over the members whatever the
      page size, and leaves each member as [assign_role_to_member] alone
      would; the automatic role never produces a notification; the
      separators of the activity line only separate.
    - Legacy: the single-file version goes through states that mirror
      the package's on every run, prints where the package logs, and so
      keeps the same invariant.
    - Conservation (Queue, Bot): along every run the roles admitted by
      updates are the roles handed over at the wakes plus the roles
      still pending, as multisets ([tally], [pending_pairs]); a burst of
      grants to a member with nothing pending ends in one notification
      for all of them ([burst]).
    - Commands: what [add] and [remove] offer, by a characterisation of
      the roles in the selector; that the values of the options name
      their roles again ([int(str(id)) = id]) and differ for roles of
      different ids ([selector_options_decode]); that [callback] grants
      the roles chosen in order, one update each, stops at the first
      request that fails without undoing the ones before, and lets no
      exception out; that [clear] deletes the newest messages of its
      channel and no other, and reports the number; what each command
      logs and answers when a call fails; and that none runs for a user
      who is not an administrator.
    - Gateway: a choice in the selector ends in exactly one notification
      with a field for each role chosen; a revocation retracts nothing.
    - Lifecycle: the effect and the log of the first [on_ready]; that a
      second [on_ready] stops at [add_cog], so the startup message and
      the periodic loop are started once; that [close] sends before it
      closes and leaves no cog; and that any number of turns of the
      periodic check leaves
      the guilds as its first sweep did.
    - LegacyCommands: the copy agrees with the package when the first
      answer goes through, and lets the failure of its second answer
      escape where the package logs it.
    - Listing: with no failure the loop is the sweep of [Roles]; it
      ends whatever fails; a listing that fails leaves the members of
      the pages before it settled, those behind as they were, and its
      exception leaves [check_and_assign_role].
    - Program: every action keeps the state well formed ([world_wf]:
      the invariants of the notification path, messages stored by id,
      guilds in order, one periodic check at most), each handler being
      shown to keep a frame of the state it started on by the rules of
      [preserves]; so the invariant of one settling task for each member
      holds in the whole program; [on_ready] starts one periodic check
      however often it fires, and none once [close] has removed the
      cog; a listing that fails ends the periodic check for every later
      state; the periodic check as a task refines
      the loop of [Lifecycle] turn by turn
      ([periodic_task_refines_loop]); a pending list has between one and
      four roles, the size of the table; a member who joins gets the
      automatic role and, once the update is delivered, nothing is
      queued or announced; a member who leaves with roles pending is
      announced all the same; and a notification that [clear] has purged
      ends its ticket at [NotFound], without a line in the log.

    Every property stated under a hypothesis is applied to the sample
    data by a witness that ends in [Defined].

    ** Modelling choices, bounds and fuel

    - asyncio runs one coroutine at a time and switches only at an
      [await], so the code between two awaits is one [step].  The
      settling task reaches its [sleep] in the turn that starts it.
    - Time is an integer number of seconds; [Tick] moves the clock, a
      sleeping task can wake once its time has come and not before.
    - The answers of the platform are inputs: an event carries the fault
      a REST call meets, if any, and [faults] gives the one [add_roles]
      meets for each member.
    - Snowflake ids are unbounded integers ([Z]); nothing in the code
      depends on their width.
    - [sweep] takes fuel, one unit for each page.
      [check_and_assign_role] gives it one more than the number of
      members: a page that does not end the loop holds at least one
      member above the cursor, so the members still to list grow fewer
      with each page ([sweep_total]).  [run] and [spec_run] recurse on
      the list of events and need none.
    - [strftime] is a parameter of the runtime: the layout of the
      timestamp in the footer is not modelled, the instant it shows is.
    - A command handler is a function of the answers of the platform to
      its calls (the parameters named [..._fault]); it runs against a
      guild that only its own requests change.  In [Roles]
      [guild.fetch_members] is taken to answer; [Listing] has its
      faults, one for each page, and the same fuel.
    - In [Program] the notification path keeps its suspensions; every
      other handler runs from its start to its end in one action, so
      two of them do not interleave between their awaits.  What they
      share with the notification path they exchange through the state:
      the member updates through [w_inbox], delivered one by one at any
      later time, the messages through the platform.
    - [remove_roles] with several roles is one request for each, as
      discord.py makes them; a grant is an update only when it changes
      the member.
    - In [Lifecycle] [periodic_role_check] takes a number of turns: its
      loop has no end while the client is open, and
      [periodic_role_check_is_stable] holds for every number; [on_ready]
      is modelled there up to its call.  In [Program] the loop is a task
      that [Ready] starts and [LoopWake] runs one turn of and puts to
      sleep again, for as long as the program runs.
    - [member.roles] is kept in the order of the grants; nothing the
      code does depends on the order, which [PyRuntime] hides.
    - [super().close()] is [commands.Bot.close()] of discord.py: it
      removes the cogs and closes the client ([super_close]).  The
      gateway dispatches nothing to a closed client; the model forbids
      [Ready] then, the one dispatch an invariant depends on
      ([ready_barred]), and leaves the others possible, which adds
      states to those the invariants cover and takes none away.  A
      periodic check asleep at [close] ends at its next wake.
    - [str(member)] is the name of the account, followed by [#] and the
      discriminator for an account that still has one ([member_str]);
      [member.name] is the name alone.

    ** What is not modelled

    discord.py itself: the connection and the member cache, the command
    tree with its registration and argument conversion, rate limiting,
    and the dispatch of events to handlers; the model takes the answers
    of the library as inputs.  Of [main.py], [load_dotenv],
    [logging.basicConfig] and [bot.run] beyond the exception that may
    leave it.  [wait_until_ready] of [periodic_role_check], which
    returns at once when called from [on_ready], and the interleaving of
    a command handler, a sweep or [on_ready] with other handlers between
    its own awaits, other than through the member updates it causes and
    the messages it deletes. *)

From Stdlib Require Import DecimalString DecimalPos DecimalZ.
From stdpp Require Import base tactics option list strings.

Set Warnings "-clear-no-such-hyp".

(** ** Results of calls that may raise *)

Declare Scope py_scope.
Delimit Scope py_scope with py.

Inductive result (E A : Type) : Type :=
| Ok (a : A)
| Raise (e : E).
Arguments Ok {E A} a.
Arguments Raise {E A} e.

Definition result_bind {E A B} (c : result E A) (k : A → result E B) : result E B :=
  match c with
  | Ok a => k a
  | Raise e => Raise e
  end.

Definition result_of_option {E A} (e : E) (o : option A) : result E A :=
  match o with
  | Some a => Ok a
  | None => Raise e
  end.

Notation "x ←! c ; k" := (result_bind c (λ x, k))
  (at level 20, c at level 100, k at level 200, right associativity,
   format "x  ←!  c ;  '/' k") : py_scope.

(** ** Handlers: state and exceptions

    A handler that reads and changes a state of type [S] and may raise an
    exception of type [E]: from a point on it leaves a state, and a value
    or the exception raised.  The state it leaves when it raises is the
    state at the [raise]: what was done before stays done. *)

Definition Prog (E S A : Type) : Type := S → S * result E A.

#[export] Instance Prog_ret {E S} : MRet (Prog E S) := λ A a s, (s, Ok a).

#[export] Instance Prog_bind {E S} : MBind (Prog E S) := λ A B k c s,
  match c s with
  | (s', Ok a) => k a s'
  | (s', Raise x) => (s', Raise x)
  end.

(** Two handlers are the same when they do the same in every state. *)
#[export] Instance Prog_equiv {E S A} : Equiv (Prog E S A) := pointwise_relation S (=).

(** [raise x] *)
Definition raise {E S A} (x : E) : Prog E S A := λ s, (s, Raise x).

(** [try: body except Exception as x: handler(x)]; a handler for some
    classes only raises the exception again for the others. *)
Definition try_except {E S A} (body : Prog E S A) (handler : E → Prog E S A) :
    Prog E S A := λ s,
  match body s with
  | (s', Ok a) => (s', Ok a)
  | (s', Raise x) => handler x s'
  end.

(** A value computed by code that may raise. *)
Definition lift {E S A} (r : result E A) : Prog E S A := λ s, (s, r).

(** A handler keeps a property of the state: the state it leaves has it
    when the state it started from had it, whether it returns or
    raises. *)
Definition preserves {E S A} (I : S → Prop) (c : Prog E S A) : Prop :=
  ∀ s, I s → I (c s).1.

(** ** Hint databases and tactics of the development *)

Create HintDb py discriminated.
Create HintDb preserves discriminated.
Create Rewrite HintDb py_rw.

(** [case_branch] splits on the first [decide], [bool_decide] or [match]
    scrutinee of the goal, the way handlers branch on their guards. *)
Ltac case_branch :=
  first [ case_decide | case_bool_decide | case_match ]; simplify_eq/=.

Ltac case_branches := repeat (case_branch; try done).

(** A closed decidable proposition, proved by evaluating its decision
    procedure. *)
Ltac compute_decide := apply (bool_decide_unpack _); vm_compute; exact I.

(** * Definitions *)

(** ** Python list idioms *)

Section py_lists.
Context {A : Type}.

(** [l[-1]]: [None] stands for the [IndexError] of an empty list. *)
Definition py_last (l : list A) : option A := last l.

(** [l[:-1]]: every element but the last; [[]] for the empty list. *)
Definition py_init (l : list A) : list A := removelast l.

(** [bool(l)]: a list is truthy when it is not empty. *)
Definition py_truthy (l : list A) : bool :=
  match l with
  | [] => false
  | _ :: _ => true
  end.

End py_lists.

(** ** Membership and deduplication by a key

    Python compares discord.py objects with [__eq__], which compares
    their ids: [x in l], [set(l)] and [set(a) - set(b)] all work on the
    key of an element.  The section is parametric in the key. *)

Section keyed.
Context {A K : Type} `{EqDecision K} (key : A → K).

(** [x in l]. *)
Definition elem_on (x : A) (l : list A) : bool :=
  bool_decide (key x ∈ key <$> l).

(** The elements of [l] whose key [seen] does not hold, first occurrence
    of each key only. *)
Fixpoint dedup_seen (seen : list K) (l : list A) : list A :=
  match l with
  | [] => []
  | x :: l' =>
      if decide (key x ∈ seen) then dedup_seen seen l'
      else x :: dedup_seen (key x :: seen) l'
  end.

(** The elements of [set(l)], in the order of their first insertion. *)
Definition dedup_on (l : list A) : list A := dedup_seen [] l.

(** The elements of [l] whose key no element of [excl] has. *)
Definition without_on (l excl : list A) : list A :=
  filter (λ x, key x ∉ key <$> excl) l.

End keyed.

(** [str(n)] of an integer: its decimal digits, after a minus sign when
    it is negative. *)
Definition py_str (n : Z) : string := NilZero.string_of_int (Z.to_int n).

(** [int(s)] on the strings [str] produces and their like (digits after
    an optional minus sign); [None] stands for the [ValueError] of any
    other string. *)
Definition py_int (s : string) : option Z := Z.of_int <$> NilZero.int_of_string s.

(** ** Joining strings: [sep.join(l)] *)

Definition py_join (sep : string) (l : list string) : string :=
  String.concat sep l.

(** ** Dictionaries that keep insertion order

    A Python [dict] iterates in insertion order; where the sources iterate
    one ([d.keys()]) it is an association list with distinct keys. *)

Section dict.
Context {K V : Type} `{EqDecision K}.

(** [d.keys()]. *)
Definition dict_keys (d : list (K * V)) : list K := d.*1.

(** [d.get(k)]. *)
Fixpoint dict_get (k : K) (d : list (K * V)) : option V :=
  match d with
  | [] => None
  | (k', v) :: d' => if decide (k' = k) then Some v else dict_get k d'
  end.

End dict.

(** * Lemmas *)

(** ** Python list idioms *)

Section py_lists_facts.
Context {A : Type}.

Lemma py_truthy_true (l : list A) : py_truthy l = true ↔ l ≠ [].
Proof. by destruct l. Qed.

Lemma py_truthy_false (l : list A) : py_truthy l = false ↔ l = [].
Proof. by destruct l. Qed.

Lemma py_truthy_app (l k : list A) :
  py_truthy (l ++ k) = py_truthy l || py_truthy k.
Proof. by destruct l. Qed.

Lemma py_init_last (l : list A) (x : A) :
  py_last l = Some x → l = py_init l ++ [x].
Proof.
  unfold py_last, py_init. intros Hl.
  apply last_Some in Hl as [l' ->]. by rewrite removelast_last.
Qed.

Lemma py_last_snoc (l : list A) (x : A) : py_last (l ++ [x]) = Some x.
Proof. apply last_snoc. Qed.

Lemma py_init_snoc (l : list A) (x : A) : py_init (l ++ [x]) = l.
Proof. apply removelast_last. Qed.

Lemma py_last_None (l : list A) : py_last l = None ↔ l = [].
Proof. apply last_None. Qed.

End py_lists_facts.

#[export] Hint Rewrite @py_last_snoc @py_init_snoc @py_truthy_app : py_rw.

(** ** Generic list facts *)

Section list_facts.
Context {A : Type}.

Lemma filter_eq_nil (P : A → Prop) `{∀ x, Decision (P x)} (l : list A) :
  filter P l = [] ↔ ∀ x, x ∈ l → ¬ P x.
Proof.
  split.
  - intros Hf x Hx HP. by eapply filter_nil_not_elem_of.
  - intros Hl. induction l as [|x l IH]; [done|].
    rewrite filter_cons_False by (apply Hl; left).
    apply IH. intros y Hy. apply Hl. by right.
Qed.

Lemma filter_all (P : A → Prop) `{∀ x, Decision (P x)} (l : list A) :
  Forall P l → filter P l = l.
Proof.
  induction 1 as [|x l Hx Hl IH]; [done|].
  by rewrite filter_cons_True, IH.
Qed.

Lemma zip_fmap_diag {B C} (f : A → B) (g : A → C) (l : list A) :
  zip (f <$> l) (g <$> l) = (λ x, (f x, g x)) <$> l.
Proof. by rewrite zip_with_fmap_l, zip_with_fmap_r, zip_with_diag. Qed.

Lemma insert_Permutation (l : list A) (i : nat) (x y : A) :
  l !! i = Some x → <[i:=y]> l ≡ₚ y :: delete i l.
Proof.
  intros Hi. rewrite insert_take_drop by by eapply lookup_lt_Some.
  by rewrite delete_take_drop, Permutation_middle.
Qed.

Lemma omap_delete_Some {B} (f : A → option B) (l : list A) (i : nat) x y :
  l !! i = Some x → f x = Some y → omap f l ≡ₚ y :: omap f (delete i l).
Proof.
  intros Hi Hx. rewrite (delete_Permutation l i x Hi) at 1. simpl. by rewrite Hx.
Qed.

Lemma omap_delete_None {B} (f : A → option B) (l : list A) (i : nat) x :
  l !! i = Some x → f x = None → omap f (delete i l) ≡ₚ omap f l.
Proof.
  intros Hi Hx. rewrite (delete_Permutation l i x Hi) at 2. simpl. by rewrite Hx.
Qed.

Lemma omap_insert_None {B} (f : A → option B) (l : list A) (i : nat) x y :
  l !! i = Some x → f x = None → f y = None → omap f (<[i:=y]> l) ≡ₚ omap f l.
Proof.
  intros Hi Hx Hy. rewrite (insert_Permutation l i x y Hi). simpl. rewrite Hy.
  by apply omap_delete_None with x.
Qed.

Lemma omap_insert_Some {B} (f : A → option B) (l : list A) (i : nat) x y z :
  l !! i = Some x → f x = Some z → f y = Some z → omap f (<[i:=y]> l) ≡ₚ omap f l.
Proof.
  intros Hi Hx Hy. rewrite (insert_Permutation l i x y Hi). simpl. rewrite Hy.
  symmetry. by apply omap_delete_Some with x.
Qed.

(** Distinct keys along a concatenation. *)
Lemma NoDup_fmap_app_l {B} (f : A → B) (l k : list A) :
  NoDup (f <$> l ++ k) → NoDup (f <$> l).
Proof. rewrite fmap_app, NoDup_app. by intros (? & _ & _). Qed.

Lemma NoDup_fmap_app_r {B} (f : A → B) (l k : list A) :
  NoDup (f <$> l ++ k) → NoDup (f <$> k).
Proof. rewrite fmap_app, NoDup_app. by intros (_ & _ & ?). Qed.

Lemma NoDup_fmap_snoc {B} (f : A → B) (l : list A) (x : A) :
  NoDup (f <$> l ++ [x]) → f x ∉ f <$> l.
Proof.
  rewrite fmap_app, NoDup_app. intros (_ & Hd & _) Hin. apply (Hd _ Hin). left.
Qed.

(** A partial map keeps of a list no more than it has. *)
Lemma length_omap {B} (f : A → option B) (l : list A) : length (omap f l) ≤ length l.
Proof. induction l as [|x l IH]; [done|]. csimpl. destruct (f x); csimpl; lia. Qed.

(** [find] through a map that keeps the test. *)
Lemma find_fmap_keeping (p : A → bool) (f : A → A) (l : list A) :
  (∀ x, p (f x) = p x) → find p (f <$> l) = f <$> find p l.
Proof.
  intros Hp. induction l as [|x l IH]; [done|]. simpl. rewrite Hp.
  by destruct (p x).
Qed.

Lemma find_Some_test (p : A → bool) (l : list A) x : find p l = Some x → p x = true ∧ x ∈ l.
Proof.
  induction l as [|y l IH]; [done|]. simpl. destruct (p y) eqn:Hy.
  - intros [= <-]. split; [done|left].
  - intros [? ?]%IH. split; [done|by right].
Qed.

(** [find] finds nothing where nothing passes the test. *)
Lemma find_none (p : A → bool) (l : list A) :
  Forall (λ x, p x = false) l → find p l = None.
Proof. induction 1 as [|x l Hx _ IH]; [done|]. simpl. by rewrite Hx. Qed.

(** [find] skips a prefix that fails the test. *)
Lemma find_app_r (p : A → bool) (l k : list A) :
  Forall (λ x, p x = false) l → find p (l ++ k) = find p k.
Proof. induction 1 as [|x l Hx _ IH]; [done|]. simpl. by rewrite Hx. Qed.

(** A list whose elements are all silent says nothing. *)
Lemma bind_all_nil {B} (l : list A) (f : A → list B) :
  Forall (λ x, f x = []) l → l ≫= f = [].
Proof. induction 1 as [|x l Hx _ IH]; [done|]. by rewrite bind_cons, Hx, IH. Qed.

(** Of a list without repetition mapped to lists, when one element
    answers and the others are silent, the answer is all there is. *)
Lemma bind_single {B} (l : list A) (a : A) (f : A → list B) :
  NoDup l → a ∈ l → (∀ x, x ∈ l → x ≠ a → f x = []) → l ≫= f = f a.
Proof.
  intros Hnd Ha Hf. induction Hnd as [|x l Hx Hnd IH]; [by apply elem_of_nil in Ha|].
  rewrite bind_cons. apply elem_of_cons in Ha as [<-|Ha].
  - rewrite (bind_all_nil l f), app_nil_r; [done|].
    apply Forall_forall. intros y Hy. apply Hf; [by right|]. by intros ->.
  - rewrite Hf, IH; [done..| |left|by intros ->]. intros y Hy. apply Hf. by right.
Qed.

(** Deleting a position forgets what was written to it. *)
Lemma list_delete_insert (l : list A) (i : nat) (x : A) :
  delete i (<[i:=x]> l) = delete i l.
Proof. by rewrite !delete_take_drop, take_insert_ge, drop_insert_lt by lia. Qed.

(** [int(str(n)) == n] *)
Lemma py_int_str (n : Z) : py_int (py_str n) = Some n.
Proof.
  unfold py_int, py_str. rewrite NilZero.isi; [simpl; by rewrite DecimalZ.of_to|..];
    destruct n as [|p|p]; try done; simpl; intros [= Hp];
    by apply (Unsigned.to_uint_nonnil p).
Qed.

(** [str] gives different strings for different integers. *)
#[export] Instance py_str_inj : Inj (=) (=) py_str.
Proof. intros n k Hnk. apply (inj Some). by rewrite <-!py_int_str, Hnk. Qed.

(** A map that fixes every element of a list fixes the list. *)
Lemma fmap_fixed (f : A → A) (l : list A) :
  Forall (λ x, f x = x) l → f <$> l = l.
Proof. induction 1 as [|x l Hx _ IH]; [done|]. by rewrite fmap_cons, Hx, IH. Qed.

(** A list none of whose elements passes a filter. *)
Lemma filter_none (P : A → Prop) `{∀ x, Decision (P x)} (l : list A) :
  Forall (λ x, ¬ P x) l → filter P l = [].
Proof. intros Hl. apply filter_eq_nil. by apply Forall_forall. Qed.

(** The last element of a list that is not empty. *)
Lemma py_last_is_Some (l : list A) : l ≠ [] → is_Some (py_last l).
Proof.
  intros Hl. destruct (py_last l) eqn:Hlast; [by eexists|].
  by apply py_last_None in Hlast.
Qed.

Lemma and_iff_under (P Q R : Prop) : (P → (Q ↔ R)) → (P ∧ Q ↔ P ∧ R).
Proof. tauto. Qed.

End list_facts.

(** ** Membership and deduplication by a key *)

Section keyed_facts.
Context {A K : Type} `{EqDecision K} (key : A → K).
#[local] Abbreviation elem_on := (elem_on key).
#[local] Abbreviation dedup_seen := (dedup_seen key).
#[local] Abbreviation dedup_on := (dedup_on key).
#[local] Abbreviation without_on := (without_on key).

Lemma elem_on_true (x : A) (l : list A) :
  elem_on x l = true ↔ key x ∈ key <$> l.
Proof. unfold elem_on. by rewrite bool_decide_eq_true. Qed.

Lemma elem_on_false (x : A) (l : list A) :
  elem_on x l = false ↔ key x ∉ key <$> l.
Proof. unfold elem_on. by rewrite bool_decide_eq_false. Qed.

Lemma elem_on_nil (x : A) : elem_on x [] = false.
Proof. done. Qed.

Lemma elem_of_fmap_filter (P : A → Prop) `{∀ x, Decision (P x)} (l : list A) k :
  k ∈ key <$> filter P l → k ∈ key <$> l.
Proof.
  rewrite !list_elem_of_fmap. intros (x & -> & Hx%list_elem_of_filter).
  naive_solver.
Qed.

Lemma NoDup_fmap_filter (P : A → Prop) `{∀ x, Decision (P x)} (l : list A) :
  NoDup (key <$> l) → NoDup (key <$> filter P l).
Proof.
  induction l as [|x l IH]; [done|].
  rewrite fmap_cons, NoDup_cons. intros [Hx Hl].
  rewrite filter_cons. case_decide; [|by auto].
  rewrite fmap_cons, NoDup_cons. split; [|by auto].
  intros Hin. by apply Hx, (elem_of_fmap_filter P).
Qed.

Lemma NoDup_fmap_app (l k : list A) :
  NoDup (key <$> l) → NoDup (key <$> k) →
  (∀ x, x ∈ k → key x ∉ key <$> l) →
  NoDup (key <$> l ++ k).
Proof.
  intros Hl Hk Hdisj. rewrite fmap_app. apply NoDup_app. split_and!; [done| |done].
  intros i Hi (x & -> & Hx)%list_elem_of_fmap. by apply (Hdisj x).
Qed.

Lemma dedup_seen_spec (seen : list K) (l : list A) :
  NoDup (key <$> dedup_seen seen l) ∧
  ∀ k, k ∈ key <$> dedup_seen seen l ↔ k ∈ key <$> l ∧ k ∉ seen.
Proof.
  revert seen. induction l as [|x l IH]; intros seen; simpl.
  { split; [constructor|]. intros k. rewrite elem_of_nil. naive_solver. }
  case_decide as Hx.
  - destruct (IH seen) as [Hnd Hin]. split; [done|]. intros k.
    rewrite Hin, elem_of_cons. naive_solver.
  - destruct (IH (key x :: seen)) as [Hnd Hin]. split.
    + rewrite fmap_cons, NoDup_cons. split; [|done].
      rewrite Hin, elem_of_cons. naive_solver.
    + intros k. rewrite fmap_cons, !elem_of_cons, Hin, elem_of_cons.
      destruct (decide (k = key x)); naive_solver.
Qed.

Lemma dedup_on_NoDup (l : list A) : NoDup (key <$> dedup_on l).
Proof. apply dedup_seen_spec. Qed.

Lemma elem_of_dedup_on_keys (l : list A) k :
  k ∈ key <$> dedup_on l ↔ k ∈ key <$> l.
Proof.
  unfold dedup_on. rewrite (proj2 (dedup_seen_spec [] l) k), elem_of_nil.
  naive_solver.
Qed.

Lemma dedup_seen_id (seen : list K) (l : list A) :
  NoDup (key <$> l) → (∀ k, k ∈ key <$> l → k ∉ seen) →
  dedup_seen seen l = l.
Proof.
  revert seen. induction l as [|x l IH]; intros seen; [done|].
  rewrite fmap_cons, NoDup_cons. intros [Hx Hl] Hseen. simpl.
  rewrite decide_False by (apply Hseen; left).
  f_equal. apply IH; [done|]. intros k Hk. rewrite not_elem_of_cons. split.
  - intros ->. done.
  - apply Hseen. by right.
Qed.

Lemma dedup_on_id (l : list A) : NoDup (key <$> l) → dedup_on l = l.
Proof. intros Hl. apply dedup_seen_id; [done|]. intros k _. apply not_elem_of_nil. Qed.

Lemma dedup_seen_sublist (seen : list K) (l : list A) : dedup_seen seen l `sublist_of` l.
Proof.
  revert seen. induction l as [|x l IH]; intros seen; simpl; [done|].
  case_decide; [by apply sublist_cons | by apply sublist_skip].
Qed.

Lemma elem_of_dedup_on (l : list A) x : x ∈ dedup_on l → x ∈ l.
Proof. intros Hx. eapply elem_of_sublist; [done|apply dedup_seen_sublist]. Qed.

Lemma elem_of_without_on (l excl : list A) x :
  x ∈ without_on l excl ↔ x ∈ l ∧ key x ∉ key <$> excl.
Proof. unfold without_on. rewrite list_elem_of_filter. naive_solver. Qed.

Lemma without_on_NoDup (l excl : list A) :
  NoDup (key <$> l) → NoDup (key <$> without_on l excl).
Proof. apply NoDup_fmap_filter. Qed.

(** Of a list with one more element, of a new key, the set difference
    with the list is that element. *)
Lemma without_on_snoc (l : list A) (x : A) :
  NoDup (key <$> l ++ [x]) → without_on (dedup_on (l ++ [x])) l = [x].
Proof.
  intros Hnd. rewrite dedup_on_id by done. unfold Prelude.without_on.
  rewrite fmap_app, NoDup_app in Hnd. destruct Hnd as (_ & Hx & _).
  rewrite filter_app, filter_none, filter_cons_True; [done| |].
  - intros Hin. apply (Hx (key x)); [done|left].
  - apply Forall_forall. intros y Hy Hn. by apply Hn, list_elem_of_fmap_2.
Qed.

Lemma without_on_nil_r (l : list A) : without_on l [] = l.
Proof.
  unfold without_on. induction l as [|x l IH]; [done|].
  rewrite filter_cons_True by apply not_elem_of_nil. by f_equal.
Qed.

End keyed_facts.

#[export] Hint Resolve dedup_on_NoDup without_on_NoDup NoDup_fmap_filter : py.

(** ** Strings *)

Lemma string_app_assoc (s t u : string) : (s +:+ t) +:+ u = s +:+ t +:+ u.
Proof.
  induction s as [|c s IH]; [done|].
  change (String c ((s +:+ t) +:+ u) = String c (s +:+ t +:+ u)). by f_equal.
Qed.

Lemma string_app_nil_r (s : string) : s +:+ "" = s.
Proof.
  induction s as [|c s IH]; [done|].
  change (String c (s +:+ "") = String c s). by f_equal.
Qed.

#[export] Instance string_app_assoc_inst : Assoc (=) String.append.
Proof. intros s t u. symmetry. apply string_app_assoc. Qed.

#[export] Hint Rewrite string_app_assoc string_app_nil_r : py_rw.

(** ** Joining strings *)

Lemma py_join_nil sep : py_join sep [] = "".
Proof. done. Qed.

Lemma py_join_singleton sep s : py_join sep [s] = s.
Proof. done. Qed.

Lemma py_join_cons sep s t l :
  py_join sep (s :: t :: l) = s +:+ sep +:+ py_join sep (t :: l).
Proof. done. Qed.

#[export] Hint Rewrite py_join_nil py_join_singleton py_join_cons : py_rw.

(** ** Dictionaries *)

Section dict_facts.
Context {K V : Type} `{EqDecision K}.

Lemma dict_get_is_Some (k : K) (d : list (K * V)) :
  is_Some (dict_get k d) ↔ k ∈ dict_keys d.
Proof.
  unfold dict_keys. induction d as [|[k' v] d IH]; simpl.
  { rewrite elem_of_nil. split; [by intros []|done]. }
  rewrite elem_of_cons. case_decide; subst.
  - split; [by left|by eauto].
  - rewrite IH. naive_solver.
Qed.

Lemma dict_get_None (k : K) (d : list (K * V)) :
  dict_get k d = None ↔ k ∉ dict_keys d.
Proof. rewrite <-dict_get_is_Some, eq_None_not_Some. done. Qed.

End dict_facts.

(** ** The laws of handlers *)

Section prog_laws.
Context {E S A B C : Type}.
Implicit Types (c : Prog E S A) (k : A → Prog E S B) (h : B → Prog E S C).
Implicit Types (handler : E → Prog E S A).

#[export] Instance Prog_equivalence : Equivalence (≡@{Prog E S A}).
Proof. apply _. Qed.

Lemma prog_bind_ret_l a k : (mret a ≫= k) ≡ k a.
Proof. by intros s. Qed.

Lemma prog_bind_ret_r c : (c ≫= mret) ≡ c.
Proof. intros s. unfold mbind, Prog_bind. by destruct (c s) as [s' [a|x]]. Qed.

Lemma prog_bind_assoc c k h : ((c ≫= k) ≫= h) ≡ (c ≫= λ a, k a ≫= h).
Proof. intros s. unfold mbind, Prog_bind. by destruct (c s) as [s' [a|x]]. Qed.

Lemma prog_bind_raise x k : (raise x ≫= k) ≡ raise x.
Proof. by intros s. Qed.

#[export] Instance prog_bind_proper :
  Proper (pointwise_relation A (≡) ==> (≡) ==> (≡@{Prog E S B})) mbind.
Proof.
  intros k k' Hk c c' Hc s. unfold mbind, Prog_bind. rewrite (Hc s).
  destruct (c' s) as [s' [a|x]]; [apply Hk|done].
Qed.

#[export] Instance try_except_proper :
  Proper ((≡) ==> pointwise_relation E (≡) ==> (≡@{Prog E S A})) try_except.
Proof.
  intros c c' Hc h h' Hh s. unfold try_except. rewrite (Hc s).
  destruct (c' s) as [s' [a|x]]; [done|apply Hh].
Qed.

Lemma try_except_ret a handler : try_except (mret a) handler ≡ mret a.
Proof. by intros s. Qed.

Lemma try_except_raise x handler : try_except (raise x) handler ≡ handler x.
Proof. by intros s. Qed.

(** A body that does not raise is not handled. *)
Lemma try_except_ok c handler s s' a :
  c s = (s', Ok a) → try_except c handler s = (s', Ok a).
Proof. intros Hc. unfold try_except. by rewrite Hc. Qed.

(** A handler that raises every exception again handles nothing. *)
Lemma try_except_reraise c : try_except c raise ≡ c.
Proof. intros s. unfold try_except. by destruct (c s) as [s' [a|x]]. Qed.

(** A handler whose handlers do not raise does not raise. *)
Lemma try_except_total c handler s :
  (∀ x s', ∃ s'' a, handler x s' = (s'', Ok a)) →
  ∃ s'' a, try_except c handler s = (s'', Ok a).
Proof.
  intros Hh. unfold try_except. destruct (c s) as [s' [a|x]]; [by eauto|apply Hh].
Qed.

End prog_laws.

(** ** Properties a handler keeps

    The rules by which a property kept by every call of a handler is
    kept by the handler: [auto with preserves] applies them along the
    code. *)

Section prog_invariants.
Context {E S : Type}.
Implicit Types (I : S → Prop).

Lemma preserves_ret {A} I (a : A) : preserves I (mret a : Prog E S A).
Proof. by intros s. Qed.

Lemma preserves_raise {A} I (x : E) : preserves I (raise x : Prog E S A).
Proof. by intros s. Qed.

Lemma preserves_lift {A} I (r : result E A) : preserves I (lift r : Prog E S A).
Proof. by intros s. Qed.

Lemma preserves_bind {A B} I (c : Prog E S A) (k : A → Prog E S B) :
  preserves I c → (∀ a, preserves I (k a)) → preserves I (c ≫= k).
Proof.
  intros Hc Hk s Hs. unfold mbind, Prog_bind. specialize (Hc s Hs).
  destruct (c s) as [s' [a|x]]; [by apply Hk|done].
Qed.

Lemma preserves_try_except {A} I (c : Prog E S A) (handler : E → Prog E S A) :
  preserves I c → (∀ x, preserves I (handler x)) → preserves I (try_except c handler).
Proof.
  intros Hc Hh s Hs. unfold try_except. specialize (Hc s Hs).
  destruct (c s) as [s' [a|x]]; [done|by apply Hh].
Qed.

(** A handler that leaves the state alone. *)
Lemma preserves_pure {A} I (c : Prog E S A) : (∀ s, (c s).1 = s) → preserves I c.
Proof. intros Hc s Hs. by rewrite Hc. Qed.

End prog_invariants.

#[export] Hint Resolve preserves_ret preserves_raise preserves_lift preserves_bind
  preserves_try_except : preserves.
