(* ===== verification/Discord.v ===== *)
(** * Discord: the objects and calls of discord.py and of the Python
    runtime that the bot uses

    The bot never builds a role, a member or a channel: it receives them
    from the library.  This file fixes what the model keeps of each
    (ids, names, the avatar that may be missing), how Python compares
    them (by id), what the REST calls answer ([HTTPException] and its
    subclasses [NotFound] and [Forbidden]), the log the handlers write to,
    and the platform state the calls act on ([channel_send] with an
    embed, [channel_send_text] without, [grant] for a member that has
    been given a role).  The two facts of the Python
    runtime the handlers depend on, the iteration order of a [set] and
    [strftime], are the interface [PyRuntime]. *)

From stdpp Require Import base tactics option list strings gmap pretty.
From S2P Require Import Prelude.

Set Warnings "-clear-no-such-hyp".
#[local] Open Scope Z_scope.

(** ** Roles and members *)

Record Role : Type := mkRole {
  role_id : Z;
  role_name : string;
}.

#[export] Instance Role_eq_dec : EqDecision Role.
Proof. solve_decision. Defined.

(** [role in roles]: discord.py compares roles by id. *)
Definition role_in (r : Role) (l : list Role) : bool := elem_on role_id r l.

(** [member.avatar] is [None] for a member with the default avatar;
    [member.discriminator] is ["0"] for an account of the current
    username system. *)
Record Member : Type := mkMember {
  member_id : Z;
  member_name : string;
  member_discriminator : string;
  member_avatar : option string;
  member_roles : list Role;
}.

#[export] Instance Member_eq_dec : EqDecision Member.
Proof. solve_decision. Defined.

(** The member with one more role: what the gateway hands to
    [on_member_update] as [after] when a role is granted to [m]. *)
Definition grant (r : Role) (m : Member) : Member :=
  mkMember (member_id m) (member_name m) (member_discriminator m) (member_avatar m)
           (member_roles m ++ [r]).

(** [str(member)], as in [f"{self.user}"]: the name, followed by [#]
    and the discriminator for an account that still has one. *)
Definition member_str (m : Member) : string :=
  if decide (member_discriminator m = "0") then member_name m
  else member_name m +:+ "#" +:+ member_discriminator m.

(** [member.mention]. *)
Definition member_mention (m : Member) : string :=
  "<@" +:+ pretty (member_id m) +:+ ">".

(** ** Embeds and messages *)

Record EmbedField : Type := mkField {
  field_name : string;
  field_value : string;
  field_inline : bool;
}.

Record Embed : Type := mkEmbed {
  embed_title : string;
  embed_color : Z;
  embed_thumbnail : option string;
  embed_description : string;
  embed_fields : list EmbedField;
  embed_footer : option string;
}.

#[export] Instance EmbedField_eq_dec : EqDecision EmbedField.
Proof. solve_decision. Defined.
#[export] Instance Embed_eq_dec : EqDecision Embed.
Proof. solve_decision. Defined.

(** [discord.Embed(title=..., color=...)]. *)
Definition new_embed (title : string) (color : Z) : Embed :=
  mkEmbed title color None "" [] None.

Definition set_thumbnail (url : string) (e : Embed) : Embed :=
  mkEmbed (embed_title e) (embed_color e) (Some url) (embed_description e)
          (embed_fields e) (embed_footer e).

Definition set_description (d : string) (e : Embed) : Embed :=
  mkEmbed (embed_title e) (embed_color e) (embed_thumbnail e) d
          (embed_fields e) (embed_footer e).

(** [embed.add_field(name=..., value=..., inline=...)] appends. *)
Definition add_field (name value : string) (inline : bool) (e : Embed) : Embed :=
  mkEmbed (embed_title e) (embed_color e) (embed_thumbnail e) (embed_description e)
          (embed_fields e ++ [mkField name value inline]) (embed_footer e).

Definition set_footer (text : string) (e : Embed) : Embed :=
  mkEmbed (embed_title e) (embed_color e) (embed_thumbnail e) (embed_description e)
          (embed_fields e) (Some text).

Record Message : Type := mkMessage {
  message_id : Z;
  message_channel : Z;
  message_content : string;
  message_embed : option Embed;
}.

#[export] Instance Message_eq_dec : EqDecision Message.
Proof. solve_decision. Defined.

(** ** Exceptions *)

(** The classes of [discord.HTTPException] the handlers tell apart:
    [NotFound] (404), [Forbidden] (403), and every other one. *)
Inductive HTTPKind : Type := NotFound | Forbidden | OtherHTTP.

Record HTTPException : Type := mkHTTP {
  http_kind : HTTPKind;
  http_text : string;
}.

(** What a handler of the bot can raise: an HTTP error of a REST call,
    one of the Python errors its own code can hit, or the failure of the
    permission check of a command. *)
Inductive Exn : Type :=
| HTTPError (e : HTTPException)
| AttributeError (text : string)
| IndexError (text : string)
| ValueError (text : string)
| CheckFailure (text : string)
| ClientException (text : string).

#[export] Instance HTTPKind_eq_dec : EqDecision HTTPKind.
Proof. solve_decision. Defined.
#[export] Instance HTTPException_eq_dec : EqDecision HTTPException.
Proof. solve_decision. Defined.
#[export] Instance Exn_eq_dec : EqDecision Exn.
Proof. solve_decision. Defined.

(** [str(e)], as the f-strings of the log messages render it. *)
Definition exn_text (e : Exn) : string :=
  match e with
  | HTTPError h => http_text h
  | AttributeError t | IndexError t | ValueError t | CheckFailure t
  | ClientException t => t
  end.

(** ** The log *)

(** [STDOUT] is [print], which the single-file version uses. *)
Inductive Level : Type := INFO | WARNING | ERROR | STDOUT.

Record LogEntry : Type := mkLog {
  log_level : Level;
  log_text : string;
}.

#[export] Instance Level_eq_dec : EqDecision Level.
Proof. solve_decision. Defined.
#[export] Instance LogEntry_eq_dec : EqDecision LogEntry.
Proof. solve_decision. Defined.

(** A level is an escalation when it is above [INFO] in [logging]'s order. *)
Definition above_info (l : Level) : bool :=
  match l with
  | WARNING | ERROR => true
  | INFO | STDOUT => false
  end.

Definition is_error (e : LogEntry) : bool :=
  bool_decide (log_level e = ERROR).

(** How a module writes a line: through [logging], at the level it names,
    or with [print].  Whatever the channel, one call writes one line with
    the text given. *)
Class Logger : Type := {
  log_info : string → list LogEntry;
  log_error : string → list LogEntry;
  log_info_text : ∀ m, log_text <$> log_info m = [m];
  log_error_text : ∀ m, log_text <$> log_error m = [m];
}.

(** [logging.info] and [logging.error], as the package uses them. *)
Definition logging_logger : Logger :=
  {| log_info := λ m, [mkLog INFO m];
     log_error := λ m, [mkLog ERROR m];
     log_info_text := λ m, eq_refl;
     log_error_text := λ m, eq_refl |}.

(** [print], as the single-file version uses it. *)
Definition print_logger : Logger :=
  {| log_info := λ m, [mkLog STDOUT m];
     log_error := λ m, [mkLog STDOUT m];
     log_info_text := λ m, eq_refl;
     log_error_text := λ m, eq_refl |}.

(** ** The platform *)

(** The channels the client has in its cache and the messages that exist,
    by id; [next_message_id] is the id the next message gets. *)
Record Platform : Type := mkPlatform {
  channels : gset Z;
  messages : gmap Z Message;
  next_message_id : Z;
}.

(** [bot.get_channel(id)]: [None] when the cache does not hold it. *)
Definition get_channel (d : Platform) (cid : Z) : option Z :=
  if decide (cid ∈ channels d) then Some cid else None.

(** [channel.send(content=..., embed=...)]: the platform answers with the
    message it created, or with the fault the request met. *)
Definition channel_send (d : Platform) (cid : Z) (content : string) (embed : Embed)
    (fault : option HTTPException) : Platform * result HTTPException Message :=
  match fault with
  | Some e => (d, Raise e)
  | None =>
      let m := mkMessage (next_message_id d) cid content (Some embed) in
      (mkPlatform (channels d) (<[message_id m := m]> (messages d))
                  (next_message_id d + 1),
       Ok m)
  end.

(** [channel.send(content)], without an embed. *)
Definition channel_send_text (d : Platform) (cid : Z) (content : string)
    (fault : option HTTPException) : Platform * result HTTPException Message :=
  match fault with
  | Some e => (d, Raise e)
  | None =>
      let m := mkMessage (next_message_id d) cid content None in
      (mkPlatform (channels d) (<[message_id m := m]> (messages d))
                  (next_message_id d + 1),
       Ok m)
  end.

(** [message.delete()]: a fault of the request, [NotFound] when the
    message no longer exists, and the deletion otherwise. *)
Definition message_delete (d : Platform) (m : Message)
    (fault : option HTTPException) : Platform * result HTTPException unit :=
  match fault with
  | Some e => (d, Raise e)
  | None =>
      match messages d !! message_id m with
      | None => (d, Raise (mkHTTP NotFound "404 Not Found (error code: 10008): Unknown Message"))
      | Some _ =>
          (mkPlatform (channels d) (delete (message_id m) (messages d))
                      (next_message_id d),
           Ok ())
      end
  end.

(** ** The Python runtime *)

(** [set_iter l] is the order in which Python iterates over the set whose
    elements, in insertion order, are [l]: some permutation, which depends
    on hashes and on the history of the set.  [strftime t] is
    [datetime.strftime('%Y-%m-%d %H:%M:%S')] of the UTC time [t], in
    seconds since the epoch. *)
Class PyRuntime : Type := {
  set_iter : list Role → list Role;
  set_iter_perm : ∀ l, set_iter l ≡ₚ l;
  strftime : Z → string;
}.

Section runtime.
Context `{PyRuntime}.

(** [set(l)], as its elements in insertion order. *)
Definition set_of (l : list Role) : list Role := dedup_on role_id l.

(** [list(set(l))]. *)
Definition py_set (l : list Role) : list Role :=
  set_iter (set_of l).

(** [list(set(a) - set(b))]. *)
Definition py_set_difference (a b : list Role) : list Role :=
  set_iter (without_on role_id (dedup_on role_id a) b).

End runtime.

(** The runtime in which a set iterates in insertion order; times are
    rendered as seconds since the epoch. *)
Definition insertion_order_runtime : PyRuntime :=
  {| set_iter := λ l, l;
     set_iter_perm := λ l, reflexivity l;
     strftime := λ t, pretty t |}.

(** The runtime in which a set iterates in the reverse of insertion order:
    a second order, to tell apart what depends on the order. *)
Definition reverse_order_runtime : PyRuntime :=
  {| set_iter := λ l, reverse l;
     set_iter_perm := λ l, reverse_Permutation l;
     strftime := λ t, pretty t |}.

(** ** Sample data

    Three roles of the role-to-channel table of the bot, a role outside
    it, and a member before and after two grants; the witnesses of the
    theorems evaluate the handlers on them. *)

Module Sample.

Definition alpha : Role := mkRole 380725404262072320 "Alpha".
Definition beta : Role := mkRole 393044988411379742 "Beta".
Definition gamma : Role := mkRole 380725142608674816 "Gamma".
Definition member_role : Role := mkRole 372378135557308427 "Member".

Definition avatar_url : string := "https://cdn.discordapp.com/avatars/42/a.png".

Definition bob (roles : list Role) : Member :=
  mkMember 42 "bob" "0" (Some avatar_url) roles.

Definition carol (roles : list Role) : Member :=
  mkMember 43 "carol" "0" None roles.

(** The verification channel of the deployment is in the cache. *)
Definition world : Platform :=
  mkPlatform {[ 1200460467622137936 ]} ∅ 9000.

(** A message on the verification channel, and the platform that holds
    it. *)
Definition note : Message := mkMessage 9000 1200460467622137936 "<@42>" None.

Definition world_with_note : Platform :=
  mkPlatform {[ 1200460467622137936 ]} {[ 9000 := note ]} 9001.

End Sample.

(** ** Facts on sets *)

Section runtime_facts.
Context `{PyRuntime}.

Lemma elem_of_set_iter (l : list Role) r : r ∈ set_iter l ↔ r ∈ l.
Proof. by rewrite set_iter_perm. Qed.

Lemma set_iter_nil : set_iter [] = [].
Proof. apply Permutation_nil_r, set_iter_perm. Qed.

Lemma set_iter_singleton (r : Role) : set_iter [r] = [r].
Proof. apply Permutation_singleton_r, set_iter_perm. Qed.

Lemma set_iter_eq_nil (l : list Role) : set_iter l = [] ↔ l = [].
Proof.
  split; [|intros ->; apply set_iter_nil].
  intros Hl. apply Permutation_nil_r. rewrite <-Hl. symmetry. apply set_iter_perm.
Qed.

Lemma set_iter_length (l : list Role) : length (set_iter l) = length l.
Proof. by rewrite set_iter_perm. Qed.

Lemma set_iter_ids_NoDup (l : list Role) :
  NoDup (role_id <$> l) → NoDup (role_id <$> set_iter l).
Proof. by rewrite set_iter_perm. Qed.

Lemma set_of_id (l : list Role) : NoDup (role_id <$> l) → set_of l = l.
Proof. apply dedup_on_id. Qed.

Lemma py_set_perm (l : list Role) :
  NoDup (role_id <$> l) → py_set l ≡ₚ l.
Proof. intros Hl. unfold py_set. by rewrite set_iter_perm, set_of_id. Qed.

Lemma py_set_ids_NoDup (l : list Role) : NoDup (role_id <$> py_set l).
Proof. apply set_iter_ids_NoDup, dedup_on_NoDup. Qed.

Lemma py_set_difference_ids_NoDup (a b : list Role) :
  NoDup (role_id <$> py_set_difference a b).
Proof. apply set_iter_ids_NoDup, without_on_NoDup, dedup_on_NoDup. Qed.

Lemma elem_of_py_set_difference (a b : list Role) r :
  r ∈ py_set_difference a b → r ∈ a ∧ role_in r b = false.
Proof.
  unfold py_set_difference. rewrite elem_of_set_iter, elem_of_without_on.
  intros [Hr Hb]. split; [by eapply elem_of_dedup_on|].
  by apply elem_on_false.
Qed.

(** The roles new in a member that has been granted one. *)
Lemma py_set_difference_grant (l : list Role) (r : Role) :
  NoDup (role_id <$> l ++ [r]) → py_set_difference (l ++ [r]) l = [r].
Proof.
  intros Hnd. unfold py_set_difference.
  by rewrite without_on_snoc, set_iter_singleton.
Qed.

Lemma py_set_difference_ids (a b : list Role) i :
  i ∈ role_id <$> py_set_difference a b ↔
  i ∈ role_id <$> a ∧ i ∉ role_id <$> b.
Proof.
  unfold py_set_difference. rewrite set_iter_perm. split.
  - intros (r & -> & [Hr Hb]%elem_of_without_on)%list_elem_of_fmap. split; [|done].
    apply (elem_of_dedup_on_keys role_id), list_elem_of_fmap. eauto.
  - intros [(r & -> & Hr)%(elem_of_dedup_on_keys role_id)%list_elem_of_fmap Hb].
    apply list_elem_of_fmap. exists r. split; [done|].
    by apply elem_of_without_on.
Qed.

End runtime_facts.


#[export] Hint Resolve py_set_ids_NoDup py_set_difference_ids_NoDup : py.

(** ** [str(member)] *)

(** An account of the current username system prints as its name. *)
Lemma member_str_name (m : Member) :
  member_discriminator m = "0" → member_str m = member_name m.
Proof. intros Hd. unfold member_str. by rewrite decide_True. Qed.

(** An account that still has a discriminator prints with it. *)
Example member_str_samples :
  member_str (Sample.bob []) = "bob" ∧
  member_str (mkMember 44 "dave" "1234" None []) = "dave#1234".
Proof. done. Qed.
