(* ===== verification/Queue.v ===== *)
(** * Queue: the bot object and its role-update queue

    [RoleManagerBot] is the state [__init__] of [src/bot/bot_class.py]
    sets up.  [enqueue] is the part of [on_member_update] that runs
    without suspending (lines 134-143): it computes the newly granted
    roles that have a documentation channel, appends those not yet
    pending to the member's list, and decides whether a settling task is
    started.  [drain] is the [pop] of [process_role_queue] (line 121).

    The invariant [queue_wf] says what every list of the queue is like:
    not empty, without two roles of the same id, and only of roles of the
    table.  The theorems show that both operations keep it, that they act
    on one member only, and that the test the code makes to start a task
    ([len(queued_roles) == 0], on a list that may alias the one it has
    just extended) is the one the design asks for: the member had no
    pending list before.  [pending_pairs] lists every pending role with
    its member; [enqueue] adds to it exactly the roles [to_add] names and
    [drain] takes from it exactly the roles it returns. *)

From stdpp Require Import base tactics option list strings gmap.
From S2P Require Import Prelude Discord.

Set Warnings "-clear-no-such-hyp".
#[local] Open Scope Z_scope.

(** ** The bot object *)

(** The attributes [RoleManagerBot.__init__] sets. *)
Record RoleManagerBot : Type := mkBot {
  role_to_channel : list (Z * string);
  role_update_queue : gmap Z (list Role);
  startup_channel_id : Z;
}.

(** The bot as [__init__] leaves it. *)
Definition init_bot : RoleManagerBot :=
  {| role_to_channel :=
       [ (380725404262072320, "1200047665442979860"%string);
         (393044988411379742, "1195736480950276196"%string);
         (380725142608674816, "1195734262792605846"%string);
         (380724874236395520, "1195452480687964344"%string) ];
     role_update_queue := ∅;
     startup_channel_id := 1094604434195107921 |}.

Definition set_queue (bot : RoleManagerBot) (q : gmap Z (list Role)) : RoleManagerBot :=
  {| role_to_channel := role_to_channel bot;
     role_update_queue := q;
     startup_channel_id := startup_channel_id bot |}.

(** ** The steps of [on_member_update] *)

Section queue_ops.
Context `{PyRuntime}.

(** [new_roles = set(after.roles) - set(before.roles)] *)
Definition new_roles (before after : Member) : list Role :=
  py_set_difference (member_roles after) (member_roles before).

(** [[role for role in new_roles if role.id in self.role_to_channel.keys()]] *)
Definition added_roles (table : list (Z * string)) (new : list Role) : list Role :=
  filter (λ r, role_id r ∈ dict_keys table) new.

(** [self.role_update_queue.get(after.id, [])] *)
Definition queued_roles (q : gmap Z (list Role)) (mid : Z) : list Role :=
  default [] (q !! mid).

(** [[role for role in added_roles if role not in queued_roles]] *)
Definition unique_roles (added queued : list Role) : list Role :=
  filter (λ r, role_in r queued = false) added.

(** [self.role_update_queue.setdefault(after.id, []).extend(unique_roles)] *)
Definition queue_extend (q : gmap Z (list Role)) (mid : Z) (unique : list Role) :
    gmap Z (list Role) :=
  <[mid := default [] (q !! mid) ++ unique]> q.

(** What [queued_roles] holds when [len(queued_roles) == 0] is evaluated,
    after the [extend]: [get] returned the list of the queue itself when
    the member had one, so that list has grown by [unique_roles]; it
    returned a fresh empty list when the member had none, and [setdefault]
    then stored another one. *)
Definition queued_roles_after_extend (q : gmap Z (list Role)) (mid : Z)
    (unique : list Role) : list Role :=
  match q !! mid with
  | Some l => l ++ unique
  | None => []
  end.

(** Lines 134-143 of [on_member_update]: the new state of the bot, and
    whether [process_role_queue] is started for [after]. *)
Definition enqueue (bot : RoleManagerBot) (before after : Member) :
    RoleManagerBot * bool :=
  let added := added_roles (role_to_channel bot) (new_roles before after) in
  if py_truthy added then
    let q := role_update_queue bot in
    let mid := member_id after in
    let unique := unique_roles added (queued_roles q mid) in
    if py_truthy unique then
      (set_queue bot (queue_extend q mid unique),
       bool_decide (length (queued_roles_after_extend q mid unique) = 0%nat))
    else (bot, false)
  else (bot, false).

(** [roles = self.role_update_queue.pop(member.id, [])] of
    [process_role_queue]. *)
Definition drain (bot : RoleManagerBot) (mid : Z) : list Role * RoleManagerBot :=
  (default [] (role_update_queue bot !! mid),
   set_queue bot (delete mid (role_update_queue bot))).

(** The roles an update makes pending for its member: what [enqueue]
    appends. *)
Definition to_add (bot : RoleManagerBot) (before after : Member) : list Role :=
  unique_roles (added_roles (role_to_channel bot) (new_roles before after))
               (queued_roles (role_update_queue bot) (member_id after)).

(** ** The invariant of the queue *)

(** A pending list is not empty, holds no two roles of one id, and holds
    only roles of the table. *)
Definition entry_wf (table : list (Z * string)) (l : list Role) : Prop :=
  l ≠ [] ∧ NoDup (role_id <$> l) ∧ Forall (λ r, role_id r ∈ dict_keys table) l.

Definition queue_wf (bot : RoleManagerBot) : Prop :=
  map_Forall (λ _ l, entry_wf (role_to_channel bot) l) (role_update_queue bot).

#[export] Instance entry_wf_dec table l : Decision (entry_wf table l).
Proof. unfold entry_wf. apply _. Defined.

#[export] Instance queue_wf_dec bot : Decision (queue_wf bot).
Proof. unfold queue_wf. apply _. Defined.

(** Every role pending, with the member it is pending for. *)
Definition pending_pairs (q : gmap Z (list Role)) : list (Z * Role) :=
  p ← map_to_list q; (p.1,.) <$> p.2.

End queue_ops.

(** ** Sample states *)

(** The bot after bob is granted [alpha] and a role outside the table, in
    the runtime that iterates sets in insertion order. *)
Definition bot_alpha : RoleManagerBot :=
  (enqueue (H:=insertion_order_runtime) init_bot (Sample.bob [])
           (Sample.bob [Sample.member_role; Sample.alpha])).1.

(** A bot whose queue holds an empty list for member 42: a state no run
    reaches. *)
Definition bot_empty_entry : RoleManagerBot :=
  set_queue init_bot {[ 42 := [] ]}.

(** ** Facts on the steps *)

Section queue_facts.
Context `{PyRuntime}.
Implicit Types (bot : RoleManagerBot) (before after : Member).
Implicit Types (q : gmap Z (list Role)) (table : list (Z * string)).

Lemma set_queue_id bot : set_queue bot (role_update_queue bot) = bot.
Proof. by destruct bot. Qed.

Lemma new_roles_NoDup before after : NoDup (role_id <$> new_roles before after).
Proof. apply py_set_difference_ids_NoDup. Qed.

Lemma added_roles_in_table table new :
  Forall (λ r, role_id r ∈ dict_keys table) (added_roles table new).
Proof. apply Forall_forall. by intros r [? ?]%list_elem_of_filter. Qed.

Lemma added_roles_NoDup table new :
  NoDup (role_id <$> new) → NoDup (role_id <$> added_roles table new).
Proof. apply NoDup_fmap_filter. Qed.

Lemma unique_roles_fresh added queued r :
  r ∈ unique_roles added queued → role_id r ∉ role_id <$> queued.
Proof. intros [Hr _]%list_elem_of_filter. by apply (elem_on_false role_id). Qed.

Lemma to_add_NoDup bot before after :
  NoDup (role_id <$> to_add bot before after).
Proof. apply NoDup_fmap_filter, added_roles_NoDup, new_roles_NoDup. Qed.

Lemma to_add_in_table bot before after :
  Forall (λ r, role_id r ∈ dict_keys (role_to_channel bot)) (to_add bot before after).
Proof.
  apply Forall_forall. intros r [_ Hr]%list_elem_of_filter.
  by apply list_elem_of_filter in Hr as [? _].
Qed.

Lemma to_add_fresh bot before after r :
  r ∈ to_add bot before after →
  role_id r ∉ role_id <$> queued_roles (role_update_queue bot) (member_id after).
Proof. apply unique_roles_fresh. Qed.

(** The ids [to_add] holds: granted by the update, of the table, and not
    yet pending for the member. *)
Lemma to_add_ids bot before after i :
  i ∈ role_id <$> to_add bot before after ↔
  i ∈ role_id <$> member_roles after ∧ (i ∉ role_id <$> member_roles before) ∧
  i ∈ dict_keys (role_to_channel bot) ∧
  (i ∉ role_id <$> queued_roles (role_update_queue bot) (member_id after)).
Proof.
  unfold to_add, unique_roles, added_roles, new_roles. split.
  - intros (r & -> & [Hq [Ht Hr]%list_elem_of_filter]%list_elem_of_filter)%list_elem_of_fmap.
    apply (elem_on_false role_id) in Hq.
    assert (role_id r ∈ role_id <$> py_set_difference (member_roles after) (member_roles before))
      as [? ?]%py_set_difference_ids by (apply list_elem_of_fmap; eauto).
    done.
  - intros (Ha & Hb & Ht & Hq).
    assert (i ∈ role_id <$> py_set_difference (member_roles after) (member_roles before))
      as (r & -> & Hr)%list_elem_of_fmap by by apply py_set_difference_ids.
    apply list_elem_of_fmap. exists r. split; [done|].
    apply list_elem_of_filter. split; [by apply (elem_on_false role_id)|].
    by apply list_elem_of_filter.
Qed.

(** [enqueue] in terms of [to_add]. *)
Lemma enqueue_eq bot before after :
  enqueue bot before after =
  if py_truthy (to_add bot before after) then
    (set_queue bot (queue_extend (role_update_queue bot) (member_id after)
                                 (to_add bot before after)),
     bool_decide (length (queued_roles_after_extend (role_update_queue bot)
                            (member_id after) (to_add bot before after)) = 0%nat))
  else (bot, false).
Proof.
  unfold enqueue, to_add.
  by destruct (added_roles _ _) as [|r added].
Qed.

Lemma enqueue_noop bot before after :
  to_add bot before after = [] → enqueue bot before after = (bot, false).
Proof. intros Hn. by rewrite enqueue_eq, Hn. Qed.

Lemma enqueue_queue bot before after :
  to_add bot before after ≠ [] →
  role_update_queue (enqueue bot before after).1 =
  <[member_id after :=
      queued_roles (role_update_queue bot) (member_id after) ++ to_add bot before after]>
    (role_update_queue bot).
Proof.
  intros Hn%py_truthy_true. by rewrite enqueue_eq, Hn.
Qed.

Lemma enqueue_table bot before after :
  role_to_channel (enqueue bot before after).1 = role_to_channel bot.
Proof. rewrite enqueue_eq. by destruct (py_truthy _). Qed.

Lemma queued_roles_after_extend_nil q mid unique :
  unique ≠ [] →
  length (queued_roles_after_extend q mid unique) = 0%nat ↔ q !! mid = None.
Proof.
  intros Hu. unfold queued_roles_after_extend. destruct (q !! mid) as [l|]; [|done].
  rewrite length_app. destruct unique; [done|]. simpl. split; [lia|done].
Qed.

(** A pending list has one role at least, and no more roles than the
    table has entries. *)
Lemma entry_wf_length table l :
  entry_wf table l → (1 ≤ length l ≤ length table)%nat.
Proof.
  intros (Hne & Hnd & Htab). split; [destruct l; [done|simpl; lia]|].
  rewrite <-(length_fmap role_id l), <-(length_fmap fst table).
  apply submseteq_length, NoDup_submseteq; [done|].
  intros x (r & -> & Hr)%list_elem_of_fmap. by apply (proj1 (Forall_forall _ _) Htab).
Qed.

Lemma entry_wf_app table l k :
  (l = [] ∨ entry_wf table l) → k ≠ [] → NoDup (role_id <$> k) →
  Forall (λ r, role_id r ∈ dict_keys table) k →
  (∀ r, r ∈ k → role_id r ∉ role_id <$> l) →
  entry_wf table (l ++ k).
Proof.
  intros Hl Hk Hnd Ht Hfresh. split_and!.
  - by destruct l, k.
  - apply NoDup_fmap_app; [|done..]. destruct Hl as [->|(_&?&_)]; [constructor|done].
  - apply Forall_app. split; [|done]. destruct Hl as [->|(_&_&?)]; [constructor|done].
Qed.

Lemma queued_roles_wf bot mid :
  queue_wf bot →
  queued_roles (role_update_queue bot) mid = [] ∨
  entry_wf (role_to_channel bot) (queued_roles (role_update_queue bot) mid).
Proof.
  intros Hwf. unfold queued_roles.
  destruct (role_update_queue bot !! mid) as [l|] eqn:Hl; [right|by left].
  by apply (Hwf mid).
Qed.

Lemma queued_roles_nil_wf bot mid :
  queue_wf bot →
  queued_roles (role_update_queue bot) mid = [] ↔ role_update_queue bot !! mid = None.
Proof.
  intros Hwf. unfold queued_roles.
  destruct (role_update_queue bot !! mid) as [l|] eqn:Hl; [|done].
  apply (Hwf mid) in Hl as [? _]. done.
Qed.

Lemma drain_roles bot mid :
  (drain bot mid).1 = queued_roles (role_update_queue bot) mid.
Proof. done. Qed.

Lemma drain_queue bot mid :
  role_update_queue (drain bot mid).2 = delete mid (role_update_queue bot).
Proof. done. Qed.

Lemma drain_table bot mid : role_to_channel (drain bot mid).2 = role_to_channel bot.
Proof. done. Qed.

Lemma drain_absent bot mid :
  role_update_queue bot !! mid = None → drain bot mid = ([], bot).
Proof.
  intros Hn. unfold drain. rewrite Hn, delete_id by done.
  by rewrite set_queue_id.
Qed.

End queue_facts.

#[export] Hint Resolve new_roles_NoDup added_roles_in_table added_roles_NoDup : py.

(** ** The properties of [enqueue] and [drain] *)

Section queue_properties.
Context `{PyRuntime}.
Implicit Types (bot : RoleManagerBot) (before after : Member).

Lemma unique_roles_absorb added queued :
  unique_roles added (queued ++ unique_roles added queued) = [].
Proof.
  apply filter_eq_nil. intros r Hr Hq.
  apply (elem_on_false role_id) in Hq. apply Hq.
  rewrite fmap_app, elem_of_app.
  destruct (role_in r queued) eqn:Hin.
  - left. by apply (elem_on_true role_id).
  - right. apply list_elem_of_fmap. exists r. split; [done|].
    by apply list_elem_of_filter.
Qed.

(** [enqueue] keeps the invariant of the queue:
    after any member update every pending list is still non-empty, holds
    each role id once, and holds only roles of the role-to-channel table. *)
Lemma enqueue_wf bot before after :
  queue_wf bot → queue_wf (enqueue bot before after).1.
Proof.
  intros Hwf. rewrite enqueue_eq.
  destruct (py_truthy _) eqn:Hn; [|done]. apply py_truthy_true in Hn.
  apply map_Forall_insert_2; [|done]. simpl.
  apply entry_wf_app; eauto using to_add_fresh, to_add_NoDup, to_add_in_table with py.
  apply (queued_roles_wf bot), Hwf.
Qed.

(** [on_member_update] starts a settling task exactly
    when the update makes some role pending and the member had no entry in
    the queue; the aliased [len(queued_roles) == 0] test of line 143 is
    that test. *)
Lemma enqueue_spawn_iff bot before after :
  (enqueue bot before after).2 = true ↔
  role_update_queue bot !! member_id after = None ∧ to_add bot before after ≠ [].
Proof.
  rewrite enqueue_eq. destruct (py_truthy _) eqn:Hn; simpl.
  - apply py_truthy_true in Hn.
    rewrite bool_decide_eq_true, queued_roles_after_extend_nil by done.
    naive_solver.
  - apply py_truthy_false in Hn. naive_solver.
Qed.

(** C7: on a well-formed queue a settling task
    is started exactly on the empty-to-non-empty transition of the
    member's pending list, as section 4.1 of the design requires. *)
Theorem enqueue_spawn_on_transition bot before after :
  queue_wf bot →
  ((enqueue bot before after).2 = true ↔
   queued_roles (role_update_queue bot) (member_id after) = [] ∧
   queued_roles (role_update_queue (enqueue bot before after).1) (member_id after) ≠ []).
Proof.
  intros Hwf. rewrite enqueue_spawn_iff, (queued_roles_nil_wf bot) by done.
  apply and_iff_under. intros Hq. rewrite enqueue_eq.
  destruct (py_truthy _) eqn:Hn; simpl.
  - apply py_truthy_true in Hn. unfold queued_roles at 1, queue_extend.
    rewrite lookup_insert_eq. simpl. split; [|done].
    intros _ [_ ?]%app_nil. done.
  - apply py_truthy_false in Hn. unfold queued_roles. rewrite Hq. done.
Qed.

(** An update of one member leaves the pending
    list of every other member as it was. *)
Lemma enqueue_lookup_ne bot before after mid :
  mid ≠ member_id after →
  role_update_queue (enqueue bot before after).1 !! mid = role_update_queue bot !! mid.
Proof.
  intros Hne. rewrite enqueue_eq. destruct (py_truthy _); [|done].
  by apply lookup_insert_ne.
Qed.

(** C11: delivering the same update a second time changes
    nothing and starts no task: every role it grants is already pending. *)
Theorem enqueue_idempotent bot before after :
  enqueue (enqueue bot before after).1 before after =
  ((enqueue bot before after).1, false).
Proof.
  apply enqueue_noop. rewrite enqueue_eq.
  destruct (py_truthy _) eqn:Hn; simpl.
  - unfold to_add at 1. simpl. unfold queued_roles at 1, queue_extend.
    rewrite lookup_insert_eq. apply unique_roles_absorb.
  - by apply py_truthy_false.
Qed.

(** The grant of one role of the table that is not pending makes that
    role pending, and starts a task when the member had no entry. *)
Lemma to_add_grant bot (m : Member) (r : Role) :
  NoDup (role_id <$> member_roles m ++ [r]) →
  role_id r ∈ dict_keys (role_to_channel bot) →
  role_id r ∉ role_id <$> queued_roles (role_update_queue bot) (member_id m) →
  to_add bot m (grant r m) = [r].
Proof.
  intros Hnd Htab Hq. unfold to_add, new_roles. simpl.
  rewrite py_set_difference_grant by done. unfold added_roles, unique_roles.
  rewrite filter_cons_True, filter_nil by done.
  rewrite filter_cons_True; [done|]. by apply (elem_on_false role_id).
Qed.

Lemma enqueue_grant bot (m : Member) (r : Role) :
  NoDup (role_id <$> member_roles m ++ [r]) →
  role_id r ∈ dict_keys (role_to_channel bot) →
  role_id r ∉ role_id <$> queued_roles (role_update_queue bot) (member_id m) →
  enqueue bot m (grant r m) =
  (set_queue bot (<[member_id m :=
                      queued_roles (role_update_queue bot) (member_id m) ++ [r]]>
                    (role_update_queue bot)),
   bool_decide (role_update_queue bot !! member_id m = None)).
Proof.
  intros Hnd Htab Hq. rewrite enqueue_eq, to_add_grant by done. simpl. f_equal.
  apply bool_decide_ext, queued_roles_after_extend_nil. done.
Qed.

(** An update that grants no role of the table makes nothing pending. *)
Lemma to_add_unlisted bot before after :
  (∀ r, r ∈ member_roles after → role_in r (member_roles before) = false →
        role_id r ∉ dict_keys (role_to_channel bot)) →
  to_add bot before after = [].
Proof.
  intros Hout. destruct (to_add bot before after) as [|r l] eqn:Hadd; [done|].
  assert (role_id r ∈ role_id <$> to_add bot before after) as Hr
    by (rewrite Hadd; left).
  apply list_elem_of_fmap in Hr as (r' & Hid & Hr').
  apply list_elem_of_filter in Hr' as [_ [Ht Hn]%list_elem_of_filter].
  apply elem_of_py_set_difference in Hn as [Ha Hb]. by destruct (Hout r' Ha Hb).
Qed.

(** An update that grants no role of the
    role-to-channel table leaves the bot as it was and starts no task. *)
Theorem enqueue_ignores_unlisted bot before after :
  (∀ r, r ∈ member_roles after → role_in r (member_roles before) = false →
        role_id r ∉ dict_keys (role_to_channel bot)) →
  enqueue bot before after = (bot, false).
Proof. intros Hout. by apply enqueue_noop, to_add_unlisted. Qed.

(** After an update the ids pending for the member
    are those that were pending and those the update grants (in the roles
    after, not in the roles before) that the table lists. *)
Theorem enqueue_pending_ids bot before after i :
  i ∈ role_id <$> queued_roles (role_update_queue (enqueue bot before after).1)
                               (member_id after) ↔
  i ∈ role_id <$> queued_roles (role_update_queue bot) (member_id after) ∨
  (i ∈ role_id <$> member_roles after ∧ (i ∉ role_id <$> member_roles before) ∧
   i ∈ dict_keys (role_to_channel bot)).
Proof.
  pose proof (to_add_ids bot before after i) as Hids. rewrite enqueue_eq.
  destruct (py_truthy _) eqn:Hn; simpl.
  - unfold queued_roles at 1, queue_extend. rewrite lookup_insert_eq. simpl.
    fold (queued_roles (role_update_queue bot) (member_id after)).
    rewrite fmap_app, elem_of_app, Hids.
    destruct (decide (i ∈ role_id <$> queued_roles (role_update_queue bot) (member_id after)));
      naive_solver.
  - apply py_truthy_false in Hn. rewrite Hn in Hids.
    rewrite fmap_nil, elem_of_nil in Hids.
    destruct (decide (i ∈ role_id <$> queued_roles (role_update_queue bot) (member_id after)));
      naive_solver.
Qed.

(** Roles are appended in arrival order: the pending
    list after an update starts with the pending list before it. *)
Lemma enqueue_appends bot before after :
  queued_roles (role_update_queue (enqueue bot before after).1) (member_id after) =
  queued_roles (role_update_queue bot) (member_id after) ++ to_add bot before after.
Proof.
  rewrite enqueue_eq. destruct (py_truthy _) eqn:Hn; simpl.
  - unfold queued_roles at 1, queue_extend. by rewrite lookup_insert_eq.
  - apply py_truthy_false in Hn. by rewrite Hn, app_nil_r.
Qed.

(** Popping a member's list keeps the invariant of
    the queue. *)
Lemma drain_wf bot mid :
  queue_wf bot → queue_wf (drain bot mid).2.
Proof. intros Hwf. by apply map_Forall_delete. Qed.

(** After the pop the member has no entry, the
    roles returned are exactly those that were pending, and every other
    member's list is untouched. *)
Lemma drain_lookup bot mid :
  role_update_queue (drain bot mid).2 !! mid = None ∧
  (drain bot mid).1 = queued_roles (role_update_queue bot) mid ∧
  ∀ mid', mid' ≠ mid →
    role_update_queue (drain bot mid).2 !! mid' = role_update_queue bot !! mid'.
Proof.
  split_and!; [apply lookup_delete_eq|done|].
  intros mid' Hne. by apply lookup_delete_ne.
Qed.

(** ** Conservation: what enters the queue leaves it once *)

Lemma pending_pairs_insert q mid l :
  q !! mid = None →
  pending_pairs (<[mid := l]> q) ≡ₚ ((mid,.) <$> l) ++ pending_pairs q.
Proof. intros Hq. unfold pending_pairs. by rewrite map_to_list_insert. Qed.

Lemma pending_pairs_delete q mid l :
  q !! mid = Some l →
  ((mid,.) <$> l) ++ pending_pairs (delete mid q) ≡ₚ pending_pairs q.
Proof.
  intros Hq. unfold pending_pairs. by rewrite <-(map_to_list_delete q mid l Hq).
Qed.

(** Extending the list of a member adds the roles appended, for that
    member, and nothing else. *)
Lemma pending_pairs_extend q mid unique :
  pending_pairs (queue_extend q mid unique) ≡ₚ
  pending_pairs q ++ ((mid,.) <$> unique).
Proof.
  unfold queue_extend. rewrite <-insert_delete_eq.
  rewrite pending_pairs_insert by apply lookup_delete_eq.
  destruct (q !! mid) as [l|] eqn:Hq; simpl.
  - rewrite <-(pending_pairs_delete q mid l Hq), fmap_app.
    by rewrite <-!(assoc_L (++)), (comm (++) ((mid,.) <$> unique)).
  - by rewrite delete_id, (comm (++)).
Qed.

(** [enqueue] adds to the pending roles exactly the roles [to_add]
    names. *)
Lemma enqueue_conserves bot before after :
  pending_pairs (role_update_queue (enqueue bot before after).1) ≡ₚ
  pending_pairs (role_update_queue bot) ++
  ((member_id after,.) <$> to_add bot before after).
Proof.
  rewrite enqueue_eq. destruct (py_truthy _) eqn:Hu; simpl.
  - apply pending_pairs_extend.
  - apply py_truthy_false in Hu as ->. by rewrite app_nil_r.
Qed.

(** [drain] takes from the pending roles exactly the roles it
    returns. *)
Lemma drain_conserves bot mid :
  ((mid,.) <$> (drain bot mid).1) ++ pending_pairs (role_update_queue (drain bot mid).2) ≡ₚ
  pending_pairs (role_update_queue bot).
Proof.
  unfold drain. simpl. destruct (role_update_queue bot !! mid) as [l|] eqn:Hq; simpl.
  - by apply pending_pairs_delete.
  - by rewrite delete_id.
Qed.

(** C8: [enqueue] and [drain] keep the
    invariant of the queue and leave the role-to-channel table alone: after
    any member update or pop every pending list is still non-empty, holds
    each role id once, and holds only roles of the table. *)
Theorem queue_operations_preserve_wf bot before after mid :
  queue_wf bot →
  queue_wf (enqueue bot before after).1 ∧ queue_wf (drain bot mid).2 ∧
  role_to_channel (enqueue bot before after).1 = role_to_channel bot ∧
  role_to_channel (drain bot mid).2 = role_to_channel bot.
Proof.
  intros Hwf.
  split_and!; [by apply enqueue_wf|by apply drain_wf|apply enqueue_table|done].
Qed.

End queue_properties.

(** ** Witnesses and examples *)

Section queue_witnesses.
#[local] Existing Instance insertion_order_runtime.
Import Sample.

Lemma queue_operations_preserve_wf_witness :
  queue_wf bot_alpha ∧
  queue_wf (enqueue bot_alpha (bob [alpha]) (bob [alpha; beta])).1 ∧
  queue_wf (drain bot_alpha 42).2 ∧
  role_to_channel (enqueue bot_alpha (bob [alpha]) (bob [alpha; beta])).1 =
    role_to_channel bot_alpha ∧
  role_to_channel (drain bot_alpha 42).2 = role_to_channel bot_alpha.
Proof.
  split; [|apply queue_operations_preserve_wf];
    compute_decide.
Defined.

Lemma enqueue_spawn_on_transition_witness :
  queue_wf bot_alpha ∧
  ((enqueue bot_alpha (bob [alpha]) (bob [alpha; beta])).2 = true ↔
   queued_roles (role_update_queue bot_alpha) 42 = [] ∧
   queued_roles (role_update_queue
     (enqueue bot_alpha (bob [alpha]) (bob [alpha; beta])).1) 42 ≠ []).
Proof.
  split; [|apply (enqueue_spawn_on_transition bot_alpha (bob [alpha]) (bob [alpha; beta]))];
    compute_decide.
Defined.

Lemma enqueue_ignores_unlisted_witness :
  enqueue init_bot (bob []) (bob [member_role]) = (init_bot, false).
Proof.
  apply enqueue_ignores_unlisted. intros r ->%list_elem_of_singleton _.
  compute_decide.
Defined.

(** The test of line 143 reads the list
    after it has been extended: were the queue to hold an empty list for
    a member, an update would make it non-empty without starting a task,
    and nothing would ever flush it.  The invariant rules that state
    out. *)
Example enqueue_alias_on_empty_entry :
  queued_roles (role_update_queue bot_empty_entry) 42 = [] ∧
  queued_roles (role_update_queue
    (enqueue bot_empty_entry (bob []) (bob [alpha])).1) 42 = [alpha] ∧
  (enqueue bot_empty_entry (bob []) (bob [alpha])).2 = false ∧
  ¬ queue_wf bot_empty_entry.
Proof.
  split_and!; [by vm_compute..|]. compute_decide.
Qed.

End queue_witnesses.

