(* ===== verification/Roles.v ===== *)
(** * Roles: the automatic member role and the activity line

    [assign_role_to_member], [on_member_join], [on_member_remove],
    [check_and_assign_role], [periodic_role_check] and
    [update_bot_activity] of [src/bot/bot_class.py].  A guild is the list
    of its roles and the list of its members in ascending order of id, the
    order in which [guild.fetch_members] lists them.  The functions are
    written over a [Logger], since the single-file version of the bot
    runs the same code with [print] in place of [logging].

    The sweep of [check_and_assign_role] reads the members a page at a
    time; the theorems show that it terminates, that it treats every
    member exactly as one pass over the whole list would, and what it
    leaves of each member. *)

From Stdlib Require Import Ascii String.
From stdpp Require Import base tactics option list strings gmap pretty sorting.
From S2P Require Import Prelude Discord Queue.

Set Warnings "-clear-no-such-hyp".
#[local] Open Scope Z_scope.
#[local] Open Scope py_scope.

(** ** Guilds *)

Record Guild : Type := mkGuild {
  guild_id : Z;
  guild_name : string;
  guild_roles : list Role;
  guild_members : list Member;
}.

(** [guild.member_count] *)
Definition member_count (g : Guild) : Z := Z.of_nat (length (guild_members g)).

(** [guild.get_role(role_id)] *)
Definition get_role (g : Guild) (rid : Z) : option Role :=
  find (λ r, bool_decide (role_id r = rid)) (guild_roles g).

(** [bot.get_guild(guild_id)] *)
Definition get_guild (guilds : list Guild) (gid : Z) : option Guild :=
  find (λ g, bool_decide (guild_id g = gid)) guilds.

(** What [member.add_roles(role)] does to the guild when it succeeds: the
    member of that id has the role; adding a role a member has changes
    nothing. *)
Definition add_roles (g : Guild) (mid : Z) (r : Role) : Guild :=
  mkGuild (guild_id g) (guild_name g) (guild_roles g)
    ((λ m, if decide (member_id m = mid)
           then (if role_in r (member_roles m) then m else grant r m)
           else m) <$> guild_members g).

(** A member comes after the cursor of a listing: there is no cursor, or
    its id is above the cursor's. *)
Definition comes_after (after : option Member) (m : Member) : Prop :=
  match after with
  | None => True
  | Some a => member_id a < member_id m
  end.

#[export] Instance comes_after_dec after m : Decision (comes_after after m).
Proof. destruct after; simpl; apply _. Defined.

(** [guild.fetch_members(limit=limit, after=after)]: the members whose id
    is above that of [after], in ascending order of id, [limit] at
    most. *)
Definition fetch_members (g : Guild) (limit : nat) (after : option Member) :
    list Member :=
  take limit (filter (comes_after after) (guild_members g)).

(** The members are listed in ascending order of id, each once. *)
Definition guild_wf (g : Guild) : Prop :=
  StronglySorted Z.lt (member_id <$> guild_members g).

#[export] Instance guild_wf_dec g : Decision (guild_wf g).
Proof. unfold guild_wf. apply _. Defined.

(** ** The constants of the handlers *)

(** [excluded_member_ids] *)
Definition excluded_member_ids : list Z :=
  [1200196215481041018; 1086954578764902481; 189771862610411524].

(** [role_id = 372378135557308427] of [on_member_join] and of
    [periodic_role_check]. *)
Definition auto_role_id : Z := 372378135557308427.

(** [guild_id = 372369352173027331] *)
Definition home_guild_id : Z := 372369352173027331.

(** [limit = 1000] *)
Definition page_limit : nat := 1000.

(** [await asyncio.sleep(43200)] *)
Definition check_period : Z := 43200.

(** ** The activity line *)

(** The digits of a number, last first, with a comma after every third. *)
Fixpoint group_rev (k : nat) (digits : list ascii) : list ascii :=
  match digits with
  | [] => []
  | c :: rest =>
      match k with
      | O => ","%char :: c :: group_rev 2 rest
      | S k' => c :: group_rev k' rest
      end
  end.

(** [f"{n:,}"] *)
Definition format_commas (n : Z) : string :=
  let group (s : string) :=
    string_of_list_ascii (reverse (group_rev 3 (reverse (list_ascii_of_string s)))) in
  if decide (n < 0) then "-" +:+ group (pretty (- n)) else group (pretty n).

(** The characters of a string that are not commas. *)
Definition strip_commas (s : string) : list ascii :=
  filter (λ c, c ≠ ","%char) (list_ascii_of_string s).

(** [activity_text = f"over {member_count:,} members"] *)
Definition activity_text (n : Z) : string :=
  "over " +:+ format_commas n +:+ " members".

(** ** The handlers *)

Section roles.
Context `{Logger}.

(** What the REST calls answer: [faults mid] is the exception
    [add_roles] raises for member [mid], when it raises. *)
Context (faults : Z → option string).

(** [update_bot_activity()]: the presence set, or the exception that
    escapes, and what was logged up to there.  [presence_fault] is the
    exception of [change_presence], when it raises. *)
Definition update_bot_activity (guilds : list Guild) (presence_fault : option HTTPException) :
    result Exn string * list LogEntry :=
  let l1 := log_info "Updating bot activity" in
  match guilds with
  | [] => (Raise (IndexError "list index out of range"), l1)
  | guild :: _ =>
      let l2 := log_info ("Selected guild: " +:+ guild_name guild) in
      let text := activity_text (member_count guild) in
      match presence_fault with
      | Some e => (Raise (HTTPError e), l1 ++ l2)
      | None => (Ok text, l1 ++ l2 ++ log_info "Bot activity updated")
      end
  end.

(** [assign_role_to_member(member, role_id)]; [member] is the object the
    caller holds and [g] the guild it belongs to. *)
Definition assign_role_to_member (g : Guild) (member : Member) (rid : Z) :
    Guild * list LogEntry :=
  if bool_decide (member_id member ∈ excluded_member_ids) then (g, []) else
  match get_role g rid with
  | None => (g, log_error ("Role with ID " +:+ pretty rid +:+ " not found."))
  | Some role =>
      if negb (role_in role (member_roles member)) then
        match faults (member_id member) with
        | None =>
            (add_roles g (member_id member) role,
             log_info ("Role " +:+ role_name role +:+ " has been added to " +:+
                       member_name member +:+ "."))
        | Some e =>
            (g, log_error ("Error assigning role to " +:+ member_name member +:+
                           ": " +:+ e))
        end
      else (g, [])
  end.

(** [on_member_join(member)]: the role, then the activity line. *)
Definition on_member_join (g : Guild) (guilds : list Guild) (member : Member)
    (presence_fault : option HTTPException) :
    Guild * result Exn string * list LogEntry :=
  let '(g', l1) := assign_role_to_member g member auto_role_id in
  let '(r, l2) := update_bot_activity guilds presence_fault in
  (g', r, l1 ++ l2).

(** [on_member_remove(member)] *)
Definition on_member_remove (guilds : list Guild) (presence_fault : option HTTPException) :
    result Exn string * list LogEntry :=
  update_bot_activity guilds presence_fault.

(** The body of the [async for]: every member of the page, in order. *)
Fixpoint assign_page (g : Guild) (members : list Member) (rid : Z) :
    Guild * list LogEntry :=
  match members with
  | [] => (g, [])
  | m :: rest =>
      let '(g1, l1) := assign_role_to_member g m rid in
      let '(g2, l2) := assign_page g1 rest rid in
      (g2, l1 ++ l2)
  end.

(** The [while True] of [check_and_assign_role], [fuel] pages at most:
    [None] when the pages run out, [Raise] when [members[-1]] fails. *)
Fixpoint sweep (fuel : nat) (limit : nat) (g : Guild) (rid : Z) (after : option Member) :
    option (result Exn (Guild * list LogEntry)) :=
  match fuel with
  | O => None
  | S fuel' =>
      let members := fetch_members g limit after in
      let '(g1, l1) := assign_page g members rid in
      if decide (length members < limit)%nat then Some (Ok (g1, l1))
      else
        match py_last members with
        | None => Some (Raise (IndexError "list index out of range"))
        | Some last =>
            match sweep fuel' limit g1 rid (Some last) with
            | Some (Ok (g2, l2)) => Some (Ok (g2, l1 ++ l2))
            | other => other
            end
        end
  end.

(** [check_and_assign_role(guild, role_id)]; a page holds a member at
    least, so one page more than there are members is enough. *)
Definition check_and_assign_role (g : Guild) (rid : Z) :
    option (result Exn (Guild * list LogEntry)) :=
  match get_role g rid with
  | None => Some (Ok (g, log_error ("Role with ID " +:+ pretty rid +:+ " not found.")))
  | Some _ =>
      match sweep (S (length (guild_members g))) page_limit g rid None with
      | Some (Ok (g', logs)) =>
          Some (Ok (g', logs ++ log_info "Finished assigning roles to all members."))
      | other => other
      end
  end.

(** One turn of the [while not self.is_closed()] of
    [periodic_role_check]: the sweep of the home guild when the client
    knows it, and the time of the next turn. *)
Definition periodic_role_check_round (guilds : list Guild) (now : Z) :
    option (result Exn (list Guild * list LogEntry)) * Z :=
  (match get_guild guilds home_guild_id with
   | Some guild =>
       match check_and_assign_role guild auto_role_id with
       | Some (Ok (guild', logs)) =>
           Some (Ok ((λ g, if decide (guild_id g = home_guild_id) then guild' else g)
                       <$> guilds, logs))
       | Some (Raise e) => Some (Raise e)
       | None => None
       end
   | None => Some (Ok (guilds, []))
   end, now + check_period).

(** ** What the sweep is to do with one member *)

(** The member is one [assign_role_to_member] calls [add_roles] for: not
    excluded, and without the role. *)
Definition wants_role (role : Role) (m : Member) : bool :=
  bool_decide (member_id m ∉ excluded_member_ids) && negb (role_in role (member_roles m)).

(** The member after the sweep. *)
Definition settle (role : Role) (m : Member) : Member :=
  if wants_role role m && bool_decide (faults (member_id m) = None)
  then grant role m else m.

(** What the sweep logs for the member. *)
Definition settle_log (role : Role) (m : Member) : list LogEntry :=
  if wants_role role m then
    match faults (member_id m) with
    | None => log_info ("Role " +:+ role_name role +:+ " has been added to " +:+
                        member_name m +:+ ".")
    | Some e => log_error ("Error assigning role to " +:+ member_name m +:+ ": " +:+ e)
    end
  else [].

(** The guild with other members. *)
Definition with_members (g : Guild) (ms : list Member) : Guild :=
  mkGuild (guild_id g) (guild_name g) (guild_roles g) ms.

End roles.

(** ** What a run says

    The texts of the lines written, whatever the channel they were
    written to. *)

Definition said {A} (r : A * list LogEntry) : A * list string :=
  (r.1, log_text <$> r.2).

Definition outcome_said {A} (o : option (result Exn (A * list LogEntry))) :
    option (result Exn (A * list string)) :=
  (λ r, match r with
        | Ok x => Ok (said x)
        | Raise e => Raise e
        end) <$> o.

(** ** A sample guild

    Five members in ascending order of id: ben has the member role, eve is
    one of the excluded members, and [add_roles] fails for cat. *)

Module Town.

Definition faulty (mid : Z) : option string :=
  if decide (mid = 3) then Some "503 Service Unavailable" else None.

Definition five : Guild :=
  mkGuild 372369352173027331 "Town" [Sample.member_role]
    [mkMember 1 "ann" "0" None []; mkMember 2 "ben" "0" None [Sample.member_role];
     mkMember 3 "cat" "0" None []; mkMember 4 "dan" "0" None [Sample.alpha];
     mkMember 189771862610411524 "eve" "0" None []].

End Town.

(** ** Facts on guilds and listings *)

Section listing_facts.
Implicit Types (g : Guild) (m : Member) (l pre post : list Member).

Lemma with_members_same g : with_members g (guild_members g) = g.
Proof. by destruct g. Qed.

Lemma comes_after_irrefl m : ¬ comes_after (Some m) m.
Proof. simpl. lia. Qed.

Lemma comes_after_trans after m x :
  comes_after after m → comes_after (Some m) x → comes_after after x.
Proof. destruct after; simpl; [lia|done]. Qed.

(** A listing from a member of a listing is the rest of that listing. *)
Lemma filter_comes_after_next after m l :
  comes_after after m →
  filter (comes_after (Some m)) (filter (comes_after after) l) =
  filter (comes_after (Some m)) l.
Proof.
  intros Hm. rewrite list_filter_filter. apply list_filter_iff. intros x.
  split; [by intros [? _]|]. intros Hx. split; [done|by eapply comes_after_trans].
Qed.

(** The position of the last member of a page in a sorted list of
    members: everything before the page and in it is at or below it,
    everything behind the page above it. *)
Lemma sorted_around_last pre init m post :
  StronglySorted Z.lt (member_id <$> pre ++ (init ++ [m]) ++ post) →
  Forall (λ x, ¬ comes_after (Some m) x) (pre ++ init ++ [m]) ∧
  Forall (comes_after (Some m)) post.
Proof.
  rewrite !fmap_app, !StronglySorted_app. simpl.
  intros (Hpre & _ & Hpost & (Hinit & _ & _) & _).
  rewrite !Forall_app, Forall_singleton, !Forall_forall. split_and!.
  - intros x Hx. simpl. apply Zle_not_lt, Z.lt_le_incl, Hpre.
    + by apply list_elem_of_fmap_2.
    + rewrite !elem_of_app. left. right. left.
  - intros x Hx. simpl. apply Zle_not_lt, Z.lt_le_incl, Hinit; [|left].
    by apply list_elem_of_fmap_2.
  - apply comes_after_irrefl.
  - intros x Hx. simpl. apply Hpost; [|by apply list_elem_of_fmap_2].
    rewrite elem_of_app. right. left.
Qed.

(** A listing is as long as the listing of any list with the same
    ids. *)
Lemma filter_comes_after_length after l l' :
  member_id <$> l = member_id <$> l' →
  length (filter (comes_after after) l) = length (filter (comes_after after) l').
Proof.
  revert l'. induction l as [|x l IH]; intros [|y l'] Heq; simplify_eq/=; [done|].
  rewrite !filter_cons. specialize (IH l' ltac:(done)).
  assert (comes_after after x ↔ comes_after after y) as Hxy
    by (destruct after; simpl; [lia|done]).
  repeat case_decide; simpl; [lia|tauto|tauto|done].
Qed.

Lemma get_role_with_members g ms rid :
  get_role (with_members g ms) rid = get_role g rid.
Proof. done. Qed.

(** [add_roles] at a member whose id no other member has. *)
Lemma add_roles_at g pre m post r :
  guild_members g = pre ++ m :: post →
  NoDup (member_id <$> pre ++ m :: post) →
  role_in r (member_roles m) = false →
  add_roles g (member_id m) r = with_members g (pre ++ grant r m :: post).
Proof.
  intros Hg Hnd Hr. unfold add_roles, with_members. f_equal. rewrite Hg.
  rewrite fmap_app, fmap_cons, NoDup_app, NoDup_cons in Hnd.
  destruct Hnd as (_ & Hpre & Hm & _).
  rewrite fmap_app, fmap_cons, decide_True, Hr by done. f_equal; [|f_equal].
  - apply fmap_fixed, Forall_forall. intros x Hx. rewrite decide_False; [done|].
    intros Hid. apply (Hpre (member_id x)); [by apply list_elem_of_fmap_2|].
    rewrite Hid. left.
  - apply fmap_fixed, Forall_forall. intros x Hx. rewrite decide_False; [done|].
    intros Hid. apply Hm. rewrite <-Hid. by apply list_elem_of_fmap_2.
Qed.

(** [add_roles] keeps the ids of the members, in their order. *)
Lemma add_roles_ids g mid r :
  member_id <$> guild_members (add_roles g mid r) = member_id <$> guild_members g.
Proof.
  simpl. rewrite <-list_fmap_compose. apply list_fmap_ext. intros i x _. simpl.
  case_decide; [|done]. by destruct (role_in _ _).
Qed.

End listing_facts.

(** ** Facts on the handlers *)

Section roles_facts.
Context `{Logger} (faults : Z → option string).
Implicit Types (g : Guild) (m : Member) (ms pre post : list Member) (role : Role).

#[local] Abbreviation assign_role_to_member := (assign_role_to_member faults).
#[local] Abbreviation assign_page := (assign_page faults).
#[local] Abbreviation sweep := (sweep faults).
#[local] Abbreviation settle := (settle faults).
#[local] Abbreviation settle_log := (settle_log faults).

Lemma settle_id role m : member_id (settle role m) = member_id m.
Proof. unfold settle. by destruct (_ && _). Qed.

Lemma settle_ids role ms : member_id <$> (settle role <$> ms) = member_id <$> ms.
Proof.
  rewrite <-list_fmap_compose. apply list_fmap_ext. intros i m _. apply settle_id.
Qed.

(** A member the sweep has seen is left alone by the next. *)
Lemma settle_idem role m : settle role (settle role m) = settle role m.
Proof.
  unfold settle at 2 3. destruct (wants_role role m && _) eqn:Hw; unfold settle.
  - unfold wants_role. simpl.
    assert (role_in role (member_roles m ++ [role]) = true) as ->; [|by rewrite andb_false_r].
    apply (elem_on_true role_id). rewrite fmap_app, elem_of_app. right. left.
  - by rewrite Hw.
Qed.

(** [assign_role_to_member] when the guild has the role. *)
Lemma assign_role_to_member_eq g m rid role :
  get_role g rid = Some role →
  assign_role_to_member g m rid =
  (if wants_role role m && bool_decide (faults (member_id m) = None)
   then add_roles g (member_id m) role else g,
   settle_log role m).
Proof.
  intros Hrole. unfold Roles.assign_role_to_member, Roles.settle_log, wants_role.
  rewrite Hrole. repeat case_bool_decide; try done; simpl;
    destruct (role_in role (member_roles m)); simpl; try done;
    destruct (faults (member_id m)); simpl; by try done.
Qed.

(** [assign_role_to_member] keeps the roles of the guild and the ids of
    its members. *)
Lemma assign_role_to_member_frame g m rid :
  guild_roles (assign_role_to_member g m rid).1 = guild_roles g ∧
  member_id <$> guild_members (assign_role_to_member g m rid).1 =
    member_id <$> guild_members g.
Proof.
  unfold Roles.assign_role_to_member. case_branches.
  split; [done|apply add_roles_ids].
Qed.

Lemma assign_page_frame g ms rid :
  guild_roles (assign_page g ms rid).1 = guild_roles g ∧
  member_id <$> guild_members (assign_page g ms rid).1 = member_id <$> guild_members g.
Proof.
  revert g. induction ms as [|m ms IH]; intros g; simpl; [done|].
  destruct (assign_role_to_member_frame g m rid) as [Hr Hi].
  destruct (assign_role_to_member g m rid) as [g1 l1]. specialize (IH g1).
  destruct (assign_page g1 ms rid) as [g2 l2]. simpl in *.
  destruct IH as [-> ->]. done.
Qed.

(** One member of a guild whose ids are distinct: the member is
    settled, the others are as they were. *)
Lemma assign_role_to_member_settles g pre m post rid role :
  guild_members g = pre ++ m :: post →
  NoDup (member_id <$> pre ++ m :: post) →
  get_role g rid = Some role →
  assign_role_to_member g m rid =
  (with_members g (pre ++ settle role m :: post), settle_log role m).
Proof.
  intros Hg Hnd Hrole. rewrite (assign_role_to_member_eq g m rid role Hrole).
  f_equal. unfold Roles.settle. destruct (_ && _) eqn:Hw.
  - apply add_roles_at; [done..|].
    apply andb_prop in Hw as [[_ Hr%negb_true_iff]%andb_prop _]. done.
  - by rewrite <-Hg, with_members_same.
Qed.

(** A page of a guild whose ids are distinct: its members are settled,
    in place, and the log is theirs in order. *)
Lemma assign_page_settles ms : ∀ g pre post rid role,
  guild_members g = pre ++ ms ++ post →
  NoDup (member_id <$> pre ++ ms ++ post) →
  get_role g rid = Some role →
  assign_page g ms rid =
  (with_members g (pre ++ (settle role <$> ms) ++ post), ms ≫= settle_log role).
Proof.
  induction ms as [|m ms IH]; intros g pre post rid role Hg Hnd Hrole; simpl in *.
  - by rewrite <-Hg, with_members_same.
  - rewrite (assign_role_to_member_settles g pre m (ms ++ post) rid role) by done.
    rewrite (IH _ (pre ++ [settle role m]) post rid role); simpl.
    + by rewrite <-!app_assoc.
    + by rewrite <-app_assoc.
    + rewrite <-app_assoc. simpl. revert Hnd. rewrite !fmap_app, !fmap_cons.
      by rewrite settle_id.
    + done.
Qed.

(** One turn of the loop of the sweep. *)
Lemma sweep_S fuel limit g rid after :
  sweep (S fuel) limit g rid after =
  let members := fetch_members g limit after in
  let r := assign_page g members rid in
  if decide (length members < limit)%nat then Some (Ok r)
  else match py_last members with
       | None => Some (Raise (IndexError "list index out of range"))
       | Some last =>
           match sweep fuel limit r.1 rid (Some last) with
           | Some (Ok r2) => Some (Ok (r2.1, r.2 ++ r2.2))
           | other => other
           end
       end.
Proof.
  simpl. destruct (assign_page g _ rid) as [g1 l1]. simpl.
  case_decide; [done|]. destruct (py_last _); [|done].
  by destruct (Roles.sweep _ _ _ _ _ _) as [[[g2 l2]|]|].
Qed.

(** A page that is not short of the limit has a last member, which is in
    the listing. *)
Lemma full_page_last (limit : nat) (l : list Member) :
  (0 < limit)%nat → ¬ (length (take limit l) < limit)%nat →
  ∃ init m, take limit l = init ++ [m].
Proof.
  intros Hlimit Hfull. destruct (py_last_is_Some (take limit l)) as [m Hm].
  { intros Hnil. rewrite Hnil in Hfull. simpl in Hfull. lia. }
  apply py_init_last in Hm. eauto.
Qed.

(** The sweep terminates: every page ends above the cursor it started
    from, so the members still to list grow fewer. *)
Lemma sweep_total fuel : ∀ limit g rid after,
  (0 < limit)%nat →
  (length (filter (comes_after after) (guild_members g)) < fuel)%nat →
  ∃ r, sweep fuel limit g rid after = Some (Ok r).
Proof.
  induction fuel as [|fuel IH]; intros limit g rid after Hlimit Hlen; [lia|].
  rewrite sweep_S. simpl. case_decide as Hfull; [by eexists|].
  unfold fetch_members in *. set (rest := filter _ _) in *.
  destruct (full_page_last limit rest Hlimit Hfull) as (init & m & Hpage).
  rewrite Hpage. autorewrite with py_rw.
  assert (m ∈ rest) as Hm.
  { apply (subseteq_take limit). rewrite Hpage, elem_of_app. right. left. }
  destruct (IH limit (assign_page g (init ++ [m]) rid).1 rid (Some m) Hlimit) as [r ->];
    [|by eexists].
  destruct (assign_page_frame g (init ++ [m]) rid) as [_ Hids].
  rewrite (filter_comes_after_length _ _ _ Hids).
  apply list_elem_of_filter in Hm as [Hafter Hin].
  rewrite <-(filter_comes_after_next after) by done. fold rest.
  assert (m ∈ rest) as Hm by by apply list_elem_of_filter.
  pose proof (length_filter_lt (comes_after (Some m)) rest m Hm (comes_after_irrefl m)).
  lia.
Qed.

(** Ids in strictly ascending order are distinct. *)
Lemma sorted_ids_NoDup (l : list Z) : StronglySorted Z.lt l → NoDup l.
Proof.
  induction 1 as [|i l _ IH Hi]; constructor; [|done].
  intros Hin. rewrite Forall_forall in Hi. specialize (Hi i Hin). lia.
Qed.

(** The sweep of a guild in ascending order of id, from a cursor: every
    member behind the cursor is settled, in place, and the log is theirs
    in order. *)
Lemma sweep_settles fuel : ∀ limit g pre rest after rid role,
  (0 < limit)%nat →
  guild_members g = pre ++ rest →
  StronglySorted Z.lt (member_id <$> pre ++ rest) →
  Forall (λ x, ¬ comes_after after x) pre →
  Forall (comes_after after) rest →
  (length rest < fuel)%nat →
  get_role g rid = Some role →
  sweep fuel limit g rid after =
  Some (Ok (with_members g (pre ++ (settle role <$> rest)), rest ≫= settle_log role)).
Proof.
  induction fuel as [|fuel IH];
    intros limit g pre rest after rid role Hlimit Hg Hsort Hpre Hrest Hlen Hrole; [lia|].
  rewrite sweep_S. unfold fetch_members.
  rewrite Hg, filter_app, filter_none, filter_all by done. simpl.
  pose proof (take_drop limit rest) as Hsplit.
  assert (length (drop limit rest) < fuel ∨ take limit rest = [])%nat as Hback
    by (destruct rest; [right; apply take_nil|left; rewrite length_drop; simpl in *; lia]).
  assert (length (take limit rest) < limit → drop limit rest = [])%nat as Hshort
    by (rewrite length_take; intros ?; apply drop_ge; lia).
  revert Hsplit Hback Hshort.
  generalize (take limit rest) (drop limit rest). intros page back <- Hback Hshort.
  rewrite (assign_page_settles _ g pre back rid role Hg)
    by first [done|by apply sorted_ids_NoDup].
  case_decide as Hfull; [by rewrite (Hshort Hfull), !app_nil_r|].
  destruct (py_last_is_Some page) as [m Hm]; [intros ->; simpl in *; lia|].
  rewrite Hm. apply py_init_last in Hm. simpl. revert Hm Hback.
  generalize (py_init page). intros init -> [Hback|?%app_nil]; [|naive_solver].
  destruct (sorted_around_last pre init m back Hsort) as [Hlow Hhigh].
  rewrite (IH limit _ (pre ++ (settle role <$> init ++ [m])) back (Some m) rid role);
    try done.
  - unfold with_members. simpl. by rewrite !fmap_app, !bind_app, <-!app_assoc.
  - simpl. by rewrite <-app_assoc.
  - rewrite <-app_assoc, !fmap_app, !settle_ids. by rewrite !fmap_app in Hsort.
  - apply Forall_app in Hlow as [Hlow1 Hlow2]. apply Forall_app. split; [done|].
    apply Forall_fmap. eapply Forall_impl; [done|]. intros x. simpl.
    by rewrite settle_id.
Qed.

End roles_facts.

(** ** The handlers say the same through every logger *)

Section logger_independence.
Context (L1 L2 : Logger) (faults : Z → option string).
Implicit Types (g : Guild) (m : Member).

Lemma assign_role_to_member_said g m rid :
  said (assign_role_to_member (H:=L1) faults g m rid) =
  said (assign_role_to_member (H:=L2) faults g m rid).
Proof.
  unfold assign_role_to_member, said. case_bool_decide; [done|].
  destruct (get_role g rid); simpl; [|by rewrite !log_error_text].
  destruct (negb _); [|done].
  destruct (faults _); simpl; by rewrite ?log_error_text, ?log_info_text.
Qed.

Lemma assign_page_said ms : ∀ g rid,
  said (assign_page (H:=L1) faults g ms rid) = said (assign_page (H:=L2) faults g ms rid).
Proof.
  induction ms as [|m ms IH]; intros g rid; simpl; [done|].
  pose proof (assign_role_to_member_said g m rid) as Hm.
  destruct (assign_role_to_member (H:=L1) faults g m rid) as [g1 l1],
    (assign_role_to_member (H:=L2) faults g m rid) as [g1' l1'].
  injection Hm as <- Hl. specialize (IH g1 rid).
  destruct (assign_page (H:=L1) faults g1 ms rid) as [g2 l2],
    (assign_page (H:=L2) faults g1 ms rid) as [g2' l2'].
  injection IH as <- Hl2. unfold said. simpl in *. by rewrite !fmap_app, Hl, Hl2.
Qed.

Lemma sweep_said fuel : ∀ limit g rid after,
  outcome_said (sweep (H:=L1) faults fuel limit g rid after) =
  outcome_said (sweep (H:=L2) faults fuel limit g rid after).
Proof.
  induction fuel as [|fuel IH]; intros limit g rid after; [done|].
  rewrite !sweep_S. simpl.
  pose proof (assign_page_said (fetch_members g limit after) g rid) as Hp.
  destruct (assign_page (H:=L1) faults g _ rid) as [g1 l1],
    (assign_page (H:=L2) faults g _ rid) as [g1' l1'].
  injection Hp as <- Hl. simpl in *.
  case_decide; [unfold outcome_said, said; simpl; congruence|].
  destruct (py_last _) as [last|]; [|done]. specialize (IH limit g1 rid (Some last)).
  destruct (sweep (H:=L1) faults fuel limit g1 rid (Some last)) as [[[g2 l2]|e]|],
    (sweep (H:=L2) faults fuel limit g1 rid (Some last)) as [[[g2' l2']|e']|];
    unfold outcome_said, said in *; simplify_eq/=; [|done..].
  rewrite !fmap_app. congruence.
Qed.

Lemma check_and_assign_role_said g rid :
  outcome_said (check_and_assign_role (H:=L1) faults g rid) =
  outcome_said (check_and_assign_role (H:=L2) faults g rid).
Proof.
  unfold check_and_assign_role.
  destruct (get_role g rid);
    [|unfold outcome_said, said; simpl; by rewrite !log_error_text].
  pose proof (sweep_said (S (length (guild_members g))) page_limit g rid None) as Hs.
  destruct (sweep (H:=L1) faults _ page_limit g rid None) as [[[g2 l2]|e]|],
    (sweep (H:=L2) faults _ page_limit g rid None) as [[[g2' l2']|e']|];
    unfold outcome_said, said in *; simplify_eq/=; [|done..].
  rewrite !fmap_app, !log_info_text. congruence.
Qed.

End logger_independence.

(** ** The activity line *)

Lemma group_rev_strip k (l : list ascii) :
  filter (λ c, c ≠ ","%char) (group_rev k l) = filter (λ c, c ≠ ","%char) l.
Proof.
  revert k. induction l as [|c l IH]; intros [|k]; simpl; [done..| |].
  - rewrite filter_cons_False by naive_solver. by rewrite !filter_cons, IH.
  - by rewrite !filter_cons, IH.
Qed.

Lemma strip_commas_group (s : string) :
  strip_commas (string_of_list_ascii
                  (reverse (group_rev 3 (reverse (list_ascii_of_string s))))) =
  strip_commas s.
Proof.
  unfold strip_commas.
  by rewrite list_ascii_of_string_of_list_ascii, filter_reverse, group_rev_strip,
    <-filter_reverse, reverse_involutive.
Qed.

Lemma strip_commas_dash (s : string) :
  strip_commas ("-" +:+ s) = "-"%char :: strip_commas s.
Proof. done. Qed.

(** The thousands separators of the activity line
    only separate: without its commas [f"{n:,}"] is the decimal writing of
    [n], sign included. *)
Theorem format_commas_digits (n : Z) :
  strip_commas (format_commas n) = strip_commas (pretty n).
Proof.
  unfold format_commas. case_decide as Hn; [|apply strip_commas_group].
  destruct n as [|p|p]; [lia..|].
  change (pretty (- Z.neg p)) with (pretty (N.pos p)).
  change (pretty (Z.neg p)) with ("-" +:+ pretty (N.pos p)).
  by rewrite !strip_commas_dash, strip_commas_group.
Qed.

(** The activity line for some member counts. *)
Example activity_text_samples :
  activity_text 7 = "over 7 members" ∧
  activity_text 1000 = "over 1,000 members" ∧
  activity_text 15230 = "over 15,230 members" ∧
  activity_text 1234567 = "over 1,234,567 members".
Proof. by vm_compute. Qed.

(** ** The properties of the sweep *)

Section roles_properties.
Context `{Logger} (faults : Z → option string).
Implicit Types (g : Guild) (m : Member) (role : Role).

(** What [settle] leaves of a member. *)
Lemma settle_spec role m :
  member_id (settle faults role m) = member_id m ∧
  (member_id m ∈ excluded_member_ids → settle faults role m = m) ∧
  (role_in role (member_roles m) = true → settle faults role m = m) ∧
  (member_id m ∉ excluded_member_ids → faults (member_id m) = None →
   role_in role (member_roles (settle faults role m)) = true).
Proof.
  unfold settle, wants_role. split_and!.
  - by destruct (_ && _).
  - intros Hex. by rewrite bool_decide_eq_false_2 by naive_solver.
  - intros ->. by rewrite andb_false_r.
  - intros Hex Hf. rewrite bool_decide_eq_true_2, (bool_decide_eq_true_2 _ Hf) by done.
    simpl. destruct (role_in role (member_roles m)) eqn:Hr; simpl; [done|].
    apply (elem_on_true role_id). rewrite fmap_app, elem_of_app. right. left.
Qed.

(** C23: the sweep of
    [check_and_assign_role] terminates on every guild, whatever the
    answers of [add_roles]: the [while True] loop ends after at most one
    page more than the guild has members, and nothing escapes it. *)
Theorem check_and_assign_role_terminates g rid :
  ∃ g' logs, check_and_assign_role faults g rid = Some (Ok (g', logs)).
Proof.
  unfold check_and_assign_role. destruct (get_role g rid); [|by eauto].
  destruct (sweep_total faults (S (length (guild_members g))) page_limit g rid None)
    as [[g' logs] ->]; [unfold page_limit; lia| |by eauto].
  pose proof (length_filter (comes_after None) (guild_members g)). lia.
Qed.

(** C24: on a guild whose members are listed
    in ascending order of id, [check_and_assign_role] leaves every member
    as [assign_role_to_member] leaves it alone (the role for those not
    excluded that lack it, unless [add_roles] fails), in place, and logs
    one line for each call of [add_roles], in the order of the members,
    then that it has finished. *)
Theorem check_and_assign_role_settles g rid role :
  guild_wf g → get_role g rid = Some role →
  check_and_assign_role faults g rid =
  Some (Ok (with_members g (settle faults role <$> guild_members g),
            (guild_members g ≫= settle_log faults role) ++
            log_info "Finished assigning roles to all members.")).
Proof.
  intros Hwf Hrole. unfold check_and_assign_role. rewrite Hrole.
  by rewrite (sweep_settles faults _ page_limit g [] (guild_members g) None rid role)
    by first [done|unfold page_limit; lia|by apply Forall_true|lia].
Qed.

(** C25: the pages do not show: whatever the page size,
    the sweep does to the guild and logs what one pass of
    [assign_role_to_member] over all the members, in order, does. *)
Theorem sweep_is_one_pass limit fuel g rid role :
  (0 < limit)%nat → (length (guild_members g) < fuel)%nat →
  guild_wf g → get_role g rid = Some role →
  sweep faults fuel limit g rid None =
  Some (Ok (assign_page faults g (guild_members g) rid)).
Proof.
  intros Hlimit Hfuel Hwf Hrole.
  rewrite (sweep_settles faults _ limit g [] (guild_members g) None rid role)
    by first [done|by apply Forall_true].
  rewrite (assign_page_settles faults _ g [] [] rid role);
    rewrite ?app_nil_r; [done|done|by apply sorted_ids_NoDup|done].
Qed.

(** One pass over the members of a guild with
    distinct ids keeps every member in its place with its id, leaves the
    excluded members and those that have the role as they were, and
    leaves every other member with the role unless [add_roles] failed
    for it. *)
Theorem assign_page_gives_role g rid role i m m' :
  guild_wf g → get_role g rid = Some role →
  guild_members g !! i = Some m →
  guild_members (assign_page faults g (guild_members g) rid).1 !! i = Some m' →
  member_id m' = member_id m ∧
  (member_id m ∈ excluded_member_ids → m' = m) ∧
  (role_in role (member_roles m) = true → m' = m) ∧
  (member_id m ∉ excluded_member_ids → faults (member_id m) = None →
   role_in role (member_roles m') = true).
Proof.
  intros Hwf Hrole Hm.
  rewrite (assign_page_settles faults _ g [] [] rid role);
    rewrite ?app_nil_r; [|done|by apply sorted_ids_NoDup|done].
  simpl. rewrite list_lookup_fmap, Hm. intros [= <-]. apply settle_spec.
Qed.

(** The role that [on_member_join] and the
    periodic sweep give is not in the role-to-channel table, so the
    member update that follows [add_roles] queues nothing and starts no
    task: the automatic role never produces a notification. *)
Theorem auto_role_never_notifies `{PyRuntime} (bot : RoleManagerBot) m role :
  role_to_channel bot = role_to_channel init_bot → role_id role = auto_role_id →
  enqueue bot m (grant role m) = (bot, false).
Proof.
  intros Htab Hid. apply enqueue_noop, to_add_unlisted. intros r Hr Hnew.
  simpl in Hr. apply elem_of_app in Hr as [Hr|Hr%list_elem_of_singleton]; [|subst r].
  - apply (elem_on_false role_id) in Hnew. destruct Hnew.
    by apply list_elem_of_fmap_2.
  - rewrite Htab, Hid. compute_decide.
Qed.

End roles_properties.

(** ** Witnesses *)

Section roles_witnesses.
Import Sample Town.
#[local] Existing Instance logging_logger.
#[local] Existing Instance insertion_order_runtime.

Lemma check_and_assign_role_settles_witness :
  check_and_assign_role faulty five auto_role_id =
  Some (Ok (with_members five (settle faulty member_role <$> guild_members five),
            (guild_members five ≫= settle_log faulty member_role) ++
            log_info "Finished assigning roles to all members.")).
Proof.
  apply check_and_assign_role_settles; [|done].
  compute_decide.
Defined.

Lemma sweep_is_one_pass_witness :
  sweep faulty 6 2 five auto_role_id None =
  Some (Ok (assign_page faulty five (guild_members five) auto_role_id)).
Proof.
  apply (sweep_is_one_pass faulty 2 6 five auto_role_id member_role);
    [lia|simpl; lia| |done].
  compute_decide.
Defined.

Lemma assign_page_gives_role_witness :
  member_id (mkMember 1 "ann" "0" None [member_role]) = member_id (mkMember 1 "ann" "0" None []) ∧
  (1 ∈ excluded_member_ids → mkMember 1 "ann" "0" None [member_role] = mkMember 1 "ann" "0" None []) ∧
  (role_in member_role [] = true →
   mkMember 1 "ann" "0" None [member_role] = mkMember 1 "ann" "0" None []) ∧
  (1 ∉ excluded_member_ids → faulty 1 = None → role_in member_role [member_role] = true).
Proof.
  apply (assign_page_gives_role faulty five auto_role_id member_role 0
           (mkMember 1 "ann" "0" None []) (mkMember 1 "ann" "0" None [member_role]));
    [|done|done|by vm_compute].
  compute_decide.
Defined.

Lemma auto_role_never_notifies_witness :
  enqueue init_bot (bob [alpha]) (grant member_role (bob [alpha])) = (init_bot, false).
Proof. by apply auto_role_never_notifies. Defined.

End roles_witnesses.
