(* ===== verification/Notifier.v ===== *)
(** * Notifier: the verification message

    [send_verification_message] of [src/bot/verification.py] looks the
    verification channel up, composes an embed that names every role
    handed to it and links each to its documentation channel, sends it
    with the member's mention, and starts the delayed deletion of the
    message sent.  It suspends once, at [await channel.send(...)]:
    [send_verification_message] below is the function up to that point
    ([SendAwait] is the suspended call) and [send_verification_reply] is
    what it does with the answer.

    The theorems give the text for one and for several roles, show that
    the fields pair each role with its own channel when every role is in
    the table (and what [zip] does when one is not), and cover the three
    ways the function ends without sending. *)

From stdpp Require Import base tactics option list strings gmap.
From S2P Require Import Prelude Discord Queue.

Set Warnings "-clear-no-such-hyp".
#[local] Open Scope Z_scope.
#[local] Open Scope py_scope.

(** ** Composition *)

(** [channel_id = 1200460467622137936] *)
Definition verification_channel_id : Z := 1200460467622137936.

(** [f"**{name}**"] *)
Definition bold (name : string) : string := "**" +:+ name +:+ "**".

(** [[role.name for role in role_list]] *)
Definition role_names (role_list : list Role) : list string :=
  role_name <$> role_list.

(** [f"<#{role_to_channel.get(role.id)}>"]; [get] of a missing key is
    [None], which an f-string renders as the word. *)
Definition role_mention (table : list (Z * string)) (r : Role) : string :=
  "<#" +:+ default "None" (dict_get (role_id r) table) +:+ ">".

(** [[f"<#{...}>" for role in role_list if role.id in role_to_channel]] *)
Definition role_mentions (table : list (Z * string)) (role_list : list Role) :
    list string :=
  role_mention table <$> filter (λ r, role_id r ∈ dict_keys table) role_list.

(** The [if len(role_list) == 1: ... else: ...] of the function:
    [roles_text], [plugin_text] and [topic_text].  With no role at all
    [role_names[-1]] raises [IndexError]. *)
Definition compose_texts (names : list string) : result Exn (string * string * string) :=
  match names with
  | [name] => Ok (bold name, "plugin", "the post below")
  | _ =>
      let roles_text := py_join ", " (bold <$> py_init names) in
      last ←! result_of_option (IndexError "list index out of range") (py_last names);
      Ok (roles_text +:+ " and " +:+ bold last, "plugins", "the posts below")
  end.

(** [embed.description] *)
Definition description (texts : string * string * string) : string :=
  let '(roles_text, plugin_text, topic_text) := texts in
  "You have been successfully verified for " +:+ roles_text +:+ ". " +:+
  "For complete documentation of the " +:+ plugin_text +:+
  ", please access " +:+ topic_text +:+ ".".

(** [for role_name, role_mention in zip(role_names, role_mentions):
       embed.add_field(name=role_name, value=role_mention, inline=True)] *)
Definition add_role_fields (names mentions : list string) (e : Embed) : Embed :=
  foldl (λ e nm, add_field nm.1 nm.2 true e) e (zip names mentions).

(** [timedelta(hours=24)], in seconds. *)
Definition retention : Z := 86400.

Section notifier.
Context `{PyRuntime}.

(** The footer, with [deletion_time = datetime.now(timezone.utc) +
    timedelta(hours=24)]. *)
Definition footer (now : Z) : string :=
  "This message will be deleted in 24 hours (" +:+ strftime (now + retention) +:+ " UTC)".

(** The body of the [try], up to the call of [channel.send]. *)
Definition compose_embed (table : list (Z * string)) (member : Member)
    (role_list : list Role) (now : Z) : result Exn Embed :=
  let embed := new_embed "Thank you for your purchase!" 0x059669 in
  url ←! result_of_option (AttributeError "'NoneType' object has no attribute 'url'")
                          (member_avatar member);
  let embed := set_thumbnail url embed in
  let names := role_names role_list in
  let mentions := role_mentions table role_list in
  texts ←! compose_texts names;
  let embed := set_description (description texts) embed in
  let embed := add_role_fields names mentions embed in
  Ok (set_footer (footer now) embed).

(** How [send_verification_message] leaves its first part: it has
    returned after logging, an exception has escaped it, or it is
    suspended in [channel.send(content=..., embed=...)]. *)
Inductive SendStart : Type :=
| SendAbort (logs : list LogEntry)
| SendRaise (e : Exn)
| SendAwait (channel : Z) (content : string) (embed : Embed).

(** [send_verification_message(bot, member, roles, role_to_channel)] up to
    its suspension; [roles] is the set passed, as its elements in
    insertion order, [d] the platform [bot.get_channel] reads and [now]
    the clock. *)
Definition send_verification_message (d : Platform) (now : Z) (member : Member)
    (roles : list Role) (table : list (Z * string)) : SendStart :=
  let role_list := set_iter roles in
  match get_channel d verification_channel_id with
  | None => SendAbort [mkLog ERROR "Verification channel not found."]
  | Some channel =>
      match compose_embed table member role_list now with
      | Ok embed => SendAwait channel (member_mention member) embed
      | Raise (HTTPError e) =>
          SendAbort [mkLog ERROR ("Failed to send verification message: " +:+ http_text e)]
      | Raise e => SendRaise e
      end
  end.

(** The rest of the function, once [channel.send] has answered: the
    message to delete a day later, or the error logged. *)
Definition send_verification_reply (r : result HTTPException Message) :
    list LogEntry * option Message :=
  match r with
  | Ok message => ([], Some message)
  | Raise e =>
      ([mkLog ERROR ("Failed to send verification message: " +:+ http_text e)], None)
  end.

End notifier.

(** ** The reference text *)

(** The list of names as the design words it: one name alone, two joined
    by "and", more separated by commas with "and" before the last. *)
Fixpoint english_list (names : list string) : string :=
  match names with
  | [] => ""
  | [a] => bold a
  | a :: ([b] as rest) => bold a +:+ " and " +:+ english_list rest
  | a :: rest => bold a +:+ ", " +:+ english_list rest
  end.

(** The field the message should carry for a role: its name and the link
    to its own channel. *)
Definition role_field (table : list (Z * string)) (r : Role) : EmbedField :=
  mkField (role_name r) (role_mention table r) true.

(** ** Facts on the composition *)

Section notifier_facts.
Context `{PyRuntime}.
Implicit Types (table : list (Z * string)) (l : list Role) (e : Embed).

Lemma english_list_cons (a b c : string) (rest : list string) :
  english_list (a :: b :: c :: rest) = bold a +:+ ", " +:+ english_list (b :: c :: rest).
Proof. done. Qed.

Lemma join_and_last (init : list string) (last : string) :
  init ≠ [] →
  py_join ", " (bold <$> init) +:+ " and " +:+ bold last = english_list (init ++ [last]).
Proof.
  induction init as [|a [|b init] IH]; intros Hne; [done..|].
  rewrite !fmap_cons, py_join_cons, <-!fmap_cons, !string_app_assoc, IH by done.
  by destruct init.
Qed.

Lemma compose_texts_plural (init : list string) (last : string) :
  init ≠ [] →
  compose_texts (init ++ [last]) =
  Ok (english_list (init ++ [last]), "plugins", "the posts below").
Proof.
  intros Hne. destruct init as [|a init]; [done|].
  transitivity (Ok (E:=Exn) (py_join ", " (bold <$> py_init ((a :: init) ++ [last])) +:+
                     " and " +:+ bold last, "plugins", "the posts below")).
  - unfold compose_texts. autorewrite with py_rw. by destruct init.
  - autorewrite with py_rw. by rewrite join_and_last.
Qed.

Lemma add_role_fields_eq e (names mentions : list string) :
  add_role_fields names mentions e =
  mkEmbed (embed_title e) (embed_color e) (embed_thumbnail e) (embed_description e)
          (embed_fields e ++ ((λ nm, mkField nm.1 nm.2 true) <$> zip names mentions))
          (embed_footer e).
Proof.
  unfold add_role_fields. generalize (zip names mentions). intros pairs.
  revert e. induction pairs as [|nm pairs IH]; intros e; simpl.
  - rewrite app_nil_r. by destruct e.
  - rewrite IH. simpl. by rewrite <-app_assoc.
Qed.

Lemma length_role_names l : length (role_names l) = length l.
Proof. apply length_fmap. Qed.

Lemma role_mentions_listed table l :
  Forall (λ r, role_id r ∈ dict_keys table) l →
  role_mentions table l = role_mention table <$> l.
Proof. intros Hl. unfold role_mentions. by rewrite filter_all. Qed.

Lemma role_fields_listed table l :
  Forall (λ r, role_id r ∈ dict_keys table) l →
  (λ nm, mkField nm.1 nm.2 true) <$> zip (role_names l) (role_mentions table l) =
  role_field table <$> l.
Proof.
  intros Hl. rewrite role_mentions_listed by done. unfold role_names.
  rewrite zip_fmap_diag, <-list_fmap_compose. done.
Qed.

(** [compose_embed] once the avatar and the texts are known. *)
Lemma compose_embed_eq table (member : Member) l now url texts :
  member_avatar member = Some url → compose_texts (role_names l) = Ok texts →
  compose_embed table member l now =
  Ok (mkEmbed "Thank you for your purchase!" 0x059669 (Some url) (description texts)
        ((λ nm, mkField nm.1 nm.2 true) <$> zip (role_names l) (role_mentions table l))
        (Some (footer now))).
Proof.
  intros Hurl Htexts. unfold compose_embed. rewrite Hurl. simpl. rewrite Htexts. simpl.
  by rewrite add_role_fields_eq.
Qed.

(** The texts for a non-empty list of names. *)
Lemma compose_texts_nonempty (names : list string) :
  names ≠ [] →
  compose_texts names =
  Ok (english_list names,
      if decide (length names = 1%nat) then "plugin" else "plugins",
      if decide (length names = 1%nat) then "the post below" else "the posts below").
Proof.
  intros Hne. destruct (py_last names) as [last|] eqn:Hlast;
    [|by apply py_last_None in Hlast].
  apply py_init_last in Hlast. destruct (py_init names) as [|a init] eqn:Hinit.
  - rewrite Hlast. done.
  - rewrite Hlast, compose_texts_plural by done.
    by rewrite !decide_False by (rewrite length_app; simpl; lia).
Qed.

(** The embed for a member with an avatar and a non-empty list of roles of
    the table: the title and colour of the code, the avatar, the text of
    [compose_texts_nonempty], one field per role pairing its name with the
    link to its own channel, in the order of the list, and the footer with
    the deletion time. *)
Lemma compose_embed_ok table (member : Member) l now url :
  member_avatar member = Some url → l ≠ [] →
  Forall (λ r, role_id r ∈ dict_keys table) l →
  compose_embed table member l now =
  Ok (mkEmbed "Thank you for your purchase!" 0x059669 (Some url)
        (description (english_list (role_names l),
           if decide (length l = 1%nat) then "plugin" else "plugins",
           if decide (length l = 1%nat) then "the post below" else "the posts below"))
        (role_field table <$> l)
        (Some (footer now))).
Proof.
  intros Hurl Hne Hl.
  assert (role_names l ≠ []) as Hnames by (by destruct l).
  rewrite (compose_embed_eq _ _ _ _ url _ Hurl (compose_texts_nonempty _ Hnames)).
  by rewrite role_fields_listed, length_role_names.
Qed.

(** The composition raises nothing but the [AttributeError] of a missing
    avatar and the [IndexError] of an empty list of roles, so the
    [except discord.HTTPException] around it never fires before the
    send. *)
Lemma compose_embed_raises table (member : Member) l now err :
  compose_embed table member l now = Raise err →
  (member_avatar member = None ∧
   err = AttributeError "'NoneType' object has no attribute 'url'") ∨
  (l = [] ∧ err = IndexError "list index out of range").
Proof.
  unfold compose_embed. destruct (member_avatar member) as [url|]; simpl.
  - destruct l as [|r l]; [naive_solver|].
    rewrite compose_texts_nonempty by done. done.
  - naive_solver.
Qed.

Lemma get_channel_cached (d : Platform) cid :
  cid ∈ channels d → get_channel d cid = Some cid.
Proof. intros Hc. unfold get_channel. by rewrite decide_True. Qed.

Lemma get_channel_missing (d : Platform) cid :
  cid ∉ channels d → get_channel d cid = None.
Proof. intros Hc. unfold get_channel. by rewrite decide_False. Qed.

(** With the channel in the cache and an embed composed, the function
    suspends in [channel.send]. *)
Lemma send_composed (d : Platform) now (member : Member) (roles : list Role) table embed :
  verification_channel_id ∈ channels d →
  compose_embed table member (set_iter roles) now = Ok embed →
  send_verification_message d now member roles table =
  SendAwait verification_channel_id (member_mention member) embed.
Proof.
  intros Hc He. unfold send_verification_message.
  by rewrite get_channel_cached, He.
Qed.

(** The embed composed for the elements of a set, in its iteration
    order. *)
Lemma compose_embed_set table (member : Member) (roles : list Role) now url :
  member_avatar member = Some url → roles ≠ [] →
  Forall (λ r, role_id r ∈ dict_keys table) roles →
  compose_embed table member (set_iter roles) now =
  Ok (mkEmbed "Thank you for your purchase!" 0x059669 (Some url)
        (description (english_list (role_names (set_iter roles)),
           if decide (length roles = 1%nat) then "plugin" else "plugins",
           if decide (length roles = 1%nat) then "the post below" else "the posts below"))
        (role_field table <$> set_iter roles)
        (Some (footer now))).
Proof.
  intros Hav Hne Hl.
  rewrite (compose_embed_ok table member (set_iter roles) now url), set_iter_length;
    [done..| |].
  - by rewrite set_iter_eq_nil.
  - by rewrite set_iter_perm.
Qed.

(** Whatever the iteration order of the set, the embed sent has exactly
    one field for each role handed over, naming the role and linking its
    own channel. *)
Lemma send_fields (d : Platform) now (member : Member) (roles : list Role) table url :
  verification_channel_id ∈ channels d → member_avatar member = Some url →
  roles ≠ [] → Forall (λ r, role_id r ∈ dict_keys table) roles →
  ∃ embed,
    send_verification_message d now member roles table =
      SendAwait verification_channel_id (member_mention member) embed ∧
    embed_fields embed ≡ₚ role_field table <$> roles.
Proof.
  intros Hc Hav Hne Hl. eexists. split.
  - by apply send_composed, (compose_embed_set _ _ _ _ url).
  - simpl. by rewrite set_iter_perm.
Qed.

(** For a member without a custom avatar
    [member.avatar] is [None], [member.avatar.url] raises [AttributeError],
    which [except discord.HTTPException] does not catch: the exception
    escapes and nothing is sent. *)
Lemma send_without_avatar (d : Platform) now (member : Member) (roles : list Role) table :
  verification_channel_id ∈ channels d → member_avatar member = None →
  send_verification_message d now member roles table =
  SendRaise (AttributeError "'NoneType' object has no attribute 'url'").
Proof.
  intros Hc Hav. unfold send_verification_message, compose_embed.
  by rewrite get_channel_cached, Hav.
Qed.

End notifier_facts.

(** ** The properties of the message *)

Section notifier_properties.
Context `{PyRuntime}.
Implicit Types (table : list (Z * string)) (l roles : list Role) (member : Member).

(** C20: the texts of the message follow the
    design on every list of names: for one role its name in bold with
    "plugin" and "the post below"; for several the names separated by
    commas with "and" before the last, with "plugins" and "the posts
    below"; and with no role at all [role_names[-1]] raises
    [IndexError]. *)
Theorem roles_text_matches_design (names : list string) :
  compose_texts names =
  match names with
  | [] => Raise (IndexError "list index out of range")
  | [_] => Ok (english_list names, "plugin", "the post below")
  | _ => Ok (english_list names, "plugins", "the posts below")
  end.
Proof.
  destruct names as [|a [|b names]]; [done..|].
  by rewrite compose_texts_nonempty.
Qed.

(** When the verification channel is not in the
    cache the function logs one error and returns: nothing is composed or
    sent, and no exception escapes. *)
Theorem send_without_channel (d : Platform) now member roles table :
  verification_channel_id ∉ channels d →
  send_verification_message d now member roles table =
  SendAbort [mkLog ERROR "Verification channel not found."].
Proof.
  intros Hc. unfold send_verification_message. by rewrite get_channel_missing.
Qed.

(** C19: for a member with an avatar and a non-empty set of
    roles of the table the function suspends in [channel.send] on the
    verification channel, with the member's mention as content and an
    embed that carries the title and colour of the code, the avatar, the
    text of the design for the role names, one field per role pairing its
    name with the link to its own channel, and the footer with the
    deletion time, the roles being taken in the iteration order of the
    set. *)
Theorem send_listed (d : Platform) now member roles table url :
  verification_channel_id ∈ channels d → member_avatar member = Some url →
  roles ≠ [] → Forall (λ r, role_id r ∈ dict_keys table) roles →
  send_verification_message d now member roles table =
  SendAwait verification_channel_id (member_mention member)
    (mkEmbed "Thank you for your purchase!" 0x059669 (Some url)
       (description (english_list (role_names (set_iter roles)),
          if decide (length roles = 1%nat) then "plugin" else "plugins",
          if decide (length roles = 1%nat) then "the post below" else "the posts below"))
       (role_field table <$> set_iter roles)
       (Some (footer now))).
Proof.
  intros Hc Hav Hne Hl. by apply send_composed, compose_embed_set.
Qed.

End notifier_properties.

(** ** Witnesses and examples *)

Section notifier_witnesses.
Import Sample.
#[local] Existing Instance insertion_order_runtime.

Lemma send_without_channel_witness :
  send_verification_message (mkPlatform ∅ ∅ 0) 0 (bob []) [alpha] (role_to_channel init_bot) =
  SendAbort [mkLog ERROR "Verification channel not found."].
Proof. apply send_without_channel. compute_decide. Defined.

Lemma send_listed_witness :
  send_verification_message world 0 (bob []) [alpha; beta] (role_to_channel init_bot) =
  SendAwait verification_channel_id "<@42>"
    (mkEmbed "Thank you for your purchase!" 0x059669 (Some avatar_url)
       (description ("**Alpha** and **Beta**", "plugins", "the posts below"))
       [mkField "Alpha" "<#1200047665442979860>" true;
        mkField "Beta" "<#1195736480950276196>" true]
       (Some (footer 0))).
Proof.
  etrans; [apply (send_listed world 0 (bob []) [alpha; beta]
                     (role_to_channel init_bot) avatar_url)|by vm_compute];
    [|done..|]; compute_decide.
Defined.

(** The fields follow the iteration order of
    the set, not the order in which the roles were queued: in a runtime
    that iterates a set backwards the field of the role queued last comes
    first. *)
Example fields_follow_set_order :
  send_verification_message (H:=reverse_order_runtime) world 0 (bob [])
    [alpha; beta] (role_to_channel init_bot) =
  SendAwait verification_channel_id "<@42>"
    (mkEmbed "Thank you for your purchase!" 0x059669 (Some avatar_url)
       (description ("**Beta** and **Alpha**", "plugins", "the posts below"))
       [mkField "Beta" "<#1195736480950276196>" true;
        mkField "Alpha" "<#1200047665442979860>" true]
       (Some (footer (H:=reverse_order_runtime) 0))).
Proof. vm_compute. reflexivity. Qed.

(** When a role handed over is not in the
    table, [zip(role_names, role_mentions)] pairs the names with the links
    of other roles: here the field named "Member" links the channel of
    Beta, and Beta has no field. *)
Example zip_misaligns_unlisted :
  ∃ embed,
    send_verification_message world 0 (bob []) [member_role; beta]
      (role_to_channel init_bot) = SendAwait verification_channel_id "<@42>" embed ∧
    embed_fields embed = [mkField "Member" "<#1195736480950276196>" true].
Proof. eexists. split; vm_compute; reflexivity. Qed.

End notifier_witnesses.
