(* ===== verification/Ticket.v ===== *)
(** * Ticket: the delayed deletion of a message

    [delete_message_after_delay] sleeps a day, deletes the message and
    sorts the answer of [message.delete()] by the class of the exception.
    The sources hold it twice: the function of [src/bot/verification.py],
    which [send_verification_message] starts, and the static method of
    [RoleManagerBot] in [src/bot/bot_class.py], which nothing calls.  The
    two differ in what they log when the message is already gone. *)

From stdpp Require Import base tactics option list strings gmap pretty.
From S2P Require Import Prelude Discord.

Set Warnings "-clear-no-such-hyp".
#[local] Open Scope Z_scope.

(** [await asyncio.sleep(86400)] *)
Definition deletion_delay : Z := 86400.

(** The time at which a ticket opened at [now] wakes. *)
Definition ticket_wake (now : Z) : Z := now + deletion_delay.

(** The [try: await message.delete() except ...] of
    [verification.delete_message_after_delay]: what is logged for each
    answer. *)
Definition delete_reply (message : Message) (r : result HTTPException unit) :
    list LogEntry :=
  match r with
  | Ok _ => []
  | Raise e =>
      match http_kind e with
      | NotFound => []
      | Forbidden =>
          [mkLog ERROR ("Bot lacks permission to delete message: " +:+
                        pretty (message_id message))]
      | OtherHTTP =>
          [mkLog ERROR ("Error occurred while deleting message: " +:+ http_text e)]
      end
  end.

(** The same of [RoleManagerBot.delete_message_after_delay]. *)
Definition delete_reply_method (message : Message) (r : result HTTPException unit) :
    list LogEntry :=
  match r with
  | Ok _ => []
  | Raise e =>
      match http_kind e with
      | NotFound => [mkLog WARNING "Message already deleted."]
      | Forbidden =>
          [mkLog ERROR ("Bot lacks permission to delete message: " +:+
                        pretty (message_id message))]
      | OtherHTTP =>
          [mkLog ERROR ("Error occurred while deleting message: " +:+ http_text e)]
      end
  end.

(** One run of the deletion, from the call of [message.delete()] on: the
    new platform and what is logged. *)
Definition delete_message (d : Platform) (message : Message)
    (fault : option HTTPException) : Platform * list LogEntry :=
  let '(d', r) := message_delete d message fault in
  (d', delete_reply message r).

(** ** Facts and properties *)

Section ticket_properties.
Implicit Types (d : Platform) (m : Message).

Lemma message_delete_gone d m :
  messages d !! message_id m = None →
  ∃ text, message_delete d m None = (d, Raise (mkHTTP NotFound text)).
Proof. intros Hm. unfold message_delete. rewrite Hm. eauto. Qed.

Lemma message_delete_present d m m' :
  messages d !! message_id m = Some m' →
  message_delete d m None =
  (mkPlatform (channels d) (delete (message_id m) (messages d)) (next_message_id d), Ok ()).
Proof. intros Hm. unfold message_delete. by rewrite Hm. Qed.

(** Deleting a message that is already gone is
    not an error: the platform is unchanged and nothing is logged. *)
Lemma delete_gone d m :
  messages d !! message_id m = None → delete_message d m None = (d, []).
Proof.
  intros Hm. unfold delete_message.
  by destruct (message_delete_gone d m Hm) as [text ->].
Qed.

(** A deletion that meets no fault removes the
    message from the platform and logs nothing. *)
Theorem delete_removes_message d m m' :
  messages d !! message_id m = Some m' →
  messages (delete_message d m None).1 !! message_id m = None ∧
  (delete_message d m None).2 = [] ∧
  ∀ i, i ≠ message_id m →
    messages (delete_message d m None).1 !! i = messages d !! i.
Proof.
  intros Hm. unfold delete_message. rewrite (message_delete_present d m m' Hm). simpl.
  split_and!; [apply lookup_delete_eq|done|]. intros i Hi. by apply lookup_delete_ne.
Qed.

(** A permission error or another HTTP error
    leaves the platform unchanged and logs exactly one entry, at error
    level; a [NotFound] answer logs nothing. *)
Theorem delete_fault_logged_once d m e :
  (delete_message d m (Some e)).1 = d ∧
  (delete_message d m (Some e)).2 =
    if decide (http_kind e = NotFound) then []
    else [mkLog ERROR (if decide (http_kind e = Forbidden)
                       then "Bot lacks permission to delete message: " +:+ pretty (message_id m)
                       else "Error occurred while deleting message: " +:+ http_text e)].
Proof. unfold delete_message. simpl. split; [done|]. case_branches. Qed.

(** In the function that is used, no
    answer of the deletion of a missing message is logged above the
    informational level; the unused static method logs it as a warning. *)
Theorem delete_reply_never_escalates_gone m text :
  Forall (λ l, above_info (log_level l) = false)
         (delete_reply m (Raise (mkHTTP NotFound text))) ∧
  delete_reply_method m (Raise (mkHTTP NotFound text)) =
    [mkLog WARNING "Message already deleted."].
Proof. done. Qed.

(** The two copies of the function log the
    same for every answer but [NotFound]. *)
Theorem delete_reply_variants_agree m r :
  (∀ e, r = Raise e → http_kind e ≠ NotFound) →
  delete_reply_method m r = delete_reply m r.
Proof.
  intros Hr. destruct r as [|e]; [done|]. specialize (Hr e eq_refl).
  unfold delete_reply, delete_reply_method. by destruct (http_kind e).
Qed.

End ticket_properties.

(** ** Witnesses *)

Section ticket_witnesses.
Import Sample.

Lemma delete_removes_message_witness :
  messages (delete_message world_with_note note None).1 !! 9000 = None ∧
  (delete_message world_with_note note None).2 = [] ∧
  ∀ i, i ≠ 9000 →
    messages (delete_message world_with_note note None).1 !! i =
    messages world_with_note !! i.
Proof. by apply (delete_removes_message world_with_note note note). Defined.

Lemma delete_reply_variants_agree_witness :
  delete_reply_method note (Raise (mkHTTP Forbidden "Missing Permissions")) =
  delete_reply note (Raise (mkHTTP Forbidden "Missing Permissions")).
Proof. apply delete_reply_variants_agree. by intros e [= <-]. Defined.

End ticket_witnesses.
