(* ===== verification/Bot.v ===== *)
(** * Bot: the handlers on the event loop

    The bot runs on one asyncio event loop: a handler runs alone until it
    reaches an [await] that suspends it.  The state of the system is the
    bot object, the coroutines suspended ([Task]: one constructor for each
    [await] of the notification path), the log, the clock and the
    platform.  An [Event] is what makes the loop run some code next: a
    member update delivered by the gateway, a sleep that has elapsed, the
    answer to a REST call, time passing, or another user deleting a
    message.  [step] runs the code the sources run for the event, up to
    the next suspension.

    [on_member_update] and [process_role_queue] are the handlers of
    [src/bot/bot_class.py]; the continuation of
    [send_verification_message] and the two halves of
    [delete_message_after_delay] are those of [src/bot/verification.py].

    Beside the invariants of the reachable states the file follows the
    roles through the queue: [burst] is a series of grants to one member,
    which ends in one notification, and [tally] keeps the accounts of a
    run, the roles [admitted] by updates and the roles [handed] over at
    wakes, which balance with the roles pending. *)

From stdpp Require Import base tactics option list strings gmap.
From S2P Require Import Prelude Discord Queue Notifier Ticket.

Set Warnings "-clear-no-such-hyp".
#[local] Open Scope Z_scope.

(** ** State *)

(** A coroutine suspended at an [await]:
    - [SettleSleep member wake]: [process_role_queue(member)] in
      [await asyncio.sleep(5)];
    - [SendPending member channel content embed]:
      [send_verification_message] in [await channel.send(...)];
    - [DeleteSleep message wake]: [delete_message_after_delay(message)]
      in [await asyncio.sleep(86400)];
    - [DeletePending message]: the same in [await message.delete()]. *)
Inductive Task : Type :=
| SettleSleep (member : Member) (wake : Z)
| SendPending (member : Member) (channel : Z) (content : string) (embed : Embed)
| DeleteSleep (message : Message) (wake : Z)
| DeletePending (message : Message).

#[export] Instance Task_eq_dec : EqDecision Task.
Proof. solve_decision. Defined.

Record System : Type := mkSystem {
  bot : RoleManagerBot;
  tasks : list Task;
  log : list LogEntry;
  clock : Z;
  discord : Platform;
}.

Inductive Event : Type :=
| MemberUpdate (before after : Member)
| Tick (dt : Z)
| Wake (i : nat)
| SendReply (i : nat) (fault : option HTTPException)
| DeleteReply (i : nat) (fault : option HTTPException)
| ExternalDelete (message : Z).

(** The system when the bot has just been constructed. *)
Definition init_system (d : Platform) (now : Z) : System :=
  mkSystem init_bot [] [] now d.

(** [await asyncio.sleep(5)] *)
Definition settle_delay : Z := 5.

(** ** Handlers *)

Module Handlers.

Section handlers.
Context `{PyRuntime}.

(** [on_member_update(before, after)]: the queue is updated and, when the
    member had nothing pending, [process_role_queue(after)] is started; it
    suspends in its sleep at once. *)
Definition on_member_update (s : System) (before after : Member) : System :=
  let '(bot', spawn) := enqueue (bot s) before after in
  mkSystem bot'
    (tasks s ++ if spawn then [SettleSleep after (clock s + settle_delay)] else [])
    (log s) (clock s) (discord s).

(** [await send_verification_message(...)] as [process_role_queue] sees
    it: the function has returned after logging, has suspended in
    [channel.send], or has raised; an exception that escapes travels up
    the [await] of [on_member_update], whose [except Exception] logs
    it. *)
Definition await_send (s : System) (member : Member) (start : SendStart) : System :=
  match start with
  | SendAbort logs =>
      mkSystem (bot s) (tasks s) (log s ++ logs) (clock s) (discord s)
  | SendRaise e =>
      mkSystem (bot s) (tasks s)
        (log s ++ [mkLog ERROR ("Error in on_member_update: " +:+ exn_text e)])
        (clock s) (discord s)
  | SendAwait channel content embed =>
      mkSystem (bot s) (tasks s ++ [SendPending member channel content embed])
        (log s) (clock s) (discord s)
  end.

(** [process_role_queue(member)] from the end of its sleep: the pop, and
    [send_verification_message] on the set of the roles popped. *)
Definition process_role_queue (s : System) (member : Member) : System :=
  let '(roles, bot') := drain (bot s) (member_id member) in
  let s' := mkSystem bot' (tasks s) (log s) (clock s) (discord s) in
  if py_truthy roles then
    await_send s' member
      (send_verification_message (discord s) (clock s) member (set_of roles)
         (role_to_channel bot'))
  else s'.

(** [send_verification_message] from the answer of [channel.send]: on
    success [delete_message_after_delay(message)] is started and suspends
    in its sleep. *)
Definition send_reply (s : System) (channel : Z) (content : string) (embed : Embed)
    (fault : option HTTPException) : System :=
  let '(d', r) := channel_send (discord s) channel content embed fault in
  let '(logs, ticket) := send_verification_reply r in
  mkSystem (bot s)
    (tasks s ++ match ticket with
                | Some message => [DeleteSleep message (ticket_wake (clock s))]
                | None => []
                end)
    (log s ++ logs) (clock s) d'.

(** [delete_message_after_delay] from the answer of [message.delete()]. *)
Definition delete_reply_step (s : System) (message : Message)
    (fault : option HTTPException) : System :=
  let '(d', logs) := delete_message (discord s) message fault in
  mkSystem (bot s) (tasks s) (log s ++ logs) (clock s) d'.

(** The system without its task [i]. *)
Definition remove_task (s : System) (i : nat) : System :=
  mkSystem (bot s) (delete i (tasks s)) (log s) (clock s) (discord s).

(** The system with task [i] replaced. *)
Definition replace_task (s : System) (i : nat) (t : Task) : System :=
  mkSystem (bot s) (<[i := t]> (tasks s)) (log s) (clock s) (discord s).

(** One step of the event loop; [None] when the event cannot happen in
    the state (no such task, a sleep that has not elapsed, time running
    backwards). *)
Definition step (s : System) (ev : Event) : option System :=
  match ev with
  | MemberUpdate before after => Some (on_member_update s before after)
  | Tick dt =>
      if decide (0 ≤ dt)
      then Some (mkSystem (bot s) (tasks s) (log s) (clock s + dt) (discord s))
      else None
  | Wake i =>
      match tasks s !! i with
      | Some (SettleSleep member wake) =>
          if decide (wake ≤ clock s)
          then Some (process_role_queue (remove_task s i) member)
          else None
      | Some (DeleteSleep message wake) =>
          if decide (wake ≤ clock s)
          then Some (replace_task s i (DeletePending message))
          else None
      | _ => None
      end
  | SendReply i fault =>
      match tasks s !! i with
      | Some (SendPending member channel content embed) =>
          Some (send_reply (remove_task s i) channel content embed fault)
      | _ => None
      end
  | DeleteReply i fault =>
      match tasks s !! i with
      | Some (DeletePending message) =>
          Some (delete_reply_step (remove_task s i) message fault)
      | _ => None
      end
  | ExternalDelete mid =>
      Some (mkSystem (bot s) (tasks s) (log s) (clock s)
              (mkPlatform (channels (discord s)) (delete mid (messages (discord s)))
                          (next_message_id (discord s))))
  end.

(** A run: the events of a list, in order. *)
Fixpoint run (s : System) (evs : list Event) : option System :=
  match evs with
  | [] => Some s
  | ev :: evs' =>
      match step s ev with
      | Some s' => run s' evs'
      | None => None
      end
  end.

(** The states the system can be in: those some run from a freshly
    constructed bot reaches. *)
Inductive reachable : System → Prop :=
| reachable_init d now : reachable (init_system d now)
| reachable_step s ev s' : reachable s → step s ev = Some s' → reachable s'.

(** ** What the tasks say about a member *)

(** The member a task settles for, when it is a settling task. *)
Definition settle_member (t : Task) : option Z :=
  match t with
  | SettleSleep member _ => Some (member_id member)
  | _ => None
  end.

(** The member ids of the settling tasks, one for each task. *)
Definition settling (ts : list Task) : list Z := omap settle_member ts.

(** The number of settling tasks of a member. *)
Definition timers_of (mid : Z) (ts : list Task) : nat :=
  length (filter (λ m, m = mid) (settling ts)).

(** The message a task is to delete, when it is a deletion task. *)
Definition ticket_message (t : Task) : option Message :=
  match t with
  | DeleteSleep message _ | DeletePending message => Some message
  | _ => None
  end.

(** The messages the deletion tasks hold, one for each task. *)
Definition tickets (ts : list Task) : list Message := omap ticket_message ts.

(** The notification a task is sending, when it is one. *)
Definition send_embed (t : Task) : option (Member * Embed) :=
  match t with
  | SendPending member _ _ embed => Some (member, embed)
  | _ => None
  end.

(** The notifications in flight. *)
Definition sending (ts : list Task) : list (Member * Embed) := omap send_embed ts.

(** The member whose pending list an event may change: the member updated,
    or the member of the settling task woken. *)
Definition event_member (s : System) (ev : Event) : option Z :=
  match ev with
  | MemberUpdate _ after => Some (member_id after)
  | Wake i => tasks s !! i ≫= settle_member
  | _ => None
  end.

(** ** The accounts of the queue *)

(** The roles an event makes pending, with their member: those the
    update appends. *)
Definition admitted (s : System) (ev : Event) : list (Z * Role) :=
  match ev with
  | MemberUpdate before after => (member_id after,.) <$> to_add (bot s) before after
  | _ => []
  end.

(** The roles an event takes from the queue, with their member: those
    the wake of a settling task pops. *)
Definition handed (s : System) (ev : Event) : list (Z * Role) :=
  match ev with
  | Wake i =>
      match tasks s !! i with
      | Some (SettleSleep member _) =>
          (member_id member,.) <$> (drain (bot s) (member_id member)).1
      | _ => []
      end
  | _ => []
  end.

(** An account kept along a run. *)
Fixpoint tally (f : System → Event → list (Z * Role)) (s : System) (evs : list Event) :
    list (Z * Role) :=
  match evs with
  | [] => []
  | ev :: evs' =>
      f s ev ++ match step s ev with
                | Some s' => tally f s' evs'
                | None => []
                end
  end.

(** ** The invariant of the system *)

(** A member has an entry in the queue exactly when one settling task
    exists for it, and no member ever has two. *)
Definition timer_inv (s : System) : Prop :=
  ∀ mid, timers_of mid (tasks s) =
         match role_update_queue (bot s) !! mid with
         | Some _ => 1%nat
         | None => 0%nat
         end.

(** The queue is well formed, the table is the one of [__init__], and the
    settling tasks match the queue. *)
Definition sys_inv (s : System) : Prop :=
  queue_wf (bot s) ∧ role_to_channel (bot s) = role_to_channel init_bot ∧ timer_inv s.

(** A sleeping task wakes no later than its delay from now. *)
Definition task_due (now : Z) (t : Task) : Prop :=
  match t with
  | SettleSleep _ wake => wake ≤ now + settle_delay
  | DeleteSleep _ wake => wake ≤ now + deletion_delay
  | _ => True
  end.

Definition deadline_inv (s : System) : Prop := Forall (task_due (clock s)) (tasks s).

(** No two deletion tasks hold the same message, and every message they
    hold has been sent. *)
Definition ticket_inv (s : System) : Prop :=
  NoDup (message_id <$> tickets (tasks s)) ∧
  Forall (λ m, message_id m < next_message_id (discord s)) (tickets (tasks s)).

End handlers.

End Handlers.

Export Handlers.

(** ** Bursts

    The platform grants the roles of one purchase one after the other,
    and delivers one member update for each: [before] is the member as
    the update before left it. *)

(** The events of a burst: each role is granted [dt] seconds after the
    grant before it. *)
Fixpoint burst (m : Member) (gs : list (Z * Role)) : list Event :=
  match gs with
  | [] => []
  | (dt, r) :: gs' => Tick dt :: MemberUpdate m (grant r m) :: burst (grant r m) gs'
  end.

(** The time a burst takes. *)
Definition burst_time (gs : list (Z * Role)) : Z := foldr Z.add 0 gs.*1.

(** ** A sample run

    Bob is granted Alpha, then Beta three seconds later; the settling
    task wakes at second five, the message is sent, and a day later its
    ticket wakes.  Sets iterate in insertion order. *)

Module Scenario.
Import Sample.

Definition start : System := init_system world 0.

Definition run_from_start (evs : list Event) : System :=
  default start (run (H:=insertion_order_runtime) start evs).

Definition grants : list Event :=
  [MemberUpdate (bob []) (bob [alpha]); Tick 3;
   MemberUpdate (bob [alpha]) (bob [alpha; beta])].

(** Both roles pending, the settling task asleep. *)
Definition pending : System := run_from_start grants.

(** The settling task due. *)
Definition settled : System := run_from_start (grants ++ [Tick 2]).

(** The notification in flight. *)
Definition notifying : System := run_from_start (grants ++ [Tick 2; Wake 0%nat]).

(** The message sent, its ticket asleep. *)
Definition sent : System :=
  run_from_start (grants ++ [Tick 2; Wake 0%nat; SendReply 0 None]).

(** The ticket in [message.delete()], the message deleted by someone
    else meanwhile. *)
Definition orphaned : System :=
  run_from_start (grants ++ [Tick 2; Wake 0%nat; SendReply 0 None; Tick 86400;
                             ExternalDelete 9000; Wake 0%nat]).

(** Carol, who has no custom avatar, is granted Alpha; her settling task
    is due. *)
Definition carol_settled : System :=
  run_from_start [MemberUpdate (carol []) (carol [alpha]); Tick 5].

End Scenario.

(** ** Facts on tasks *)

Section task_facts.
Implicit Types (ts : list Task) (t : Task) (mid : Z).

Lemma timers_of_nil mid : timers_of mid [] = 0%nat.
Proof. done. Qed.

Lemma timers_of_app mid ts ts' :
  timers_of mid (ts ++ ts') = (timers_of mid ts + timers_of mid ts')%nat.
Proof. unfold timers_of, settling. by rewrite omap_app, filter_app, length_app. Qed.

Lemma timers_of_settle mid member wake :
  timers_of mid [SettleSleep member wake] =
  if decide (member_id member = mid) then 1%nat else 0%nat.
Proof. unfold timers_of. simpl. rewrite filter_cons. by case_decide. Qed.

Lemma timers_of_perm mid ts ts' :
  settling ts ≡ₚ settling ts' → timers_of mid ts = timers_of mid ts'.
Proof. intros Hp. unfold timers_of. by rewrite Hp. Qed.

Lemma timers_of_delete_settle mid ts i member wake :
  ts !! i = Some (SettleSleep member wake) →
  timers_of mid ts =
  ((if decide (member_id member = mid) then 1 else 0) + timers_of mid (delete i ts))%nat.
Proof.
  intros Hi. unfold timers_of, settling.
  rewrite (omap_delete_Some settle_member ts i _ (member_id member) Hi eq_refl).
  rewrite filter_cons. by case_decide.
Qed.

Lemma settling_delete_other ts i t :
  ts !! i = Some t → settle_member t = None → settling (delete i ts) ≡ₚ settling ts.
Proof. apply omap_delete_None. Qed.

Lemma settling_insert_other ts i t t' :
  ts !! i = Some t → settle_member t = None → settle_member t' = None →
  settling (<[i:=t']> ts) ≡ₚ settling ts.
Proof. apply omap_insert_None. Qed.

Lemma settling_snoc_other ts t :
  settle_member t = None → settling (ts ++ [t]) = settling ts.
Proof. intros Ht. unfold settling. rewrite omap_app. simpl. by rewrite Ht, app_nil_r. Qed.

Lemma tickets_delete_other ts i t :
  ts !! i = Some t → ticket_message t = None → tickets (delete i ts) ≡ₚ tickets ts.
Proof. apply omap_delete_None. Qed.

Lemma tickets_snoc ts t :
  tickets (ts ++ [t]) = tickets ts ++ option_list (ticket_message t).
Proof. unfold tickets. rewrite omap_app. simpl. by destruct (ticket_message t). Qed.

Lemma task_due_mono now now' t : now ≤ now' → task_due now t → task_due now' t.
Proof. intros Hle. destruct t; simpl; lia. Qed.

Lemma timers_of_pos_lookup mid ts :
  (0 < timers_of mid ts)%nat →
  ∃ i member wake, ts !! i = Some (SettleSleep member wake) ∧ member_id member = mid.
Proof.
  induction ts as [|t ts IH]; [by inversion 1|].
  change (t :: ts) with ([t] ++ ts). rewrite timers_of_app. intros Hpos.
  destruct (decide (0 < timers_of mid [t])%nat) as [Ht|Ht].
  - destruct t as [member wake| | |]; try (by inversion Ht).
    rewrite timers_of_settle in Ht. case_decide; [|lia].
    by exists 0%nat, member, wake.
  - destruct IH as (i & member & wake & Hi & Hm); [lia|].
    by exists (S i), member, wake.
Qed.

End task_facts.

(** ** Facts on the handlers *)

Section handler_facts.
Context `{PyRuntime}.
Implicit Types (s : System) (member before after : Member) (mid : Z).

Lemma on_member_update_eq s before after :
  on_member_update s before after =
  mkSystem (enqueue (bot s) before after).1
    (tasks s ++ if (enqueue (bot s) before after).2
                then [SettleSleep after (clock s + settle_delay)] else [])
    (log s) (clock s) (discord s).
Proof. unfold on_member_update. by destruct (enqueue _ _ _). Qed.

(** What [process_role_queue] leaves of the state whatever branch it
    takes: the bot is the drained one, no settling or deletion task is
    added, and the clock and the platform are untouched. *)
Lemma process_role_queue_frame s member :
  bot (process_role_queue s member) = (drain (bot s) (member_id member)).2 ∧
  settling (tasks (process_role_queue s member)) = settling (tasks s) ∧
  tickets (tasks (process_role_queue s member)) = tickets (tasks s) ∧
  clock (process_role_queue s member) = clock s ∧
  discord (process_role_queue s member) = discord s.
Proof.
  unfold process_role_queue, await_send. simpl. destruct (py_truthy _); [|done].
  destruct (send_verification_message _ _ _ _ _); simpl; [done..|].
  unfold settling, tickets. by rewrite !omap_app, !app_nil_r.
Qed.

Lemma send_reply_frame s channel content embed fault :
  bot (send_reply s channel content embed fault) = bot s ∧
  settling (tasks (send_reply s channel content embed fault)) = settling (tasks s) ∧
  clock (send_reply s channel content embed fault) = clock s.
Proof.
  unfold send_reply, channel_send. destruct fault; simpl; [by rewrite app_nil_r|].
  unfold settling. by rewrite omap_app, app_nil_r.
Qed.

Lemma delete_reply_step_frame s message fault :
  bot (delete_reply_step s message fault) = bot s ∧
  tasks (delete_reply_step s message fault) = tasks s ∧
  clock (delete_reply_step s message fault) = clock s.
Proof. unfold delete_reply_step. by destruct (delete_message _ _ _). Qed.

(** The bot object after a step: an update enqueues, the wake of a
    settling task drains, and nothing else touches it. *)
Lemma step_bot s ev s' :
  step s ev = Some s' →
  bot s' = match ev with
           | MemberUpdate before after => (enqueue (bot s) before after).1
           | Wake i =>
               match tasks s !! i with
               | Some (SettleSleep member _) => (drain (bot s) (member_id member)).2
               | _ => bot s
               end
           | _ => bot s
           end.
Proof.
  intros Hstep. destruct ev as [before after|dt|i|i fault|i fault|m]; simpl in Hstep.
  - simplify_eq. by rewrite on_member_update_eq.
  - case_decide; by simplify_eq.
  - destruct (tasks s !! i) as [[member wake| |message wake|]|]; try done;
      case_decide; simplify_eq/=; [|done].
    by destruct (process_role_queue_frame (remove_task s i) member) as [-> _].
  - destruct (tasks s !! i) as [[| member channel content embed| |]|]; simplify_eq.
    by destruct (send_reply_frame (remove_task s i) channel content embed fault) as [-> _].
  - destruct (tasks s !! i) as [[| | |message]|]; simplify_eq.
    by destruct (delete_reply_step_frame (remove_task s i) message fault) as [-> _].
  - by simplify_eq.
Qed.

(** A step that touches neither the bot nor the settling tasks keeps the
    invariant. *)
Lemma sys_inv_frame s s' :
  bot s' = bot s → settling (tasks s') ≡ₚ settling (tasks s) →
  sys_inv s → sys_inv s'.
Proof.
  intros Hb Ht (Hwf & Htab & Htim). unfold sys_inv, timer_inv. rewrite Hb.
  split_and!; [done..|]. intros mid. by rewrite (timers_of_perm mid _ _ Ht).
Qed.

Lemma on_member_update_inv s before after :
  sys_inv s → sys_inv (on_member_update s before after).
Proof.
  intros (Hwf & Htab & Htim). rewrite on_member_update_eq.
  split_and!; simpl; [by apply enqueue_wf|by rewrite enqueue_table|].
  intros mid. simpl. rewrite timers_of_app, Htim.
  destruct (decide (mid = member_id after)) as [->|Hne].
  - rewrite (enqueue_eq (bot s)). destruct (py_truthy _) eqn:Hn; simpl.
    + apply py_truthy_true in Hn. unfold queue_extend. rewrite lookup_insert_eq.
      case_bool_decide as Hlen.
      * apply queued_roles_after_extend_nil in Hlen as ->; [|done].
        by rewrite timers_of_settle, decide_True.
      * rewrite queued_roles_after_extend_nil in Hlen by done.
        by destruct (role_update_queue (bot s) !! member_id after).
    + by rewrite timers_of_nil, Nat.add_0_r.
  - rewrite enqueue_lookup_ne by done.
    destruct (enqueue _ _ _).2; [|by rewrite timers_of_nil, Nat.add_0_r].
    rewrite timers_of_settle, decide_False by done. lia.
Qed.

Lemma process_role_queue_inv s i member wake :
  tasks s !! i = Some (SettleSleep member wake) →
  sys_inv s → sys_inv (process_role_queue (remove_task s i) member).
Proof.
  intros Hi (Hwf & Htab & Htim).
  destruct (process_role_queue_frame (remove_task s i) member) as (Hb & Hs & _).
  unfold sys_inv, timer_inv. rewrite Hb. simpl.
  split_and!; [by apply drain_wf|done|].
  intros mid. unfold timers_of. rewrite Hs. fold (timers_of mid (tasks (remove_task s i))).
  specialize (Htim mid). rewrite (timers_of_delete_settle mid _ i _ _ Hi) in Htim.
  simpl. destruct (decide (mid = member_id member)) as [->|Hne].
  - rewrite lookup_delete_eq. rewrite decide_True in Htim by done.
    destruct (role_update_queue (bot s) !! member_id member); lia.
  - rewrite lookup_delete_ne by done. rewrite decide_False in Htim by done. done.
Qed.

Lemma step_preserves_inv s ev s' :
  sys_inv s → step s ev = Some s' → sys_inv s'.
Proof.
  intros Hinv Hstep. destruct ev as [before after|dt|i|i fault|i fault|m]; simpl in Hstep.
  - simplify_eq. by apply on_member_update_inv.
  - case_decide; simplify_eq. by apply (sys_inv_frame s).
  - destruct (tasks s !! i) as [[member wake| |message wake|]|] eqn:Hi; try done;
      case_decide; simplify_eq.
    + by eapply process_role_queue_inv.
    + apply (sys_inv_frame s); [done| |done]. by eapply settling_insert_other.
  - destruct (tasks s !! i) as [[|member channel content embed| |]|] eqn:Hi; simplify_eq.
    destruct (send_reply_frame (remove_task s i) channel content embed fault) as (Hb & Hs & _).
    apply (sys_inv_frame s); [done| |done]. rewrite Hs. by eapply settling_delete_other.
  - destruct (tasks s !! i) as [[| | |message]|] eqn:Hi; simplify_eq.
    destruct (delete_reply_step_frame (remove_task s i) message fault) as (Hb & Ht & _).
    apply (sys_inv_frame s); [done| |done]. rewrite Ht. by eapply settling_delete_other.
  - simplify_eq. by apply (sys_inv_frame s).
Qed.

Lemma init_system_inv d now : sys_inv (init_system d now).
Proof. split_and!; [apply map_Forall_empty|done|]. intros mid. done. Qed.

End handler_facts.

(** ** The properties of the system *)

Section system_properties.
Context `{PyRuntime}.
Implicit Types (s : System) (member before after : Member) (mid : Z).

Lemma reachable_inv s : reachable s → sys_inv s.
Proof.
  induction 1 as [d now|s ev s' _ IH Hstep]; [apply init_system_inv|].
  by eapply step_preserves_inv.
Qed.

(** The invariant holds along a run. *)
Lemma run_inv s evs s' : sys_inv s → run s evs = Some s' → sys_inv s'.
Proof.
  revert s. induction evs as [|ev evs IH]; intros s Hs Hrun; simpl in Hrun.
  - by simplify_eq.
  - destruct (step s ev) as [s1|] eqn:Hstep; [|done].
    eapply IH; [|done]. by eapply step_preserves_inv.
Qed.

Lemma run_reachable s evs s' : reachable s → run s evs = Some s' → reachable s'.
Proof.
  revert s. induction evs as [|ev evs IH]; intros s Hs Hrun; simpl in Hrun.
  - by simplify_eq.
  - destruct (step s ev) as [s1|] eqn:Hstep; [|done].
    eapply IH; [|done]. by eapply reachable_step.
Qed.

Lemma run_app s evs evs' :
  run s (evs ++ evs') = s' ← run s evs; run s' evs'.
Proof.
  revert s. induction evs as [|ev evs IH]; intros s; simpl; [done|].
  destruct (step s ev); [apply IH|done].
Qed.

Lemma run_singleton s ev : run s [ev] = step s ev.
Proof. simpl. by destruct (step s ev). Qed.

(** What the invariant says of the timers of one member. *)
Lemma timer_inv_bounds s mid :
  timer_inv s →
  (timers_of mid (tasks s) ≤ 1)%nat ∧
  (timers_of mid (tasks s) = 1%nat ↔ is_Some (role_update_queue (bot s) !! mid)).
Proof.
  intros Htim. rewrite (Htim mid).
  destruct (role_update_queue (bot s) !! mid); split; try lia.
  - split; [by eauto|done].
  - split; [done|]. by intros [? ?].
Qed.

(** C1: in every state the system reaches, a
    member has at most one settling task, and has one exactly when the
    queue holds an entry for it. *)
Theorem reachable_one_timer_per_member s mid :
  reachable s →
  (timers_of mid (tasks s) ≤ 1)%nat ∧
  (timers_of mid (tasks s) = 1%nat ↔ is_Some (role_update_queue (bot s) !! mid)).
Proof. intros (_ & _ & Htim)%reachable_inv. by apply timer_inv_bounds. Qed.

(** In every state the system reaches, every pending
    list is non-empty, holds each role id once, and holds only roles of
    the role-to-channel table set by [__init__]. *)
Lemma reachable_queue_wf s :
  reachable s →
  queue_wf (bot s) ∧ role_to_channel (bot s) = role_to_channel init_bot.
Proof. intros (? & ? & _)%reachable_inv. done. Qed.

(** C6: an update for a member that
    already has pending roles starts no task: the tasks of the system are
    unchanged, and the roles it grants join the pending list. *)
Theorem update_while_pending_spawns_nothing s before after :
  is_Some (role_update_queue (bot s) !! member_id after) →
  tasks (on_member_update s before after) = tasks s ∧
  queued_roles (role_update_queue (bot (on_member_update s before after)))
               (member_id after) =
  queued_roles (role_update_queue (bot s)) (member_id after) ++
  to_add (bot s) before after.
Proof.
  intros [l Hl]. rewrite on_member_update_eq. simpl. split; [|apply enqueue_appends].
  destruct (enqueue _ _ _).2 eqn:Hspawn; [|by rewrite app_nil_r].
  apply enqueue_spawn_iff in Hspawn as [Hnone _]. congruence.
Qed.

(** When a settling task wakes in a state of the invariant
    the queue holds a non-empty list for its member: the guard
    [if roles:] of [process_role_queue] never fails there. *)
Lemma settling_task_finds_roles s i member wake :
  sys_inv s → tasks s !! i = Some (SettleSleep member wake) →
  ∃ roles, role_update_queue (bot s) !! member_id member = Some roles ∧
           entry_wf (role_to_channel init_bot) roles.
Proof.
  intros (Hwf & Htab & Htim) Hi.
  specialize (Htim (member_id member)).
  rewrite (timers_of_delete_settle _ _ i _ _ Hi), decide_True in Htim by done.
  destruct (role_update_queue (bot s) !! member_id member) as [roles|] eqn:Hq; [|lia].
  exists roles. split; [done|]. rewrite <-Htab. by apply (Hwf (member_id member)).
Qed.

(** The wake of a settling task in a state of the invariant: the member's
    entry is there and well formed, it leaves the queue, and
    [send_verification_message] is called on it. *)
Lemma wake_settle s i member wake :
  sys_inv s → tasks s !! i = Some (SettleSleep member wake) → wake ≤ clock s →
  ∃ roles,
    role_update_queue (bot s) !! member_id member = Some roles ∧
    entry_wf (role_to_channel init_bot) roles ∧
    step s (Wake i) =
      Some (await_send
              (mkSystem
                 (set_queue (bot s) (delete (member_id member) (role_update_queue (bot s))))
                 (delete i (tasks s)) (log s) (clock s) (discord s))
              member
              (send_verification_message (discord s) (clock s) member roles
                 (role_to_channel init_bot))).
Proof.
  intros Hs Hi Hwake.
  destruct (settling_task_finds_roles s i member wake Hs Hi) as (roles & Hq & Hwf).
  destruct Hs as (_ & Htab & _).
  exists roles. split_and!; [done..|]. destruct Hwf as (Hne & Hnd & _).
  simpl. rewrite Hi, decide_True by done. unfold process_role_queue, drain. simpl.
  rewrite Hq. simpl. rewrite set_of_id, Htab by done. by destruct roles.
Qed.

(** C5: when the settling task of a member wakes
    (in a reachable state, with the verification channel cached and a
    member that has an avatar), the member's entry leaves the queue and
    exactly one notification is started, whose fields are those of the
    roles pending at that instant, one for each. *)
Theorem wake_sends_pending_roles s i member wake url :
  reachable s → tasks s !! i = Some (SettleSleep member wake) → wake ≤ clock s →
  verification_channel_id ∈ channels (discord s) → member_avatar member = Some url →
  ∃ roles embed,
    role_update_queue (bot s) !! member_id member = Some roles ∧
    step s (Wake i) =
      Some (mkSystem
              (set_queue (bot s) (delete (member_id member) (role_update_queue (bot s))))
              (delete i (tasks s) ++
               [SendPending member verification_channel_id (member_mention member) embed])
              (log s) (clock s) (discord s)) ∧
    embed_fields embed ≡ₚ role_field (role_to_channel init_bot) <$> roles.
Proof.
  intros Hs Hi Hwake Hch Hav.
  destruct (wake_settle s i member wake (reachable_inv s Hs) Hi Hwake)
    as (roles & Hq & (Hne & _ & Hin) & ->).
  destruct (send_fields (discord s) (clock s) member roles
              (role_to_channel init_bot) url Hch Hav Hne Hin) as (embed & -> & Hfields).
  by exists roles, embed.
Qed.

(** C9: when the settling task of a member
    without a custom avatar wakes, [member.avatar.url] raises
    [AttributeError] after the roles have left the queue: nothing is
    sent, the roles are not queued again, and the only trace is the error
    that the [except Exception] of [on_member_update] logs. *)
Theorem wake_without_avatar_loses_roles s i member wake :
  reachable s → tasks s !! i = Some (SettleSleep member wake) → wake ≤ clock s →
  verification_channel_id ∈ channels (discord s) → member_avatar member = None →
  step s (Wake i) =
    Some (mkSystem
            (set_queue (bot s) (delete (member_id member) (role_update_queue (bot s))))
            (delete i (tasks s))
            (log s ++ [mkLog ERROR
               "Error in on_member_update: 'NoneType' object has no attribute 'url'"])
            (clock s) (discord s)).
Proof.
  intros Hs Hi Hwake Hch Hav.
  destruct (wake_settle s i member wake (reachable_inv s Hs) Hi Hwake) as (roles & _ & _ & ->).
  by rewrite send_without_avatar.
Qed.

(** C12: a step changes the pending list of no
    member but the one its event is about: an update of one member or the
    wake of its settling task leaves every other member's list as it
    was, and no other event changes any list. *)
Theorem steps_leave_other_members s ev s' mid :
  step s ev = Some s' → event_member s ev ≠ Some mid →
  role_update_queue (bot s') !! mid = role_update_queue (bot s) !! mid.
Proof.
  intros ->%step_bot Hmid. destruct ev as [before after|?|i|? ?|? ?|?]; try done; simpl in *.
  - apply enqueue_lookup_ne. congruence.
  - destruct (tasks s !! i) as [[member wake| | |]|]; try done.
    simpl. apply lookup_delete_ne. simpl in Hmid. congruence.
Qed.

(** When [channel.send] fails the error is
    logged once, no message exists, no deletion is scheduled, and the
    queue is as it was: the roles are not queued again. *)
Theorem failed_send_leaves_no_ticket s i member channel content embed e :
  tasks s !! i = Some (SendPending member channel content embed) →
  step s (SendReply i (Some e)) =
  Some (mkSystem (bot s) (delete i (tasks s))
          (log s ++ [mkLog ERROR ("Failed to send verification message: " +:+ http_text e)])
          (clock s) (discord s)).
Proof. intros Hi. simpl. rewrite Hi. unfold send_reply. simpl. by rewrite app_nil_r. Qed.

(** When [channel.send] succeeds the
    message exists on the platform and exactly one deletion task is
    started for it, due a day after the answer; nothing is logged. *)
Theorem sent_message_gets_one_ticket s i member channel content embed :
  tasks s !! i = Some (SendPending member channel content embed) →
  let message := mkMessage (next_message_id (discord s)) channel content (Some embed) in
  step s (SendReply i None) =
  Some (mkSystem (bot s)
          (delete i (tasks s) ++ [DeleteSleep message (clock s + 86400)])
          (log s) (clock s)
          (mkPlatform (channels (discord s))
             (<[message_id message := message]> (messages (discord s)))
             (next_message_id (discord s) + 1))).
Proof. intros Hi. simpl. rewrite Hi. unfold send_reply. simpl. by rewrite app_nil_r. Qed.

(** When the message of a ticket
    has been deleted by someone else, the answer to [message.delete()] is
    [NotFound] and the ticket ends without logging anything and without
    touching the platform or the queue. *)
Theorem delete_of_missing_message_is_benign s i message :
  tasks s !! i = Some (DeletePending message) →
  messages (discord s) !! message_id message = None →
  step s (DeleteReply i None) = Some (remove_task s i).
Proof.
  intros Hi Hm. simpl. rewrite Hi. unfold delete_reply_step. simpl.
  rewrite delete_gone by done. by rewrite app_nil_r.
Qed.

(** No answer of the platform, to a send or to a
    deletion, and no deletion by another user changes the bot object: the
    pending roles are out of reach of the notifier and of the tickets. *)
Theorem replies_keep_queue s ev s' :
  step s ev = Some s' →
  (∀ before after, ev ≠ MemberUpdate before after) → (∀ i, ev ≠ Wake i) →
  bot s' = bot s.
Proof.
  intros ->%step_bot Hupd Hwake. destruct ev as [before after|?|i|? ?|? ?|?]; try done.
  - by destruct (Hupd before after).
  - by destruct (Hwake i).
Qed.

End system_properties.

(** ** Deadlines and tickets *)

Section more_invariants.
Context `{PyRuntime}.
Implicit Types (s : System) (member before after : Member) (mid : Z).

Lemma process_role_queue_tasks s member :
  ∃ ts, tasks (process_role_queue s member) = tasks s ++ ts ∧
        Forall (λ t, settle_member t = None ∧ ticket_message t = None) ts.
Proof.
  unfold process_role_queue, await_send. simpl. destruct (py_truthy _).
  - destruct (send_verification_message _ _ _ _ _); simpl;
      [exists []; by rewrite app_nil_r..|].
    eexists [_]. split; [done|]. by repeat constructor.
  - exists []. by rewrite app_nil_r.
Qed.

Lemma step_clock s ev s' : step s ev = Some s' → clock s ≤ clock s'.
Proof.
  intros Hstep. destruct ev as [before after|dt|i|i fault|i fault|m]; simpl in Hstep.
  - simplify_eq. by rewrite on_member_update_eq.
  - case_decide; simplify_eq/=. lia.
  - destruct (tasks s !! i) as [[member wake| |message wake|]|]; try done;
      case_decide; simplify_eq/=; [|done].
    by destruct (process_role_queue_frame (remove_task s i) member) as (_&_&_&->&_).
  - destruct (tasks s !! i) as [[|member channel content embed| |]|]; simplify_eq.
    by destruct (send_reply_frame (remove_task s i) channel content embed fault) as (_&_&->).
  - destruct (tasks s !! i) as [[| | |message]|]; simplify_eq.
    by destruct (delete_reply_step_frame (remove_task s i) message fault) as (_&_&->).
  - by simplify_eq.
Qed.

Lemma deadline_inv_step s ev s' :
  deadline_inv s → step s ev = Some s' → deadline_inv s'.
Proof.
  unfold deadline_inv. intros Hinv Hstep.
  destruct ev as [before after|dt|i|i fault|i fault|m]; simpl in Hstep.
  - simplify_eq. rewrite on_member_update_eq. simpl. apply Forall_app. split; [done|].
    destruct (enqueue _ _ _).2; repeat constructor. simpl. lia.
  - case_decide; simplify_eq/=.
    eapply Forall_impl; [done|]. intros t. apply task_due_mono. lia.
  - destruct (tasks s !! i) as [[member wake| |message wake|]|] eqn:Hi; try done;
      case_decide; simplify_eq/=.
    + destruct (process_role_queue_frame (remove_task s i) member) as (_&_&_&->&_).
      destruct (process_role_queue_tasks (remove_task s i) member) as (ts & -> & Hts).
      simpl. apply Forall_app. split; [by apply Forall_delete|].
      eapply Forall_impl; [done|]. by intros [] [??].
    + by apply Forall_insert.
  - destruct (tasks s !! i) as [[|member channel content embed| |]|]; simplify_eq.
    unfold send_reply, channel_send. destruct fault; simpl;
      (apply Forall_app; split; [by apply Forall_delete|]); repeat constructor.
    simpl. unfold ticket_wake. lia.
  - destruct (tasks s !! i) as [[| | |message]|]; simplify_eq.
    destruct (delete_reply_step_frame (remove_task s i) message fault) as (_&->&->).
    by apply Forall_delete.
  - by simplify_eq.
Qed.

Lemma reachable_deadline_inv s : reachable s → deadline_inv s.
Proof.
  induction 1 as [d now|s ev s' _ IH Hstep]; [constructor|].
  by eapply deadline_inv_step.
Qed.

(** C14: no pending list is stuck: whenever a
    member has pending roles, its settling task is due within five
    seconds, and letting five seconds pass and that task run removes the
    member's entry from the queue. *)
Theorem pending_member_is_flushed s mid roles :
  reachable s → role_update_queue (bot s) !! mid = Some roles →
  ∃ i s', run s [Tick settle_delay; Wake i] = Some s' ∧
          role_update_queue (bot s') !! mid = None ∧
          timers_of mid (tasks s') = 0%nat.
Proof.
  intros Hs Hq. pose proof (reachable_inv s Hs) as (_ & _ & Htim).
  destruct (timers_of_pos_lookup mid (tasks s)) as (i & member & wake & Hi & <-).
  { rewrite (Htim mid), Hq. lia. }
  assert (wake ≤ clock s + settle_delay) as Hdue.
  { pose proof (reachable_deadline_inv s Hs) as Hd.
    by apply (Forall_lookup_1 _ _ _ _ Hd Hi). }
  exists i. eexists. simpl. rewrite Hi, decide_True by done. split; [done|].
  assert (reachable (process_role_queue
            (remove_task (mkSystem (bot s) (tasks s) (log s) (clock s + settle_delay)
                            (discord s)) i) member)) as Hs'.
  { eapply (run_reachable s [Tick settle_delay; Wake i]); [done|].
    simpl. by rewrite Hi, decide_True. }
  apply reachable_inv in Hs' as (_ & _ & Htim').
  destruct (process_role_queue_frame
    (remove_task (mkSystem (bot s) (tasks s) (log s) (clock s + settle_delay)
                    (discord s)) i) member) as (Hb & _).
  specialize (Htim' (member_id member)). rewrite Hb in Htim' |- *. simpl in *.
  rewrite lookup_delete_eq in Htim' |- *. done.
Qed.

(** How a step changes the deletion tasks: not at all, by one new ticket
    for the message just sent, or by the end of one ticket. *)
Lemma step_tickets s ev s' :
  step s ev = Some s' →
  next_message_id (discord s) ≤ next_message_id (discord s') ∧
  (tickets (tasks s') ≡ₚ tickets (tasks s) ∨
   (∃ m, tickets (tasks s') ≡ₚ m :: tickets (tasks s) ∧
         message_id m = next_message_id (discord s) ∧
         next_message_id (discord s') = next_message_id (discord s) + 1) ∨
   (∃ m, tickets (tasks s) ≡ₚ m :: tickets (tasks s'))).
Proof.
  intros Hstep. destruct ev as [before after|dt|i|i fault|i fault|m]; simpl in Hstep.
  - simplify_eq. rewrite on_member_update_eq. simpl. split; [done|]. left.
    destruct (enqueue _ _ _).2; [by rewrite tickets_snoc, app_nil_r|by rewrite app_nil_r].
  - case_decide; simplify_eq/=. by split; [|left].
  - destruct (tasks s !! i) as [[member wake| |message wake|]|] eqn:Hi; try done;
      case_decide; simplify_eq/=.
    + destruct (process_role_queue_frame (remove_task s i) member) as (_&_&->&_&->).
      split; [done|]. left. by eapply tickets_delete_other.
    + split; [done|]. left. by eapply omap_insert_Some.
  - destruct (tasks s !! i) as [[|member channel content embed| |]|] eqn:Hi; simplify_eq.
    unfold send_reply, channel_send. destruct fault; simpl.
    + split; [done|]. left. rewrite app_nil_r. by eapply tickets_delete_other.
    + split; [lia|]. right. left.
      exists (mkMessage (next_message_id (discord s)) channel content (Some embed)).
      split_and!; [|done..].
      rewrite tickets_snoc. simpl. rewrite <-Permutation_cons_append.
      apply perm_skip. by eapply tickets_delete_other.
  - destruct (tasks s !! i) as [[| | |message]|] eqn:Hi; simplify_eq.
    destruct (delete_reply_step_frame (remove_task s i) message fault) as (_&->&_).
    split.
    + unfold delete_reply_step, delete_message, message_delete. simpl.
      destruct fault; [done|]. by destruct (messages (discord s) !! message_id message).
    + right. right. exists message. by eapply omap_delete_Some.
  - simplify_eq. by split; [|left].
Qed.

Lemma ticket_inv_step s ev s' :
  ticket_inv s → step s ev = Some s' → ticket_inv s'.
Proof.
  intros [Hnd Hlt] Hstep. unfold ticket_inv.
  destruct (step_tickets s ev s' Hstep) as (Hnext & [Hp|[(m & Hp & Hm & Hn)|(m & Hp)]]).
  - rewrite Hp. split; [done|]. eapply Forall_impl; [done|]. intros; simpl in *; lia.
  - rewrite Hp, fmap_cons, NoDup_cons, Forall_cons. split_and!; [|done|lia|].
    + intros (m' & Hid & Hm')%list_elem_of_fmap.
      rewrite Forall_forall in Hlt. specialize (Hlt m' Hm'). simpl in Hlt. lia.
    + eapply Forall_impl; [done|]. intros; simpl in *; lia.
  - rewrite Hp, fmap_cons, NoDup_cons, Forall_cons in *. destruct Hnd, Hlt.
    split; [done|]. eapply Forall_impl; [done|]. intros; simpl in *; lia.
Qed.

(** C21: in every state the system reaches no two
    deletion tasks hold the same message: a message sent is deleted by
    one task, once. *)
Theorem one_ticket_per_message s :
  reachable s → NoDup (message_id <$> tickets (tasks s)).
Proof.
  intros Hs. enough (ticket_inv s) as [? _] by done.
  induction Hs as [d now|s ev s' _ IH Hstep]; [by split; constructor|].
  by eapply ticket_inv_step.
Qed.

End more_invariants.

(** ** Conservation *)

Section conservation.
Context `{PyRuntime}.
Implicit Types (s : System) (ev : Event) (evs : list Event).

(** A step moves roles into the queue or out of it, and makes or loses
    none. *)
Lemma step_conserves s ev s' :
  step s ev = Some s' →
  handed s ev ++ pending_pairs (role_update_queue (bot s')) ≡ₚ
  pending_pairs (role_update_queue (bot s)) ++ admitted s ev.
Proof.
  intros ->%step_bot. destruct ev as [before after|?|i|? ?|? ?|?]; simpl;
    rewrite ?app_nil_r; try done.
  - apply enqueue_conserves.
  - destruct (tasks s !! i) as [[member wake| | |]|]; simpl; rewrite ?app_nil_r; try done.
    apply drain_conserves.
Qed.

(** C4: along every run the roles
    that update events made pending are the roles handed to the notifier
    at the wakes together with the roles still pending, each as often:
    the queue loses no role and hands none over twice. *)
Theorem run_conserves_roles s evs s' :
  run s evs = Some s' →
  tally handed s evs ++ pending_pairs (role_update_queue (bot s')) ≡ₚ
  pending_pairs (role_update_queue (bot s)) ++ tally admitted s evs.
Proof.
  revert s. induction evs as [|ev evs IH]; intros s Hrun; simpl in *.
  - simplify_eq. by rewrite app_nil_r.
  - destruct (step s ev) as [s1|] eqn:Hstep; [|done].
    rewrite <-(assoc_L (++)), (IH s1 Hrun), !(assoc_L (++)).
    by rewrite (step_conserves s ev s1 Hstep).
Qed.

End conservation.

(** ** Bursts of grants *)

Section burst_facts.
Context `{PyRuntime}.
Implicit Types (s : System) (m : Member) (r : Role) (gs : list (Z * Role)).

(** A burst for a member that has roles pending only lengthens the
    member's pending list: no task is started, whatever time it takes. *)
Lemma burst_pending s m gs l :
  role_update_queue (bot s) !! member_id m = Some l →
  NoDup (role_id <$> member_roles m ++ gs.*2) →
  NoDup (role_id <$> l ++ gs.*2) →
  Forall (λ r, role_id r ∈ dict_keys (role_to_channel (bot s))) gs.*2 →
  Forall (λ g, 0 ≤ g.1) gs →
  run s (burst m gs) =
  Some (mkSystem
          (set_queue (bot s) (<[member_id m := l ++ gs.*2]> (role_update_queue (bot s))))
          (tasks s) (log s) (clock s + burst_time gs) (discord s)).
Proof.
  revert s m l. induction gs as [|[dt r] gs IH]; intros s m l Hl Hm Hq Htab Hdt.
  - simpl. rewrite app_nil_r, insert_id, set_queue_id, Z.add_0_r by done. by destruct s.
  - apply Forall_cons in Htab as [Hr Htab]. apply Forall_cons in Hdt as [Hdt0 Hdt].
    csimpl in *. rewrite cons_middle, (assoc_L (++)) in Hm, Hq.
    rewrite decide_True, on_member_update_eq by done. csimpl.
    rewrite enqueue_grant; csimpl; unfold queued_roles; rewrite ?Hl; csimpl;
      [|by eapply NoDup_fmap_app_l|done|by eapply NoDup_fmap_snoc, NoDup_fmap_app_l].
    rewrite app_nil_r.
    rewrite (IH _ (grant r m) (l ++ [r])); csimpl;
      [|by rewrite lookup_insert_eq|done..].
    rewrite insert_insert_eq, <-(assoc_L (++)). unfold burst_time. csimpl.
    do 2 f_equal. lia.
Qed.

(** A burst for a member that has nothing pending starts one settling
    task, at its first grant, and leaves all the roles granted pending,
    in the order of the grants. *)
Lemma burst_fresh s m dt r gs :
  role_update_queue (bot s) !! member_id m = None →
  NoDup (role_id <$> member_roles m ++ r :: gs.*2) →
  Forall (λ r, role_id r ∈ dict_keys (role_to_channel (bot s))) (r :: gs.*2) →
  0 ≤ dt → Forall (λ g, 0 ≤ g.1) gs →
  run s (burst m ((dt, r) :: gs)) =
  Some (mkSystem
          (set_queue (bot s) (<[member_id m := r :: gs.*2]> (role_update_queue (bot s))))
          (tasks s ++ [SettleSleep (grant r m) (clock s + dt + settle_delay)])
          (log s) (clock s + dt + burst_time gs) (discord s)).
Proof.
  intros Hq Hm Htab Hdt0 Hdt. apply Forall_cons in Htab as [Hr Htab].
  pose proof (NoDup_fmap_app_r _ _ _ Hm) as Hnew.
  rewrite cons_middle, (assoc_L (++)) in Hm. csimpl.
  rewrite decide_True, on_member_update_eq by done. csimpl.
  rewrite enqueue_grant; csimpl; unfold queued_roles; rewrite ?Hq; csimpl;
    [|by eapply NoDup_fmap_app_l|done|by apply not_elem_of_nil].
  rewrite (burst_pending _ (grant r m) gs [r]); csimpl;
    [by rewrite insert_insert_eq|by rewrite lookup_insert_eq|done..].
Qed.

(** A burst for a member that has nothing pending, then the wake of the
    settling task it started: one notification, for all the roles of the
    burst. *)
Lemma burst_wake s m dt r gs wait url :
  sys_inv s →
  role_update_queue (bot s) !! member_id m = None →
  NoDup (role_id <$> member_roles m ++ r :: gs.*2) →
  Forall (λ r, role_id r ∈ dict_keys (role_to_channel init_bot)) (r :: gs.*2) →
  0 ≤ dt → Forall (λ g, 0 ≤ g.1) gs → 0 ≤ wait → settle_delay ≤ burst_time gs + wait →
  verification_channel_id ∈ channels (discord s) → member_avatar m = Some url →
  ∃ embed,
    run s (burst m ((dt, r) :: gs) ++ [Tick wait; Wake (length (tasks s))]) =
    Some (mkSystem (bot s)
            (tasks s ++ [SendPending (grant r m) verification_channel_id
                           (member_mention m) embed])
            (log s) (clock s + dt + burst_time gs + wait) (discord s)) ∧
    embed_fields embed ≡ₚ role_field (role_to_channel init_bot) <$> (r :: gs.*2).
Proof.
  intros Hs Hq Hm Htab Hdt0 Hdt Hwait Hdue Hch Hav.
  pose proof Hs as (_ & Htable & _).
  assert (run s (burst m ((dt, r) :: gs) ++ [Tick wait]) = Some (mkSystem
    (set_queue (bot s) (<[member_id m := r :: gs.*2]> (role_update_queue (bot s))))
    (tasks s ++ [SettleSleep (grant r m) (clock s + dt + settle_delay)])
    (log s) (clock s + dt + burst_time gs + wait) (discord s))) as Hrun.
  { rewrite run_app, burst_fresh by by rewrite ?Htable. simpl.
    by rewrite decide_True by done. }
  pose proof (run_inv _ _ _ Hs Hrun) as Hs'.
  destruct (wake_settle _ (length (tasks s)) (grant r m) (clock s + dt + settle_delay) Hs')
    as (roles & Hroles & _ & Hstep);
    [by apply list_lookup_middle|simpl; lia|].
  cbn [bot tasks log clock discord role_update_queue set_queue member_id grant]
    in Hroles, Hstep.
  rewrite lookup_insert_eq in Hroles. injection Hroles as <-.
  destruct (send_fields (discord s) (clock s + dt + burst_time gs + wait) (grant r m)
              (r :: gs.*2) (role_to_channel init_bot) url Hch Hav) as (embed & Hsend & Hf);
    [done..|].
  exists embed. split; [|done].
  rewrite cons_middle, (assoc_L (++)), run_app, Hrun. cbn [mbind option_bind].
  rewrite run_singleton, Hstep, Hsend. simpl.
  rewrite delete_insert_eq, delete_id, delete_middle, app_nil_r by done.
  by destruct (bot s).
Qed.

(** C3: the roles of a burst are announced in one message.  In a
    reachable state in which the member has nothing pending, a burst of
    grants of roles of the table, followed by the wake of the settling
    task once its five seconds have passed, starts exactly one
    notification: it names the member, its fields are those of all the
    roles granted, one for each, and the queue is as it was before the
    burst. *)
Theorem burst_coalesces_into_one_notification s m dt r gs wait url :
  reachable s →
  role_update_queue (bot s) !! member_id m = None →
  NoDup (role_id <$> member_roles m ++ r :: gs.*2) →
  Forall (λ r, role_id r ∈ dict_keys (role_to_channel init_bot)) (r :: gs.*2) →
  0 ≤ dt → Forall (λ g, 0 ≤ g.1) gs → 0 ≤ wait → settle_delay ≤ burst_time gs + wait →
  verification_channel_id ∈ channels (discord s) → member_avatar m = Some url →
  ∃ embed,
    run s (burst m ((dt, r) :: gs) ++ [Tick wait; Wake (length (tasks s))]) =
    Some (mkSystem (bot s)
            (tasks s ++ [SendPending (grant r m) verification_channel_id
                           (member_mention m) embed])
            (log s) (clock s + dt + burst_time gs + wait) (discord s)) ∧
    embed_fields embed ≡ₚ role_field (role_to_channel init_bot) <$> (r :: gs.*2).
Proof. intros Hs%reachable_inv. by apply burst_wake. Qed.

End burst_facts.

(** ** Witnesses and the sample run *)

Section system_witnesses.
Import Sample Scenario.
#[local] Existing Instance insertion_order_runtime.

Lemma run_from_start_reachable evs :
  is_Some (run start evs) → reachable (run_from_start evs).
Proof.
  intros [s Hs]. unfold run_from_start. rewrite Hs. simpl.
  eapply run_reachable; [apply reachable_init|done].
Qed.

Lemma reachable_one_timer_per_member_witness :
  (timers_of 42 (tasks pending) ≤ 1)%nat ∧
  (timers_of 42 (tasks pending) = 1%nat ↔
   is_Some (role_update_queue (bot pending) !! 42)).
Proof.
  apply reachable_one_timer_per_member, run_from_start_reachable.
  compute_decide.
Defined.

Lemma update_while_pending_spawns_nothing_witness :
  tasks (on_member_update pending (bob [alpha; beta]) (bob [alpha; beta; gamma])) =
    tasks pending ∧
  queued_roles (role_update_queue
    (bot (on_member_update pending (bob [alpha; beta]) (bob [alpha; beta; gamma])))) 42 =
  queued_roles (role_update_queue (bot pending)) 42 ++
  to_add (bot pending) (bob [alpha; beta]) (bob [alpha; beta; gamma]).
Proof.
  apply (update_while_pending_spawns_nothing pending (bob [alpha; beta])
           (bob [alpha; beta; gamma])).
  compute_decide.
Defined.

Lemma wake_sends_pending_roles_witness :
  ∃ roles embed,
    role_update_queue (bot settled) !! 42 = Some roles ∧
    step settled (Wake 0) =
      Some (mkSystem
              (set_queue (bot settled) (delete 42 (role_update_queue (bot settled))))
              (delete 0%nat (tasks settled) ++
               [SendPending (bob [alpha]) verification_channel_id
                  (member_mention (bob [alpha])) embed])
              (log settled) (clock settled) (discord settled)) ∧
    embed_fields embed ≡ₚ role_field (role_to_channel init_bot) <$> roles.
Proof.
  apply (wake_sends_pending_roles settled 0 (bob [alpha]) 5 avatar_url);
    [apply run_from_start_reachable| | | |];
    first [by vm_compute|compute_decide].
Defined.

Lemma wake_without_avatar_loses_roles_witness :
  step carol_settled (Wake 0) =
    Some (mkSystem
            (set_queue (bot carol_settled)
               (delete 43 (role_update_queue (bot carol_settled))))
            (delete 0%nat (tasks carol_settled))
            (log carol_settled ++ [mkLog ERROR
               "Error in on_member_update: 'NoneType' object has no attribute 'url'"])
            (clock carol_settled) (discord carol_settled)).
Proof.
  apply (wake_without_avatar_loses_roles carol_settled 0 (carol [alpha]) 5);
    [apply run_from_start_reachable| | | |];
    first [by vm_compute|compute_decide].
Defined.

Lemma steps_leave_other_members_witness :
  role_update_queue (bot (on_member_update pending (carol []) (carol [alpha]))) !! 42 =
  role_update_queue (bot pending) !! 42.
Proof.
  by apply (steps_leave_other_members pending (MemberUpdate (carol []) (carol [alpha]))).
Defined.

Lemma pending_member_is_flushed_witness :
  ∃ i s', run pending [Tick settle_delay; Wake i] = Some s' ∧
          role_update_queue (bot s') !! 42 = None ∧
          timers_of 42 (tasks s') = 0%nat.
Proof.
  apply (pending_member_is_flushed pending 42 [alpha; beta]);
    [apply run_from_start_reachable|];
    first [by vm_compute|compute_decide].
Defined.

Lemma failed_send_leaves_no_ticket_witness :
  step notifying (SendReply 0 (Some (mkHTTP OtherHTTP "503 Service Unavailable"))) =
  Some (mkSystem (bot notifying) (delete 0%nat (tasks notifying))
          (log notifying ++
           [mkLog ERROR ("Failed to send verification message: " +:+
                         http_text (mkHTTP OtherHTTP "503 Service Unavailable"))])
          (clock notifying) (discord notifying)).
Proof. eapply failed_send_leaves_no_ticket. by vm_compute. Defined.

Lemma sent_message_gets_one_ticket_witness :
  ∃ channel content embed,
    step notifying (SendReply 0 None) =
    Some (mkSystem (bot notifying)
            (delete 0%nat (tasks notifying) ++
             [DeleteSleep (mkMessage 9000 channel content (Some embed)) (5 + 86400)])
            (log notifying) 5
            (mkPlatform (channels (discord notifying))
               (<[9000 := mkMessage 9000 channel content (Some embed)]>
                  (messages (discord notifying)))
               (9000 + 1))).
Proof.
  eexists _, _, _. eapply (sent_message_gets_one_ticket notifying 0 (bob [alpha])).
  by vm_compute.
Defined.

Lemma one_ticket_per_message_witness :
  NoDup (message_id <$> tickets (tasks sent)).
Proof.
  apply one_ticket_per_message, run_from_start_reachable.
  compute_decide.
Defined.

Lemma delete_of_missing_message_is_benign_witness :
  step orphaned (DeleteReply 0 None) = Some (remove_task orphaned 0).
Proof. eapply delete_of_missing_message_is_benign; by vm_compute. Defined.

Lemma replies_keep_queue_witness : bot settled = bot pending.
Proof.
  apply (replies_keep_queue pending (Tick 2) settled); [by vm_compute|done..].
Defined.

Lemma run_conserves_roles_witness :
  tally handed start (grants ++ [Tick 2; Wake 0%nat]) ++
    pending_pairs (role_update_queue (bot notifying)) ≡ₚ
  pending_pairs (role_update_queue (bot start)) ++
    tally admitted start (grants ++ [Tick 2; Wake 0%nat]).
Proof. by apply (run_conserves_roles start (grants ++ [Tick 2; Wake 0%nat]) notifying). Defined.

Lemma burst_coalesces_into_one_notification_witness :
  ∃ embed,
    run start (burst (bob []) [(0, alpha); (3, beta)] ++ [Tick 2; Wake 0%nat]) =
    Some (mkSystem init_bot
            [SendPending (bob [alpha]) verification_channel_id "<@42>" embed]
            [] 5 world) ∧
    embed_fields embed ≡ₚ role_field (role_to_channel init_bot) <$> [alpha; beta].
Proof.
  apply (burst_coalesces_into_one_notification start (bob []) 0 alpha [(3, beta)] 2
           avatar_url);
    first [done|by vm_compute|apply reachable_init|compute_decide].
Defined.

(** Two grants to one member
    within the settling window give one notification that names both
    roles, in the plural, with one field for each, and one ticket due a
    day after the message was sent; the queue is empty again and nothing
    is logged. *)
Example scenario_two_grants_one_notification :
  ∃ embed,
    run start (grants ++ [Tick 2; Wake 0%nat; SendReply 0 None]) =
    Some (mkSystem init_bot
            [DeleteSleep (mkMessage 9000 verification_channel_id "<@42>" (Some embed)) 86405]
            [] 5
            (mkPlatform {[ verification_channel_id ]}
               {[ 9000 := mkMessage 9000 verification_channel_id "<@42>" (Some embed) ]}
               9001)) ∧
    embed_description embed =
      "You have been successfully verified for **Alpha** and **Beta**. " +:+
      "For complete documentation of the plugins, please access the posts below." ∧
    embed_fields embed = [mkField "Alpha" "<#1200047665442979860>" true;
                          mkField "Beta" "<#1195736480950276196>" true].
Proof. eexists. split_and!; vm_compute; reflexivity. Qed.

End system_witnesses.
