(* ===== verification/Spec.v ===== *)
(** * Spec: the coalescing state machine of the design, and the proof
    that the bot implements it

    The design states the subsystem as a machine over two things per
    member: the set of roles pending, and the settling timers running.
    [spec_enqueue] and [spec_flush] are its two operations, written from
    sections 4.1 and 4.2 of the design.  The machine knows nothing of
    lists, dictionaries or tasks.

    [abstraction] reads a state of the system as a state of the machine:
    the queue with each list read as the set of its role ids, and the
    settling tasks read as the multiset of their members.  The refinement
    theorems show that every step the code takes is the step of the
    machine for the corresponding label, so everything the machine
    guarantees the code guarantees. *)

From stdpp Require Import base tactics option list strings gmap gmultiset.
From S2P Require Import Prelude Discord Queue Notifier Ticket Bot.

Set Warnings "-clear-no-such-hyp".
#[local] Open Scope Z_scope.

(** ** The machine *)

Record Spec : Type := mkSpec {
  pending : gmap Z (gset Z);
  timers : gmultiset Z;
}.

(** The state of one member. *)
Inductive MemberState : Type :=
| QUIESCENT
| PENDING (roles : gset Z).

Definition member_state (a : Spec) (mid : Z) : MemberState :=
  match pending a !! mid with
  | Some roles => PENDING roles
  | None => QUIESCENT
  end.

Inductive Label : Type :=
| Enqueue (mid : Z) (before after : gset Z)
| Flush (mid : Z)
| Silent.

(** Section 4.1: the eligible part of [after - before]; nothing to do
    when it is empty or already pending; otherwise the roles join the
    pending set, and a timer is started when the set was empty before. *)
Definition spec_enqueue (table : gset Z) (a : Spec) (mid : Z) (before after : gset Z) :
    Spec :=
  let granted := (after ∖ before) ∩ table in
  if decide (granted = ∅) then a else
  let pend := default ∅ (pending a !! mid) in
  let to_add := granted ∖ pend in
  if decide (to_add = ∅) then a else
  mkSpec (<[mid := pend ∪ to_add]> (pending a))
         (if decide (pend = ∅) then {[+ mid +]} ⊎ timers a else timers a).

(** Section 4.2: a timer of the member fires; the pending set is removed
    and handed to the notifier. *)
Definition spec_flush (a : Spec) (mid : Z) : option (Spec * gset Z) :=
  if decide (mid ∈ timers a)
  then Some (mkSpec (delete mid (pending a)) (timers a ∖ {[+ mid +]}),
             default ∅ (pending a !! mid))
  else None.

Definition spec_step (table : gset Z) (a : Spec) (l : Label) : option Spec :=
  match l with
  | Enqueue mid before after => Some (spec_enqueue table a mid before after)
  | Flush mid => fst <$> spec_flush a mid
  | Silent => Some a
  end.

Fixpoint spec_run (table : gset Z) (a : Spec) (ls : list Label) : option Spec :=
  match ls with
  | [] => Some a
  | l :: ls' =>
      match spec_step table a l with
      | Some a' => spec_run table a' ls'
      | None => None
      end
  end.

(** What the design promises of the machine: a member has a timer exactly
    when it has pending roles, never two, and a pending set is never
    empty. *)
Definition spec_inv (a : Spec) : Prop :=
  ∀ mid, match pending a !! mid with
         | Some roles => roles ≠ ∅ ∧ multiplicity mid (timers a) = 1%nat
         | None => multiplicity mid (timers a) = 0%nat
         end.

(** ** Reading the system as the machine *)

Definition role_ids (l : list Role) : gset Z := list_to_set (role_id <$> l).

Definition table_ids (b : RoleManagerBot) : gset Z :=
  list_to_set (dict_keys (role_to_channel b)).

Definition abstraction (s : System) : Spec :=
  mkSpec (role_ids <$> role_update_queue (bot s))
         (list_to_set_disj (settling (tasks s))).

Definition label_of (s : System) (ev : Event) : Label :=
  match ev with
  | MemberUpdate before after =>
      Enqueue (member_id after) (role_ids (member_roles before))
              (role_ids (member_roles after))
  | Wake i =>
      match tasks s !! i with
      | Some (SettleSleep member _) => Flush (member_id member)
      | _ => Silent
      end
  | _ => Silent
  end.

Section labels.
Context `{PyRuntime}.

(** The labels of a run, each read in the state its event happens in. *)
Fixpoint labels_of (s : System) (evs : list Event) : list Label :=
  match evs with
  | [] => []
  | ev :: evs' =>
      label_of s ev ::
      match step s ev with
      | Some s' => labels_of s' evs'
      | None => []
      end
  end.

End labels.

(** ** The machine keeps its promise *)

Section spec_facts.
Implicit Types (a : Spec) (mid : Z) (table before after : gset Z).

Lemma multiplicity_singleton_eq (x : Z) : multiplicity x ({[+ x +]} : gmultiset Z) = 1%nat.
Proof. by rewrite multiplicity_singleton, decide_True. Qed.

Lemma spec_enqueue_inv table a mid before after :
  spec_inv a → spec_inv (spec_enqueue table a mid before after).
Proof.
  intros Hinv. unfold spec_enqueue. repeat case_decide; try done.
  - (* the set was empty: a timer is started *)
    intros mid'. simpl. destruct (decide (mid' = mid)) as [->|Hne].
    + rewrite lookup_insert_eq. specialize (Hinv mid).
      destruct (pending a !! mid) as [roles|]; simpl in *; [naive_solver|].
      split; [set_solver|]. rewrite multiplicity_disj_union, multiplicity_singleton_eq. lia.
    + rewrite lookup_insert_ne by done. specialize (Hinv mid').
      rewrite multiplicity_disj_union, multiplicity_singleton_ne by done. done.
  - (* the member was pending: the timer that runs will do *)
    intros mid'. simpl. destruct (decide (mid' = mid)) as [->|Hne].
    + rewrite lookup_insert_eq. specialize (Hinv mid).
      destruct (pending a !! mid) as [roles|]; simpl in *; [|done].
      split; [set_solver|naive_solver].
    + rewrite lookup_insert_ne by done. apply Hinv.
Qed.

Lemma spec_flush_inv a mid a' out :
  spec_inv a → spec_flush a mid = Some (a', out) → spec_inv a'.
Proof.
  intros Hinv. unfold spec_flush. case_decide as Hin; [|done]. intros [= <- <-].
  intros mid'. simpl. destruct (decide (mid' = mid)) as [->|Hne].
  - rewrite lookup_delete_eq, multiplicity_difference, multiplicity_singleton_eq.
    specialize (Hinv mid). destruct (pending a !! mid); [|lia]. destruct Hinv. lia.
  - rewrite lookup_delete_ne, multiplicity_difference, multiplicity_singleton_ne by done.
    specialize (Hinv mid'). destruct (pending a !! mid'); [|lia].
    destruct Hinv. split; [done|lia].
Qed.

Lemma spec_step_inv table a l a' :
  spec_inv a → spec_step table a l = Some a' → spec_inv a'.
Proof.
  intros Hinv. destruct l as [mid before after|mid|]; simpl.
  - intros [= <-]. by apply spec_enqueue_inv.
  - destruct (spec_flush a mid) as [[a1 out]|] eqn:Hf; [|done]. intros [= <-].
    by eapply spec_flush_inv.
  - by intros [= <-].
Qed.

Lemma spec_run_inv table a ls a' :
  spec_inv a → spec_run table a ls = Some a' → spec_inv a'.
Proof.
  revert a. induction ls as [|l ls IH]; intros a Hinv; simpl; [by intros [= <-]|].
  destruct (spec_step table a l) as [a1|] eqn:Hstep; [|done].
  apply IH. by eapply spec_step_inv.
Qed.

(** A flush hands over exactly what was pending and leaves the member
    quiescent with no timer. *)
Lemma spec_flush_quiescent a mid a' out :
  spec_inv a → spec_flush a mid = Some (a', out) →
  member_state a mid = PENDING out ∧ member_state a' mid = QUIESCENT ∧
  multiplicity mid (timers a') = 0%nat.
Proof.
  intros Hinv Hflush. pose proof (spec_flush_inv a mid a' out Hinv Hflush mid) as Hinv'.
  revert Hflush Hinv'. unfold spec_flush, member_state. case_decide as Hin; [|done].
  intros [= <- <-]. simpl. rewrite lookup_delete_eq. intros Hm.
  specialize (Hinv mid). destruct (pending a !! mid); [done|].
  exfalso. rewrite elem_of_multiplicity in Hin. lia.
Qed.

End spec_facts.

(** ** The bot implements the machine *)

Section refinement.
Context `{PyRuntime}.
Implicit Types (s : System) (member before after : Member) (mid : Z).

Lemma elem_of_role_ids (l : list Role) i : i ∈ role_ids l ↔ i ∈ role_id <$> l.
Proof. apply elem_of_list_to_set. Qed.

Lemma role_ids_app (l k : list Role) : role_ids (l ++ k) = role_ids l ∪ role_ids k.
Proof. unfold role_ids. by rewrite fmap_app, list_to_set_app_L. Qed.

Lemma role_ids_empty (l : list Role) : role_ids l = ∅ ↔ l = [].
Proof.
  split; [|by intros ->]. destruct l as [|r l]; [done|].
  intros Hl. assert (role_id r ∈ role_ids (r :: l)) as Hr by (apply elem_of_role_ids; left).
  rewrite Hl in Hr. by apply not_elem_of_empty in Hr.
Qed.

Lemma role_ids_to_add (b : RoleManagerBot) before after :
  role_ids (to_add b before after) =
  ((role_ids (member_roles after) ∖ role_ids (member_roles before)) ∩ table_ids b) ∖
  role_ids (queued_roles (role_update_queue b) (member_id after)).
Proof.
  apply set_eq. intros i.
  rewrite elem_of_difference, elem_of_intersection, elem_of_difference.
  unfold table_ids. rewrite !elem_of_role_ids, elem_of_list_to_set, to_add_ids. tauto.
Qed.

Lemma pending_abstraction s mid :
  default ∅ (pending (abstraction s) !! mid) =
  role_ids (queued_roles (role_update_queue (bot s)) mid).
Proof.
  simpl. rewrite lookup_fmap. unfold queued_roles.
  by destruct (role_update_queue (bot s) !! mid).
Qed.

Lemma abstraction_frame s s' :
  bot s' = bot s → settling (tasks s') ≡ₚ settling (tasks s) →
  abstraction s' = abstraction s.
Proof. intros Hb Ht. unfold abstraction. by rewrite Hb, Ht. Qed.

(** On a well-formed queue
    [on_member_update] is the enqueue of the design: read as sets of role
    ids and a multiset of timers, the state after the handler is
    [spec_enqueue] of the state before. *)
Lemma enqueue_refines s before after :
  queue_wf (bot s) →
  abstraction (on_member_update s before after) =
  spec_enqueue (table_ids (bot s)) (abstraction s) (member_id after)
    (role_ids (member_roles before)) (role_ids (member_roles after)).
Proof.
  intros Hwf. rewrite on_member_update_eq, enqueue_eq. unfold spec_enqueue.
  rewrite pending_abstraction.
  pose proof (role_ids_to_add (bot s) before after) as Hids.
  destruct (py_truthy _) eqn:Hn; simpl.
  - apply py_truthy_true in Hn.
    assert (role_ids (to_add (bot s) before after) ≠ ∅) as Hne by by rewrite role_ids_empty.
    rewrite decide_False by (intros Hg; rewrite Hg in Hids; set_solver).
    rewrite decide_False by by rewrite <-Hids.
    unfold abstraction. simpl. f_equal.
    + unfold queue_extend. rewrite fmap_insert, role_ids_app, Hids. done.
    + case_bool_decide as Hlen; rewrite queued_roles_after_extend_nil in Hlen by done.
      * rewrite decide_True by by apply role_ids_empty, (queued_roles_nil_wf (bot s)).
        unfold settling. rewrite omap_app, list_to_set_disj_app. simpl.
        multiset_solver.
      * rewrite decide_False by by rewrite role_ids_empty, (queued_roles_nil_wf (bot s)).
        by rewrite app_nil_r.
  - apply py_truthy_false in Hn. rewrite Hn in Hids. rewrite app_nil_r.
    fold (abstraction s). by repeat case_decide.
Qed.

(** The wake of a settling task is the flush of the
    design: the member's pending set is removed, one timer of the member
    ends, and the roles handed to the notifier are the set that was
    pending. *)
Lemma flush_refines s i member wake :
  tasks s !! i = Some (SettleSleep member wake) →
  spec_flush (abstraction s) (member_id member) =
  Some (abstraction (process_role_queue (remove_task s i) member),
        role_ids (drain (bot s) (member_id member)).1).
Proof.
  intros Hi. unfold spec_flush.
  assert (settling (tasks s) ≡ₚ member_id member :: settling (delete i (tasks s))) as Hp
    by by eapply omap_delete_Some.
  rewrite decide_True; last first.
  { simpl. rewrite Hp, list_to_set_disj_cons. multiset_solver. }
  rewrite pending_abstraction. f_equal. f_equal.
  destruct (process_role_queue_frame (remove_task s i) member) as (Hb & Hs & _).
  unfold abstraction. rewrite Hb, Hs. simpl. rewrite fmap_delete. f_equal.
  rewrite Hp, list_to_set_disj_cons. multiset_solver.
Qed.

(** Every step of the system, in a state that
    satisfies the invariant, is the step of the machine for its label:
    member updates are enqueues, wakes of settling tasks are flushes, and
    nothing else the system does is visible to the machine. *)
Lemma step_refines s ev s' :
  sys_inv s → step s ev = Some s' →
  spec_step (table_ids (bot s)) (abstraction s) (label_of s ev) = Some (abstraction s').
Proof.
  intros (Hwf & _ & _) Hstep.
  destruct ev as [before after|dt|i|i fault|i fault|m]; simpl in *.
  - simplify_eq. by rewrite enqueue_refines.
  - case_decide; by simplify_eq.
  - destruct (tasks s !! i) as [[member wake| |message wake|]|] eqn:Hi; try done;
      case_decide; simplify_eq/=.
    + by rewrite (flush_refines s i member wake).
    + f_equal. symmetry. apply abstraction_frame; [done|]. by eapply settling_insert_other.
  - destruct (tasks s !! i) as [[|member channel content embed| |]|] eqn:Hi; simplify_eq.
    destruct (send_reply_frame (remove_task s i) channel content embed fault) as (Hb & Hs & _).
    f_equal. symmetry. apply abstraction_frame; [done|]. rewrite Hs.
    by eapply settling_delete_other.
  - destruct (tasks s !! i) as [[| | |message]|] eqn:Hi; simplify_eq.
    destruct (delete_reply_step_frame (remove_task s i) message fault) as (Hb & Ht & _).
    f_equal. symmetry. apply abstraction_frame; [done|]. rewrite Ht.
    by eapply settling_delete_other.
  - by simplify_eq.
Qed.

Lemma run_refines_from s evs s' :
  sys_inv s → run s evs = Some s' →
  spec_run (table_ids init_bot) (abstraction s) (labels_of s evs) = Some (abstraction s').
Proof.
  revert s. induction evs as [|ev evs IH]; intros s Hinv; simpl; [by intros [= <-]|].
  destruct (step s ev) as [s1|] eqn:Hstep; [|done]. intros Hrun.
  pose proof (step_refines s ev s1 Hinv Hstep) as Hspec.
  destruct Hinv as (Hwf & Htab & Htim). unfold table_ids in Hspec at 1. rewrite Htab in Hspec.
  fold (table_ids init_bot) in Hspec. rewrite Hspec.
  apply IH; [|done]. by eapply step_preserves_inv.
Qed.

(** C2: every run of the system from a freshly
    constructed bot is a run of the machine of the design from its empty
    state, over the labels of the events. *)
Theorem run_refines_spec d now evs s :
  run (init_system d now) evs = Some s →
  spec_run (table_ids init_bot) (mkSpec ∅ ∅) (labels_of (init_system d now) evs) =
  Some (abstraction s).
Proof. intros Hrun. by apply (run_refines_from _ _ _ (init_system_inv d now) Hrun). Qed.

(** In every state the system reaches,
    every step it takes is the step of the machine for its label: member
    updates are enqueues over the table of [__init__], wakes of settling
    tasks are flushes, and nothing else the system does is visible to the
    machine. *)
Theorem reachable_step_refines_spec s ev s' :
  reachable s → step s ev = Some s' →
  spec_step (table_ids init_bot) (abstraction s) (label_of s ev) = Some (abstraction s').
Proof.
  intros Hinv%reachable_inv Hstep. pose proof Hinv as (_ & Htab & _).
  rewrite <-(step_refines s ev s' Hinv Hstep). unfold table_ids. by rewrite Htab.
Qed.

(** What the design promises of its machine
    holds of the bot after any run: a member has exactly one timer when
    it has pending roles and none otherwise, and no pending set is
    empty. *)
Theorem run_inherits_spec_promise d now evs s :
  run (init_system d now) evs = Some s → spec_inv (abstraction s).
Proof.
  intros Hrun. pose proof (run_refines_from _ _ _ (init_system_inv d now) Hrun) as Hspec.
  eapply spec_run_inv; [|done]. intros mid. done.
Qed.

End refinement.

(** ** Witnesses *)

Section refinement_witnesses.
Import Sample Scenario.
#[local] Existing Instance insertion_order_runtime.

Lemma run_refines_spec_witness :
  spec_run (table_ids init_bot) (mkSpec ∅ ∅)
    (labels_of (init_system world 0) (grants ++ [Tick 2; Wake 0%nat; SendReply 0 None])) =
  Some (abstraction sent).
Proof. apply run_refines_spec. by vm_compute. Defined.

Lemma reachable_step_refines_spec_witness :
  spec_step (table_ids init_bot) (abstraction settled) (label_of settled (Wake 0)) =
  Some (abstraction notifying).
Proof.
  apply reachable_step_refines_spec; [apply run_from_start_reachable|by vm_compute].
  compute_decide.
Defined.

Lemma run_inherits_spec_promise_witness : spec_inv (abstraction sent).
Proof.
  apply (run_inherits_spec_promise world 0 (grants ++ [Tick 2; Wake 0%nat; SendReply 0 None])).
  by vm_compute.
Defined.

End refinement_witnesses.
