(* ===== verification/Legacy.v ===== *)
(** * Legacy: the single-file version of the bot

    [src/src/main.py] is the bot before it was split into the package: the
    same handlers as functions of one module, the role-to-channel table
    and the queue as module globals, and [print] in place of [logging].
    [Module Legacy] models its handlers under their own names; the
    theorems show that it runs as the package does: the same queue, tasks
    and messages after every run, with a line printed where the package
    logs one. *)

From stdpp Require Import base tactics option list strings gmap pretty.
From S2P Require Import Prelude Discord Queue Roles Notifier Ticket Bot.

Set Warnings "-clear-no-such-hyp".
#[local] Open Scope Z_scope.

Module Legacy.

(** ** The globals *)

(** [role_to_channel = {...}] *)
Definition role_to_channel : list (Z * string) :=
  [ (380725404262072320, "1200047665442979860"%string);
    (393044988411379742, "1195736480950276196"%string);
    (380725142608674816, "1195734262792605846"%string);
    (380724874236395520, "1195452480687964344"%string) ].

(** [role_update_queue = {}] *)
Definition role_update_queue : gmap Z (list Role) := ∅.

(** The globals as the two attributes of a bot object.  The single-file
    version has no startup channel; the third attribute is carried along
    unread, with the value of the package so that states compare. *)
Definition globals : RoleManagerBot :=
  mkBot role_to_channel role_update_queue (startup_channel_id init_bot).

(** The system when the module has just been loaded. *)
Definition init_system (d : Platform) (now : Z) : System :=
  mkSystem globals [] [] now d.

(** ** The notification path *)

Section handlers.
Context `{PyRuntime}.

(** [send_verification_message(member, roles)] up to its suspension; the
    table is the global. *)
Definition send_verification_message (d : Platform) (now : Z) (member : Member)
    (roles : list Role) (table : list (Z * string)) : SendStart :=
  let role_list := set_iter roles in
  match get_channel d verification_channel_id with
  | None => SendAbort [mkLog STDOUT "Verification channel not found."]
  | Some channel =>
      match compose_embed table member role_list now with
      | Ok embed => SendAwait channel (member_mention member) embed
      | Raise (HTTPError e) =>
          SendAbort [mkLog STDOUT ("Failed to send verification message: " +:+ http_text e)]
      | Raise e => SendRaise e
      end
  end.

(** The rest of the function, once [channel.send] has answered. *)
Definition send_verification_reply (r : result HTTPException Message) :
    list LogEntry * option Message :=
  match r with
  | Ok message => ([], Some message)
  | Raise e =>
      ([mkLog STDOUT ("Failed to send verification message: " +:+ http_text e)], None)
  end.

(** The [try: await message.delete() except ...] of
    [delete_message_after_delay]. *)
Definition delete_reply (message : Message) (r : result HTTPException unit) :
    list LogEntry :=
  match r with
  | Ok _ => []
  | Raise e =>
      match http_kind e with
      | NotFound => []
      | Forbidden =>
          [mkLog STDOUT ("Bot does not have permission to delete message: " +:+
                         pretty (message_id message))]
      | OtherHTTP =>
          [mkLog STDOUT ("Error occurred while deleting message: " +:+ http_text e)]
      end
  end.

Definition delete_message (d : Platform) (message : Message)
    (fault : option HTTPException) : Platform * list LogEntry :=
  let '(d', r) := message_delete d message fault in
  (d', delete_reply message r).

(** [await send_verification_message(...)] as [process_role_queue] sees
    it; an exception that escapes is printed by [on_member_update]. *)
Definition await_send (s : System) (member : Member) (start : SendStart) : System :=
  match start with
  | SendAbort logs =>
      mkSystem (bot s) (tasks s) (log s ++ logs) (clock s) (discord s)
  | SendRaise e =>
      mkSystem (bot s) (tasks s)
        (log s ++ [mkLog STDOUT ("Error in on_member_update: " +:+ exn_text e)])
        (clock s) (discord s)
  | SendAwait channel content embed =>
      mkSystem (bot s) (tasks s ++ [SendPending member channel content embed])
        (log s) (clock s) (discord s)
  end.

(** [process_role_queue(member)] from the end of its sleep. *)
Definition process_role_queue (s : System) (member : Member) : System :=
  let '(roles, bot') := drain (bot s) (member_id member) in
  let s' := mkSystem bot' (tasks s) (log s) (clock s) (discord s) in
  if py_truthy roles then
    await_send s' member
      (send_verification_message (discord s) (clock s) member (set_of roles)
         (Queue.role_to_channel bot'))
  else s'.

(** [on_member_update(before, after)] *)
Definition on_member_update (s : System) (before after : Member) : System :=
  let '(bot', spawn) := enqueue (bot s) before after in
  mkSystem bot'
    (tasks s ++ if spawn then [SettleSleep after (clock s + settle_delay)] else [])
    (log s) (clock s) (discord s).

(** [send_verification_message] from the answer of [channel.send]. *)
Definition send_reply (s : System) (channel : Z) (content : string) (embed : Embed)
    (fault : option HTTPException) : System :=
  let '(d', r) := channel_send (discord s) channel content embed fault in
  let '(logs, ticket) := send_verification_reply r in
  mkSystem (bot s)
    (tasks s ++ match ticket with
                | Some message => [DeleteSleep message (ticket_wake (clock s))]
                | None => []
                end)
    (log s ++ logs) (clock s) d'.

(** [delete_message_after_delay] from the answer of [message.delete()]. *)
Definition delete_reply_step (s : System) (message : Message)
    (fault : option HTTPException) : System :=
  let '(d', logs) := delete_message (discord s) message fault in
  mkSystem (bot s) (tasks s) (log s ++ logs) (clock s) d'.

(** One step of the event loop. *)
Definition step (s : System) (ev : Event) : option System :=
  match ev with
  | MemberUpdate before after => Some (on_member_update s before after)
  | Tick dt =>
      if decide (0 ≤ dt)
      then Some (mkSystem (bot s) (tasks s) (log s) (clock s + dt) (discord s))
      else None
  | Wake i =>
      match tasks s !! i with
      | Some (SettleSleep member wake) =>
          if decide (wake ≤ clock s)
          then Some (process_role_queue (remove_task s i) member)
          else None
      | Some (DeleteSleep message wake) =>
          if decide (wake ≤ clock s)
          then Some (replace_task s i (DeletePending message))
          else None
      | _ => None
      end
  | SendReply i fault =>
      match tasks s !! i with
      | Some (SendPending member channel content embed) =>
          Some (send_reply (remove_task s i) channel content embed fault)
      | _ => None
      end
  | DeleteReply i fault =>
      match tasks s !! i with
      | Some (DeletePending message) =>
          Some (delete_reply_step (remove_task s i) message fault)
      | _ => None
      end
  | ExternalDelete mid =>
      Some (mkSystem (bot s) (tasks s) (log s) (clock s)
              (mkPlatform (channels (discord s)) (delete mid (messages (discord s)))
                          (next_message_id (discord s))))
  end.

Fixpoint run (s : System) (evs : list Event) : option System :=
  match evs with
  | [] => Some s
  | ev :: evs' =>
      match step s ev with
      | Some s' => run s' evs'
      | None => None
      end
  end.

End handlers.

(** ** The member role and the activity line *)

Section roles.
Context (faults : Z → option string).

(** [update_bot_activity()]: nothing is printed. *)
Definition update_bot_activity (guilds : list Guild) (presence_fault : option HTTPException) :
    result Exn string :=
  match guilds with
  | [] => Raise (IndexError "list index out of range")
  | guild :: _ =>
      match presence_fault with
      | Some e => Raise (HTTPError e)
      | None => Ok (activity_text (member_count guild))
      end
  end.

(** [assign_role_to_member(member, role_id)]: the code of the package,
    with [print]. *)
Definition assign_role_to_member : Guild → Member → Z → Guild * list LogEntry :=
  Roles.assign_role_to_member (H:=print_logger) faults.

(** [on_member_join(member)] *)
Definition on_member_join (g : Guild) (guilds : list Guild) (member : Member)
    (presence_fault : option HTTPException) : Guild * result Exn string * list LogEntry :=
  let '(g', l1) := assign_role_to_member g member auto_role_id in
  (g', update_bot_activity guilds presence_fault, l1).

(** [on_member_remove(member)] *)
Definition on_member_remove (guilds : list Guild) (presence_fault : option HTTPException) :
    result Exn string :=
  update_bot_activity guilds presence_fault.

(** [check_and_assign_role(guild, role_id)]: the code of the package, with
    [print]. *)
Definition check_and_assign_role :
    Guild → Z → option (result Exn (Guild * list LogEntry)) :=
  Roles.check_and_assign_role (H:=print_logger) faults.

(** One turn of the loop of [periodic_role_check]. *)
Definition periodic_role_check_round :
    list Guild → Z → option (result Exn (list Guild * list LogEntry)) * Z :=
  Roles.periodic_role_check_round (H:=print_logger) faults.

End roles.

End Legacy.

(** ** How the two versions compare *)

(** A line of the package's log and the line the single-file version
    prints in its place: the same text on the standard output, but for
    the refusal of a deletion, which is worded differently. *)
Inductive printed_as : LogEntry → LogEntry → Prop :=
| printed_same level text : printed_as (mkLog level text) (mkLog STDOUT text)
| printed_forbidden id :
    printed_as (mkLog ERROR ("Bot lacks permission to delete message: " +:+ id))
               (mkLog STDOUT ("Bot does not have permission to delete message: " +:+ id)).

(** A state of the single-file version mirrors a state of the package:
    the same bot, tasks, clock and platform, and a line printed for every
    line logged. *)
Definition mirrors (s t : System) : Prop :=
  bot s = bot t ∧ tasks s = tasks t ∧ clock s = clock t ∧ discord s = discord t ∧
  Forall2 printed_as (log t) (log s).

(** ** Facts on the comparison *)

Section mirror_facts.
Context `{PyRuntime}.
Implicit Types (s t : System) (ev : Event).

Lemma mirrors_refl_nil (b : RoleManagerBot) ts c d : 
  mirrors (mkSystem b ts [] c d) (mkSystem b ts [] c d).
Proof. by repeat split. Qed.

(** Mirroring states stay so when each is given its lines. *)
Lemma mirrors_with s t b ts c d ls lt :
  mirrors s t → Forall2 printed_as lt ls →
  mirrors (mkSystem b ts (log s ++ ls) c d) (mkSystem b ts (log t ++ lt) c d).
Proof. intros (_ & _ & _ & _ & Hl) Hnew. repeat split. by apply Forall2_app. Qed.

Lemma mirrors_same s t b ts c d :
  mirrors s t → mirrors (mkSystem b ts (log s) c d) (mkSystem b ts (log t) c d).
Proof. intros (_ & _ & _ & _ & Hl). by repeat split. Qed.

(** The single-file notifier starts as the package's does, printing
    what that logs. *)
Lemma send_verification_message_mirrors s t member roles table :
  mirrors s t →
  mirrors (Legacy.await_send s member
             (Legacy.send_verification_message (discord s) (clock s) member roles table))
          (await_send t member
             (send_verification_message (discord t) (clock t) member roles table)).
Proof.
  intros Hm. pose proof Hm as (Hb & Ht & Hc & Hd & Hl).
  unfold Legacy.send_verification_message, send_verification_message,
    Legacy.await_send, await_send.
  rewrite ?Hb, ?Ht, ?Hc, ?Hd. destruct (get_channel _ _); simpl.
  - destruct (compose_embed _ _ _ _) as [embed|[]]; simpl; rewrite ?Hb, ?Ht, ?Hc, ?Hd;
      first [by apply mirrors_same|apply mirrors_with; [done|]];
      repeat constructor.
  - rewrite ?Hb, ?Ht, ?Hc, ?Hd. apply mirrors_with; [done|]. repeat constructor.
Qed.

Lemma remove_task_mirrors s t i : mirrors s t → mirrors (remove_task s i) (remove_task t i).
Proof.
  intros Hm. pose proof Hm as (Hb & Ht & Hc & Hd & Hl). unfold remove_task.
  rewrite ?Hb, ?Ht, ?Hc, ?Hd. by apply mirrors_same.
Qed.

Lemma process_role_queue_mirrors s t member :
  mirrors s t →
  mirrors (Legacy.process_role_queue s member) (process_role_queue t member).
Proof.
  intros Hm. unfold Legacy.process_role_queue, process_role_queue.
  destruct Hm as (Hb & Ht & Hc & Hd & Hl). rewrite ?Hb, ?Ht, ?Hc, ?Hd.
  destruct (drain (bot t) (member_id member)) as [roles bot'].
  destruct (py_truthy roles); [|by repeat split].
  exact (send_verification_message_mirrors
           (mkSystem bot' (tasks t) (log s) (clock t) (discord t))
           (mkSystem bot' (tasks t) (log t) (clock t) (discord t))
           member (set_of roles) (role_to_channel bot')
           (conj eq_refl (conj eq_refl (conj eq_refl (conj eq_refl Hl))))).
Qed.

Lemma send_reply_mirrors s t channel content embed fault :
  mirrors s t →
  mirrors (Legacy.send_reply s channel content embed fault)
          (send_reply t channel content embed fault).
Proof.
  intros Hm. pose proof Hm as (Hb & Ht & Hc & Hd & Hl).
  unfold Legacy.send_reply, send_reply, channel_send. rewrite ?Hb, ?Ht, ?Hc, ?Hd.
  destruct fault; simpl; apply mirrors_with; by repeat constructor.
Qed.

Lemma delete_reply_step_mirrors s t message fault :
  mirrors s t →
  mirrors (Legacy.delete_reply_step s message fault) (delete_reply_step t message fault).
Proof.
  intros Hm. pose proof Hm as (Hb & Ht & Hc & Hd & Hl).
  unfold Legacy.delete_reply_step, delete_reply_step, Legacy.delete_message,
    delete_message, message_delete.
  rewrite ?Hb, ?Ht, ?Hc, ?Hd.
  destruct fault as [e|]; [|destruct (messages (discord t) !! message_id message)];
    simpl; try (apply mirrors_with; by repeat constructor).
  destruct (http_kind e); apply mirrors_with; by repeat constructor.
Qed.

(** Every step of the single-file version is the step of the package. *)
Lemma step_mirrors s t ev :
  mirrors s t → option_Forall2 mirrors (Legacy.step s ev) (step t ev).
Proof.
  intros Hm. pose proof Hm as (Hb & Ht & Hc & Hd & Hl).
  destruct ev as [before after|dt|i|i fault|i fault|m]; simpl; rewrite ?Ht, ?Hc.
  - constructor. unfold Legacy.on_member_update. rewrite on_member_update_eq, ?Hb, ?Ht, ?Hc, ?Hd.
    destruct (enqueue _ _ _). by apply mirrors_same.
  - case_decide; constructor. rewrite ?Hb, ?Ht, ?Hc, ?Hd. by apply mirrors_same.
  - destruct (tasks t !! i) as [[member wake| |message wake|]|]; try constructor;
      case_decide; constructor.
    + by apply process_role_queue_mirrors, remove_task_mirrors.
    + unfold replace_task. rewrite ?Hb, ?Ht, ?Hc, ?Hd. by apply mirrors_same.
  - destruct (tasks t !! i) as [[|member channel content embed| |]|]; constructor.
    by apply send_reply_mirrors, remove_task_mirrors.
  - destruct (tasks t !! i) as [[| | |message]|]; constructor.
    by apply delete_reply_step_mirrors, remove_task_mirrors.
  - constructor. rewrite ?Hb, ?Ht, ?Hc, ?Hd. by apply mirrors_same.
Qed.

Lemma run_mirrors evs : ∀ s t,
  mirrors s t → option_Forall2 mirrors (Legacy.run s evs) (run t evs).
Proof.
  induction evs as [|ev evs IH]; intros s t Hm; simpl; [by constructor|].
  destruct (step_mirrors s t ev Hm) as [s' t' Hm'|]; [by apply IH|constructor].
Qed.

Lemma run_mirrors_Some evs s t s' :
  mirrors s t → Legacy.run s evs = Some s' →
  ∃ t', run t evs = Some t' ∧ mirrors s' t'.
Proof.
  intros Hm Hrun. pose proof (run_mirrors evs s t Hm) as Hr. rewrite Hrun in Hr.
  inversion Hr; eauto.
Qed.

End mirror_facts.

(** ** The single-file version runs as the package does *)

Section legacy_properties.
Context `{PyRuntime}.

(** C39: started from the same platform and
    time, the single-file version and the package go through mirroring
    states on every sequence of events: the same queue, the same
    suspended tasks, the same messages, and a line printed for every
    line logged; one refuses an event exactly when the other does. *)
Theorem legacy_run_mirrors_package d now evs :
  option_Forall2 mirrors (Legacy.run (Legacy.init_system d now) evs)
                         (run (init_system d now) evs).
Proof. apply run_mirrors, mirrors_refl_nil. Qed.

(** The single-file version keeps the
    promise of the package: after any run a member has at most one
    settling task, and has one exactly when the queue holds an entry for
    it. *)
Theorem legacy_one_timer_per_member d now evs s mid :
  Legacy.run (Legacy.init_system d now) evs = Some s →
  (timers_of mid (tasks s) ≤ 1)%nat ∧
  (timers_of mid (tasks s) = 1%nat ↔ is_Some (role_update_queue (bot s) !! mid)).
Proof.
  intros Hrun.
  destruct (run_mirrors_Some evs _ (init_system d now) s (mirrors_refl_nil _ _ _ _) Hrun)
    as (t & Hrun' & Hb & Ht & _).
  rewrite Hb, Ht. apply timer_inv_bounds, (reachable_inv t).
  by apply (run_reachable (init_system d now) evs); [apply reachable_init|].
Qed.

(** The sweep of the single-file version
    leaves the guild the sweep of the package leaves, and prints the
    texts that one logs, in the same order. *)
Theorem legacy_sweep_says_the_same faults g rid :
  outcome_said (Legacy.check_and_assign_role faults g rid) =
  outcome_said (check_and_assign_role (H:=logging_logger) faults g rid).
Proof. apply check_and_assign_role_said. Qed.

End legacy_properties.

(** ** Witnesses *)

Section legacy_witnesses.
Import Sample Scenario.
#[local] Existing Instance insertion_order_runtime.

Lemma legacy_one_timer_per_member_witness :
  (timers_of 42 (tasks pending) ≤ 1)%nat ∧
  (timers_of 42 (tasks pending) = 1%nat ↔
   is_Some (role_update_queue (bot pending) !! 42)).
Proof. by apply (legacy_one_timer_per_member world 0 grants pending 42). Defined.

End legacy_witnesses.
