(* ===== verification/Interaction.v ===== *)
(** * Interaction: what a command handler does, call by call

    The slash commands of [src/bot/commands.py] and the selector of
    [src/bot/utils.py] are coroutines that answer an interaction: they
    read the guild, call the REST interface ([interaction.response],
    [interaction.followup], [member.add_roles], [channel.purge]), write to
    the log, and catch the exceptions of those calls by class.  This file
    holds what they share: the texts of [src/bot/messages.py], the
    environment a handler acts on ([Env]), the handlers on it ([Cmd], the
    monad [Prog] of the prelude), and one definition for each call.  The answer of the platform to a call is a parameter of the
    call: the fault it meets, if any. *)

From stdpp Require Import base tactics option list strings gmap sorting.
From S2P Require Import Prelude Discord Queue Roles.

Set Warnings "-clear-no-such-hyp".
#[local] Open Scope Z_scope.

(** ** The texts of [messages.py] *)

Module messages.

Definition ROLE_ALREADY_HAVE_ALL : string := "This user already has all the roles.".
Definition SELECT_ROLES_TO_ADD : string := "Select roles to add:".
Definition ERROR_ADDING_ROLES : string := "An error occurred while adding roles.".
Definition USER_DOES_NOT_HAVE_ROLES : string :=
  "This user does not have any of the specific roles to remove.".
Definition SELECT_ROLES_TO_REMOVE : string := "Select specific roles to remove:".
Definition ERROR_REMOVING_ROLES : string := "An error occurred while removing roles.".
Definition SPECIFY_NUMBER_GREATER_THAN_ZERO : string :=
  "Please specify a number greater than 0.".
Definition NO_MESSAGES_TO_CLEAR : string := "There were no messages to clear.".
Definition ERROR_CLEARING_MESSAGES : string :=
  "An error occurred while trying to clear messages.".
Definition NO_PERMISSION_TO_DELETE_MESSAGES : string :=
  "I do not have permission to delete messages in this channel.".
Definition VERIFICATION_INFO : string :=
  "For more details on how to verify your purchase, " +:+
  "please visit the **Verification** section in the <id:home> " +:+
  "for further information.".
Definition STARTUP_MESSAGE : string := "The bot has started!".
Definition SHUTDOWN_MESSAGE : string := "The bot is shutting down.".
Definition ROLE_ADDED : string := "Roles added for {user_mention}".
Definition ROLE_REMOVED : string := "Roles removed for {user_mention}".
Definition ERROR_MODIFYING_ROLES : string := "An error occurred while modifying roles.".

End messages.

(** ** The selector a reply can carry *)

(** [SelectOption(label=..., value=...)] *)
Record SelectOption : Type := mkOption {
  option_label : string;
  option_value : string;
}.

(** A [RoleSelector]: the attributes its [__init__] sets, and those it
    hands to [Select.__init__]. *)
Record RoleSelector : Type := mkSelector {
  selector_user : Member;
  selector_roles : list Role;
  selector_remove : bool;
  placeholder : string;
  min_values : nat;
  max_values : nat;
  options : list SelectOption;
}.

(** A [View]: its items. *)
Definition View : Type := list RoleSelector.

#[export] Instance SelectOption_eq_dec : EqDecision SelectOption.
Proof. solve_decision. Defined.
#[export] Instance RoleSelector_eq_dec : EqDecision RoleSelector.
Proof. solve_decision. Defined.

(** ** The environment of a handler *)

(** An answer the interaction was given: [response.send_message],
    [response.defer] or [followup.send]; all of them ephemeral. *)
Inductive Reply : Type :=
| ResponseSend (content : string) (view : option View)
| ResponseDefer
| FollowupSend (content : string).

#[export] Instance Reply_eq_dec : EqDecision Reply.
Proof. solve_decision. Defined.

(** What a handler reads and changes: the guild of the interaction, the
    messages of the platform, the answers given, the log, and the member
    updates its calls have caused, which the gateway delivers to
    [on_member_update] as pairs of the member before and after. *)
Record Env : Type := mkEnv {
  env_guild : Guild;
  env_discord : Platform;
  env_replies : list Reply;
  env_log : list LogEntry;
  env_updates : list (Member * Member);
}.

(** The environment at the start of an interaction. *)
Definition new_env (g : Guild) (d : Platform) : Env := mkEnv g d [] [] [].

(** ** The monad of handlers *)

(** A handler of an interaction: a handler on [Env] that raises the
    exceptions of [Exn]. *)
Abbreviation Cmd := (Prog Exn Env).

(** [interaction.guild] *)
Definition interaction_guild : Cmd Guild := λ e, (e, Ok (env_guild e)).

(** The answer of a REST call that changes nothing when it fails. *)
Definition rest (fault : option HTTPException) (effect : Env → Env) : Cmd unit := λ e,
  match fault with
  | Some h => (e, Raise (HTTPError h))
  | None => (effect e, Ok ())
  end.

Definition add_reply (r : Reply) (e : Env) : Env :=
  mkEnv (env_guild e) (env_discord e) (env_replies e ++ [r]) (env_log e) (env_updates e).

(** [logging.error(text)] *)
Definition logging_error (text : string) : Cmd unit := λ e,
  (mkEnv (env_guild e) (env_discord e) (env_replies e)
         (env_log e ++ [mkLog ERROR text]) (env_updates e), Ok ()).

(** [await interaction.response.send_message(content, view=view, ephemeral=True)] *)
Definition response_send_message (content : string) (view : option View)
    (fault : option HTTPException) : Cmd unit :=
  rest fault (add_reply (ResponseSend content view)).

(** [await interaction.response.defer(ephemeral=True)] *)
Definition response_defer (fault : option HTTPException) : Cmd unit :=
  rest fault (add_reply ResponseDefer).

(** [await interaction.followup.send(content, ephemeral=True)] *)
Definition followup_send (content : string) (fault : option HTTPException) : Cmd unit :=
  rest fault (add_reply (FollowupSend content)).

(** The end of every handler of [commands.py]:
    [try: await interaction.followup.send(text)] with [NotFound] logged
    and any other exception left to escape. *)
Definition followup_or_log (text : string) (fault : option HTTPException) : Cmd unit :=
  try_except (followup_send text fault)
    (λ x, match x with
          | HTTPError h =>
              if decide (http_kind h = NotFound)
              then logging_error "Failed to send follow-up message: Interaction webhook not found."
              else raise x
          | _ => raise x
          end).

(** ** Roles of a member on the platform *)

(** The member of a guild with an id. *)
Definition guild_member (g : Guild) (mid : Z) : option Member :=
  find (λ m, bool_decide (member_id m = mid)) (guild_members g).

(** The member without a role. *)
Definition revoke (r : Role) (m : Member) : Member :=
  mkMember (member_id m) (member_name m) (member_discriminator m) (member_avatar m)
           (filter (λ x, role_id x ≠ role_id r) (member_roles m)).

(** What a successful [member.remove_roles(role)] does to the guild. *)
Definition remove_roles (g : Guild) (mid : Z) (r : Role) : Guild :=
  mkGuild (guild_id g) (guild_name g) (guild_roles g)
    ((λ m, if decide (member_id m = mid) then revoke r m else m) <$> guild_members g).

(** The update the gateway delivers when the guild goes from [g] to
    [g']: none when the member is as before. *)
Definition member_update (g g' : Guild) (mid : Z) : list (Member * Member) :=
  match guild_member g mid, guild_member g' mid with
  | Some before, Some after => if decide (before = after) then [] else [(before, after)]
  | _, _ => []
  end.

(** A change of the guild, with the update it causes. *)
Definition set_guild (mid : Z) (g' : Guild) (e : Env) : Env :=
  mkEnv g' (env_discord e) (env_replies e) (env_log e)
        (env_updates e ++ member_update (env_guild e) g' mid).

(** [await user.add_roles(role)], one request; [role] is what
    [guild.get_role] returned, and [role.id] of [None] is an
    [AttributeError]. *)
Definition member_add_roles (user : Member) (role : option Role)
    (fault : option HTTPException) : Cmd unit :=
  match role with
  | None => raise (AttributeError "'NoneType' object has no attribute 'id'")
  | Some r => rest fault (λ e, set_guild (member_id user)
                                 (add_roles (env_guild e) (member_id user) r) e)
  end.

(** [await user.remove_roles( *roles)]: one request for each role, in
    order, up to the first that fails. *)
Fixpoint member_remove_roles (user : Member) (roles : list (option Role))
    (faults : Z → option HTTPException) : Cmd unit :=
  match roles with
  | [] => mret ()
  | None :: _ => raise (AttributeError "'NoneType' object has no attribute 'id'")
  | Some r :: rest_roles =>
      rest (faults (role_id r))
           (λ e, set_guild (member_id user)
                   (remove_roles (env_guild e) (member_id user) r) e);;
      member_remove_roles user rest_roles faults
  end.

(** ** Messages of a channel *)

(** A message is at least as new as another: ids grow with time. *)
Definition newer (a b : Message) : Prop := message_id b ≤ message_id a.

#[export] Instance newer_dec a b : Decision (newer a b).
Proof. unfold newer. apply _. Defined.

(** [channel.history()]: the messages of the channel, newest first. *)
Definition channel_history (d : Platform) (cid : Z) : list Message :=
  merge_sort newer
    (filter (λ m, message_channel m = cid) (map_to_list (messages d)).*2).

(** The platform without some messages. *)
Definition delete_messages (d : Platform) (l : list Message) : Platform :=
  mkPlatform (channels d) (foldr (λ m, delete (message_id m)) (messages d) l)
             (next_message_id d).

Arguments delete_messages : simpl never.
Arguments channel_history : simpl never.

(** Every message is stored under its id. *)
Definition platform_wf (d : Platform) : Prop :=
  map_Forall (λ i m, message_id m = i) (messages d).

#[export] Instance platform_wf_dec d : Decision (platform_wf d).
Proof. unfold platform_wf. apply _. Defined.

(** [await channel.purge(limit=amount)]: deletes the [amount] newest
    messages of the channel and returns them. *)
Definition channel_purge (cid : Z) (amount : Z) (fault : option HTTPException) :
    Cmd (list Message) := λ e,
  match fault with
  | Some h => (e, Raise (HTTPError h))
  | None =>
      let deleted := take (Z.to_nat amount) (channel_history (env_discord e) cid) in
      (mkEnv (env_guild e) (delete_messages (env_discord e) deleted)
             (env_replies e) (env_log e) (env_updates e),
       Ok deleted)
  end.

(** ** Facts on the messages of a channel *)

Section history_facts.
Implicit Types (d : Platform) (m : Message) (l : list Message) (cid : Z).

#[export] Instance newer_trans : Transitive newer.
Proof. unfold newer. intros a b c. lia. Qed.

#[export] Instance newer_total : Total newer.
Proof. unfold newer. intros a b. lia. Qed.

(** The history of a channel holds the messages of the channel that
    exist. *)
Lemma elem_of_channel_history d cid m :
  platform_wf d →
  m ∈ channel_history d cid ↔
  messages d !! message_id m = Some m ∧ message_channel m = cid.
Proof.
  intros Hwf. unfold channel_history.
  rewrite merge_sort_Permutation, list_elem_of_filter, list_elem_of_fmap. split.
  - intros [Hc ([i m'] & Heq & Hm%elem_of_map_to_list)]. simpl in Heq. subst m'.
    by rewrite (Hwf i m Hm).
  - intros [Hm Hc]. split; [done|]. exists (message_id m, m).
    split; [done|]. by apply elem_of_map_to_list.
Qed.

(** It is sorted, newest first. *)
Lemma channel_history_sorted d cid : StronglySorted newer (channel_history d cid).
Proof. apply StronglySorted_merge_sort; apply _. Qed.

(** It holds each message once. *)
Lemma channel_history_NoDup d cid :
  platform_wf d → NoDup (message_id <$> channel_history d cid).
Proof.
  intros Hwf. unfold channel_history. rewrite merge_sort_Permutation.
  apply NoDup_fmap_filter.
  assert (message_id <$> (map_to_list (messages d)).*2 = (map_to_list (messages d)).*1) as ->.
  { rewrite <-list_fmap_compose. apply list_fmap_ext. intros k [i m] Hm. simpl.
    by apply (Hwf i m), elem_of_map_to_list, (list_elem_of_lookup_2 _ k). }
  apply NoDup_fst_map_to_list.
Qed.

(** What is left of the messages after some are deleted. *)
Lemma lookup_delete_messages d l i :
  messages (delete_messages d l) !! i =
  if decide (i ∈ message_id <$> l) then None else messages d !! i.
Proof.
  unfold delete_messages. cbn [messages]. induction l as [|m l IH]; simpl; [done|].
  destruct (decide (i = message_id m)) as [->|Hne].
  - rewrite lookup_delete_eq, decide_True; [done|left].
  - rewrite lookup_delete_ne, IH by done.
    destruct (decide (i ∈ message_id <$> l)) as [Hin|Hin].
    + rewrite decide_True; [done|by right].
    + rewrite decide_False; [done|]. by intros [?|?]%elem_of_cons.
Qed.

Lemma delete_messages_wf d l : platform_wf d → platform_wf (delete_messages d l).
Proof.
  intros Hwf i m. rewrite lookup_delete_messages. case_decide; [done|]. apply Hwf.
Qed.

End history_facts.
