(* ===== verification/Commands.v ===== *)
(** * Commands: the slash commands and the role selector

    [RoleSelector] and [RoleView] of [src/bot/utils.py] and the cog
    [Commands] of [src/bot/commands.py]: [add] and [remove] offer the
    roles of the role-to-channel table in a selector, whose [callback]
    grants or revokes the roles chosen, one request for each; [clear]
    purges the newest messages of a channel; [verify] answers with a fixed
    text.  Each is a handler in the monad [Cmd]; the parameters named
    [..._fault] are the answers of the platform to its calls.

    The theorems give what each command answers and changes on every
    path, the exceptions that can leave it, and what the selector does
    with a choice: the values of its options read back as the roles
    offered, every role chosen is granted in the order chosen, up to the
    first request that fails, and each grant is one member update. *)

From stdpp Require Import base tactics option list strings gmap pretty sorting.
From S2P Require Import Prelude Discord Queue Roles Interaction.

Set Warnings "-clear-no-such-hyp".
#[local] Open Scope Z_scope.

(** ** [utils.py]: the selector *)

(** [RoleSelector.__init__(user, roles, remove)] *)
Definition RoleSelector_init (user : Member) (roles : list Role) (remove : bool) :
    RoleSelector :=
  let options := (λ role, mkOption (role_name role) (py_str (role_id role))) <$> roles in
  let placeholder :=
    if negb remove then "Choose roles to add..." else "Choose specific roles to remove..." in
  mkSelector user roles remove placeholder 1 (length options) options.

(** [RoleView.__init__(user, roles, remove)]: a view with one item. *)
Definition RoleView (user : Member) (roles : list Role) (remove : bool) : View :=
  [] ++ [RoleSelector_init user roles remove].

(** [interaction.guild.get_role(int(role_id))] *)
Definition chosen_role (role_id : string) : Cmd (option Role) :=
  rid ← lift (result_of_option
                (ValueError ("invalid literal for int() with base 10: '" +:+ role_id +:+ "'"))
                (py_int role_id));
  guild ← interaction_guild;
  mret (get_role guild rid).

(** [[interaction.guild.get_role(int(role_id)) for role_id in self.values]] *)
Fixpoint roles_to_modify (values : list string) : Cmd (list (option Role)) :=
  match values with
  | [] => mret []
  | role_id :: rest =>
      role ← chosen_role role_id;
      roles ← roles_to_modify rest;
      mret (role :: roles)
  end.

(** The [for role_id in self.values] of the branch that adds. *)
Fixpoint add_each (user : Member) (values : list string)
    (faults : Z → option HTTPException) : Cmd unit :=
  match values with
  | [] => mret ()
  | role_id :: rest =>
      role ← chosen_role role_id;
      member_add_roles user role (role ≫= λ r, faults (Discord.role_id r));;
      add_each user rest faults
  end.

(** [RoleSelector.callback(interaction)] with [self.values = values].
    [faults] gives the fault of the request for each role,
    [respond_fault] that of the answer, [handler_fault] that of the
    answer an [except] clause gives. *)
Definition callback (self : RoleSelector) (values : list string)
    (faults : Z → option HTTPException)
    (respond_fault handler_fault : option HTTPException) : Cmd unit :=
  let user := selector_user self in
  try_except
    (if selector_remove self then
       roles ← roles_to_modify values;
       member_remove_roles user roles faults;;
       response_send_message ("Roles removed for " +:+ member_mention user) None
                             respond_fault
     else
       add_each user values faults;;
       response_send_message ("Roles added for " +:+ member_mention user) None
                             respond_fault)
    (λ x, match x with
          | HTTPError h =>
              if decide (http_kind h = Forbidden) then
                logging_error ("RoleSelector callback: Bot lacks permissions to modify roles for "
                               +:+ member_str user);;
                response_send_message "I don't have permission to modify these roles." None
                                      handler_fault
              else
                logging_error ("RoleSelector callback: HTTP error occurred: " +:+ http_text h);;
                response_send_message "An error occurred while modifying roles." None
                                      handler_fault
          | _ =>
              logging_error ("RoleSelector callback: Unexpected error: " +:+ exn_text x);;
              response_send_message "An unexpected error occurred." None handler_fault
          end).

(** ** [commands.py]: the cog *)

(** [@discord.app_commands.checks.has_permissions(administrator=True)]:
    the body runs for an administrator only. *)
Definition has_permissions (administrator : bool) (body : Cmd unit) : Cmd unit :=
  if administrator then body
  else raise (CheckFailure "You are missing Administrator permission(s) to run this command.").

(** The roles [add] offers: those of the table the guild has and the
    user has not, in the order of the table. *)
Definition roles_to_add (guild : Guild) (table : list (Z * string)) (user : Member) :
    list Role :=
  let roles := get_role guild <$> dict_keys table in
  omap (λ role, r ← role; if role_in r (member_roles user) then None else Some r) roles.

(** The roles [remove] offers: those of the table the user has. *)
Definition roles_to_remove (guild : Guild) (table : list (Z * string)) (user : Member) :
    list Role :=
  omap (λ rid, r ← get_role guild rid;
               if role_in r (member_roles user) then Some r else None)
       (dict_keys table).

(** [Commands.add(interaction, user)] *)
Definition add (bot : RoleManagerBot) (administrator : bool) (user : Member)
    (respond_fault followup_fault : option HTTPException) : Cmd unit :=
  has_permissions administrator
    (try_except
       (guild ← interaction_guild;
        let roles := roles_to_add guild (role_to_channel bot) user in
        if negb (py_truthy roles) then
          response_send_message messages.ROLE_ALREADY_HAVE_ALL None respond_fault
        else
          let view := RoleView user roles false in
          response_send_message messages.SELECT_ROLES_TO_ADD (Some view) respond_fault)
       (λ x, logging_error ("Error in add command: " +:+ exn_text x);;
             followup_or_log messages.ERROR_ADDING_ROLES followup_fault)).

(** [Commands.remove(interaction, user)] *)
Definition remove (bot : RoleManagerBot) (administrator : bool) (user : Member)
    (respond_fault followup_fault : option HTTPException) : Cmd unit :=
  has_permissions administrator
    (try_except
       (guild ← interaction_guild;
        let roles := roles_to_remove guild (role_to_channel bot) user in
        if negb (py_truthy roles) then
          response_send_message messages.USER_DOES_NOT_HAVE_ROLES None respond_fault
        else
          let view := RoleView user roles true in
          response_send_message messages.SELECT_ROLES_TO_REMOVE (Some view) respond_fault)
       (λ x, logging_error ("Error in remove command: " +:+ exn_text x);;
             followup_or_log messages.ERROR_REMOVING_ROLES followup_fault)).

(** [f"Cleared {number_of_messages} {message}" if deleted_messages else
    messages.NO_MESSAGES_TO_CLEAR] *)
Definition clear_response (deleted_messages : list Message) : string :=
  let number_of_messages := length deleted_messages in
  let message := if decide (number_of_messages = 1%nat) then "message" else "messages" in
  if py_truthy deleted_messages
  then "Cleared " +:+ pretty (Z.of_nat number_of_messages) +:+ " " +:+ message
  else messages.NO_MESSAGES_TO_CLEAR.

(** [Commands.clear(interaction, amount)] in the channel [channel]. *)
Definition clear (administrator : bool) (channel : Z) (amount : Z)
    (respond_fault purge_fault followup_fault handler_fault : option HTTPException) :
    Cmd unit :=
  has_permissions administrator
    (try_except
       (if decide (amount ≤ 0) then
          response_send_message messages.SPECIFY_NUMBER_GREATER_THAN_ZERO None respond_fault
        else
          response_defer respond_fault;;
          deleted_messages ← channel_purge channel amount purge_fault;
          followup_send (clear_response deleted_messages) followup_fault)
       (λ x, match x with
             | HTTPError h =>
                 if decide (http_kind h = Forbidden) then
                   logging_error messages.NO_PERMISSION_TO_DELETE_MESSAGES;;
                   followup_or_log messages.NO_PERMISSION_TO_DELETE_MESSAGES handler_fault
                 else
                   logging_error ("Clear command: An error occurred: " +:+ http_text h);;
                   followup_or_log messages.ERROR_CLEARING_MESSAGES handler_fault
             | _ => raise x
             end)).

(** [Commands.verify(interaction)] *)
Definition verify (defer_fault followup_fault handler_fault : option HTTPException) :
    Cmd unit :=
  try_except
    (response_defer defer_fault;;
     followup_send messages.VERIFICATION_INFO followup_fault)
    (λ x, logging_error ("Verify command: An error occurred: " +:+ exn_text x);;
          followup_or_log messages.ERROR_MODIFYING_ROLES handler_fault).

(** ** What the selector is to do with a choice *)

(** The value of the option of a role. *)
Definition value_of (r : Role) : string := py_str (role_id r).

(** The environment after the roles were granted to the user, one after
    the other. *)
Definition granted_env (user : Member) (roles : list Role) (e : Env) : Env :=
  foldl (λ e r, set_guild (member_id user)
                  (add_roles (env_guild e) (member_id user) r) e) e roles.

(** The environment after the roles were revoked from the user, one
    after the other. *)
Definition revoked_env (user : Member) (roles : list Role) (e : Env) : Env :=
  foldl (λ e r, set_guild (member_id user)
                  (remove_roles (env_guild e) (member_id user) r) e) e roles.

(** The member with more roles. *)
Definition grant_all (roles : list Role) (m : Member) : Member :=
  foldl (λ m r, grant r m) m roles.

(** The updates of a member granted roles one after the other. *)
Fixpoint grant_chain (m : Member) (roles : list Role) : list (Member * Member) :=
  match roles with
  | [] => []
  | r :: rest => (m, grant r m) :: grant_chain (grant r m) rest
  end.

(** What the handlers of [callback] do with an exception, when their own
    answer goes through. *)
Definition callback_excuse (user : Member) (x : Exn) : string * string :=
  match x with
  | HTTPError h =>
      if decide (http_kind h = Forbidden)
      then ("RoleSelector callback: Bot lacks permissions to modify roles for "
              +:+ member_str user,
            "I don't have permission to modify these roles.")
      else ("RoleSelector callback: HTTP error occurred: " +:+ http_text h,
            "An error occurred while modifying roles.")
  | _ => ("RoleSelector callback: Unexpected error: " +:+ exn_text x,
          "An unexpected error occurred.")
  end.

(** The environment after a handler of [callback] has logged and
    answered. *)
Definition excused (user : Member) (x : Exn) (e : Env) : Env :=
  add_reply (ResponseSend (callback_excuse user x).2 None)
    (mkEnv (env_guild e) (env_discord e) (env_replies e)
           (env_log e ++ [mkLog ERROR (callback_excuse user x).1]) (env_updates e)).

(** What the handler of [add], [remove] and [verify] leaves: the error
    logged, and the follow-up sent or its loss logged. *)
Definition apologised (line text : string)
    (followup_fault : option HTTPException) (e : Env) : Env :=
  let e1 := mkEnv (env_guild e) (env_discord e) (env_replies e)
                  (env_log e ++ [mkLog ERROR line]) (env_updates e) in
  match followup_fault with
  | None => add_reply (FollowupSend text) e1
  | Some _ =>
      mkEnv (env_guild e1) (env_discord e1) (env_replies e1)
            (env_log e1 ++ [mkLog ERROR
               "Failed to send follow-up message: Interaction webhook not found."])
            (env_updates e1)
  end.

(** The messages [clear] deletes: the [amount] newest of the channel. *)
Definition to_clear (d : Platform) (channel : Z) (amount : Z) : list Message :=
  take (Z.to_nat amount) (channel_history d channel).

(** The environment after [clear] has deferred, purged and reported. *)
Definition cleared (channel : Z) (amount : Z) (e : Env) : Env :=
  let deleted := to_clear (env_discord e) channel amount in
  mkEnv (env_guild e) (delete_messages (env_discord e) deleted)
        (env_replies e ++ [ResponseDefer; FollowupSend (clear_response deleted)])
        (env_log e) (env_updates e).

(** ** A sample guild and its members *)

Module Shop.
Import Sample.

(** The guild has three of the four roles of the table; bob has one. *)
Definition guild : Guild :=
  mkGuild 372369352173027331 "Shop" [member_role; alpha; beta; gamma]
    [bob [alpha]; carol []].

Definition no_faults (rid : Z) : option HTTPException := None.

(** The request for [beta] is refused. *)
Definition beta_forbidden (rid : Z) : option HTTPException :=
  if decide (rid = role_id beta) then Some (mkHTTP Forbidden "403 Forbidden") else None.

Definition env : Env := new_env guild world.

(** A channel with three messages, and one message elsewhere. *)
Definition busy : Platform :=
  mkPlatform {[ 7 ]}
    {[ 9000 := mkMessage 9000 7 "one" None; 9001 := mkMessage 9001 7 "two" None;
       9002 := mkMessage 9002 8 "elsewhere" None; 9003 := mkMessage 9003 7 "three" None ]}
    9004.

End Shop.

(** ** The selector and the roles offered *)

Section offers.
Implicit Types (guild : Guild) (table : list (Z * string)) (user : Member) (r : Role).

Lemma get_role_id guild rid r : get_role guild rid = Some r → role_id r = rid ∧ r ∈ guild_roles guild.
Proof. intros [Hp Hr]%find_Some_test. by apply bool_decide_eq_true in Hp. Qed.

(** The roles [add] offers are the roles of the table that the guild
    has and the user has not. *)
Lemma roles_to_add_spec guild table user r :
  r ∈ roles_to_add guild table user ↔
  role_id r ∈ dict_keys table ∧ get_role guild (role_id r) = Some r ∧
  role_in r (member_roles user) = false.
Proof.
  unfold roles_to_add. rewrite list_elem_of_omap. split.
  - intros (role & (rid & -> & Hrid)%list_elem_of_fmap & Hr).
    destruct (get_role guild rid) as [r'|] eqn:Hget; [|done]. simpl in Hr.
    destruct (role_in r' _) eqn:Hin; simplify_eq.
    by destruct (get_role_id _ _ _ Hget) as [-> _].
  - intros (Hk & Hget & Hin). exists (Some r). split; [|by simpl; rewrite Hin].
    rewrite <-Hget. by apply list_elem_of_fmap_2.
Qed.

(** The roles [remove] offers are the roles of the table that the user
    has. *)
Lemma roles_to_remove_spec guild table user r :
  r ∈ roles_to_remove guild table user ↔
  role_id r ∈ dict_keys table ∧ get_role guild (role_id r) = Some r ∧
  role_in r (member_roles user) = true.
Proof.
  unfold roles_to_remove. rewrite list_elem_of_omap. split.
  - intros (rid & Hrid & Hr).
    destruct (get_role guild rid) as [r'|] eqn:Hget; [|done]. simpl in Hr.
    destruct (role_in r' _) eqn:Hin; simplify_eq.
    by destruct (get_role_id _ _ _ Hget) as [<- _].
  - intros (Hk & Hget & Hin). exists (role_id r). split; [done|].
    rewrite Hget. simpl. by rewrite Hin.
Qed.

(** Neither command offers more roles than the table has. *)
Lemma roles_to_add_length guild table user :
  (length (roles_to_add guild table user) ≤ length table)%nat.
Proof.
  unfold roles_to_add, dict_keys. etrans; [apply length_omap|].
  by rewrite !length_fmap.
Qed.

Lemma roles_to_remove_length guild table user :
  (length (roles_to_remove guild table user) ≤ length table)%nat.
Proof.
  unfold roles_to_remove, dict_keys. etrans; [apply length_omap|].
  by rewrite length_fmap.
Qed.

End offers.

(** ** The selector at work *)

Section selector_facts.
Implicit Types (e : Env) (user m : Member) (r : Role) (roles : list Role).
Implicit Types (faults : Z → option HTTPException).

Lemma grant_neq r m : grant r m ≠ m.
Proof.
  intros Heq%(f_equal (length ∘ member_roles)). simpl in Heq.
  rewrite length_app in Heq. simpl in Heq. lia.
Qed.

(** The member of an id after a grant to a member. *)
Lemma guild_member_add_roles (g : Guild) mid r mid' :
  guild_member (add_roles g mid r) mid' =
  (λ m, if decide (member_id m = mid)
        then (if role_in r (member_roles m) then m else grant r m) else m)
    <$> guild_member g mid'.
Proof.
  unfold guild_member. simpl. apply find_fmap_keeping. intros m.
  case_decide; [|done]. by destruct (role_in _ _).
Qed.

(** The value of an option names its role again. *)
Lemma chosen_role_value e r :
  chosen_role (value_of r) e = (e, Ok (get_role (env_guild e) (role_id r))).
Proof.
  unfold chosen_role, value_of, mbind, Prog_bind, lift. by rewrite py_int_str.
Qed.

Lemma granted_env_snoc user roles r e :
  granted_env user (roles ++ [r]) e =
  set_guild (member_id user)
    (add_roles (env_guild (granted_env user roles e)) (member_id user) r)
    (granted_env user roles e).
Proof. unfold granted_env. by rewrite foldl_app. Qed.

(** Granting changes the guild and the updates, and nothing else: the
    roles of the guild, the platform, the answers and the log stay. *)
Lemma granted_env_frame user roles e :
  guild_roles (env_guild (granted_env user roles e)) = guild_roles (env_guild e) ∧
  env_discord (granted_env user roles e) = env_discord e ∧
  env_replies (granted_env user roles e) = env_replies e ∧
  env_log (granted_env user roles e) = env_log e.
Proof.
  revert e. induction roles as [|r roles IH]; intros e; [done|].
  simpl. by destruct (IH (set_guild (member_id user)
    (add_roles (env_guild e) (member_id user) r) e)) as (-> & -> & -> & ->).
Qed.

(** The loop of the branch that adds, when every role chosen exists and
    no request fails. *)
Lemma add_each_ok user roles faults e :
  Forall (λ r, get_role (env_guild e) (role_id r) = Some r ∧ faults (role_id r) = None)
         roles →
  add_each user (value_of <$> roles) faults e = (granted_env user roles e, Ok ()).
Proof.
  revert e. induction roles as [|r roles IH]; intros e Hroles; [done|].
  apply Forall_cons in Hroles as [[Hget Hf] Hroles]. simpl.
  unfold mbind at 1, Prog_bind at 1. rewrite chosen_role_value, Hget.
  unfold mbind, Prog_bind. simpl. rewrite Hf. simpl. by apply IH.
Qed.

(** The loop when a request fails: the roles before it are granted and
    stay granted. *)
Lemma add_each_fault user pre r post faults h e :
  Forall (λ r, get_role (env_guild e) (role_id r) = Some r ∧ faults (role_id r) = None)
         pre →
  get_role (env_guild e) (role_id r) = Some r → faults (role_id r) = Some h →
  add_each user (value_of <$> pre ++ r :: post) faults e =
  (granted_env user pre e, Raise (HTTPError h)).
Proof.
  revert e. induction pre as [|p pre IH]; intros e Hpre Hget Hf; simpl.
  - unfold mbind at 1, Prog_bind at 1. rewrite chosen_role_value, Hget.
    unfold mbind, Prog_bind. simpl. by rewrite Hf.
  - apply Forall_cons in Hpre as [[Hp Hpf] Hpre].
    unfold mbind at 1, Prog_bind at 1. rewrite chosen_role_value, Hp.
    unfold mbind, Prog_bind. simpl. rewrite Hpf. simpl. by apply IH.
Qed.

(** The updates the grants cause: one for each role, each from the
    member as the grant before left it. *)
Lemma granted_env_updates user roles m e :
  guild_member (env_guild e) (member_id user) = Some m →
  NoDup (role_id <$> member_roles m ++ roles) →
  guild_member (env_guild (granted_env user roles e)) (member_id user) =
    Some (grant_all roles m) ∧
  env_updates (granted_env user roles e) = env_updates e ++ grant_chain m roles.
Proof.
  revert m e. induction roles as [|r roles IH]; intros m e Hm Hnd; simpl.
  - by rewrite app_nil_r.
  - pose proof (find_Some_test _ _ _ Hm) as [Hid%bool_decide_eq_true _].
    rewrite cons_middle, (assoc_L (++)) in Hnd.
    pose proof (NoDup_fmap_snoc _ _ _ (NoDup_fmap_app_l _ _ _ Hnd)) as Hr.
    assert (guild_member (add_roles (env_guild e) (member_id user) r) (member_id user)
            = Some (grant r m)) as Hm'.
    { rewrite guild_member_add_roles, Hm. simpl. rewrite decide_True by done.
      by assert (role_in r (member_roles m) = false) as ->
        by by apply (elem_on_false role_id). }
    destruct (IH (grant r m) (set_guild (member_id user)
                    (add_roles (env_guild e) (member_id user) r) e) Hm' Hnd) as [-> ->].
    split; [done|]. simpl. unfold member_update. rewrite Hm, Hm'.
    rewrite decide_False by (intros Heq; by apply (grant_neq r m)).
    by rewrite <-(assoc_L (++)).
Qed.

(** The values chosen name their roles again, all of them. *)
Lemma roles_to_modify_values roles e :
  roles_to_modify (value_of <$> roles) e =
  (e, Ok ((λ r, get_role (env_guild e) (role_id r)) <$> roles)).
Proof.
  induction roles as [|r roles IH]; [done|]. csimpl.
  unfold mbind, Prog_bind. rewrite chosen_role_value. cbn beta iota. by rewrite IH.
Qed.

Lemma revoked_env_frame user roles e :
  guild_roles (env_guild (revoked_env user roles e)) = guild_roles (env_guild e) ∧
  env_discord (revoked_env user roles e) = env_discord e ∧
  env_replies (revoked_env user roles e) = env_replies e ∧
  env_log (revoked_env user roles e) = env_log e.
Proof.
  revert e. induction roles as [|r roles IH]; intros e; [done|].
  simpl. by destruct (IH (set_guild (member_id user)
    (remove_roles (env_guild e) (member_id user) r) e)) as (-> & -> & -> & ->).
Qed.

(** The requests of [remove_roles], when every role exists and no
    request fails. *)
Lemma member_remove_roles_ok user roles faults e :
  Forall (λ r, faults (role_id r) = None) roles →
  member_remove_roles user (Some <$> roles) faults e = (revoked_env user roles e, Ok ()).
Proof.
  revert e. induction roles as [|r roles IH]; intros e Hroles; [done|].
  apply Forall_cons in Hroles as [Hf Hroles]. simpl.
  unfold mbind, Prog_bind. rewrite Hf. simpl. by apply IH.
Qed.

(** The member of an id after a role is revoked from a member. *)
Lemma guild_member_remove_roles (g : Guild) mid r mid' :
  guild_member (remove_roles g mid r) mid' =
  (λ m, if decide (member_id m = mid) then revoke r m else m) <$> guild_member g mid'.
Proof.
  unfold guild_member. simpl. apply find_fmap_keeping. intros m. by case_decide.
Qed.

End selector_facts.

(** ** The properties of the selector *)

Section selector_properties.
Implicit Types (e : Env) (user m : Member) (r : Role) (roles : list Role).
Implicit Types (faults : Z → option HTTPException) (self : RoleSelector).

(** [callback] is its body when the body raises nothing, and the handler
    of the exception otherwise. *)
Lemma callback_handles self values faults respond_fault e e' x :
  (if selector_remove self then
     roles ← roles_to_modify values;
     member_remove_roles (selector_user self) roles faults;;
     response_send_message ("Roles removed for " +:+ member_mention (selector_user self))
                           None respond_fault
   else
     add_each (selector_user self) values faults;;
     response_send_message ("Roles added for " +:+ member_mention (selector_user self))
                           None respond_fault) e = (e', Raise x) →
  callback self values faults respond_fault None e = (excused (selector_user self) x e', Ok ()).
Proof.
  intros Hbody. unfold callback, try_except. rewrite Hbody.
  unfold excused, callback_excuse. destruct x as [h| | | | |]; try done.
  by destruct (decide (http_kind h = Forbidden)).
Qed.

(** C31: when every role chosen exists and no request
    fails, the selector that adds grants the roles chosen to the user in
    the order chosen, causes one member update for each, answers once and
    logs nothing. *)
Theorem callback_grants_chosen_roles user offered roles faults handler_fault m e :
  Forall (λ r, get_role (env_guild e) (role_id r) = Some r ∧ faults (role_id r) = None)
         roles →
  guild_member (env_guild e) (member_id user) = Some m →
  NoDup (role_id <$> member_roles m ++ roles) →
  let e' := granted_env user roles e in
  callback (RoleSelector_init user offered false) (value_of <$> roles) faults None
           handler_fault e =
    (add_reply (ResponseSend ("Roles added for " +:+ member_mention user) None) e', Ok ()) ∧
  guild_member (env_guild e') (member_id user) = Some (grant_all roles m) ∧
  env_updates e' = env_updates e ++ grant_chain m roles ∧
  env_log e' = env_log e ∧ env_replies e' = env_replies e.
Proof.
  intros Hroles Hm Hnd e'.
  destruct (granted_env_updates user roles m e Hm Hnd) as [Hm' Hup].
  destruct (granted_env_frame user roles e) as (_ & _ & Hrep & Hlog).
  split_and!; [|done..]. unfold callback, try_except. simpl.
  unfold mbind, Prog_bind. by rewrite add_each_ok.
Qed.

(** C32: when the request for a role fails, the roles
    chosen before it are granted and stay granted, the roles after it are
    not asked for, and the handler of the class of the fault logs one
    error and answers. *)
Theorem callback_stops_at_fault user offered pre r post faults h e :
  Forall (λ r, get_role (env_guild e) (role_id r) = Some r ∧ faults (role_id r) = None)
         pre →
  get_role (env_guild e) (role_id r) = Some r → faults (role_id r) = Some h →
  callback (RoleSelector_init user offered false) (value_of <$> pre ++ r :: post) faults
           None None e =
  (excused user (HTTPError h) (granted_env user pre e), Ok ()).
Proof.
  intros Hpre Hget Hf. apply callback_handles. simpl.
  unfold mbind, Prog_bind. by rewrite (add_each_fault user pre r post faults h).
Qed.

(** When every role chosen exists and no request
    fails, the selector that removes revokes the roles chosen from the
    user, answers once and logs nothing; the user is left with the roles
    that were not chosen. *)
Theorem callback_revokes_chosen_roles user offered roles faults handler_fault m e :
  Forall (λ r, get_role (env_guild e) (role_id r) = Some r ∧ faults (role_id r) = None)
         roles →
  guild_member (env_guild e) (member_id user) = Some m →
  let e' := revoked_env user roles e in
  callback (RoleSelector_init user offered true) (value_of <$> roles) faults None
           handler_fault e =
    (add_reply (ResponseSend ("Roles removed for " +:+ member_mention user) None) e', Ok ()) ∧
  guild_member (env_guild e') (member_id user) = Some (foldl (λ m r, revoke r m) m roles) ∧
  env_log e' = env_log e ∧ env_replies e' = env_replies e.
Proof.
  intros Hroles Hm e'.
  destruct (revoked_env_frame user roles e) as (_ & _ & Hrep & Hlog).
  split_and!; [| |done..].
  - unfold callback, try_except. simpl. unfold mbind at 1, Prog_bind at 1.
    rewrite roles_to_modify_values.
    rewrite (Forall_fmap_ext_1 _ Some roles) by by eapply Forall_impl; [done|intros r []].
    unfold mbind, Prog_bind. rewrite member_remove_roles_ok; [done|].
    eapply Forall_impl; [done|]. by intros r [].
  - unfold e'. clear Hroles Hrep Hlog e'. revert m e Hm.
    induction roles as [|r roles IH]; intros m e Hm; [done|]. simpl.
    apply IH. simpl. rewrite guild_member_remove_roles, Hm. simpl.
    apply find_Some_test in Hm as [Hid%bool_decide_eq_true _]. by rewrite decide_True.
Qed.

(** C34: whatever is chosen and whatever the
    platform answers to the requests, no exception leaves [callback] as
    long as the answer of its handler goes through. *)
Theorem callback_never_raises self values faults respond_fault e :
  (callback self values faults respond_fault None e).2 = Ok ().
Proof.
  unfold callback at 1, try_except.
  match goal with |- context [match ?body e with _ => _ end] =>
    destruct (body e) as [e' [[]|x]] eqn:Hbody end; [done|].
  destruct x as [h| | | | |]; try done. by destruct (decide (http_kind h = Forbidden)).
Qed.

(** C33: the options of a selector and the choice made from them are a round
    trip: [str(role.id)] of a role offered, read back by [int] and looked
    up in the guild, is that role, for every role the guild has under
    its id; and roles of different ids get different values, so that a
    value chosen names one role offered. *)
Theorem selector_options_decode user roles remove e :
  Forall (λ r, get_role (env_guild e) (role_id r) = Some r) roles →
  roles_to_modify (option_value <$> options (RoleSelector_init user roles remove)) e =
    (e, Ok (Some <$> roles)) ∧
  (NoDup (role_id <$> roles) →
   NoDup (option_value <$> options (RoleSelector_init user roles remove))).
Proof.
  intros Hroles. simpl. rewrite <-list_fmap_compose.
  change (option_value ∘ _) with value_of. split.
  - by rewrite roles_to_modify_values, (Forall_fmap_ext_1 _ Some roles).
  - intros Hnd. unfold value_of. change (λ r, py_str (role_id r)) with (py_str ∘ role_id).
    rewrite list_fmap_compose. by apply (NoDup_fmap_2 py_str).
Qed.

End selector_properties.

(** ** The properties of the commands *)

Section command_facts.
Implicit Types (e : Env) (bot : RoleManagerBot) (user : Member).

(** A follow-up goes through, is lost with [NotFound], which is logged,
    or fails otherwise, which escapes. *)
Lemma followup_or_log_eq text fault e :
  followup_or_log text fault e =
  match fault with
  | None => (add_reply (FollowupSend text) e, Ok ())
  | Some h =>
      if decide (http_kind h = NotFound)
      then (mkEnv (env_guild e) (env_discord e) (env_replies e)
                  (env_log e ++ [mkLog ERROR
                     "Failed to send follow-up message: Interaction webhook not found."])
                  (env_updates e), Ok ())
      else (e, Raise (HTTPError h))
  end.
Proof.
  unfold followup_or_log, try_except. destruct fault as [h|]; [|done]. simpl.
  by destruct (decide (http_kind h = NotFound)).
Qed.

(** The handler of [add], [remove] and [verify], when the follow-up goes
    through or is lost with [NotFound]. *)
Lemma apology_eq line text followup_fault e :
  (∀ h, followup_fault = Some h → http_kind h = NotFound) →
  (logging_error line;; followup_or_log text followup_fault) e =
  (apologised line text followup_fault e, Ok ()).
Proof.
  intros Hf. unfold mbind, Prog_bind. simpl. rewrite followup_or_log_eq.
  unfold apologised. destruct followup_fault as [h|]; [|done].
  by rewrite decide_True by by apply Hf.
Qed.

End command_facts.

Section command_properties.
Implicit Types (e : Env) (bot : RoleManagerBot) (user : Member) (r : Role).

(** C35: for an administrator, when the answer goes
    through, [add] offers in one selector the roles of the table that the
    guild has and the user has not, each under the value that names it,
    or says that the user has them all; it changes nothing else. *)
Theorem add_offers_missing_roles bot user followup_fault e :
  let roles := roles_to_add (env_guild e) (role_to_channel bot) user in
  add bot true user None followup_fault e =
    (add_reply (if py_truthy roles
                then ResponseSend messages.SELECT_ROLES_TO_ADD
                       (Some [RoleSelector_init user roles false])
                else ResponseSend messages.ROLE_ALREADY_HAVE_ALL None) e, Ok ()) ∧
  (∀ r, r ∈ roles ↔
        role_id r ∈ dict_keys (role_to_channel bot) ∧
        get_role (env_guild e) (role_id r) = Some r ∧
        role_in r (member_roles user) = false) ∧
  option_value <$> options (RoleSelector_init user roles false) = value_of <$> roles ∧
  (max_values (RoleSelector_init user roles false) ≤ length (role_to_channel bot))%nat.
Proof.
  intros roles. split_and!.
  - unfold add, try_except, mbind, Prog_bind. simpl. fold roles. by destruct (py_truthy roles).
  - intros r. apply roles_to_add_spec.
  - simpl. by rewrite <-list_fmap_compose.
  - simpl. rewrite length_fmap. apply roles_to_add_length.
Qed.

(** For an administrator, when the answer goes
    through, [remove] offers the roles of the table that the user has,
    or says that the user has none. *)
Theorem remove_offers_held_roles bot user followup_fault e :
  let roles := roles_to_remove (env_guild e) (role_to_channel bot) user in
  remove bot true user None followup_fault e =
    (add_reply (if py_truthy roles
                then ResponseSend messages.SELECT_ROLES_TO_REMOVE
                       (Some [RoleSelector_init user roles true])
                else ResponseSend messages.USER_DOES_NOT_HAVE_ROLES None) e, Ok ()) ∧
  (∀ r, r ∈ roles ↔
        role_id r ∈ dict_keys (role_to_channel bot) ∧
        get_role (env_guild e) (role_id r) = Some r ∧
        role_in r (member_roles user) = true).
Proof.
  intros roles. split.
  - unfold remove, try_except, mbind, Prog_bind. simpl. fold roles. by destruct (py_truthy roles).
  - intros r. apply roles_to_remove_spec.
Qed.

(** When the answer of [add] or [remove] fails,
    the error is logged, a follow-up is tried, and its loss with
    [NotFound] is logged too: no exception leaves the command. *)
Theorem failed_answer_is_apologised bot user h followup_fault e :
  (∀ h', followup_fault = Some h' → http_kind h' = NotFound) →
  add bot true user (Some h) followup_fault e =
    (apologised ("Error in add command: " +:+ http_text h) messages.ERROR_ADDING_ROLES
                followup_fault e, Ok ()) ∧
  remove bot true user (Some h) followup_fault e =
    (apologised ("Error in remove command: " +:+ http_text h)
                messages.ERROR_REMOVING_ROLES followup_fault e, Ok ()).
Proof.
  intros Hf. split.
  - unfold add, has_permissions, try_except. unfold mbind at 1, Prog_bind at 1. simpl.
    destruct (py_truthy (roles_to_add _ _ _)); simpl; by apply apology_eq.
  - unfold remove, has_permissions, try_except. unfold mbind at 1, Prog_bind at 1. simpl.
    destruct (py_truthy (roles_to_remove _ _ _)); simpl; by apply apology_eq.
Qed.

(** For a user who is not an administrator
    [add], [remove] and [clear] answer nothing and change nothing: the
    check raises before the body runs. *)
Theorem commands_need_administrator bot user channel amount f1 f2 f3 f4 e :
  (add bot false user f1 f2 e).1 = e ∧ (remove bot false user f1 f2 e).1 = e ∧
  (clear false channel amount f1 f2 f3 f4 e).1 = e ∧
  ∃ x, (add bot false user f1 f2 e).2 = Raise (CheckFailure x) ∧
       (remove bot false user f1 f2 e).2 = Raise (CheckFailure x) ∧
       (clear false channel amount f1 f2 f3 f4 e).2 = Raise (CheckFailure x).
Proof. split_and!; [done..|]. by eexists. Qed.

(** [verify] defers and sends the fixed text; when
    one of the two fails it logs the error and apologises, with the text
    of the role commands. *)
Theorem verify_answers defer_fault followup_fault handler_fault e :
  (∀ h, handler_fault = Some h → http_kind h = NotFound) →
  verify defer_fault followup_fault handler_fault e =
  match defer_fault, followup_fault with
  | None, None =>
      (add_reply (FollowupSend messages.VERIFICATION_INFO) (add_reply ResponseDefer e), Ok ())
  | Some h, _ =>
      (apologised ("Verify command: An error occurred: " +:+ http_text h)
                  messages.ERROR_MODIFYING_ROLES handler_fault e, Ok ())
  | None, Some h =>
      (apologised ("Verify command: An error occurred: " +:+ http_text h)
                  messages.ERROR_MODIFYING_ROLES handler_fault (add_reply ResponseDefer e), Ok ())
  end.
Proof.
  intros Hf. unfold verify, try_except. unfold mbind at 1, Prog_bind at 1.
  destruct defer_fault as [h|]; simpl; [by apply apology_eq|].
  destruct followup_fault as [h|]; simpl; [by apply apology_eq|done].
Qed.

End command_properties.

(** ** The properties of [clear] *)

Section clear_properties.
Implicit Types (e : Env) (d : Platform) (m : Message) (channel amount : Z).

Lemma clear_eq channel amount handler_fault e :
  0 < amount →
  clear true channel amount None None None handler_fault e =
  (cleared channel amount e, Ok ()).
Proof.
  intros Hpos. unfold clear, has_permissions, try_except, cleared, to_clear.
  rewrite decide_False by lia. unfold mbind, Prog_bind. simpl. unfold add_reply. simpl.
  by rewrite <-(assoc_L (++)).
Qed.

(** A message of the channel that [clear] leaves is older than every
    message it deletes. *)
Lemma to_clear_newest d channel amount m k :
  platform_wf d → m ∈ to_clear d channel amount →
  k ∈ channel_history (delete_messages d (to_clear d channel amount)) channel →
  message_id k < message_id m.
Proof.
  intros Hwf Hm Hk. apply elem_of_channel_history in Hk as [Hk Hc];
    [|by apply delete_messages_wf].
  rewrite lookup_delete_messages in Hk. case_decide as Hin; [done|].
  assert (k ∈ channel_history d channel) as Hhist by by apply elem_of_channel_history.
  pose proof (channel_history_sorted d channel) as Hsorted.
  unfold to_clear in *. rewrite <-(take_drop (Z.to_nat amount) (channel_history d channel))
    in Hhist, Hsorted.
  apply elem_of_app in Hhist as [Hhist|Hhist];
    [by destruct Hin; apply list_elem_of_fmap_2|].
  pose proof (StronglySorted_app_1_elem_of _ _ _ _ _ Hsorted Hm Hhist) as Hle.
  unfold newer in Hle. assert (message_id k ≠ message_id m); [|lia].
  intros Heq. apply Hin. rewrite Heq. by apply list_elem_of_fmap_2.
Qed.

(** C36: [clear] with a positive amount, when no call
    fails: the [amount] newest messages of the channel are deleted, or
    all of them when there are fewer; every other message stays; what
    stays in the channel is older than what is deleted; and the answer
    reports the number. *)
Theorem clear_deletes_newest channel amount handler_fault e :
  0 < amount → platform_wf (env_discord e) →
  let deleted := to_clear (env_discord e) channel amount in
  let e' := (clear true channel amount None None None handler_fault e).1 in
  (clear true channel amount None None None handler_fault e).2 = Ok () ∧
  env_replies e' = env_replies e ++ [ResponseDefer; FollowupSend (clear_response deleted)] ∧
  length deleted = (Z.to_nat amount `min` length (channel_history (env_discord e) channel))%nat ∧
  (∀ m, m ∈ deleted → messages (env_discord e) !! message_id m = Some m ∧
                       message_channel m = channel ∧
                       messages (env_discord e') !! message_id m = None) ∧
  (∀ i, i ∉ message_id <$> deleted →
        messages (env_discord e') !! i = messages (env_discord e) !! i) ∧
  (∀ m k, m ∈ deleted → k ∈ channel_history (env_discord e') channel →
          message_id k < message_id m).
Proof.
  intros Hpos Hwf deleted e'. unfold e'. rewrite clear_eq by done.
  unfold cleared. cbn [fst snd env_replies env_discord]. fold deleted.
  split_and!; [done..|apply length_take| | |].
  - intros m Hm. rewrite lookup_delete_messages, decide_True by by apply list_elem_of_fmap_2.
    apply subseteq_take in Hm.
    by apply elem_of_channel_history in Hm as [? ?].
  - intros i Hi. by rewrite lookup_delete_messages, decide_False.
  - intros m k. by apply to_clear_newest.
Qed.

(** [clear] with an amount that is not positive
    deletes nothing and says so. *)
Theorem clear_rejects_nonpositive channel amount f2 f3 f4 e :
  amount ≤ 0 →
  clear true channel amount None f2 f3 f4 e =
  (add_reply (ResponseSend messages.SPECIFY_NUMBER_GREATER_THAN_ZERO None) e, Ok ()).
Proof.
  intros Hle. unfold clear, has_permissions, try_except. by rewrite decide_True by done.
Qed.

(** The report counts the messages deleted, in
    the singular for one, and says so when there were none. *)
Theorem clear_response_counts (l : list Message) :
  clear_response l =
  match l with
  | [] => "There were no messages to clear."
  | [_] => "Cleared 1 message"
  | _ => "Cleared " +:+ pretty (Z.of_nat (length l)) +:+ " messages"
  end.
Proof. by destruct l as [|m [|k l]]. Qed.

(** When the purge is refused, nothing is deleted,
    the refusal is logged and the user told; any other HTTP error is
    logged with its text. *)
Theorem clear_purge_fault channel amount h handler_fault e :
  0 < amount → (∀ h', handler_fault = Some h' → http_kind h' = NotFound) →
  clear true channel amount None (Some h) None handler_fault e =
  ((if decide (http_kind h = Forbidden)
    then apologised messages.NO_PERMISSION_TO_DELETE_MESSAGES
           messages.NO_PERMISSION_TO_DELETE_MESSAGES
    else apologised ("Clear command: An error occurred: " +:+ http_text h)
           messages.ERROR_CLEARING_MESSAGES) handler_fault (add_reply ResponseDefer e), Ok ()).
Proof.
  intros Hpos Hf. unfold clear, has_permissions, try_except.
  rewrite decide_False by lia. unfold mbind at 1 2, Prog_bind at 1 2. simpl.
  case_decide; by apply apology_eq.
Qed.

End clear_properties.

(** ** Witnesses *)

Section command_witnesses.
Import Sample Shop.

Lemma callback_grants_chosen_roles_witness :
  let e' := granted_env (bob [alpha]) [beta; gamma] env in
  callback (RoleSelector_init (bob [alpha]) [beta; gamma] false)
           (value_of <$> [beta; gamma]) no_faults None None env =
    (add_reply (ResponseSend ("Roles added for " +:+ member_mention (bob [alpha])) None) e',
     Ok ()) ∧
  guild_member (env_guild e') 42 = Some (grant_all [beta; gamma] (bob [alpha])) ∧
  env_updates e' = env_updates env ++ grant_chain (bob [alpha]) [beta; gamma] ∧
  env_log e' = env_log env ∧ env_replies e' = env_replies env.
Proof.
  apply (callback_grants_chosen_roles (bob [alpha]) [beta; gamma] [beta; gamma] no_faults
           None (bob [alpha]) env); [by repeat constructor|done|compute_decide].
Defined.

Lemma callback_stops_at_fault_witness :
  callback (RoleSelector_init (bob []) [alpha; beta; gamma] false)
           (value_of <$> [gamma] ++ beta :: [alpha]) beta_forbidden None None env =
  (excused (bob []) (HTTPError (mkHTTP Forbidden "403 Forbidden"))
           (granted_env (bob []) [gamma] env), Ok ()).
Proof.
  apply (callback_stops_at_fault (bob []) [alpha; beta; gamma] [gamma] beta [alpha]
           beta_forbidden (mkHTTP Forbidden "403 Forbidden") env);
    [by repeat constructor|done|done].
Defined.

Lemma selector_options_decode_witness :
  roles_to_modify (option_value <$> options (RoleSelector_init (bob [alpha]) [beta; gamma] false))
    env = (env, Ok (Some <$> [beta; gamma])) ∧
  (NoDup (role_id <$> [beta; gamma]) →
   NoDup (option_value <$> options (RoleSelector_init (bob [alpha]) [beta; gamma] false))).
Proof.
  apply (selector_options_decode (bob [alpha]) [beta; gamma] false env).
  by repeat constructor.
Defined.

Lemma clear_deletes_newest_witness :
  let e := new_env guild busy in
  let deleted := to_clear busy 7 2 in
  let e' := (clear true 7 2 None None None None e).1 in
  (clear true 7 2 None None None None e).2 = Ok () ∧
  env_replies e' = env_replies e ++ [ResponseDefer; FollowupSend (clear_response deleted)] ∧
  length deleted = (Z.to_nat 2 `min` length (channel_history busy 7))%nat ∧
  (∀ m, m ∈ deleted → messages busy !! message_id m = Some m ∧ message_channel m = 7 ∧
                       messages (env_discord e') !! message_id m = None) ∧
  (∀ i, i ∉ message_id <$> deleted → messages (env_discord e') !! i = messages busy !! i) ∧
  (∀ m k, m ∈ deleted → k ∈ channel_history (env_discord e') 7 →
          message_id k < message_id m).
Proof.
  apply (clear_deletes_newest 7 2 None (new_env guild busy)); [lia|compute_decide].
Defined.

(** The two newest messages of the channel go, the oldest and the message
    of the other channel stay, and the answer counts two. *)
Example clear_sample :
  (message_id <$> to_clear busy 7 2) = [9003; 9001] ∧
  clear_response (to_clear busy 7 2) = "Cleared 2 messages" ∧
  messages (env_discord (clear true 7 2 None None None None (new_env guild busy)).1) =
    {[ 9000 := mkMessage 9000 7 "one" None; 9002 := mkMessage 9002 8 "elsewhere" None ]}.
Proof. split_and!; [by vm_compute..|]. apply map_eq. intros i. by vm_compute. Qed.

End command_witnesses.
