(* ===== verification/Gateway.v ===== *)
(** * Gateway: from the requests of a command to the events of the bot

    A role granted or revoked by [RoleSelector.callback] changes the
    member on the platform, and the gateway reports each change to the
    bot as a member update: the event [on_member_update] handles.  This
    file joins the two halves of the program: the updates a handler of
    [Commands] has caused ([env_updates]) are delivered as events of
    [Bot], some time apart, and the theorems follow a choice made in the
    selector to the notification it ends in. *)

From stdpp Require Import base tactics option list strings gmap.
From S2P Require Import Prelude Discord Queue Roles Notifier Ticket Bot Interaction Commands.

Set Warnings "-clear-no-such-hyp".
#[local] Open Scope Z_scope.

(** ** Delivery *)

(** The events of the updates, each delivered [dt] seconds after the one
    before it. *)
Fixpoint deliver (dts : list Z) (updates : list (Member * Member)) : list Event :=
  match dts, updates with
  | dt :: dts', (before, after) :: rest =>
      Tick dt :: MemberUpdate before after :: deliver dts' rest
  | _, _ => []
  end.

(** The choice of roles in the selector of [add], from the answer of the
    command to the updates it causes: the events the bot sees. *)
Definition selection_events (user : Member) (offered chosen : list Role)
    (faults : Z → option HTTPException) (dts : list Z) (g : Guild) (d : Platform) :
    list Event :=
  deliver dts
    (env_updates (callback (RoleSelector_init user offered false) (value_of <$> chosen)
                           faults None None (new_env g d)).1).

(** ** A sample: bob is given Beta and Gamma in the shop *)

Module Purchase.
Import Sample Scenario Shop.

(** Bob has Alpha; an administrator chooses Beta and Gamma for him. *)
Definition events : list Event :=
  selection_events (bob [alpha]) [beta; gamma] [beta; gamma] no_faults [0; 1] guild world.

End Purchase.

(** ** Facts on delivery *)

Section delivery_facts.
Context `{PyRuntime}.
Implicit Types (s : System) (m user : Member) (r : Role) (roles : list Role).

(** The updates of roles granted one after the other are a burst. *)
Lemma deliver_grant_chain dts m roles :
  length dts = length roles →
  deliver dts (grant_chain m roles) = burst m (zip dts roles).
Proof.
  revert m roles. induction dts as [|dt dts IH]; intros m [|r roles] Hlen; try done.
  simpl. rewrite IH; [done|]. simpl in Hlen. lia.
Qed.

(** What the selector of [add] makes the bot see, when every role chosen
    exists and no request fails: the burst of the roles chosen. *)
Lemma selection_events_burst user offered chosen faults dts g d m :
  Forall (λ r, get_role g (role_id r) = Some r ∧ faults (role_id r) = None) chosen →
  guild_member g (member_id user) = Some m →
  NoDup (role_id <$> member_roles m ++ chosen) →
  length dts = length chosen →
  selection_events user offered chosen faults dts g d = burst m (zip dts chosen).
Proof.
  intros Hroles Hm Hnd Hlen. unfold selection_events, callback, try_except. simpl.
  unfold mbind, Prog_bind. rewrite add_each_ok by done. simpl.
  destruct (granted_env_updates user chosen m (new_env g d) Hm Hnd) as [_ ->].
  by apply deliver_grant_chain.
Qed.

(** The update of a revocation grants nothing. *)
Lemma revoke_grants_nothing (bot : RoleManagerBot) m r :
  to_add bot m (revoke r m) = [].
Proof.
  apply to_add_unlisted. intros r' Hr'%list_elem_of_filter Hout. exfalso.
  destruct Hr' as [_ Hr']. apply (elem_on_false role_id) in Hout.
  by apply Hout, list_elem_of_fmap_2.
Qed.

End delivery_facts.

(** ** From the selector to the notification *)

Section end_to_end.
Context `{PyRuntime}.
Implicit Types (s : System) (m user : Member) (r : Role) (roles : list Role).

(** C10: a choice in the selector of [add] ends in one
    notification.  In a reachable state in which the user has nothing
    pending, when an administrator chooses roles of the table that the
    guild has and the user has not, every request goes through, and the
    settling task wakes after the last update, exactly one notification
    is started: it names the user and has one field for each role
    chosen. *)
Theorem selection_is_announced_once s user offered r rest faults dt dts wait g d m url :
  reachable s →
  role_update_queue (bot s) !! member_id m = None →
  Forall (λ r, get_role g (role_id r) = Some r ∧ faults (role_id r) = None) (r :: rest) →
  Forall (λ r, role_id r ∈ dict_keys (role_to_channel init_bot)) (r :: rest) →
  guild_member g (member_id user) = Some m →
  NoDup (role_id <$> member_roles m ++ r :: rest) →
  length dts = length rest → 0 ≤ dt → Forall (λ t, 0 ≤ t) dts →
  0 ≤ wait → settle_delay ≤ foldr Z.add 0 dts + wait →
  verification_channel_id ∈ channels (discord s) → member_avatar m = Some url →
  ∃ embed,
    run s (selection_events user offered (r :: rest) faults (dt :: dts) g d
           ++ [Tick wait; Wake (length (tasks s))]) =
    Some (mkSystem (bot s)
            (tasks s ++ [SendPending (grant r m) verification_channel_id
                           (member_mention m) embed])
            (log s) (clock s + dt + foldr Z.add 0 dts + wait) (discord s)) ∧
    embed_fields embed ≡ₚ role_field (role_to_channel init_bot) <$> (r :: rest).
Proof.
  intros Hs Hq Hroles Htab Hm Hnd Hlen Hdt Hdts Hwait Hdue Hch Hav.
  rewrite (selection_events_burst user offered (r :: rest) faults (dt :: dts) g d m)
    by (simpl; auto with lia).
  simpl zip.
  assert ((zip dts rest).*2 = rest) as Hsnd by (apply snd_zip; lia).
  assert ((zip dts rest).*1 = dts) as Hfst by (apply fst_zip; lia).
  destruct (burst_wake s m dt r (zip dts rest) wait url) as (embed & Hrun & Hfields);
    rewrite ?Hsnd; try done; [by apply reachable_inv|..].
  - apply Forall_forall. intros [t x] Hin. simpl.
    eapply Forall_forall in Hdts; [done|]. rewrite <-Hfst.
    by apply (list_elem_of_fmap_2 fst) in Hin.
  - unfold burst_time. by rewrite Hfst.
  - exists embed. unfold burst_time in Hrun. rewrite Hfst, Hsnd in *. done.
Qed.

(** C37: a revocation retracts nothing: the update
    that reports a role taken from a member, delivered at any time,
    leaves the bot and its tasks as they were, so a role that was pending
    when it was revoked is announced all the same. *)
Theorem revocation_is_not_retracted s m r dt :
  0 ≤ dt →
  run s (deliver [dt] [(m, revoke r m)]) =
  Some (mkSystem (bot s) (tasks s) (log s) (clock s + dt) (discord s)).
Proof.
  intros Hdt. simpl. rewrite decide_True by done.
  rewrite on_member_update_eq, enqueue_noop by apply revoke_grants_nothing.
  simpl. by rewrite app_nil_r.
Qed.

End end_to_end.

(** ** Witnesses *)

Section gateway_witnesses.
Import Sample Scenario Shop Purchase.
#[local] Existing Instance insertion_order_runtime.

Lemma selection_is_announced_once_witness :
  ∃ embed,
    run start (events ++ [Tick 4; Wake 0%nat]) =
    Some (mkSystem init_bot
            [SendPending (bob [alpha; beta]) verification_channel_id "<@42>" embed]
            [] 5 world) ∧
    embed_fields embed ≡ₚ role_field (role_to_channel init_bot) <$> [beta; gamma].
Proof.
  apply (selection_is_announced_once start (bob [alpha]) [beta; gamma] beta [gamma]
           no_faults 0 [1] 4 guild world (bob [alpha]) avatar_url);
    first [done|by vm_compute|apply reachable_init|compute_decide].
Defined.

Lemma revocation_is_not_retracted_witness :
  run pending (deliver [1] [(bob [alpha; beta], revoke beta (bob [alpha; beta]))]) =
  Some (mkSystem (bot pending) (tasks pending) (log pending) (clock pending + 1)
                 (discord pending)).
Proof. apply (revocation_is_not_retracted pending (bob [alpha; beta]) beta 1). lia. Defined.

(** Gamma is revoked from bob while it is pending: the notification names
    it all the same. *)
Example revoked_role_is_announced :
  sending (tasks (run_from_start
    [MemberUpdate (bob []) (bob [gamma]); Tick 1;
     MemberUpdate (bob [gamma]) (revoke gamma (bob [gamma])); Tick 4; Wake 0%nat]))
  = [(bob [gamma],
      mkEmbed "Thank you for your purchase!" 0x059669 (Some avatar_url)
        (description ("**Gamma**", "plugin", "the post below"))
        [role_field (role_to_channel init_bot) gamma]
        (Some (footer 5)))].
Proof. by vm_compute. Qed.

End gateway_witnesses.
