(* ===== verification/Lifecycle.v ===== *)
(** * Lifecycle: start-up, the periodic check and shutdown

    [on_ready] and [main] of [src/main.py], and [send_startup_message],
    [send_shutdown_message], [close], [close_http_session] and
    [periodic_role_check] of [src/bot/bot_class.py].  The client is the
    state these handlers touch: the platform, the guilds, the log, the
    clock, the cogs loaded, the presence shown, and whether the HTTP
    connector and the client itself are closed.  They are handlers in the
    monad [Prog] of the prelude; a parameter named [..._fault] is the
    answer of the platform to a call.

    [periodic_role_check] never returns while the client is open: it is
    modelled a number of turns at a time. *)

From stdpp Require Import base tactics option list strings gmap pretty.
From S2P Require Import Prelude Discord Queue Roles Interaction.

Set Warnings "-clear-no-such-hyp".
#[local] Open Scope Z_scope.

(** ** The client *)

Record Client : Type := mkClient {
  client_discord : Platform;
  client_guilds : list Guild;
  client_log : list LogEntry;
  client_clock : Z;
  client_cogs : list string;
  client_synced : bool;
  client_presence : option string;
  client_connector : bool;
  client_closed : bool;
}.

(** A client that has just connected: nothing loaded, the connector
    open. *)
Definition new_client (d : Platform) (guilds : list Guild) (now : Z) : Client :=
  mkClient d guilds [] now [] false None true false.

(** A handler of the client. *)
Abbreviation Run := (Prog Exn Client).

(** [logging.info], [logging.warning] and [logging.error] *)
Definition logging (level : Level) (text : string) : Run unit := λ c,
  (mkClient (client_discord c) (client_guilds c) (client_log c ++ [mkLog level text])
            (client_clock c) (client_cogs c) (client_synced c) (client_presence c)
            (client_connector c) (client_closed c), Ok ()).

(** The lines of a call that returns what it logged. *)
Definition logged (lines : list LogEntry) (c : Client) : Client :=
  mkClient (client_discord c) (client_guilds c) (client_log c ++ lines)
           (client_clock c) (client_cogs c) (client_synced c) (client_presence c)
           (client_connector c) (client_closed c).

(** [await asyncio.sleep(dt)] *)
Definition asyncio_sleep (dt : Z) : Run unit := λ c,
  (mkClient (client_discord c) (client_guilds c) (client_log c) (client_clock c + dt)
            (client_cogs c) (client_synced c) (client_presence c)
            (client_connector c) (client_closed c), Ok ()).

(** [self.get_channel(id)] *)
Definition client_get_channel (cid : Z) : Run (option Z) := λ c,
  (c, Ok (get_channel (client_discord c) cid)).

(** [await channel.send(content)] *)
Definition client_send (cid : Z) (content : string) (fault : option HTTPException) :
    Run unit := λ c,
  let '(d', r) := channel_send_text (client_discord c) cid content fault in
  (mkClient d' (client_guilds c) (client_log c) (client_clock c) (client_cogs c)
            (client_synced c) (client_presence c) (client_connector c) (client_closed c),
   match r with
   | Ok _ => Ok ()
   | Raise h => Raise (HTTPError h)
   end).

(** ** Start-up and shutdown messages *)

Section lifecycle.

(** [str(channel)]: the name of the channel. *)
Context (channel_name : Z → string).

(** [f"{startup_channel}"] *)
Definition channel_str (channel : option Z) : string :=
  match channel with
  | Some cid => channel_name cid
  | None => "None"
  end.

(** [RoleManagerBot.send_startup_message()] *)
Definition send_startup_message (bot : RoleManagerBot) (fault : option HTTPException) :
    Run unit :=
  logging INFO "Attempting to send startup message";;
  asyncio_sleep 1;;
  logging INFO "Fetching startup channel";;
  startup_channel ← client_get_channel (startup_channel_id bot);
  logging INFO ("Startup channel: " +:+ channel_str startup_channel);;
  match startup_channel with
  | Some channel =>
      logging INFO ("Startup channel found: " +:+ pretty channel);;
      try_except
        (client_send channel messages.STARTUP_MESSAGE fault;;
         logging INFO "Startup message sent successfully")
        (λ e, logging ERROR ("Failed to send startup message: " +:+ exn_text e))
  | None => logging WARNING "Startup channel not found"
  end.

(** [RoleManagerBot.send_shutdown_message()] *)
Definition send_shutdown_message (bot : RoleManagerBot) (fault : option HTTPException) :
    Run unit :=
  logging INFO "Bot is shutting down. Fetching shutdown channel.";;
  shutdown_channel ← client_get_channel (startup_channel_id bot);
  match shutdown_channel with
  | Some channel =>
      try_except
        (client_send channel messages.SHUTDOWN_MESSAGE fault;;
         logging INFO "Shutdown message sent successfully")
        (λ e, logging ERROR ("Failed to send shutdown message: " +:+ exn_text e))
  | None => logging WARNING "Shutdown channel not found"
  end.

(** [RoleManagerBot.close_http_session()] *)
Definition close_http_session : Run unit := λ c,
  if client_connector c then
    (mkClient (client_discord c) (client_guilds c)
              (client_log c ++ [mkLog INFO "HTTP session closed"]) (client_clock c)
              (client_cogs c) (client_synced c) (client_presence c) false
              (client_closed c), Ok ())
  else (c, Ok ()).

(** [commands.Bot.close()]: the cogs are removed and the client is
    closed. *)
Definition super_close : Run unit := λ c,
  (mkClient (client_discord c) (client_guilds c) (client_log c) (client_clock c)
            [] (client_synced c) (client_presence c) false true, Ok ()).

(** [RoleManagerBot.close()] *)
Definition close (bot : RoleManagerBot) (fault : option HTTPException) : Run unit :=
  logging INFO "Closing bot and resources";;
  send_shutdown_message bot fault;;
  close_http_session;;
  super_close.

(** ** [on_ready] *)

(** [await bot.update_bot_activity()] on the client. *)
Definition client_update_bot_activity (presence_fault : option HTTPException) : Run unit :=
  λ c,
  let '(r, lines) := update_bot_activity (H:=logging_logger) (client_guilds c)
                       presence_fault in
  match r with
  | Ok text =>
      (mkClient (client_discord c) (client_guilds c) (client_log c ++ lines)
                (client_clock c) (client_cogs c) (client_synced c) (Some text)
                (client_connector c) (client_closed c), Ok ())
  | Raise e => (logged lines c, Raise e)
  end.

(** [await bot.add_cog(cog)]: a cog is loaded once. *)
Definition add_cog (name : string) : Run unit := λ c,
  if bool_decide (name ∈ client_cogs c)
  then (c, Raise (ClientException ("Cog named '" +:+ name +:+ "' already loaded")))
  else (mkClient (client_discord c) (client_guilds c) (client_log c) (client_clock c)
                 (client_cogs c ++ [name]) (client_synced c) (client_presence c)
                 (client_connector c) (client_closed c), Ok ()).

(** [await bot.tree.sync()] *)
Definition tree_sync (fault : option HTTPException) : Run unit := λ c,
  match fault with
  | Some h => (c, Raise (HTTPError h))
  | None =>
      (mkClient (client_discord c) (client_guilds c) (client_log c) (client_clock c)
                (client_cogs c) true (client_presence c) (client_connector c)
                (client_closed c), Ok ())
  end.

(** [on_ready()] of [main.py], up to its last line, the call of
    [periodic_role_check], which does not return; [user] is
    [str(bot.user)]. *)
Definition on_ready (bot : RoleManagerBot) (user : string)
    (presence_fault sync_fault startup_fault : option HTTPException) : Run unit :=
  logging INFO "Bot is ready. Calling update_bot_activity and adding cogs.";;
  client_update_bot_activity presence_fault;;
  add_cog "Commands";;
  tree_sync sync_fault;;
  logging INFO ("Logged in as " +:+ user);;
  logging INFO "Calling send_startup_message";;
  send_startup_message bot startup_fault;;
  logging INFO "Finished calling send_startup_message";;
  logging INFO "Starting periodic role check task".

(** ** The periodic check *)

(** What the REST calls of the sweep answer, as in [Roles]. *)
Context (faults : Z → option string).

(** One turn of the [while not self.is_closed()]: the sweep of the home
    guild when the client knows it, then the sleep.  [None] when the
    sweep runs out of fuel, which it never does. *)
Definition periodic_turn (c : Client) : option (Client * result Exn unit) :=
  match periodic_role_check_round (H:=logging_logger) faults (client_guilds c)
          (client_clock c) with
  | (Some (Ok (guilds', lines)), wake) =>
      Some (mkClient (client_discord c) guilds' (client_log c ++ lines) wake
                     (client_cogs c) (client_synced c) (client_presence c)
                     (client_connector c) (client_closed c), Ok ())
  | (Some (Raise e), _) => Some (c, Raise e)
  | (None, _) => None
  end.

(** [periodic_role_check()], [turns] turns of its loop at most; the loop
    ends before when the client is closed or a turn raises. *)
Fixpoint periodic_role_check (turns : nat) (c : Client) :
    option (Client * result Exn unit) :=
  match turns with
  | O => Some (c, Ok ())
  | S turns' =>
      if client_closed c then Some (c, Ok ())
      else
        match periodic_turn c with
        | Some (c', Ok _) => periodic_role_check turns' c'
        | other => other
        end
  end.

(** The guilds after a sweep of the home guild [g] for [role]. *)
Definition swept (g : Guild) (role : Role) (guilds : list Guild) : list Guild :=
  (λ x, if decide (guild_id x = home_guild_id)
        then with_members g (settle faults role <$> guild_members g) else x) <$> guilds.

End lifecycle.

(** ** [main] *)

(** [main()]: what it logs.  [token] is [os.getenv('DISCORD_TOKEN')],
    [run_fault] the exception that leaves [bot.run], if any. *)
Definition main (token : option string) (run_fault : option Exn) : list LogEntry :=
  match token with
  | None | Some "" => [mkLog ERROR "DISCORD_TOKEN is not set in the environment variables"]
  | Some _ =>
      match run_fault with
      | Some e => [mkLog ERROR ("Error running the bot: " +:+ exn_text e)]
      | None => []
      end
  end.

(** ** A sample client *)

Module Deployment.
Import Sample.

Definition names (cid : Z) : string := "bot-log".

(** The platform with the startup channel in the cache. *)
Definition platform : Platform :=
  mkPlatform {[ 1094604434195107921; 1200460467622137936 ]} ∅ 9000.

Definition fresh : Client := new_client platform [Town.five] 0.

(** The client after its first [on_ready]. *)
Definition ready : Client :=
  (on_ready names init_bot "GlassyNET#0001" None None None fresh).1.

End Deployment.

(** ** Facts on start-up and shutdown *)

Section lifecycle_facts.
Context (channel_name : Z → string).
Implicit Types (c : Client) (bot : RoleManagerBot) (fault : option HTTPException).

(** [send_startup_message] as one step. *)
Lemma send_startup_message_eq bot fault c :
  send_startup_message channel_name bot fault c =
  let cid := startup_channel_id bot in
  let found := bool_decide (cid ∈ channels (client_discord c)) in
  (mkClient
     (if found && bool_decide (fault = None)
      then (channel_send_text (client_discord c) cid messages.STARTUP_MESSAGE None).1
      else client_discord c)
     (client_guilds c)
     (client_log c ++
      [mkLog INFO "Attempting to send startup message";
       mkLog INFO "Fetching startup channel";
       mkLog INFO ("Startup channel: " +:+
                   channel_str channel_name (get_channel (client_discord c) cid))] ++
      (if found then
         [mkLog INFO ("Startup channel found: " +:+ pretty cid);
          match fault with
          | None => mkLog INFO "Startup message sent successfully"
          | Some h => mkLog ERROR ("Failed to send startup message: " +:+ http_text h)
          end]
       else [mkLog WARNING "Startup channel not found"]))
     (client_clock c + 1) (client_cogs c) (client_synced c) (client_presence c)
     (client_connector c) (client_closed c), Ok ()).
Proof.
  unfold send_startup_message, mbind, Prog_bind, try_except, logging. simpl. unfold get_channel.
  destruct (decide (_ ∈ _)) as [Hc|Hc].
  - rewrite (bool_decide_eq_true_2 _ Hc). destruct fault; simpl; by rewrite <-!(assoc_L (++)).
  - rewrite (bool_decide_eq_false_2 _ Hc). simpl. by rewrite <-!(assoc_L (++)).
Qed.

(** [send_shutdown_message] as one step. *)
Lemma send_shutdown_message_eq bot fault c :
  send_shutdown_message bot fault c =
  let cid := startup_channel_id bot in
  let found := bool_decide (cid ∈ channels (client_discord c)) in
  (mkClient
     (if found && bool_decide (fault = None)
      then (channel_send_text (client_discord c) cid messages.SHUTDOWN_MESSAGE None).1
      else client_discord c)
     (client_guilds c)
     (client_log c ++
      [mkLog INFO "Bot is shutting down. Fetching shutdown channel.";
       if found then
         match fault with
         | None => mkLog INFO "Shutdown message sent successfully"
         | Some h => mkLog ERROR ("Failed to send shutdown message: " +:+ http_text h)
         end
       else mkLog WARNING "Shutdown channel not found"])
     (client_clock c) (client_cogs c) (client_synced c) (client_presence c)
     (client_connector c) (client_closed c), Ok ()).
Proof.
  unfold send_shutdown_message, mbind, Prog_bind, try_except, logging. simpl. unfold get_channel.
  destruct (decide (_ ∈ _)) as [Hc|Hc].
  - rewrite (bool_decide_eq_true_2 _ Hc). destruct fault; simpl; by rewrite <-!(assoc_L (++)).
  - rewrite (bool_decide_eq_false_2 _ Hc). simpl. by rewrite <-!(assoc_L (++)).
Qed.

(** The first [on_ready], when no call fails, as one step. *)
Lemma on_ready_eq bot user c guild rest :
  client_guilds c = guild :: rest → "Commands" ∉ client_cogs c →
  startup_channel_id bot ∈ channels (client_discord c) →
  on_ready channel_name bot user None None None c =
  (mkClient
     (channel_send_text (client_discord c) (startup_channel_id bot)
        messages.STARTUP_MESSAGE None).1
     (client_guilds c)
     (client_log c ++
      (mkLog INFO <$>
       ["Bot is ready. Calling update_bot_activity and adding cogs.";
        "Updating bot activity"; "Selected guild: " +:+ guild_name guild;
        "Bot activity updated"; "Logged in as " +:+ user;
        "Calling send_startup_message"; "Attempting to send startup message";
        "Fetching startup channel";
        "Startup channel: " +:+ channel_name (startup_channel_id bot);
        "Startup channel found: " +:+ pretty (startup_channel_id bot);
        "Startup message sent successfully"; "Finished calling send_startup_message";
        "Starting periodic role check task"]))
     (client_clock c + 1) (client_cogs c ++ ["Commands"]) true
     (Some (activity_text (member_count guild)))
     (client_connector c) (client_closed c), Ok ()).
Proof.
  intros Hg Hcog Hch.
  unfold on_ready, mbind, Prog_bind, client_update_bot_activity, add_cog, tree_sync, logging.
  simpl. rewrite Hg. simpl. rewrite bool_decide_eq_false_2 by done.
  rewrite send_startup_message_eq. simpl.
  rewrite (bool_decide_eq_true_2 _ Hch). unfold get_channel. rewrite decide_True by done.
  simpl. by rewrite <-!(assoc_L (++)).
Qed.

End lifecycle_facts.

(** ** The properties of start-up and shutdown *)

Section lifecycle_properties.
Context (channel_name : Z → string).
Implicit Types (c : Client) (bot : RoleManagerBot) (fault : option HTTPException).

(** [send_startup_message] raises nothing, whatever
    the platform answers; it takes its second of sleep, sends at most the
    one message, to the startup channel, and touches nothing else. *)
Theorem send_startup_message_never_raises bot fault c :
  let c' := (send_startup_message channel_name bot fault c).1 in
  (send_startup_message channel_name bot fault c).2 = Ok () ∧
  client_clock c' = client_clock c + 1 ∧
  client_discord c' =
    (if bool_decide (startup_channel_id bot ∈ channels (client_discord c)) &&
        bool_decide (fault = None)
     then (channel_send_text (client_discord c) (startup_channel_id bot)
             messages.STARTUP_MESSAGE None).1
     else client_discord c) ∧
  client_guilds c' = client_guilds c ∧ client_cogs c' = client_cogs c ∧
  client_closed c' = client_closed c.
Proof. by rewrite send_startup_message_eq. Qed.

(** The first [on_ready] of a client that knows a
    guild, when no call fails: the activity shows the member count of the
    first guild, the cog is loaded, the commands are synced, the startup
    message is sent, and the lines are logged in the order of the
    code. *)
Theorem on_ready_first_time bot user c guild rest :
  client_guilds c = guild :: rest → "Commands" ∉ client_cogs c →
  startup_channel_id bot ∈ channels (client_discord c) →
  let c' := (on_ready channel_name bot user None None None c).1 in
  (on_ready channel_name bot user None None None c).2 = Ok () ∧
  client_presence c' = Some (activity_text (member_count guild)) ∧
  client_cogs c' = client_cogs c ++ ["Commands"] ∧ client_synced c' = true ∧
  client_discord c' =
    (channel_send_text (client_discord c) (startup_channel_id bot)
       messages.STARTUP_MESSAGE None).1 ∧
  client_clock c' = client_clock c + 1 ∧
  log_text <$> client_log c' =
    (log_text <$> client_log c) ++
    ["Bot is ready. Calling update_bot_activity and adding cogs.";
     "Updating bot activity"; "Selected guild: " +:+ guild_name guild;
     "Bot activity updated"; "Logged in as " +:+ user;
     "Calling send_startup_message"; "Attempting to send startup message";
     "Fetching startup channel";
     "Startup channel: " +:+ channel_name (startup_channel_id bot);
     "Startup channel found: " +:+ pretty (startup_channel_id bot);
     "Startup message sent successfully"; "Finished calling send_startup_message";
     "Starting periodic role check task"].
Proof.
  intros Hg Hcog Hch c'. unfold c'. rewrite (on_ready_eq _ bot user c guild rest) by done.
  simpl. split_and!; try done. by rewrite fmap_app.
Qed.

(** C38: an [on_ready] of a client whose cog is loaded
    (the gateway fires the event again after a reconnect) stops at
    [add_cog]: it raises, sends no startup message and does not reach the
    periodic check, so there is one startup message and one periodic
    check however often the event fires. *)
Theorem on_ready_again_stops bot user f1 f2 f3 c :
  "Commands" ∈ client_cogs c →
  let c' := (on_ready channel_name bot user f1 f2 f3 c).1 in
  (∃ e, (on_ready channel_name bot user f1 f2 f3 c).2 = Raise e) ∧
  client_discord c' = client_discord c ∧ client_cogs c' = client_cogs c ∧
  client_clock c' = client_clock c ∧ client_synced c' = client_synced c.
Proof.
  intros Hcog c'. unfold c', on_ready.
  unfold mbind, Prog_bind, client_update_bot_activity, add_cog, logging. simpl.
  destruct (update_bot_activity _ _) as [[text|e] lines]; simpl;
    rewrite ?(bool_decide_eq_true_2 _ Hcog); simpl; (split; [by eexists|done]).
Qed.

(** A client that knows no guild when the gateway
    is ready stops at [self.guilds[0]]: the cog is not loaded, so the bot
    has no command, no startup message is sent, and the periodic check is
    not reached. *)
Theorem on_ready_needs_a_guild bot user f1 f2 f3 c :
  client_guilds c = [] →
  let c' := (on_ready channel_name bot user f1 f2 f3 c).1 in
  (on_ready channel_name bot user f1 f2 f3 c).2 =
    Raise (IndexError "list index out of range") ∧
  client_cogs c' = client_cogs c ∧ client_discord c' = client_discord c ∧
  client_synced c' = client_synced c.
Proof.
  intros Hg c'. unfold c', on_ready.
  unfold mbind, Prog_bind, client_update_bot_activity, logging. simpl. by rewrite Hg.
Qed.

(** [close] raises nothing; it tries the shutdown
    message while the connector is open, then closes the connector and
    the client, which loses its cogs, and logs each step in that
    order. *)
Theorem close_sends_then_closes bot fault c :
  client_connector c = true →
  let c' := (close bot fault c).1 in
  (close bot fault c).2 = Ok () ∧
  client_closed c' = true ∧ client_connector c' = false ∧ client_cogs c' = [] ∧
  client_discord c' =
    (if bool_decide (startup_channel_id bot ∈ channels (client_discord c)) &&
        bool_decide (fault = None)
     then (channel_send_text (client_discord c) (startup_channel_id bot)
             messages.SHUTDOWN_MESSAGE None).1
     else client_discord c) ∧
  ∃ line, log_text <$> client_log c' =
    (log_text <$> client_log c) ++
    ["Closing bot and resources"; "Bot is shutting down. Fetching shutdown channel.";
     line; "HTTP session closed"].
Proof.
  intros Hopen c'. unfold c', close.
  unfold mbind, Prog_bind, logging, close_http_session, super_close. simpl.
  rewrite send_shutdown_message_eq. simpl. rewrite Hopen. simpl.
  split_and!; try done. eexists. by rewrite !fmap_app, <-!(assoc_L (++)).
Qed.

End lifecycle_properties.

(** ** The periodic check *)

Section periodic_properties.
Context (faults : Z → option string).
Implicit Types (c : Client) (g : Guild) (role : Role).

(** One turn on a client that knows the home guild: the guild is swept,
    and the next turn is twelve hours later. *)
Lemma periodic_turn_eq c g role :
  get_guild (client_guilds c) home_guild_id = Some g → guild_wf g →
  get_role g auto_role_id = Some role →
  periodic_turn faults c =
  Some (mkClient (client_discord c) (swept faults g role (client_guilds c))
          (client_log c ++
           (guild_members g ≫= settle_log (H:=logging_logger) faults role) ++
           [mkLog INFO "Finished assigning roles to all members."])
          (client_clock c + check_period) (client_cogs c) (client_synced c)
          (client_presence c) (client_connector c) (client_closed c), Ok ()).
Proof.
  intros Hg Hwf Hrole. unfold periodic_turn, periodic_role_check_round.
  rewrite Hg. unfold check_and_assign_role. rewrite Hrole.
  by rewrite (sweep_settles faults _ page_limit g [] (guild_members g) None auto_role_id role)
    by first [done|unfold page_limit; lia|by apply Forall_true|lia].
Qed.

(** The sweep leaves a client on which the next sweep changes nothing:
    the home guild is still known, in order and with the role, and
    sweeping it again gives the same guilds. *)
Lemma swept_stable g role guilds :
  get_guild guilds home_guild_id = Some g → guild_wf g →
  get_role g auto_role_id = Some role →
  let g' := with_members g (settle faults role <$> guild_members g) in
  get_guild (swept faults g role guilds) home_guild_id = Some g' ∧
  guild_wf g' ∧ get_role g' auto_role_id = Some role ∧
  swept faults g' role (swept faults g role guilds) = swept faults g role guilds.
Proof.
  intros Hg Hwf Hrole g'.
  pose proof (find_Some_test _ _ _ Hg) as [Hid%bool_decide_eq_true _].
  split_and!.
  - unfold get_guild in *. unfold swept. rewrite find_fmap_keeping.
    + rewrite Hg. simpl. by rewrite decide_True.
    + intros x. case_decide as Hx; [|done]. simpl. by rewrite Hid, Hx.
  - unfold guild_wf, g'. simpl. by rewrite settle_ids.
  - done.
  - unfold swept. rewrite <-list_fmap_compose. apply list_fmap_ext. intros i x _. simpl.
    destruct (decide (guild_id x = home_guild_id)) as [Hx|Hx];
      [rewrite decide_True by done|by rewrite decide_False].
    unfold g', with_members. simpl. f_equal.
    rewrite <-list_fmap_compose. apply list_fmap_ext. intros j m _. apply settle_idem.
Qed.

(** C30: however many turns the periodic check takes on
    an open client, the guilds are as the first sweep left them (the
    home guild swept once, every other guild untouched), and the clock
    has advanced twelve hours for each turn. *)
Theorem periodic_role_check_is_stable turns c g role :
  client_closed c = false →
  get_guild (client_guilds c) home_guild_id = Some g → guild_wf g →
  get_role g auto_role_id = Some role →
  ∃ c', periodic_role_check faults (S turns) c = Some (c', Ok ()) ∧
        client_guilds c' = swept faults g role (client_guilds c) ∧
        client_clock c' = client_clock c + Z.of_nat (S turns) * check_period ∧
        client_discord c' = client_discord c ∧ client_closed c' = false.
Proof.
  revert c g. induction turns as [|turns IH]; intros c g Hopen Hg Hwf Hrole.
  - simpl. rewrite Hopen, (periodic_turn_eq c g role) by done.
    eexists. split_and!; [done..|simpl; lia|done|done].
  - destruct (swept_stable g role (client_guilds c) Hg Hwf Hrole) as (Hg' & Hwf' & Hrole' & Hfix).
    change (periodic_role_check faults (S (S turns)) c) with
      (if client_closed c then Some (c, Ok ())
       else match periodic_turn faults c with
            | Some (c', Ok _) => periodic_role_check faults (S turns) c'
            | other => other
            end).
    rewrite Hopen, (periodic_turn_eq c g role) by done.
    match goal with |- context [periodic_role_check faults (S turns) ?c1] =>
      destruct (IH c1 _ Hopen Hg' Hwf' Hrole') as (c' & -> & Hguilds & Hclock & Hd & Hc)
    end.
    exists c'. simpl in *. rewrite Hguilds, Hfix. split_and!; [done..|lia|done|done].
Qed.

(** On a closed client the periodic check does
    nothing. *)
Theorem periodic_role_check_stops_when_closed turns c :
  client_closed c = true → periodic_role_check faults turns c = Some (c, Ok ()).
Proof. intros Hc. destruct turns; [done|]. simpl. by rewrite Hc. Qed.

End periodic_properties.

(** ** Witnesses *)

Section lifecycle_witnesses.
Import Sample Deployment.

Lemma on_ready_first_time_witness :
  let c' := (on_ready names init_bot "GlassyNET#0001" None None None fresh).1 in
  (on_ready names init_bot "GlassyNET#0001" None None None fresh).2 = Ok () ∧
  client_presence c' = Some (activity_text (member_count Town.five)) ∧
  client_cogs c' = client_cogs fresh ++ ["Commands"] ∧ client_synced c' = true ∧
  client_discord c' =
    (channel_send_text (client_discord fresh) (startup_channel_id init_bot)
       messages.STARTUP_MESSAGE None).1 ∧
  client_clock c' = client_clock fresh + 1 ∧
  log_text <$> client_log c' =
    (log_text <$> client_log fresh) ++
    ["Bot is ready. Calling update_bot_activity and adding cogs.";
     "Updating bot activity"; "Selected guild: " +:+ guild_name Town.five;
     "Bot activity updated"; "Logged in as " +:+ "GlassyNET#0001";
     "Calling send_startup_message"; "Attempting to send startup message";
     "Fetching startup channel";
     "Startup channel: " +:+ names (startup_channel_id init_bot);
     "Startup channel found: " +:+ pretty (startup_channel_id init_bot);
     "Startup message sent successfully"; "Finished calling send_startup_message";
     "Starting periodic role check task"].
Proof.
  apply (on_ready_first_time names init_bot "GlassyNET#0001" fresh Town.five []);
    [done|compute_decide..].
Defined.

Lemma on_ready_again_stops_witness :
  let c' := (on_ready names init_bot "GlassyNET#0001" None None None ready).1 in
  (∃ e, (on_ready names init_bot "GlassyNET#0001" None None None ready).2 = Raise e) ∧
  client_discord c' = client_discord ready ∧ client_cogs c' = client_cogs ready ∧
  client_clock c' = client_clock ready ∧ client_synced c' = client_synced ready.
Proof.
  apply (on_ready_again_stops names init_bot "GlassyNET#0001" None None None ready).
  compute_decide.
Defined.

Lemma close_sends_then_closes_witness :
  let c' := (close init_bot None ready).1 in
  (close init_bot None ready).2 = Ok () ∧
  client_closed c' = true ∧ client_connector c' = false ∧ client_cogs c' = [] ∧
  client_discord c' =
    (if bool_decide (startup_channel_id init_bot ∈ channels (client_discord ready)) &&
        bool_decide (None = None :> option HTTPException)
     then (channel_send_text (client_discord ready) (startup_channel_id init_bot)
             messages.SHUTDOWN_MESSAGE None).1
     else client_discord ready) ∧
  ∃ line, log_text <$> client_log c' =
    (log_text <$> client_log ready) ++
    ["Closing bot and resources"; "Bot is shutting down. Fetching shutdown channel.";
     line; "HTTP session closed"].
Proof. by apply (close_sends_then_closes init_bot None ready). Defined.

Lemma periodic_role_check_is_stable_witness :
  ∃ c', periodic_role_check Town.faulty 3 ready = Some (c', Ok ()) ∧
        client_guilds c' = swept Town.faulty Town.five member_role (client_guilds ready) ∧
        client_clock c' = client_clock ready + Z.of_nat 3 * check_period ∧
        client_discord c' = client_discord ready ∧ client_closed c' = false.
Proof.
  apply (periodic_role_check_is_stable Town.faulty 2 ready Town.five member_role);
    [done|done|compute_decide|done].
Defined.

(** Two messages exist after start-up and shutdown, and three turns of
    the periodic check leave cat, for whom the request fails, without the
    role. *)
Example lifecycle_sample :
  message_content <$> (map_to_list (messages (client_discord (close init_bot None ready).1))).*2
    ≡ₚ ["The bot has started!"; "The bot is shutting down."] ∧
  (λ c, (λ m, (member_name m, length (member_roles m))) <$>
          (client_guilds c.1 ≫= guild_members)) <$>
    periodic_role_check Town.faulty 3 ready =
  Some [("ann", 1%nat); ("ben", 1%nat); ("cat", 0%nat); ("dan", 2%nat); ("eve", 0%nat)].
Proof. split; [|by vm_compute]. apply (bool_decide_unpack _). by vm_compute. Qed.

End lifecycle_witnesses.
