(* ===== verification/LegacyCommands.v ===== *)
(** * LegacyCommands: the cog and the selector of the single-file version

    [src/src/main.py] holds an older copy of the cog [Commands], of
    [RoleSelector] and of [on_ready].  The copy differs from the package
    in what it does when a call fails: its [except] clauses answer with
    [interaction.response.send_message] or [interaction.followup.send]
    outside any [try], so the failure of that answer leaves the command;
    its selector filters its options again; and its texts are written in
    place.  [Module LegacyCog] models the copy; the theorems say where it
    does what the package does and where it does not. *)

From stdpp Require Import base tactics option list strings gmap pretty.
From S2P Require Import Prelude Discord Queue Roles Legacy Interaction Commands Lifecycle.

Set Warnings "-clear-no-such-hyp".
#[local] Open Scope Z_scope.

Module LegacyCog.

(** [RoleSelector.__init__(user, roles, remove)]: when adding, the
    options are the roles the user has not. *)
Definition RoleSelector_init (user : Member) (roles : list Role) (remove : bool) :
    RoleSelector :=
  let options :=
    if remove then (λ role, mkOption (role_name role) (py_str (role_id role))) <$> roles
    else (λ role, mkOption (role_name role) (py_str (role_id role))) <$>
           filter (λ role, role_in role (member_roles user) = false) roles in
  let placeholder :=
    if remove then "Choose specific roles to remove..." else "Choose roles to add..." in
  mkSelector user roles remove placeholder 1 (length options) options.

(** [RoleView.__init__(user, roles, remove)] *)
Definition RoleView (user : Member) (roles : list Role) (remove : bool) : View :=
  [] ++ [RoleSelector_init user roles remove].

(** [RoleSelector.callback(interaction)]: the code of the package. *)
Definition callback : RoleSelector → list string → (Z → option HTTPException) →
    option HTTPException → option HTTPException → Cmd unit :=
  Commands.callback.

(** [Commands.add(interaction, user)] *)
Definition add (table : list (Z * string)) (administrator : bool) (user : Member)
    (respond_fault handler_fault : option HTTPException) : Cmd unit :=
  has_permissions administrator
    (try_except
       (guild ← interaction_guild;
        let roles := roles_to_add guild table user in
        if negb (py_truthy roles) then
          response_send_message "This user already has all the roles." None respond_fault
        else
          let view := RoleView user roles false in
          response_send_message "Select roles to add:" (Some view) respond_fault)
       (λ x, logging_error ("Error in add command: " +:+ exn_text x);;
             response_send_message "An error occurred while adding roles." None
                                   handler_fault)).

(** [Commands.remove(interaction, user)] *)
Definition remove (table : list (Z * string)) (administrator : bool) (user : Member)
    (respond_fault handler_fault : option HTTPException) : Cmd unit :=
  has_permissions administrator
    (try_except
       (guild ← interaction_guild;
        let roles := roles_to_remove guild table user in
        if negb (py_truthy roles) then
          response_send_message
            "This user does not have any of the specific roles to remove." None
            respond_fault
        else
          let view := RoleView user roles true in
          response_send_message "Select specific roles to remove:" (Some view)
                                respond_fault)
       (λ x, logging_error ("Error in remove command: " +:+ exn_text x);;
             response_send_message "An error occurred while removing roles." None
                                   handler_fault)).

(** [f"Cleared {number_of_messages} {message}" if deleted_messages else
    "There were no messages to clear."] *)
Definition clear_response (deleted_messages : list Message) : string :=
  let number_of_messages := length deleted_messages in
  let message := if decide (number_of_messages = 1%nat) then "message" else "messages" in
  if py_truthy deleted_messages
  then "Cleared " +:+ pretty (Z.of_nat number_of_messages) +:+ " " +:+ message
  else "There were no messages to clear.".

(** [Commands.clear(interaction, amount)] in the channel [channel]. *)
Definition clear (administrator : bool) (channel : Z) (amount : Z)
    (respond_fault purge_fault followup_fault handler_fault : option HTTPException) :
    Cmd unit :=
  has_permissions administrator
    (try_except
       (if decide (amount ≤ 0) then
          response_send_message "Please specify a number greater than 0." None respond_fault
        else
          response_defer respond_fault;;
          deleted_messages ← channel_purge channel amount purge_fault;
          followup_send (clear_response deleted_messages) followup_fault)
       (λ x, match x with
             | HTTPError h =>
                 if decide (http_kind h = Forbidden) then
                   logging_error ("Clear command: Bot does not have permission to " +:+
                                  "delete messages in this channel.");;
                   followup_send "I do not have permission to delete messages in this channel."
                                 handler_fault
                 else
                   logging_error ("Clear command: An error occurred: " +:+ http_text h);;
                   followup_send "An error occurred while trying to clear messages."
                                 handler_fault
             | _ => raise x
             end)).

(** [Commands.verify(interaction)] *)
Definition verify (defer_fault followup_fault handler_fault : option HTTPException) :
    Cmd unit :=
  try_except
    (response_defer defer_fault;;
     let response := "For more details on how to verify your purchase, " +:+
                     "please visit the **Verification** section in the <id:home> " +:+
                     "for further information." in
     followup_send response followup_fault)
    (λ x, logging_error ("Verify command: An error occurred: " +:+ exn_text x);;
          followup_send "An error occurred while providing verification information."
                        handler_fault).

(** [on_ready()], up to the task of [periodic_role_check], which does
    not return. *)
Definition on_ready (presence_fault sync_fault : option HTTPException) : Run unit := λ c,
  match Legacy.update_bot_activity (client_guilds c) presence_fault with
  | Raise e => (c, Raise e)
  | Ok text =>
      (add_cog "Commands";; tree_sync sync_fault)
        (mkClient (client_discord c) (client_guilds c) (client_log c) (client_clock c)
                  (client_cogs c) (client_synced c) (Some text) (client_connector c)
                  (client_closed c))
  end.

End LegacyCog.

(** ** The copy against the package *)

Section legacy_cog_properties.
Implicit Types (e : Env) (bot : RoleManagerBot) (user : Member) (roles : list Role).

(** On the roles [add] offers, the second filter of the copy keeps
    everything: the two selectors are the same. *)
Lemma legacy_selector_same (guild : Guild) (table : list (Z * string)) user
    (remove : bool) :
  let roles := if remove then roles_to_remove guild table user
               else roles_to_add guild table user in
  LegacyCog.RoleSelector_init user roles remove = RoleSelector_init user roles remove.
Proof.
  destruct remove; simpl.
  - unfold LegacyCog.RoleSelector_init, RoleSelector_init. by simpl.
  - unfold LegacyCog.RoleSelector_init, RoleSelector_init. simpl.
    rewrite filter_all; [done|]. apply Forall_forall.
    intros r Hr. by apply roles_to_add_spec in Hr as (_ & _ & ?).
Qed.

(** When the first answer goes through, the copy
    of each of the four commands does what the package does. *)
Theorem legacy_commands_agree_on_success bot administrator user channel amount
    f2 f3 f4 f2' f4' e :
  LegacyCog.add (role_to_channel bot) administrator user None f2 e =
    add bot administrator user None f2' e ∧
  LegacyCog.remove (role_to_channel bot) administrator user None f2 e =
    remove bot administrator user None f2' e ∧
  LegacyCog.clear administrator channel amount None None None f4 e =
    clear administrator channel amount None None None f4' e ∧
  LegacyCog.verify None None f3 e = verify None None f4 e.
Proof.
  split_and!; [| | |done].
  - destruct administrator; [|done]. unfold LegacyCog.add, add, has_permissions, try_except,
      LegacyCog.RoleView, RoleView, mbind, Prog_bind. simpl.
    pose proof (legacy_selector_same (env_guild e) (role_to_channel bot) user false) as Hsel.
    simpl in Hsel. rewrite Hsel. by destruct (py_truthy _).
  - destruct administrator; [|done]. unfold LegacyCog.remove, remove, has_permissions,
      try_except, mbind, Prog_bind. simpl. by destruct (py_truthy _).
  - destruct administrator; [|done]. unfold LegacyCog.clear, clear, has_permissions, try_except.
    case_decide; [done|]. unfold mbind, Prog_bind. by simpl.
Qed.

(** C40: when the first answer of [add] fails and the
    answer of the handler fails too, with [NotFound] as an interaction
    that has expired gives, the exception leaves the copy, and the
    package logs it and returns. *)
Theorem legacy_add_lets_failure_escape bot user h h' e :
  http_kind h' = NotFound →
  (LegacyCog.add (role_to_channel bot) true user (Some h) (Some h') e).2 =
    Raise (HTTPError h') ∧
  (add bot true user (Some h) (Some h') e).2 = Ok () ∧
  env_log (LegacyCog.add (role_to_channel bot) true user (Some h) (Some h') e).1 =
    env_log e ++ [mkLog ERROR ("Error in add command: " +:+ http_text h)] ∧
  env_log (add bot true user (Some h) (Some h') e).1 =
    env_log e ++ [mkLog ERROR ("Error in add command: " +:+ http_text h);
                  mkLog ERROR "Failed to send follow-up message: Interaction webhook not found."].
Proof.
  intros Hk. unfold LegacyCog.add, add, has_permissions, try_except, followup_or_log,
    try_except, mbind, Prog_bind. simpl.
  destruct (py_truthy _); simpl; rewrite decide_True by done; simpl;
    by rewrite <-(assoc_L (++)).
Qed.

(** The texts the copy writes in place are the texts of [messages.py],
    but for the apology of [verify]. *)
Lemma legacy_texts :
  LegacyCog.clear_response = clear_response ∧
  messages.ERROR_MODIFYING_ROLES ≠
    "An error occurred while providing verification information.".
Proof. done. Qed.

(** The apology of [verify] differs: the package
    tells a user whose [verify] failed that an error occurred while
    modifying roles, the text of the role commands; the copy names the
    verification. *)
Theorem verify_apology_differs h e :
  env_replies (verify (Some h) None None e).1 =
    env_replies e ++ [FollowupSend "An error occurred while modifying roles."] ∧
  env_replies (LegacyCog.verify (Some h) None None e).1 =
    env_replies e ++
    [FollowupSend "An error occurred while providing verification information."].
Proof. done. Qed.

End legacy_cog_properties.

(** ** Start-up in the copy *)

Section legacy_ready_properties.
Implicit Types (c : Client).

(** [on_ready] of the copy loads the cog and syncs
    the commands as the package does, but sends no startup message and
    logs nothing; like the package it stops at [add_cog] when the event
    fires again. *)
Theorem legacy_on_ready_loads_cog c guild rest :
  client_guilds c = guild :: rest →
  LegacyCog.on_ready None None c =
  if bool_decide ("Commands" ∈ client_cogs c)
  then (mkClient (client_discord c) (client_guilds c) (client_log c) (client_clock c)
                 (client_cogs c) (client_synced c)
                 (Some (activity_text (member_count guild)))
                 (client_connector c) (client_closed c),
        Raise (ClientException "Cog named 'Commands' already loaded"))
  else (mkClient (client_discord c) (client_guilds c) (client_log c) (client_clock c)
                 (client_cogs c ++ ["Commands"]) true
                 (Some (activity_text (member_count guild)))
                 (client_connector c) (client_closed c), Ok ()).
Proof.
  intros Hg. unfold LegacyCog.on_ready, mbind, Prog_bind, add_cog, tree_sync.
  rewrite Hg. simpl. by case_bool_decide.
Qed.

End legacy_ready_properties.

(** ** Witnesses *)

Section legacy_cog_witnesses.
Import Sample Shop Deployment.

Lemma legacy_add_lets_failure_escape_witness :
  (LegacyCog.add (role_to_channel init_bot) true (bob [alpha])
     (Some (mkHTTP NotFound "Unknown interaction"))
     (Some (mkHTTP NotFound "Unknown Webhook")) env).2 =
    Raise (HTTPError (mkHTTP NotFound "Unknown Webhook")) ∧
  (add init_bot true (bob [alpha]) (Some (mkHTTP NotFound "Unknown interaction"))
     (Some (mkHTTP NotFound "Unknown Webhook")) env).2 = Ok () ∧
  env_log (LegacyCog.add (role_to_channel init_bot) true (bob [alpha])
             (Some (mkHTTP NotFound "Unknown interaction"))
             (Some (mkHTTP NotFound "Unknown Webhook")) env).1 =
    env_log env ++ [mkLog ERROR "Error in add command: Unknown interaction"] ∧
  env_log (add init_bot true (bob [alpha]) (Some (mkHTTP NotFound "Unknown interaction"))
             (Some (mkHTTP NotFound "Unknown Webhook")) env).1 =
    env_log env ++
    [mkLog ERROR "Error in add command: Unknown interaction";
     mkLog ERROR "Failed to send follow-up message: Interaction webhook not found."].
Proof.
  by apply (legacy_add_lets_failure_escape init_bot (bob [alpha])
              (mkHTTP NotFound "Unknown interaction") (mkHTTP NotFound "Unknown Webhook") env).
Defined.

Lemma legacy_on_ready_loads_cog_witness :
  LegacyCog.on_ready None None fresh =
  (mkClient platform [Town.five] [] 0 ["Commands"] true (Some "over 5 members") true false,
   Ok ()).
Proof. by apply (legacy_on_ready_loads_cog fresh Town.five []). Defined.

End legacy_cog_witnesses.
