(* ===== verification/Listing.v ===== *)
(** * Listing: the sweep when the listing of the members can fail

    [check_and_assign_role] of [src/bot/bot_class.py] reads the members
    with [guild.fetch_members(limit=1000, after=after)], one request for
    each page, and nothing in the method or in [periodic_role_check]
    catches the exception of a request that fails.  [Roles] has the loop
    when every request succeeds; this file has it with the answer of the
    platform to each listing as a parameter, and keeps the guild as the
    pages before the failure left it.

    The theorems show that the loop is the one of [Roles] when no listing
    fails, that it ends whatever fails, and what a failure leaves: the
    members of the pages before it are settled, the others are as they
    were, and the exception leaves the method. *)

From stdpp Require Import base tactics option list strings gmap pretty sorting.
From S2P Require Import Prelude Discord Queue Roles.

Set Warnings "-clear-no-such-hyp".
#[local] Open Scope Z_scope.

(** ** The loop *)

Section listing.
Context `{Logger}.

(** What [add_roles] answers for a member, as in [Roles], and what
    [fetch_members] answers for a page: [listing k] is the exception of
    the request for page [k], counted from 0, when it fails. *)
Context (faults : Z → option string).
Context (listing : nat → option HTTPException).

(** The [while True] of [check_and_assign_role] from page [page] on,
    [fuel] pages at most: the guild, the lines logged, and [Ok] or the
    exception that leaves the loop. *)
Fixpoint sweep_listing (fuel page limit : nat) (g : Guild) (rid : Z)
    (after : option Member) : option (Guild * list LogEntry * result Exn unit) :=
  match fuel with
  | O => None
  | S fuel' =>
      match listing page with
      | Some h => Some (g, [], Raise (HTTPError h))
      | None =>
          let members := fetch_members g limit after in
          let '(g1, l1) := assign_page faults g members rid in
          if decide (length members < limit)%nat then Some (g1, l1, Ok ())
          else
            match py_last members with
            | None => Some (g1, l1, Raise (IndexError "list index out of range"))
            | Some last =>
                match sweep_listing fuel' (S page) limit g1 rid (Some last) with
                | Some (g2, l2, r) => Some (g2, l1 ++ l2, r)
                | None => None
                end
            end
      end
  end.

(** [check_and_assign_role(guild, role_id)]; the last line is logged when
    the loop ends without an exception. *)
Definition check_and_assign_role_listing (g : Guild) (rid : Z) :
    option (Guild * list LogEntry * result Exn unit) :=
  match get_role g rid with
  | None => Some (g, log_error ("Role with ID " +:+ pretty rid +:+ " not found."), Ok ())
  | Some _ =>
      match sweep_listing (S (length (guild_members g))) 0 page_limit g rid None with
      | Some (g', logs, Ok _) =>
          Some (g', logs ++ log_info "Finished assigning roles to all members.", Ok ())
      | other => other
      end
  end.

(** ** What a failure is to leave *)

(** The members when the first [n] of them have been settled. *)
Definition settled_upto (role : Role) (n : nat) (ms : list Member) : list Member :=
  (settle faults role <$> take n ms) ++ drop n ms.

End listing.

(** What a sweep that keeps its state says to a caller that only looks
    at the result. *)
Definition outcome (o : option (Guild * list LogEntry * result Exn unit)) :
    option (result Exn (Guild * list LogEntry)) :=
  (λ x, match x.2 with
        | Ok _ => Ok x.1
        | Raise e => Raise e
        end) <$> o.

(** No listing fails. *)
Definition no_listing_fault (k : nat) : option HTTPException := None.

(** The listing of page [k] is refused. *)
Definition page_fault (k : nat) (page : nat) : option HTTPException :=
  if decide (page = k) then Some (mkHTTP OtherHTTP "503 Service Unavailable") else None.

(** ** Facts on the loop *)

Section listing_facts.
Context `{Logger} (faults : Z → option string).
Implicit Types (g : Guild) (m : Member) (ms pre rest : list Member) (role : Role).
Implicit Types (listing : nat → option HTTPException).

(** One turn of the loop. *)
Lemma sweep_listing_S listing fuel page limit g rid after :
  sweep_listing faults listing (S fuel) page limit g rid after =
  match listing page with
  | Some h => Some (g, [], Raise (HTTPError h))
  | None =>
      let members := fetch_members g limit after in
      let r := assign_page faults g members rid in
      if decide (length members < limit)%nat then Some (r.1, r.2, Ok ())
      else match py_last members with
           | None => Some (r.1, r.2, Raise (IndexError "list index out of range"))
           | Some last =>
               (λ x, (x.1.1, r.2 ++ x.1.2, x.2)) <$>
                 sweep_listing faults listing fuel (S page) limit r.1 rid (Some last)
           end
  end.
Proof.
  simpl. destruct (listing page); [done|].
  destruct (assign_page _ g _ rid) as [g1 l1]. simpl.
  case_decide; [done|]. destruct (py_last _); [|done].
  by destruct (sweep_listing _ _ _ _ _ _ _ _) as [[[g2 l2] r]|].
Qed.

(** When no listing fails from [page] on, the loop is the loop of
    [Roles]. *)
Lemma sweep_listing_sweep listing fuel : ∀ page limit g rid after,
  (∀ k, (page ≤ k)%nat → listing k = None) →
  outcome (sweep_listing faults listing fuel page limit g rid after) =
  sweep faults fuel limit g rid after.
Proof.
  induction fuel as [|fuel IH]; intros page limit g rid after Hok; [done|].
  rewrite sweep_listing_S, sweep_S, Hok by lia. simpl.
  destruct (assign_page _ g _ rid) as [g1 l1]. simpl.
  case_decide; [done|]. destruct (py_last _) as [last|]; [|done].
  rewrite <-(IH (S page)) by (intros k ?; apply Hok; lia).
  by destruct (sweep_listing _ _ _ _ _ _ _ _) as [[[g2 l2] [[]|e]]|].
Qed.

(** The loop ends, whatever fails: a failure ends it, and every page
    that is listed ends above the cursor it started from. *)
Lemma sweep_listing_total listing fuel : ∀ page limit g rid after,
  (0 < limit)%nat →
  (length (filter (comes_after after) (guild_members g)) < fuel)%nat →
  is_Some (sweep_listing faults listing fuel page limit g rid after).
Proof.
  induction fuel as [|fuel IH]; intros page limit g rid after Hlimit Hlen; [lia|].
  rewrite sweep_listing_S. destruct (listing page); [done|]. simpl.
  case_decide as Hfull; [done|].
  unfold fetch_members in *. set (rest := filter _ _) in *.
  destruct (full_page_last limit rest Hlimit Hfull) as (init & m & Hpage).
  rewrite Hpage. autorewrite with py_rw.
  apply fmap_is_Some, IH; [done|].
  assert (m ∈ rest) as Hm.
  { apply (subseteq_take limit). rewrite Hpage, elem_of_app. right. left. }
  destruct (assign_page_frame faults g (init ++ [m]) rid) as [_ Hids].
  rewrite (filter_comes_after_length _ _ _ Hids).
  apply list_elem_of_filter in Hm as [Hafter Hin].
  rewrite <-(filter_comes_after_next after) by done. fold rest.
  assert (m ∈ rest) as Hm by by apply list_elem_of_filter.
  pose proof (length_filter_lt (comes_after (Some m)) rest m Hm (comes_after_irrefl m)).
  lia.
Qed.

(** The members settled up to a bound, a page further. *)
Lemma settled_upto_page role (n limit : nat) pre rest :
  (limit ≤ length rest)%nat →
  (pre ++ (settle faults role <$> take limit rest)) ++
    settled_upto faults role n (drop limit rest) =
  pre ++ settled_upto faults role (limit + n) rest.
Proof.
  intros Hlen. unfold settled_upto.
  rewrite <-(take_take_drop rest limit n), fmap_app, drop_drop.
  by rewrite <-!(assoc_L (++)).
Qed.

(** The sweep of a guild in ascending order of id whose listing fails at
    the page [n] pages after [page]: the members of the [n] pages before
    are settled, in place, the log is theirs in order, the others are as
    they were, and the exception of the listing leaves the loop. *)
Lemma sweep_listing_fault listing n : ∀ fuel page limit g pre rest after rid role h,
  (0 < limit)%nat →
  guild_members g = pre ++ rest →
  StronglySorted Z.lt (member_id <$> pre ++ rest) →
  Forall (λ x, ¬ comes_after after x) pre →
  Forall (comes_after after) rest →
  (n * limit ≤ length rest)%nat → (n < fuel)%nat →
  (∀ j, (j < n)%nat → listing (page + j)%nat = None) →
  listing (page + n)%nat = Some h →
  get_role g rid = Some role →
  sweep_listing faults listing fuel page limit g rid after =
  Some (with_members g (pre ++ settled_upto faults role (n * limit) rest),
        take (n * limit) rest ≫= settle_log faults role, Raise (HTTPError h)).
Proof.
  induction n as [|n IH];
    intros [|fuel] page limit g pre rest after rid role h
      Hlimit Hg Hsort Hpre Hrest Hlen Hfuel Hok Hbad Hrole; try lia;
    rewrite sweep_listing_S.
  { rewrite Nat.add_0_r in Hbad. rewrite Hbad. unfold settled_upto. simpl.
    by rewrite drop_0, <-Hg, with_members_same. }
  rewrite <-(Nat.add_0_r page), Hok, Nat.add_0_r by lia. unfold fetch_members.
  rewrite Hg, filter_app, filter_none, filter_all by done. simpl in *.
  assert (limit ≤ length rest)%nat as Hfull by lia.
  pose proof (take_drop limit rest) as Hsplit.
  assert (length (take limit rest) = limit) as Hpage by (rewrite length_take; lia).
  assert (n * limit ≤ length (drop limit rest))%nat as Hback
    by (rewrite length_drop; lia).
  rewrite <-(settled_upto_page role (n * limit) limit pre rest Hfull).
  rewrite <-(take_take_drop rest limit (n * limit)), bind_app.
  revert Hsplit Hpage Hback.
  generalize (take limit rest) (drop limit rest). intros page_ms back <- Hpage Hback.
  rewrite (assign_page_settles _ _ g pre back rid role Hg)
    by first [done|by apply sorted_ids_NoDup].
  rewrite decide_False by lia.
  destruct (py_last_is_Some page_ms) as [m Hm]; [intros ->; simpl in *; lia|].
  rewrite Hm. apply py_init_last in Hm. simpl. revert Hm.
  generalize (py_init page_ms). intros init ->.
  destruct (sorted_around_last pre init m back Hsort) as [Hlow Hhigh].
  rewrite (IH fuel (S page) limit _ (pre ++ (settle faults role <$> init ++ [m])) back
             (Some m) rid role h); try done; try lia.
  - simpl. by rewrite <-app_assoc.
  - rewrite <-app_assoc, !fmap_app, !settle_ids. by rewrite !fmap_app in Hsort.
  - apply Forall_app in Hlow as [Hlow1 Hlow2]. apply Forall_app. split; [done|].
    apply Forall_fmap. eapply Forall_impl; [done|]. intros x. simpl.
    by rewrite settle_id.
  - intros j Hj. rewrite <-(Hok (S j)) by lia. f_equal. lia.
  - rewrite <-Hbad. f_equal. lia.
Qed.

(** With no listing failing, the loop returns what the sweep of [Roles]
    returns, in a guild of the same id. *)
Lemma check_and_assign_role_listing_ok listing g rid :
  (∀ k, listing k = None) → guild_wf g →
  ∃ g' lines,
    check_and_assign_role_listing faults listing g rid = Some (g', lines, Ok ()) ∧
    check_and_assign_role faults g rid = Some (Ok (g', lines)) ∧
    guild_id g' = guild_id g.
Proof.
  intros Hok Hwf. unfold check_and_assign_role_listing, check_and_assign_role.
  destruct (get_role g rid) as [role|] eqn:Hrole; [|by eauto].
  pose proof (sweep_listing_sweep listing (S (length (guild_members g))) 0
                page_limit g rid None (λ k _, Hok k)) as Hsame.
  rewrite (sweep_settles faults _ page_limit g [] (guild_members g) None rid role)
    in Hsame |- * by first [done|unfold page_limit; lia|by apply Forall_true|lia].
  destruct (sweep_listing _ _ _ _ _ _ _ _) as [[[g2 l2] [[]|e]]|]; simplify_eq/=.
  eauto.
Qed.

End listing_facts.

(** ** The properties of the sweep with failures *)

Section listing_properties.
Context `{Logger} (faults : Z → option string).
Implicit Types (g : Guild) (role : Role) (listing : nat → option HTTPException).

(** When no listing fails, [check_and_assign_role] with the answers of
    the listings as a parameter is the [check_and_assign_role] of
    [Roles]: same guild, same lines, same result. *)
Theorem listing_sweep_is_the_sweep listing g rid :
  (∀ k, listing k = None) →
  outcome (check_and_assign_role_listing faults listing g rid) =
  check_and_assign_role faults g rid.
Proof.
  intros Hok. unfold check_and_assign_role_listing, check_and_assign_role.
  destruct (get_role g rid); [|done].
  rewrite <-(sweep_listing_sweep faults listing _ 0%nat) by done.
  by destruct (sweep_listing _ _ _ _ _ _ _ _) as [[[g2 l2] [[]|e]]|].
Qed.

(** [check_and_assign_role] returns or raises, whatever the platform
    answers to the listings and to the requests: the pages of the fuel
    chosen, one more than the guild has members, are never used up. *)
Theorem check_and_assign_role_listing_terminates listing g rid :
  is_Some (check_and_assign_role_listing faults listing g rid).
Proof.
  unfold check_and_assign_role_listing. destruct (get_role g rid); [|done].
  destruct (sweep_listing_total faults listing (S (length (guild_members g))) 0
              page_limit g rid None) as [[[g' logs] [[]|e]] ->]; try done.
  - unfold page_limit. lia.
  - pose proof (length_filter (comes_after None) (guild_members g)). lia.
Qed.

(** C26: a listing that fails ends the sweep where it stands: when the
    listing of page [n] is the first to fail, the members of the [n]
    pages before it are settled, the members behind are as they were,
    the lines logged are those of the members settled, and the exception
    of the listing leaves the loop. *)
Theorem listing_fault_keeps_pages_done listing n fuel limit g rid role h :
  (0 < limit)%nat → guild_wf g →
  (n * limit ≤ length (guild_members g))%nat → (n < fuel)%nat →
  (∀ j, (j < n)%nat → listing j = None) → listing n = Some h →
  get_role g rid = Some role →
  sweep_listing faults listing fuel 0 limit g rid None =
  Some (with_members g (settled_upto faults role (n * limit) (guild_members g)),
        take (n * limit) (guild_members g) ≫= settle_log faults role,
        Raise (HTTPError h)).
Proof.
  intros Hlimit Hwf Hlen Hfuel Hok Hbad Hrole.
  by apply (sweep_listing_fault faults listing n fuel 0 limit g [] (guild_members g)
              None rid role h); try done; apply Forall_true.
Qed.

(** [check_and_assign_role] when the first listing fails: the guild is
    untouched, nothing is logged, not even the last line, and the
    exception leaves the method. *)
Theorem check_and_assign_role_listing_fault listing g rid role h :
  get_role g rid = Some role → listing 0%nat = Some h →
  check_and_assign_role_listing faults listing g rid = Some (g, [], Raise (HTTPError h)).
Proof.
  intros Hrole Hbad. unfold check_and_assign_role_listing. rewrite Hrole.
  by rewrite sweep_listing_S, Hbad.
Qed.

End listing_properties.

(** ** Witnesses *)

Section listing_witnesses.
Import Sample.
#[local] Existing Instance logging_logger.

Lemma listing_sweep_is_the_sweep_witness :
  outcome (check_and_assign_role_listing Town.faulty no_listing_fault Town.five auto_role_id) =
  check_and_assign_role Town.faulty Town.five auto_role_id.
Proof. by apply (listing_sweep_is_the_sweep Town.faulty no_listing_fault). Defined.

Lemma listing_fault_keeps_pages_done_witness :
  sweep_listing Town.faulty (page_fault 1) 6 0 2 Town.five auto_role_id None =
  Some (with_members Town.five
          (settled_upto Town.faulty member_role (1 * 2) (guild_members Town.five)),
        take (1 * 2) (guild_members Town.five) ≫= settle_log Town.faulty member_role,
        Raise (HTTPError (mkHTTP OtherHTTP "503 Service Unavailable"))).
Proof.
  apply (listing_fault_keeps_pages_done Town.faulty (page_fault 1) 1 6 2 Town.five
           auto_role_id member_role);
    first [done|compute_decide|simpl; lia|by intros [|j] ?; [|lia]].
Defined.

Lemma check_and_assign_role_listing_fault_witness :
  check_and_assign_role_listing Town.faulty (page_fault 0) Town.five auto_role_id =
  Some (Town.five, [], Raise (HTTPError (mkHTTP OtherHTTP "503 Service Unavailable"))).
Proof.
  by apply (check_and_assign_role_listing_fault Town.faulty (page_fault 0) Town.five
              auto_role_id member_role).
Defined.

(** Pages of two members, the second listing refused: ann has the role,
    ben had it, and cat, dan and eve were never looked at. *)
Example listing_sample :
  (λ x : Guild * list LogEntry * result Exn unit,
     ((λ m, (member_name m, length (member_roles m))) <$> guild_members x.1.1,
         log_text <$> x.1.2)) <$>
    sweep_listing Town.faulty (page_fault 1) 6 0 2 Town.five auto_role_id None =
  Some ([("ann", 1%nat); ("ben", 1%nat); ("cat", 0%nat); ("dan", 1%nat); ("eve", 0%nat)],
        ["Role Member has been added to ann."]).
Proof. by vm_compute. Qed.

End listing_witnesses.
