(* ===== verification/Program.v ===== *)
(** * Program: the whole bot as one machine

    The files before this one model the parts of the bot each on the
    state it touches: the notification path on [System] ([Bot]), the
    command handlers on [Env] ([Commands]), start-up and shutdown on
    [Client] ([Lifecycle]), the automatic role on a [Guild] ([Roles],
    [Listing]).  In the program they are handlers of one client on one
    event loop, and they meet: a role granted by a command comes back as
    a member update, the messages a command purges are those the tickets
    are to delete, the periodic check is started by [on_ready] and ends
    with the exception of a listing.

    [World] is the state of the whole program and [Action] what makes its
    event loop run some code next; [wstep] runs the handler the sources
    register for it.  The notification path keeps its suspensions (the
    events of [Bot]); a handler of the other parts runs from its start to
    its end in one action, the answers of the platform to its calls being
    parameters of the action, except [periodic_role_check], which is a
    task asleep between two turns of its loop.  The member updates the
    handlers cause wait in [w_inbox] until the gateway delivers them to
    [on_member_update].  [close] removes the cogs and closes the client,
    to which the gateway then dispatches no [on_ready].

    The theorems: [world_wf] is kept by every action; the invariant of
    one settling task for each member and the bounds of a pending list
    hold in every state; one periodic check exists at most, none after
    a listing has failed, and its turns are those of the loop of
    [Lifecycle]; a join gives the automatic role and announces nothing;
    a member who leaves with roles pending is announced all the same; a
    notification purged by [clear] ends its ticket silently. *)

From stdpp Require Import base tactics option list strings gmap pretty sorting.
From S2P Require Import Prelude Discord Queue Roles Notifier Ticket Bot.
From S2P Require Import Interaction Commands Lifecycle Listing.

Set Warnings "-clear-no-such-hyp".
#[local] Open Scope Z_scope.

(** ** State *)

(** What the client keeps beside the platform, the guilds, the log and
    the clock: the cogs loaded, whether the commands are synced, the
    presence shown, whether the HTTP connector is open, and whether the
    client is closed. *)
Record Session : Type := mkSession {
  session_cogs : list string;
  session_synced : bool;
  session_presence : option string;
  session_connector : bool;
  session_closed : bool;
}.

(** The program: the event loop of the notification path, the guilds in
    the cache of the client, the session, the wake times of the
    [periodic_role_check] coroutines asleep, the member updates the
    gateway has yet to deliver, the answers given to interactions, and
    the exceptions that left a handler, which discord.py reports and
    drops. *)
Record World : Type := mkWorld {
  w_sys : System;
  w_guilds : list Guild;
  w_session : Session;
  w_loops : list Z;
  w_inbox : list (Member * Member);
  w_replies : list Reply;
  w_escaped : list Exn;
}.

(** The program when [main] has constructed the bot and the client has
    connected. *)
Definition boot (d : Platform) (guilds : list Guild) (now : Z) : World :=
  mkWorld (init_system d now) guilds (mkSession [] false None true false) [] [] [] [].

(** A slash command with its arguments and the answers of the platform
    to its calls. *)
Inductive Command : Type :=
| CmdAdd (administrator : bool) (user : Member)
    (respond_fault followup_fault : option HTTPException)
| CmdRemove (administrator : bool) (user : Member)
    (respond_fault followup_fault : option HTTPException)
| CmdClear (administrator : bool) (channel : Z) (amount : Z)
    (respond_fault purge_fault followup_fault handler_fault : option HTTPException)
| CmdVerify (defer_fault followup_fault handler_fault : option HTTPException).

(** What the event loop runs next:
    - [Loop ev]: an event of the notification path;
    - [Deliver]: the gateway delivers the oldest member update waiting;
    - [Outside gid mid r give]: a role is granted to a member, or taken
      from it, by someone else than the bot;
    - [Ready]: the gateway fires [on_ready];
    - [LoopWake i]: the sleep of the periodic check [i] has elapsed;
    - [Join], [Leave]: a member joins or leaves a guild;
    - [Slash], [Select]: an interaction with a command or with the
      selector a command has sent;
    - [Close]: the client is closed. *)
Inductive Action : Type :=
| Loop (ev : Event)
| Deliver
| Outside (gid mid : Z) (r : Role) (give : bool)
| Ready (user : string) (presence_fault sync_fault startup_fault : option HTTPException)
| LoopWake (i : nat) (faults : Z → option string) (listing : nat → option HTTPException)
| Join (gid : Z) (member : Member) (faults : Z → option string)
    (presence_fault : option HTTPException)
| Leave (gid mid : Z) (presence_fault : option HTTPException)
| Slash (gid : Z) (c : Command)
| Select (gid : Z) (self : RoleSelector) (values : list string)
    (faults : Z → option HTTPException) (respond_fault handler_fault : option HTTPException)
| Close (fault : option HTTPException).

(** ** The views of the parts *)

(** The client [Lifecycle] acts on. *)
Definition client_of (w : World) : Client :=
  mkClient (discord (w_sys w)) (w_guilds w) (log (w_sys w)) (clock (w_sys w))
           (session_cogs (w_session w)) (session_synced (w_session w))
           (session_presence (w_session w)) (session_connector (w_session w))
           (session_closed (w_session w)).

(** The program after a handler of the client has run. *)
Definition with_client (c : Client) (w : World) : World :=
  mkWorld (mkSystem (bot (w_sys w)) (tasks (w_sys w)) (client_log c) (client_clock c)
                    (client_discord c))
          (client_guilds c)
          (mkSession (client_cogs c) (client_synced c) (client_presence c)
                     (client_connector c) (client_closed c))
          (w_loops w) (w_inbox w) (w_replies w) (w_escaped w).

(** The guilds with [g'] in place of the guild of its id. *)
Definition put_guild (g' : Guild) (guilds : list Guild) : list Guild :=
  (λ g, if decide (guild_id g = guild_id g') then g' else g) <$> guilds.

(** The environment of an interaction in guild [g]. *)
Definition env_of (g : Guild) (w : World) : Env :=
  mkEnv g (discord (w_sys w)) (w_replies w) (log (w_sys w)) (w_inbox w).

(** The exception a handler ended with, if any. *)
Definition escaped {A} (r : result Exn A) : list Exn :=
  match r with
  | Ok _ => []
  | Raise x => [x]
  end.

(** The program after the handler of an interaction has run. *)
Definition with_env (e : Env) (r : result Exn unit) (w : World) : World :=
  mkWorld (mkSystem (bot (w_sys w)) (tasks (w_sys w)) (env_log e) (clock (w_sys w))
                    (env_discord e))
          (put_guild (env_guild e) (w_guilds w)) (w_session w) (w_loops w)
          (env_updates e) (env_replies e) (w_escaped w ++ escaped r).

(** The program with another state of the notification path. *)
Definition set_sys (s : System) (w : World) : World :=
  mkWorld s (w_guilds w) (w_session w) (w_loops w) (w_inbox w) (w_replies w) (w_escaped w).

Definition set_guilds (guilds : list Guild) (w : World) : World :=
  mkWorld (w_sys w) guilds (w_session w) (w_loops w) (w_inbox w) (w_replies w)
          (w_escaped w).

Definition set_loops (loops : list Z) (w : World) : World :=
  mkWorld (w_sys w) (w_guilds w) (w_session w) loops (w_inbox w) (w_replies w)
          (w_escaped w).

(** The program after a handler has logged some lines and ended with
    the exceptions [x]. *)
Definition noted (lines : list LogEntry) (x : list Exn) (w : World) : World :=
  mkWorld (mkSystem (bot (w_sys w)) (tasks (w_sys w)) (log (w_sys w) ++ lines)
                    (clock (w_sys w)) (discord (w_sys w)))
          (w_guilds w) (w_session w) (w_loops w) (w_inbox w) (w_replies w)
          (w_escaped w ++ x).

(** The updates the gateway has to deliver when the guild [g] has become
    [g']: one for each member that has changed, in the order of the
    ids. *)
Definition guild_updates (g g' : Guild) : list (Member * Member) :=
  (member_id <$> guild_members g) ≫= member_update g g'.

(** The program after a handler has changed the guild [g] into [g']. *)
Definition with_guild (g g' : Guild) (w : World) : World :=
  mkWorld (w_sys w) (put_guild g' (w_guilds w)) (w_session w) (w_loops w)
          (w_inbox w ++ guild_updates g g') (w_replies w) (w_escaped w).

(** The presence after [update_bot_activity]: it is changed when the
    call returns. *)
Definition set_presence (r : result Exn string) (w : World) : World :=
  mkWorld (w_sys w) (w_guilds w)
          (mkSession (session_cogs (w_session w)) (session_synced (w_session w))
                     (match r with
                      | Ok text => Some text
                      | Raise _ => session_presence (w_session w)
                      end)
                     (session_connector (w_session w)) (session_closed (w_session w)))
          (w_loops w) (w_inbox w) (w_replies w) (w_escaped w).

(** Every message is stored under its id, and the ids used are below
    the id the next message gets. *)
Definition platform_ok (d : Platform) : Prop :=
  platform_wf d ∧ map_Forall (λ i _, i < next_message_id d) (messages d).

#[export] Instance platform_ok_dec d : Decision (platform_ok d).
Proof. unfold platform_ok. apply _. Defined.

(** ** The handlers on the program *)

Section program.
Context `{PyRuntime}.

(** [str(channel)], as in [Lifecycle]. *)
Context (channel_name : Z → string).

(** The gateway delivers the oldest update to [on_member_update]. *)
Definition deliver_next (w : World) : option World :=
  match w_inbox w with
  | [] => None
  | (before, after) :: rest =>
      Some (mkWorld (on_member_update (w_sys w) before after) (w_guilds w) (w_session w)
                    (w_loops w) rest (w_replies w) (w_escaped w))
  end.

(** A role granted or taken outside the bot: the cache follows, and the
    gateway has an update to deliver. *)
Definition outside (gid mid : Z) (r : Role) (give : bool) (w : World) : option World :=
  g ← get_guild (w_guilds w) gid;
  let g' := if give then add_roles g mid r else remove_roles g mid r in
  Some (with_guild g g' w).

(** [on_ready()] of [main.py] with its last line: when the lines before
    it have returned, [periodic_role_check()] is entered;
    [wait_until_ready()] returns at once and the loop is about to test
    [is_closed()]. *)
Definition ready (user : string)
    (presence_fault sync_fault startup_fault : option HTTPException) (w : World) : World :=
  let '(c, r) := on_ready channel_name (bot (w_sys w)) user presence_fault sync_fault
                   startup_fault (client_of w) in
  let w' := with_client c w in
  mkWorld (w_sys w') (w_guilds w') (w_session w')
          (w_loops w ++ match r with
                        | Ok _ => [client_clock c]
                        | Raise _ => []
                        end)
          (w_inbox w) (w_replies w) (w_escaped w ++ escaped r).

(** One turn of the [while not self.is_closed()] of
    [periodic_role_check], from the end of its sleep: the loop ends when
    the client is closed; otherwise the home guild is swept when the
    client knows it, and the coroutine sleeps twelve hours, or the
    exception of the sweep leaves it and [on_ready] with it. *)
Definition periodic_wake (i : nat) (faults : Z → option string)
    (listing : nat → option HTTPException) (w : World) : option World :=
  wake ← w_loops w !! i;
  if decide (wake ≤ clock (w_sys w)) then
    if session_closed (w_session w) then Some (set_loops (delete i (w_loops w)) w)
    else
      let again := <[i := clock (w_sys w) + check_period]> (w_loops w) in
      match get_guild (w_guilds w) home_guild_id with
      | None => Some (set_loops again w)
      | Some guild =>
          '(guild', lines, r) ← check_and_assign_role_listing (H:=logging_logger)
                                  faults listing guild auto_role_id;
          Some (set_loops (match r with
                           | Ok _ => again
                           | Raise _ => delete i (w_loops w)
                           end)
                  (noted lines (escaped r) (with_guild guild guild' w)))
      end
  else None.

(** The members of a guild with one more, in the order of the ids. *)
Definition insert_member (m : Member) (ms : list Member) : list Member :=
  filter (λ x, member_id x < member_id m) ms ++
  m :: filter (λ x, member_id m < member_id x) ms.

(** A member joins: the cache has it, and [on_member_join] runs. *)
Definition join (gid : Z) (member : Member) (faults : Z → option string)
    (presence_fault : option HTTPException) (w : World) : option World :=
  g ← get_guild (w_guilds w) gid;
  if bool_decide (member_id member ∈ member_id <$> guild_members g) then None
  else
    let g0 := with_members g (insert_member member (guild_members g)) in
    let w0 := set_guilds (put_guild g0 (w_guilds w)) w in
    let '(g1, r, lines) := on_member_join (H:=logging_logger) faults g0 (w_guilds w0)
                             member presence_fault in
    Some (set_presence r (noted lines (escaped r) (with_guild g0 g1 w0))).

(** A member leaves: the cache loses it, and [on_member_remove] runs. *)
Definition leave (gid mid : Z) (presence_fault : option HTTPException) (w : World) :
    option World :=
  g ← get_guild (w_guilds w) gid;
  if bool_decide (mid ∈ member_id <$> guild_members g) then
    let g0 := with_members g (filter (λ x, member_id x ≠ mid) (guild_members g)) in
    let w0 := set_guilds (put_guild g0 (w_guilds w)) w in
    let '(r, lines) := on_member_remove (H:=logging_logger) (w_guilds w0)
                         presence_fault in
    Some (set_presence r (noted lines (escaped r) w0))
  else None.

(** The handler of a command. *)
Definition command (bot : RoleManagerBot) (c : Command) : Cmd unit :=
  match c with
  | CmdAdd administrator user respond_fault followup_fault =>
      add bot administrator user respond_fault followup_fault
  | CmdRemove administrator user respond_fault followup_fault =>
      remove bot administrator user respond_fault followup_fault
  | CmdClear administrator channel amount respond_fault purge_fault followup_fault
      handler_fault =>
      clear administrator channel amount respond_fault purge_fault followup_fault
            handler_fault
  | CmdVerify defer_fault followup_fault handler_fault =>
      verify defer_fault followup_fault handler_fault
  end.

(** The handler of an interaction in the guild [gid], on the program. *)
Definition interact (gid : Z) (handler : Cmd unit) (w : World) : option World :=
  g ← get_guild (w_guilds w) gid;
  let '(e, r) := handler (env_of g w) in
  Some (with_env e r w).

(** [RoleManagerBot.close()] on the program. *)
Definition shut (fault : option HTTPException) (w : World) : World :=
  let '(c, r) := close (bot (w_sys w)) fault (client_of w) in
  mkWorld (w_sys (with_client c w)) (w_guilds w) (w_session (with_client c w))
          (w_loops w) (w_inbox w) (w_replies w) (w_escaped w ++ escaped r).

(** One action; [None] when it cannot happen in the state.  The gateway
    does not dispatch [on_ready] to a client that has been closed. *)
Definition wstep (w : World) (a : Action) : option World :=
  match a with
  | Loop ev => s' ← step (w_sys w) ev; Some (set_sys s' w)
  | Deliver => deliver_next w
  | Outside gid mid r give => outside gid mid r give w
  | Ready user presence_fault sync_fault startup_fault =>
      if session_closed (w_session w) then None
      else Some (ready user presence_fault sync_fault startup_fault w)
  | LoopWake i faults listing => periodic_wake i faults listing w
  | Join gid member faults presence_fault => join gid member faults presence_fault w
  | Leave gid mid presence_fault => leave gid mid presence_fault w
  | Slash gid c => interact gid (command (bot (w_sys w)) c) w
  | Select gid self values faults respond_fault handler_fault =>
      interact gid (callback self values faults respond_fault handler_fault) w
  | Close fault => Some (shut fault w)
  end.

(** A run of the program. *)
Fixpoint wrun (w : World) (acts : list Action) : option World :=
  match acts with
  | [] => Some w
  | a :: acts' =>
      match wstep w a with
      | Some w' => wrun w' acts'
      | None => None
      end
  end.

(** The states of the program: those a run reaches from a start on a
    platform that stores its messages by id, with guilds that list their
    members in ascending order of id. *)
Inductive wreachable : World → Prop :=
| wreachable_boot d guilds now :
    platform_ok d → Forall guild_wf guilds → wreachable (boot d guilds now)
| wreachable_step w a w' : wreachable w → wstep w a = Some w' → wreachable w'.

End program.

(** [n] turns of the periodic check: it wakes and sweeps, then sleeps
    twelve hours. *)
Fixpoint periodic_turns (n : nat) (faults : Z → option string)
    (listing : nat → option HTTPException) : list Action :=
  match n with
  | O => []
  | S n' => LoopWake 0 faults listing :: Loop (Tick check_period) ::
            periodic_turns n' faults listing
  end.

(** ** The invariant of the program *)

(** The invariants of the notification path. *)
Definition core_inv `{PyRuntime} (s : System) : Prop :=
  sys_inv s ∧ deadline_inv s ∧ ticket_inv s ∧ platform_ok (discord s).

(** No [on_ready] can start a periodic check: the cog is loaded, so
    that [on_ready] stops at [add_cog], or the client is closed, and
    [on_ready] is dispatched no more. *)
Definition ready_barred (w : World) : Prop :=
  "Commands" ∈ session_cogs (w_session w) ∨ session_closed (w_session w) = true.

(** At most one periodic check exists, and only when no [on_ready] can
    start another. *)
Definition loops_inv (w : World) : Prop :=
  (length (w_loops w) ≤ 1)%nat ∧ (w_loops w ≠ [] → ready_barred w).

(** An update is about one member. *)
Definition update_ok (u : Member * Member) : Prop := member_id u.1 = member_id u.2.

(** The state of the program is well formed: the invariants of the
    notification path hold, the platform stores its messages by id, the
    guilds list their members in ascending order of id, the updates
    waiting are each about one member, and there is one periodic check
    at most. *)
Definition world_wf `{PyRuntime} (w : World) : Prop :=
  core_inv (w_sys w) ∧ Forall guild_wf (w_guilds w) ∧ Forall update_ok (w_inbox w) ∧
  loops_inv w.

(** ** What a handler may leave

    The frames of the handlers that run in one action: what they keep of
    the state they started on. *)

(** A client [c] that a handler started on [c0] may leave: the guilds
    are those of [c0], the clock has not gone back, the cogs of [c0] are
    loaded unless the client has been closed, a closed client stays
    closed, and the platform is in order and gives the next message no
    lower id. *)
Definition client_frame (c0 c : Client) : Prop :=
  client_guilds c = client_guilds c0 ∧ client_clock c0 ≤ client_clock c ∧
  (client_cogs c0 ⊆ client_cogs c ∨ client_closed c = true) ∧
  (client_closed c0 = true → client_closed c = true) ∧
  platform_ok (client_discord c) ∧
  next_message_id (client_discord c0) ≤ next_message_id (client_discord c).

(** An environment [e] that a handler started on [e0] may leave: the
    guild is the guild of [e0] with the same members, in the same order,
    the platform is in order and gives the next message no lower id, and
    the updates are each about one member. *)
Definition env_frame (e0 e : Env) : Prop :=
  guild_id (env_guild e) = guild_id (env_guild e0) ∧
  member_id <$> guild_members (env_guild e) = member_id <$> guild_members (env_guild e0) ∧
  platform_ok (env_discord e) ∧
  next_message_id (env_discord e0) ≤ next_message_id (env_discord e) ∧
  Forall update_ok (env_updates e).

(** ** A sample program

    The deployment of [Lifecycle] with the guild of [Roles]: the start,
    and the program after some actions.  Sets iterate in insertion
    order. *)

Module Plant.
Import Sample Deployment.

Definition start : World := boot platform [Town.five] 0.

Definition run_from_start (acts : list Action) : World :=
  default start (wrun (H:=insertion_order_runtime) names start acts).

(** The first [on_ready]: the periodic check is about to run. *)
Definition first_ready : Action := Ready "GlassyNET#0001" None None None.

(** The periodic check wakes and sweeps the guild. *)
Definition sweep_ok : Action := LoopWake 0 Town.faulty no_listing_fault.

(** The periodic check wakes and the listing fails. *)
Definition sweep_refused : Action := LoopWake 0 Town.faulty (page_fault 0).

(** Fay joins the guild. *)
Definition fay : Member := mkMember 5 "fay" "0" None [].

Definition fay_joins : Action := Join home_guild_id fay Town.faulty None.

(** Dan is given a role of the table by an administrator. *)
Definition dan_gets_beta : Action := Outside home_guild_id 4 beta true.

(** Gus, who has an avatar, joins, is given a role of the table, and is
    notified; a day later the ticket of the notification is due. *)
Definition gus : Member := mkMember 6 "gus" "0" (Some "https://cdn.example/gus.png") [].

Definition gus_notified : list Action :=
  [first_ready; Join home_guild_id gus Town.faulty None; Deliver;
   Outside home_guild_id 6 alpha true; Deliver; Loop (Tick 5); Loop (Wake 0);
   Loop (SendReply 0 None); Loop (Tick 86400)].

(** Gus has joined and been given a role of the table; the settling
    task is due. *)
Definition gus_pending : list Action :=
  [first_ready; Join home_guild_id gus Town.faulty None; Deliver;
   Outside home_guild_id 6 alpha true; Deliver; Loop (Tick 5)].

(** The notification Gus got: the newest message of the channel. *)
Definition gus_notice : Message :=
  default (mkMessage 0 0 "" None)
    (head (channel_history (discord (w_sys (run_from_start gus_notified)))
             verification_channel_id)).

End Plant.

(** ** Facts on the platform *)

Section platform_facts.
Implicit Types (d : Platform) (m : Message).

Lemma platform_ok_insert d m :
  platform_ok d → message_id m = next_message_id d →
  platform_ok (mkPlatform (channels d) (<[message_id m := m]> (messages d))
                          (next_message_id d + 1)).
Proof.
  intros [Hwf Hlt] Hid. split.
  - apply map_Forall_insert_2; [done|apply Hwf].
  - apply map_Forall_insert_2; simpl; [lia|].
    eapply map_Forall_impl; [apply Hlt|]. intros; simpl in *; lia.
Qed.

Lemma platform_ok_delete d i :
  platform_ok d →
  platform_ok (mkPlatform (channels d) (delete i (messages d)) (next_message_id d)).
Proof. intros [Hwf Hlt]. split; by apply map_Forall_delete. Qed.

Lemma channel_send_ok d cid content embed fault :
  platform_ok d → platform_ok (channel_send d cid content embed fault).1.
Proof. intros Hd. destruct fault; [done|]. by apply platform_ok_insert. Qed.

Lemma channel_send_text_ok d cid content fault :
  platform_ok d → platform_ok (channel_send_text d cid content fault).1.
Proof. intros Hd. destruct fault; [done|]. by apply platform_ok_insert. Qed.

Lemma message_delete_ok d m fault :
  platform_ok d → platform_ok (message_delete d m fault).1.
Proof.
  intros Hd. unfold message_delete. destruct fault; [done|].
  destruct (messages d !! message_id m); [|done]. by apply platform_ok_delete.
Qed.

Lemma delete_messages_ok d l : platform_ok d → platform_ok (delete_messages d l).
Proof.
  intros [Hwf Hlt]. split; [by apply delete_messages_wf|].
  intros i m. rewrite lookup_delete_messages. case_decide; [done|]. apply Hlt.
Qed.

(** A send does not lower the id of the next message. *)
Lemma channel_send_text_next d cid content fault :
  next_message_id d ≤ next_message_id (channel_send_text d cid content fault).1.
Proof. destruct fault; simpl; lia. Qed.

End platform_facts.

#[export] Hint Resolve channel_send_ok channel_send_text_ok message_delete_ok
  delete_messages_ok platform_ok_delete : preserves.

(** ** Facts on the invariants of the notification path *)

Section core_facts.
Context `{PyRuntime}.
Implicit Types (s : System) (ev : Event).

(** A step of the notification path keeps the platform in order. *)
Lemma step_platform_ok s ev s' :
  platform_ok (discord s) → step s ev = Some s' → platform_ok (discord s').
Proof.
  intros Hd Hstep. destruct ev as [before after|dt|i|i fault|i fault|m]; simpl in Hstep.
  - simplify_eq. by rewrite on_member_update_eq.
  - case_decide; by simplify_eq/=.
  - destruct (tasks s !! i) as [[member wake| |message wake|]|]; try done;
      case_decide; simplify_eq/=; [|done].
    by destruct (process_role_queue_frame (remove_task s i) member) as (_&_&_&_&->).
  - destruct (tasks s !! i) as [[|member channel content embed| |]|]; simplify_eq.
    unfold send_reply. simpl.
    pose proof (channel_send_ok (discord s) channel content embed fault Hd).
    destruct (channel_send _ _ _ _ _) as [d' r]. by destruct (send_verification_reply r).
  - destruct (tasks s !! i) as [[| | |message]|]; simplify_eq.
    unfold delete_reply_step, delete_message. simpl.
    pose proof (message_delete_ok (discord s) message fault Hd).
    by destruct (message_delete _ _ _) as [d' r].
  - simplify_eq/=. by apply platform_ok_delete.
Qed.

Lemma core_inv_step s ev s' : core_inv s → step s ev = Some s' → core_inv s'.
Proof.
  intros (Hs & Hd & Ht & Hp) Hstep.
  split_and!; eauto using step_preserves_inv, deadline_inv_step, ticket_inv_step,
    step_platform_ok.
Qed.

Lemma core_inv_init d now : platform_ok d → core_inv (init_system d now).
Proof.
  intros Hd. split_and!; [apply init_system_inv|by constructor| |done].
  split; simpl; by constructor.
Qed.

(** Code outside the notification path keeps its invariants when it
    leaves the bot and the tasks alone, lets time pass forwards, and
    keeps the platform in order without lowering the id of the next
    message. *)
Lemma core_inv_frame s log' clock' d' :
  core_inv s → clock s ≤ clock' → platform_ok d' →
  next_message_id (discord s) ≤ next_message_id d' →
  core_inv (mkSystem (bot s) (tasks s) log' clock' d').
Proof.
  intros (Hs & Hd & [Hnd Hlt] & Hp) Hclock Hd' Hnext. split_and!; [|..|done].
  - by apply (sys_inv_frame s).
  - eapply Forall_impl; [apply Hd|]. intros t. by apply task_due_mono.
  - split; [done|]. eapply Forall_impl; [apply Hlt|]. intros; simpl in *; lia.
Qed.

End core_facts.

(** ** Facts on the guilds of the cache *)

Section guild_facts.
Implicit Types (g : Guild) (guilds : list Guild) (m : Member) (ms : list Member).

Lemma get_guild_wf guilds gid g :
  Forall guild_wf guilds → get_guild guilds gid = Some g → guild_wf g.
Proof.
  intros Hwf [_ Hg]%find_Some_test. rewrite Forall_forall in Hwf. by apply Hwf.
Qed.

Lemma put_guild_wf g' guilds :
  Forall guild_wf guilds → guild_wf g' → Forall guild_wf (put_guild g' guilds).
Proof.
  intros Hwf Hg'. apply Forall_fmap. eapply Forall_impl; [done|].
  intros g Hg. simpl. by case_decide.
Qed.

(** A guild whose members have the ids of a guild in order is in
    order. *)
Lemma guild_wf_ids g g' :
  member_id <$> guild_members g' = member_id <$> guild_members g →
  guild_wf g → guild_wf g'.
Proof. unfold guild_wf. by intros ->. Qed.

Lemma remove_roles_ids g mid r :
  member_id <$> guild_members (remove_roles g mid r) = member_id <$> guild_members g.
Proof.
  simpl. rewrite <-list_fmap_compose. apply list_fmap_ext. intros i x _. simpl.
  by case_decide.
Qed.

(** Ids in ascending order stay so when some are left out. *)
Lemma sorted_ids_filter (P : Member → Prop) `{∀ x, Decision (P x)} ms :
  StronglySorted Z.lt (member_id <$> ms) →
  StronglySorted Z.lt (member_id <$> filter P ms).
Proof.
  induction ms as [|m ms IH]; [done|]. rewrite fmap_cons.
  intros [Hs Hm]%StronglySorted_inv. rewrite filter_cons.
  destruct (decide (P m)); [|by apply IH]. rewrite fmap_cons. constructor; [by apply IH|].
  rewrite Forall_fmap in *. apply Forall_forall. intros x [_ Hx]%list_elem_of_filter.
  rewrite Forall_forall in Hm. by apply Hm.
Qed.

(** A member that joins takes its place in the order. *)
Lemma insert_member_sorted m ms :
  StronglySorted Z.lt (member_id <$> ms) →
  StronglySorted Z.lt (member_id <$> insert_member m ms).
Proof.
  intros Hs. unfold insert_member. rewrite fmap_app, fmap_cons.
  apply (StronglySorted_app_2 _); [|by apply sorted_ids_filter|].
  - intros i j (x & -> & [Hx _]%list_elem_of_filter)%list_elem_of_fmap Hj.
    apply elem_of_cons in Hj
      as [->|(y & -> & [Hy _]%list_elem_of_filter)%list_elem_of_fmap]; lia.
  - constructor; [by apply sorted_ids_filter|].
    apply Forall_fmap, Forall_forall. by intros x [? _]%list_elem_of_filter.
Qed.

(** The sweep keeps the ids of the members, whatever fails. *)
Lemma sweep_listing_ids `{Logger} faults listing fuel : ∀ page limit g rid after x,
  sweep_listing faults listing fuel page limit g rid after = Some x →
  member_id <$> guild_members x.1.1 = member_id <$> guild_members g.
Proof.
  induction fuel as [|fuel IH]; intros page limit g rid after x; [done|].
  rewrite sweep_listing_S. destruct (listing page); [by intros; simplify_eq|]. simpl.
  destruct (assign_page_frame faults g (fetch_members g limit after) rid) as [_ Hids].
  case_decide; [by intros; simplify_eq|].
  destruct (py_last _) as [last|]; [|by intros; simplify_eq].
  destruct (sweep_listing _ _ _ _ _ _ _ _) as [y|] eqn:Hy; [|done].
  intros; simplify_eq/=. by rewrite (IH _ _ _ _ _ _ Hy).
Qed.

Lemma check_and_assign_role_listing_ids `{Logger} faults listing g rid x :
  check_and_assign_role_listing faults listing g rid = Some x →
  member_id <$> guild_members x.1.1 = member_id <$> guild_members g.
Proof.
  unfold check_and_assign_role_listing. destruct (get_role g rid); [|by intros; simplify_eq].
  destruct (sweep_listing _ _ _ _ _ _ _ _) as [[[g' logs] res]|] eqn:Hs; [|done].
  apply sweep_listing_ids in Hs. by destruct res as [[]|e]; intros; simplify_eq.
Qed.

(** The update of a member is about that member. *)
Lemma member_update_ok g g' mid : Forall update_ok (member_update g g' mid).
Proof.
  unfold member_update.
  destruct (guild_member g mid) as [before|] eqn:Hb; [|done].
  destruct (guild_member g' mid) as [after|] eqn:Ha; [|done].
  case_decide; [done|]. repeat constructor. unfold update_ok. simpl.
  apply find_Some_test in Hb as [Hb%bool_decide_eq_true _].
  apply find_Some_test in Ha as [Ha%bool_decide_eq_true _]. congruence.
Qed.

Lemma guild_updates_ok g g' : Forall update_ok (guild_updates g g').
Proof.
  unfold guild_updates. apply Forall_bind, Forall_forall. intros mid _.
  apply member_update_ok.
Qed.

Lemma get_guild_id guilds gid g : get_guild guilds gid = Some g → guild_id g = gid.
Proof. intros [Hp _]%find_Some_test. by apply bool_decide_eq_true in Hp. Qed.

Lemma get_guild_put g' guilds gid :
  get_guild (put_guild g' guilds) gid =
  (λ g, if decide (guild_id g = guild_id g') then g' else g) <$> get_guild guilds gid.
Proof.
  unfold get_guild, put_guild. apply find_fmap_keeping. intros g. simpl.
  case_decide as Hg; [|done]. by rewrite Hg.
Qed.

(** The member that has been inserted is found. *)
Lemma guild_member_insert g m :
  guild_member (with_members g (insert_member m (guild_members g))) (member_id m) = Some m.
Proof.
  unfold guild_member, insert_member. simpl. rewrite find_app_r.
  - simpl. by rewrite bool_decide_eq_true_2.
  - apply Forall_forall. intros x [Hx _]%list_elem_of_filter.
    apply bool_decide_eq_false_2. lia.
Qed.

(** The updates of a guild in which one member was granted a role it
    did not have: one, for that member. *)
Lemma guild_updates_add_roles g mid m r :
  guild_wf g → guild_member g mid = Some m → role_in r (member_roles m) = false →
  guild_updates g (add_roles g mid r) = [(m, grant r m)].
Proof.
  intros Hwf Hm Hr. unfold guild_updates.
  pose proof (find_Some_test _ _ _ Hm) as [Hid%bool_decide_eq_true Hin].
  rewrite (bind_single _ mid).
  - unfold member_update. rewrite guild_member_add_roles, Hm. simpl.
    destruct (decide (member_id m = mid)); [|done]. rewrite Hr.
    by rewrite decide_False by (intros Heq; by apply (grant_neq r m)).
  - by apply sorted_ids_NoDup.
  - rewrite <-Hid. by apply list_elem_of_fmap_2.
  - intros x _ Hx. unfold member_update. rewrite guild_member_add_roles.
    destruct (guild_member g x) as [y|] eqn:Hy; [|done]. simpl.
    apply find_Some_test in Hy as [Hy%bool_decide_eq_true _].
    destruct (decide (member_id y = mid)); [congruence|]. by rewrite decide_True.
Qed.

(** The member who has joined and been granted a role, in the guilds. *)
Lemma member_after_join guilds gid g m r :
  get_guild guilds gid = Some g → role_in r (member_roles m) = false →
  let g0 := with_members g (insert_member m (guild_members g)) in
  get_guild (put_guild (add_roles g0 (member_id m) r) (put_guild g0 guilds)) gid ≫=
    (λ g', guild_member g' (member_id m)) = Some (grant r m).
Proof.
  intros Hg Hr g0. rewrite !get_guild_put, Hg. simpl.
  rewrite (decide_True (P:=guild_id g = _)) by done.
  rewrite decide_True by done. simpl.
  rewrite guild_member_add_roles. unfold g0. rewrite guild_member_insert. simpl.
  by rewrite decide_True, Hr by done.
Qed.

(** The member who has left is not found in the guilds. *)
Lemma member_after_leave guilds gid g mid :
  get_guild guilds gid = Some g →
  get_guild (put_guild (with_members g (filter (λ x, member_id x ≠ mid) (guild_members g)))
               guilds) gid ≫= (λ g', guild_member g' mid) = None.
Proof.
  intros Hg. rewrite get_guild_put, Hg. simpl. rewrite decide_True by done. simpl.
  unfold guild_member. simpl.
  rewrite find_none; [done|]. apply Forall_forall. intros x [Hx _]%list_elem_of_filter.
  by apply bool_decide_eq_false_2.
Qed.

End guild_facts.

(** ** What the handlers of the client keep *)

Section client_facts.
Context (channel_name : Z → string).
Implicit Types (c : Client) (bot : RoleManagerBot) (fault : option HTTPException).

Lemma client_frame_refl c : platform_ok (client_discord c) → client_frame c c.
Proof. intros Hd. split_and!; try done. by left. Qed.

Lemma logging_frame c0 level text : preserves (client_frame c0) (logging level text).
Proof. by intros c Hc. Qed.

Lemma asyncio_sleep_frame c0 dt : 0 ≤ dt → preserves (client_frame c0) (asyncio_sleep dt).
Proof. intros Hdt c (?&?&?&?&?&?). split_and!; simpl; try done. lia. Qed.

Lemma client_get_channel_frame c0 cid :
  preserves (client_frame c0) (client_get_channel cid).
Proof. by intros c Hc. Qed.

Lemma client_send_frame c0 cid content fault :
  preserves (client_frame c0) (client_send cid content fault).
Proof.
  intros c (?&?&?&?&Hd&?). unfold client_send.
  pose proof (channel_send_text_ok (client_discord c) cid content fault Hd).
  pose proof (channel_send_text_next (client_discord c) cid content fault).
  destruct (channel_send_text _ _ _ _) as [d' r]. split_and!; simpl in *; try done. lia.
Qed.

Lemma close_http_session_frame c0 : preserves (client_frame c0) close_http_session.
Proof. intros c Hc. unfold close_http_session. by destruct (client_connector c). Qed.

Lemma super_close_frame c0 : preserves (client_frame c0) super_close.
Proof. intros c (?&?&?&?&?&?). split_and!; simpl; try done. by right. Qed.

Lemma client_update_bot_activity_frame c0 fault :
  preserves (client_frame c0) (client_update_bot_activity fault).
Proof.
  intros c Hc. unfold client_update_bot_activity.
  by destruct (update_bot_activity _ _) as [[text|e] lines].
Qed.

Lemma add_cog_frame c0 name : preserves (client_frame c0) (add_cog name).
Proof.
  intros c (?&?&Hcogs&?&?&?). unfold add_cog. case_bool_decide; [done|].
  split_and!; simpl; try done. destruct Hcogs; [left; set_solver|by right].
Qed.

Lemma tree_sync_frame c0 fault : preserves (client_frame c0) (tree_sync fault).
Proof. intros c Hc. by destruct fault. Qed.

#[local] Hint Resolve logging_frame asyncio_sleep_frame client_get_channel_frame
  client_send_frame close_http_session_frame super_close_frame
  client_update_bot_activity_frame add_cog_frame tree_sync_frame : preserves.
#[local] Hint Extern 2 (0 ≤ _) => lia : preserves.

Lemma send_startup_message_frame c0 bot fault :
  preserves (client_frame c0) (send_startup_message channel_name bot fault).
Proof.
  unfold send_startup_message. repeat (apply preserves_bind; [auto with preserves|intros]).
  try case_match; auto 10 with preserves.
Qed.

Lemma send_shutdown_message_frame c0 bot fault :
  preserves (client_frame c0) (send_shutdown_message bot fault).
Proof.
  unfold send_shutdown_message. repeat (apply preserves_bind; [auto with preserves|intros]).
  try case_match; auto 10 with preserves.
Qed.

#[local] Hint Resolve send_startup_message_frame send_shutdown_message_frame : preserves.

Lemma close_frame c0 bot fault : preserves (client_frame c0) (close bot fault).
Proof. unfold close. auto 10 with preserves. Qed.

Lemma on_ready_frame c0 bot user f1 f2 f3 :
  preserves (client_frame c0) (on_ready channel_name bot user f1 f2 f3).
Proof. unfold on_ready. auto 20 with preserves. Qed.

(** [on_ready] returns only when it has loaded the cog, which was not
    loaded before. *)
Lemma on_ready_Ok bot user f1 f2 f3 c :
  (on_ready channel_name bot user f1 f2 f3 c).2 = Ok () →
  let c' := (on_ready channel_name bot user f1 f2 f3 c).1 in
  ("Commands" ∉ client_cogs c) ∧ "Commands" ∈ client_cogs c'.
Proof.
  unfold on_ready, mbind, Prog_bind, client_update_bot_activity, add_cog, tree_sync, logging.
  simpl. destruct (update_bot_activity _ _) as [[text|e] lines]; simpl; [|done].
  destruct (decide ("Commands" ∈ client_cogs c)) as [Hin|Hin].
  { by rewrite (bool_decide_eq_true_2 _ Hin). }
  rewrite (bool_decide_eq_false_2 _ Hin). simpl. destruct f2; simpl; [done|].
  rewrite send_startup_message_eq. simpl. intros _. split; [done|set_solver].
Qed.

End client_facts.

(** ** What the handlers of an interaction keep *)

Section command_facts.
Implicit Types (e : Env) (user : Member) (fault : option HTTPException).

Lemma rest_frame e0 fault effect :
  (∀ e, env_frame e0 e → env_frame e0 (effect e)) →
  preserves (env_frame e0) (rest fault effect).
Proof. intros Heff e He. unfold rest. destruct fault; [done|by apply Heff]. Qed.

Lemma set_guild_frame e0 e mid g' :
  guild_id g' = guild_id (env_guild e) →
  member_id <$> guild_members g' = member_id <$> guild_members (env_guild e) →
  env_frame e0 e → env_frame e0 (set_guild mid g' e).
Proof.
  intros Hid Hids (?&?&?&?&Hup). split_and!; simpl; try congruence; try done.
  apply Forall_app. split; [done|apply member_update_ok].
Qed.

Lemma logging_error_frame e0 text : preserves (env_frame e0) (logging_error text).
Proof. by intros e He. Qed.

Lemma interaction_guild_frame e0 : preserves (env_frame e0) interaction_guild.
Proof. by intros e He. Qed.

Lemma response_send_message_frame e0 content view fault :
  preserves (env_frame e0) (response_send_message content view fault).
Proof. by apply rest_frame. Qed.

Lemma response_defer_frame e0 fault : preserves (env_frame e0) (response_defer fault).
Proof. by apply rest_frame. Qed.

Lemma followup_send_frame e0 content fault :
  preserves (env_frame e0) (followup_send content fault).
Proof. by apply rest_frame. Qed.

#[local] Hint Resolve logging_error_frame interaction_guild_frame
  response_send_message_frame response_defer_frame followup_send_frame : preserves.

Lemma followup_or_log_frame e0 text fault :
  preserves (env_frame e0) (followup_or_log text fault).
Proof.
  unfold followup_or_log. apply preserves_try_except; [auto with preserves|].
  intros [h| | | | |]; auto with preserves. case_decide; auto with preserves.
Qed.

Lemma member_add_roles_frame e0 user role fault :
  preserves (env_frame e0) (member_add_roles user role fault).
Proof.
  destruct role as [r|]; simpl; [|auto with preserves].
  apply rest_frame. intros e He. apply set_guild_frame; [done|apply add_roles_ids|done].
Qed.

Lemma member_remove_roles_frame e0 user roles faults :
  preserves (env_frame e0) (member_remove_roles user roles faults).
Proof.
  induction roles as [|[r|] roles IH]; simpl; auto with preserves.
  apply preserves_bind; [|done].
  apply rest_frame. intros e He. apply set_guild_frame; [done|apply remove_roles_ids|done].
Qed.

Lemma channel_purge_frame e0 cid amount fault :
  preserves (env_frame e0) (channel_purge cid amount fault).
Proof.
  intros e (?&?&?&?&?). unfold channel_purge. destruct fault; [done|].
  split_and!; simpl; try done. by apply delete_messages_ok.
Qed.

Lemma chosen_role_frame e0 role_id : preserves (env_frame e0) (chosen_role role_id).
Proof. unfold chosen_role. auto 10 with preserves. Qed.

#[local] Hint Resolve followup_or_log_frame member_add_roles_frame
  member_remove_roles_frame channel_purge_frame chosen_role_frame : preserves.

Lemma roles_to_modify_frame e0 values : preserves (env_frame e0) (roles_to_modify values).
Proof. induction values as [|v values IH]; simpl; auto 10 with preserves. Qed.

Lemma add_each_frame e0 user values faults :
  preserves (env_frame e0) (add_each user values faults).
Proof. induction values as [|v values IH]; simpl; auto 10 with preserves. Qed.

#[local] Hint Resolve roles_to_modify_frame add_each_frame : preserves.

Lemma callback_frame e0 self values faults f1 f2 :
  preserves (env_frame e0) (callback self values faults f1 f2).
Proof.
  unfold callback. apply preserves_try_except.
  - destruct (selector_remove self); auto 10 with preserves.
  - intros [h| | | | |]; auto with preserves. case_decide; auto with preserves.
Qed.

Lemma command_frame e0 bot c : preserves (env_frame e0) (command bot c).
Proof.
  destruct c; simpl; unfold add, remove, clear, verify, has_permissions;
    try (destruct administrator; [|auto with preserves]);
    apply preserves_try_except; intros; auto 10 with preserves.
  - apply preserves_bind; [auto with preserves|intros; case_match; auto with preserves].
  - apply preserves_bind; [auto with preserves|intros; case_match; auto with preserves].
  - case_decide; auto 10 with preserves.
  - destruct x as [h| | | | |]; auto with preserves. case_decide; auto with preserves.
Qed.

End command_facts.

(** ** Every action keeps the program well formed *)

Section world_facts.
Context `{PyRuntime} (channel_name : Z → string).
Implicit Types (w : World) (g : Guild) (a : Action).

Lemma boot_wf d guilds now :
  platform_ok d → Forall guild_wf guilds → world_wf (boot d guilds now).
Proof.
  intros Hd Hg. split_and!; [by apply core_inv_init|done|done|].
  split; simpl; [lia|done].
Qed.

Lemma set_sys_wf w s : world_wf w → core_inv s → world_wf (set_sys s w).
Proof. by intros (?&?&?&?) Hs. Qed.

Lemma noted_wf lines x w : world_wf w → world_wf (noted lines x w).
Proof.
  intros (Hc&?&?&?). split; [|done].
  apply (core_inv_frame (w_sys w)); [done|lia|apply Hc|lia].
Qed.

Lemma with_guild_wf g g' w : world_wf w → guild_wf g' → world_wf (with_guild g g' w).
Proof.
  intros (?&?&?&?) Hg'. split_and!; simpl; try done; [by apply put_guild_wf|].
  apply Forall_app. split; [done|apply guild_updates_ok].
Qed.

Lemma set_guilds_wf guilds w :
  world_wf w → Forall guild_wf guilds → world_wf (set_guilds guilds w).
Proof. by intros (?&?&?&?) Hg. Qed.

Lemma set_presence_wf r w : world_wf w → world_wf (set_presence r w).
Proof. by intros (?&?&?&?). Qed.

(** A periodic check that ends or sleeps again leaves one check at
    most. *)
Lemma set_loops_wf loops w :
  world_wf w → (length loops ≤ length (w_loops w))%nat → world_wf (set_loops loops w).
Proof.
  intros (?&?&?&Hlen&Hcog) Hle. split_and!; try done. split; simpl; [lia|].
  intros Hne. apply Hcog. intros Hnil. rewrite Hnil in Hle.
  destruct loops; [done|simpl in Hle; lia].
Qed.

Lemma deliver_next_wf w w' : world_wf w → deliver_next w = Some w' → world_wf w'.
Proof.
  intros (Hc&?&Hin&?) Hstep. unfold deliver_next in Hstep.
  destruct (w_inbox w) as [|[before after] rest]; simplify_eq.
  apply Forall_cons in Hin as [_ Hin]. split_and!; try done.
  by apply (core_inv_step (w_sys w) (MemberUpdate before after)).
Qed.

Lemma outside_wf gid mid r give w w' :
  world_wf w → outside gid mid r give w = Some w' → world_wf w'.
Proof.
  intros Hw Hstep. unfold outside in Hstep.
  destruct (get_guild _ gid) as [g|] eqn:Hg; simplify_eq/=.
  apply with_guild_wf; [done|]. destruct Hw as (_&Hgs&_).
  apply (guild_wf_ids g); [|by eapply get_guild_wf].
  destruct give; [apply add_roles_ids|apply remove_roles_ids].
Qed.

(** A handler of the client leaves no [on_ready] a periodic check to
    start, when none had one before. *)
Lemma with_client_barred w c :
  client_frame (client_of w) c → ready_barred w → ready_barred (with_client c w).
Proof.
  intros (_&_&Hcogs&Hclosed&_) [Hcog|Hc]; unfold ready_barred; simpl in *.
  - destruct Hcogs as [Hcogs|?]; [left; by apply Hcogs|by right].
  - right. by apply Hclosed.
Qed.

(** A handler of the client leaves the program well formed. *)
Lemma with_client_wf w c :
  world_wf w → client_frame (client_of w) c → world_wf (with_client c w).
Proof.
  intros (Hc&?&?&Hlen&Hcog) Hframe. pose proof Hframe as (Hg&?&_&_&?&?).
  split_and!; simpl; try done.
  - by apply (core_inv_frame (w_sys w)).
  - by rewrite Hg.
  - split; [done|]. intros Hne. by apply (with_client_barred w c), Hcog.
Qed.

Lemma ready_wf user f1 f2 f3 w :
  world_wf w → session_closed (w_session w) = false →
  world_wf (ready channel_name user f1 f2 f3 w).
Proof.
  intros Hw Hopen. unfold ready.
  pose proof (on_ready_frame channel_name (client_of w) (bot (w_sys w)) user f1 f2 f3
                (client_of w)) as Hframe.
  pose proof (on_ready_Ok channel_name (bot (w_sys w)) user f1 f2 f3 (client_of w)) as Hok.
  destruct (on_ready _ _ _ _ _ _ _) as [c r]. simpl in *.
  destruct (with_client_wf w c Hw) as (?&?&?&Hlen&Hcog).
  { apply Hframe, client_frame_refl, Hw. }
  split_and!; try done. destruct r as [[]|e]; simpl in *.
  - destruct Hok as [Hnew Hin]; [done|]. destruct Hw as (_&_&_&_&Hcog0).
    destruct (w_loops w); [split; simpl; [lia|by left]|].
    destruct Hcog0 as [?|Hc]; [done|by destruct Hnew|]. simpl in Hc. congruence.
  - rewrite app_nil_r. by split.
Qed.

Lemma periodic_wake_wf i faults listing w w' :
  world_wf w → periodic_wake i faults listing w = Some w' → world_wf w'.
Proof.
  intros Hw Hstep. unfold periodic_wake in Hstep.
  destruct (w_loops w !! i) as [wake|] eqn:Hi; simplify_eq/=.
  case_decide; [|done]. destruct (session_closed _).
  { simplify_eq. apply set_loops_wf; [done|]. rewrite length_delete by done. lia. }
  destruct (get_guild _ _) as [g|] eqn:Hg.
  2: { simplify_eq. apply set_loops_wf; [done|]. by rewrite length_insert. }
  destruct (check_and_assign_role_listing _ _ _ _) as [[[g' lines] r]|] eqn:Hsweep;
    simplify_eq/=.
  apply check_and_assign_role_listing_ids in Hsweep. apply set_loops_wf.
  - apply noted_wf, with_guild_wf; [done|]. destruct Hw as (_&Hgs&_).
    apply (guild_wf_ids g); [done|by eapply get_guild_wf].
  - simpl. destruct r; [by rewrite length_insert|rewrite length_delete by done; lia].
Qed.

Lemma join_wf gid member faults fault w w' :
  world_wf w → join gid member faults fault w = Some w' → world_wf w'.
Proof.
  intros Hw Hstep. unfold join in Hstep.
  destruct (get_guild _ gid) as [g|] eqn:Hg; simplify_eq/=.
  case_bool_decide; [done|]. unfold on_member_join in Hstep.
  pose proof (assign_role_to_member_frame (H:=logging_logger) faults
    (with_members g (insert_member member (guild_members g))) member auto_role_id)
    as [_ Hids].
  destruct (assign_role_to_member _ _ _ _) as [g1 l1].
  destruct (update_bot_activity _ _) as [r l2]. simplify_eq/=.
  assert (guild_wf (with_members g (insert_member member (guild_members g)))) as Hg0.
  { apply insert_member_sorted. destruct Hw as (_&Hgs&_). by eapply get_guild_wf. }
  apply set_presence_wf, noted_wf, with_guild_wf;
    [|by apply (guild_wf_ids (with_members g (insert_member member (guild_members g))))].
  apply set_guilds_wf; [done|]. apply put_guild_wf; [apply Hw|done].
Qed.

Lemma leave_wf gid mid fault w w' :
  world_wf w → leave gid mid fault w = Some w' → world_wf w'.
Proof.
  intros Hw Hstep. unfold leave in Hstep.
  destruct (get_guild _ gid) as [g|] eqn:Hg; simplify_eq/=.
  case_bool_decide; [|done]. destruct (on_member_remove _ _) as [r lines]. simplify_eq.
  apply set_presence_wf, noted_wf, set_guilds_wf; [done|].
  apply put_guild_wf; [apply Hw|]. apply sorted_ids_filter.
  destruct Hw as (_&Hgs&_). by eapply get_guild_wf.
Qed.

(** A handler of an interaction leaves the program well formed. *)
Lemma interact_wf gid (handler : Cmd unit) w w' :
  (∀ e0, preserves (env_frame e0) handler) →
  world_wf w → interact gid handler w = Some w' → world_wf w'.
Proof.
  intros Hframe Hw Hstep. unfold interact in Hstep.
  destruct (get_guild _ gid) as [g|] eqn:Hg; simplify_eq/=.
  specialize (Hframe (env_of g w) (env_of g w)).
  destruct (handler (env_of g w)) as [e r]. simplify_eq/=.
  destruct Hw as (Hc&Hgs&Hin&Hloops). destruct Hframe as (_&Hids&Hd&Hnext&Hup).
  { split_and!; simpl; try done; apply Hc. }
  split_and!; simpl; try done.
  - apply (core_inv_frame (w_sys w)); [done|lia|done|done].
  - apply put_guild_wf; [done|]. apply (guild_wf_ids g); [done|by eapply get_guild_wf].
Qed.

Lemma shut_wf fault w : world_wf w → world_wf (shut fault w).
Proof.
  intros Hw. unfold shut.
  pose proof (close_frame (client_of w) (bot (w_sys w)) fault (client_of w)) as Hframe.
  destruct (close _ _ _) as [c r]. simpl in *.
  destruct (with_client_wf w c Hw) as (?&?&?&Hlen&Hcog).
  { apply Hframe, client_frame_refl, Hw. }
  destruct Hw as (_&?&?&_). by split_and!.
Qed.

(** Every action keeps the program well formed. *)
Lemma wstep_wf w a w' : world_wf w → wstep channel_name w a = Some w' → world_wf w'.
Proof.
  intros Hw Hstep. destruct a; simpl in Hstep.
  - destruct (step (w_sys w) ev) as [s'|] eqn:Hs; simplify_eq/=.
    apply set_sys_wf; [done|]. eapply core_inv_step; [apply Hw|done].
  - by eapply deliver_next_wf.
  - by eapply outside_wf.
  - destruct (session_closed _) eqn:Hopen; simplify_eq. by apply ready_wf.
  - by eapply periodic_wake_wf.
  - by eapply join_wf.
  - by eapply leave_wf.
  - eapply interact_wf; [|done..]. intros e0. apply command_frame.
  - eapply interact_wf; [|done..]. intros e0. apply callback_frame.
  - simplify_eq. by apply shut_wf.
Qed.

Lemma wrun_wf w acts w' : world_wf w → wrun channel_name w acts = Some w' → world_wf w'.
Proof.
  revert w. induction acts as [|a acts IH]; intros w Hw Hrun; simpl in Hrun.
  - by simplify_eq.
  - destruct (wstep _ w a) as [w1|] eqn:Hstep; [|done].
    eapply IH; [|done]. by eapply wstep_wf.
Qed.

Lemma wreachable_wf w : wreachable channel_name w → world_wf w.
Proof.
  induction 1 as [d guilds now Hd Hg|w a w' _ IH Hstep]; [by apply boot_wf|].
  by eapply wstep_wf.
Qed.

End world_facts.

(** ** The periodic check in the program *)

Section periodic_facts.
Context `{PyRuntime} (channel_name : Z → string).
Implicit Types (w : World) (a : Action).

(** Once no [on_ready] can start a periodic check, none can later:
    the cogs stay loaded until the client is closed, and a closed
    client stays closed. *)
Lemma wstep_barred w a w' :
  world_wf w → wstep channel_name w a = Some w' → ready_barred w → ready_barred w'.
Proof.
  intros Hw Hstep Hx. destruct a; simpl in Hstep.
  - by destruct (step _ _); simplify_eq/=.
  - unfold deliver_next in Hstep. by destruct (w_inbox w) as [|[??]?]; simplify_eq/=.
  - unfold outside in Hstep. by destruct (get_guild _ _); simplify_eq/=.
  - destruct (session_closed _) eqn:Hopen; simplify_eq. unfold ready.
    pose proof (on_ready_frame channel_name (client_of w) (bot (w_sys w)) user
                  presence_fault sync_fault startup_fault (client_of w)) as Hframe.
    destruct (on_ready _ _ _ _ _ _ _) as [c r].
    apply (with_client_barred w c); [|done]. apply Hframe, client_frame_refl, Hw.
  - unfold periodic_wake in Hstep. destruct (w_loops w !! i); simplify_eq/=.
    case_decide; [|done]. destruct (session_closed _) eqn:Hopen; [by simplify_eq|].
    destruct (get_guild _ _); [|by simplify_eq].
    by destruct (check_and_assign_role_listing _ _ _ _) as [[[??][]]|]; simplify_eq/=.
  - unfold join in Hstep. destruct (get_guild _ _); simplify_eq/=.
    case_bool_decide; [done|]. by destruct (on_member_join _ _ _ _ _) as [[??]?]; simplify_eq.
  - unfold leave in Hstep. destruct (get_guild _ _); simplify_eq/=.
    case_bool_decide; [|done]. by destruct (on_member_remove _ _); simplify_eq.
  - unfold interact in Hstep. destruct (get_guild _ _) as [g|]; simplify_eq/=.
    by destruct (command _ _ _); simplify_eq.
  - unfold interact in Hstep. destruct (get_guild _ _) as [g|]; simplify_eq/=.
    by destruct (callback _ _ _ _ _ _); simplify_eq.
  - simplify_eq. unfold shut.
    pose proof (close_frame (client_of w) (bot (w_sys w)) fault (client_of w)) as Hframe.
    destruct (close _ _ _) as [c r].
    apply (with_client_barred w c); [|done]. apply Hframe, client_frame_refl, Hw.
Qed.

(** When no [on_ready] can start a periodic check, none is started:
    only [on_ready] starts one, and it stops at [add_cog] on a client
    that is not closed, and is not dispatched to one that is. *)
Lemma wstep_no_new_loop w a w' :
  ready_barred w → wstep channel_name w a = Some w' →
  (length (w_loops w') ≤ length (w_loops w))%nat.
Proof.
  intros Hcog Hstep. destruct a; simpl in Hstep.
  - by destruct (step _ _); simplify_eq/=.
  - unfold deliver_next in Hstep. by destruct (w_inbox w) as [|[??]?]; simplify_eq/=.
  - unfold outside in Hstep. by destruct (get_guild _ _); simplify_eq/=.
  - destruct (session_closed _) eqn:Hopen; simplify_eq. unfold ready.
    destruct Hcog as [Hcog|Hc]; [|congruence].
    pose proof (on_ready_Ok channel_name (bot (w_sys w)) user presence_fault sync_fault
                  startup_fault (client_of w)) as Hok.
    destruct (on_ready _ _ _ _ _ _ _) as [c [[]|e]]; simpl in *.
    + by destruct Hok as [[] _].
    + by rewrite app_nil_r.
  - unfold periodic_wake in Hstep. destruct (w_loops w !! i) eqn:Hi; simplify_eq/=.
    case_decide; [|done].
    destruct (session_closed _); [simplify_eq/=; rewrite length_delete by done; lia|].
    destruct (get_guild _ _); [|simplify_eq/=; by rewrite length_insert].
    destruct (check_and_assign_role_listing _ _ _ _) as [[[??][]]|]; simplify_eq/=;
      [by rewrite length_insert|rewrite length_delete by done; lia].
  - unfold join in Hstep. destruct (get_guild _ _); simplify_eq/=.
    case_bool_decide; [done|]. by destruct (on_member_join _ _ _ _ _) as [[??]?]; simplify_eq.
  - unfold leave in Hstep. destruct (get_guild _ _); simplify_eq/=.
    case_bool_decide; [|done]. by destruct (on_member_remove _ _); simplify_eq.
  - unfold interact in Hstep. destruct (get_guild _ _) as [g|]; simplify_eq/=.
    by destruct (command _ _ _); simplify_eq.
  - unfold interact in Hstep. destruct (get_guild _ _) as [g|]; simplify_eq/=.
    by destruct (callback _ _ _ _ _ _); simplify_eq.
  - simplify_eq. unfold shut. by destruct (close _ _ _).
Qed.

(** Once the periodic check has ended while no [on_ready] can start
    one, no run starts it again. *)
Lemma wrun_no_loop w acts w' :
  world_wf w → ready_barred w → w_loops w = [] →
  wrun channel_name w acts = Some w' → w_loops w' = [].
Proof.
  revert w. induction acts as [|a acts IH]; intros w Hw Hcog Hnone Hrun; simpl in Hrun.
  - by simplify_eq.
  - destruct (wstep _ w a) as [w1|] eqn:Hstep; [|done].
    apply (IH w1); [by eapply wstep_wf|by eapply wstep_barred| |done].
    pose proof (wstep_no_new_loop w a w1 Hcog Hstep) as Hlen.
    rewrite Hnone in Hlen. destruct (w_loops w1); [done|simpl in Hlen; lia].
Qed.

(** The wake of the periodic check when the first listing of its sweep
    fails: the check is gone, and the guilds are as they were. *)
Lemma periodic_wake_fault w wake faults listing g role h :
  w_loops w = [wake] → wake ≤ clock (w_sys w) → session_closed (w_session w) = false →
  get_guild (w_guilds w) home_guild_id = Some g → get_role g auto_role_id = Some role →
  listing 0%nat = Some h →
  periodic_wake 0 faults listing w =
  Some (set_loops [] (noted [] [HTTPError h] (with_guild g g w))).
Proof.
  intros Hloops Hwake Hopen Hg Hrole Hbad. unfold periodic_wake.
  rewrite Hloops. simpl. rewrite decide_True, Hopen, Hg by done.
  by rewrite (check_and_assign_role_listing_fault _ listing g auto_role_id role h).
Qed.

End periodic_facts.

(** ** The properties of the program *)

Section program_properties.
Context `{PyRuntime} (channel_name : Z → string).
Implicit Types (w : World) (a : Action).

Lemma wrun_reachable w acts w' :
  wreachable channel_name w → wrun channel_name w acts = Some w' →
  wreachable channel_name w'.
Proof.
  revert w. induction acts as [|a acts IH]; intros w Hw Hrun; simpl in Hrun.
  - by simplify_eq.
  - destruct (wstep _ w a) as [w1|] eqn:Hstep; [|done].
    eapply IH; [|done]. by eapply wreachable_step.
Qed.


(** C13: in the whole program, with commands, joins, sweeps, start-up and
    shutdown running between the events of the notification path, a
    member has one settling task at most, and has one exactly when roles
    are pending for it. *)
Theorem program_one_timer_per_member w mid :
  wreachable channel_name w →
  (timers_of mid (tasks (w_sys w)) ≤ 1)%nat ∧
  (timers_of mid (tasks (w_sys w)) = 1%nat ↔
   is_Some (role_update_queue (bot (w_sys w)) !! mid)).
Proof.
  intros (((_&_&Htim)&_)&_)%(wreachable_wf channel_name). by apply timer_inv_bounds.
Qed.

(** C29: however often [on_ready] fires, at most one [periodic_role_check]
    runs: while the client is open the cog stays loaded and a second
    [on_ready] stops at [add_cog]; [close] removes the cog, and the
    gateway dispatches nothing to a closed client. *)
Theorem one_periodic_check w :
  wreachable channel_name w → (length (w_loops w) ≤ 1)%nat.
Proof. by intros (_&_&_&?&_)%(wreachable_wf channel_name). Qed.

(** C27: a listing that fails ends the periodic check for good: when the
    first listing of a sweep fails, the exception leaves
    [periodic_role_check] and [on_ready], the guilds are as they were,
    and whatever happens afterwards, no periodic check runs again, since
    a later [on_ready] stops at [add_cog], and none is dispatched once
    [close] has removed the cog. *)
Theorem listing_fault_ends_periodic_check w wake faults listing g role h acts w' :
  world_wf w → w_loops w = [wake] → wake ≤ clock (w_sys w) →
  session_closed (w_session w) = false →
  get_guild (w_guilds w) home_guild_id = Some g → get_role g auto_role_id = Some role →
  listing 0%nat = Some h →
  wrun channel_name w (LoopWake 0 faults listing :: acts) = Some w' →
  w_loops w' = [] ∧
  wstep channel_name w (LoopWake 0 faults listing) =
    Some (set_loops [] (noted [] [HTTPError h] (with_guild g g w))).
Proof.
  intros Hw Hloops Hwake Hopen Hg Hrole Hbad Hrun.
  pose proof (periodic_wake_fault w wake faults listing g role h
                Hloops Hwake Hopen Hg Hrole Hbad) as Hstep.
  split; [|exact Hstep]. cbn [wrun wstep] in Hrun. rewrite Hstep in Hrun.
  apply (wrun_no_loop channel_name
           (set_loops [] (noted [] [HTTPError h] (with_guild g g w))) acts); [| |done|done].
  - by apply (wstep_wf channel_name w (LoopWake 0 faults listing)).
  - destruct Hw as (_&_&_&_&Hcog). simpl. apply Hcog. by rewrite Hloops.
Qed.

Lemma wrun_app w l k :
  wrun channel_name w (l ++ k) = wrun channel_name w l ≫= λ w', wrun channel_name w' k.
Proof.
  revert w. induction l as [|a l IH]; intros w; [done|]. simpl.
  by destruct (wstep _ w a).
Qed.

(** One turn of the periodic check as a task, the wake with no listing
    failing and then the sleep, is one turn of [periodic_role_check] on
    the client. *)
Lemma periodic_task_turn w wake faults listing :
  world_wf w → w_loops w = [wake] → wake ≤ clock (w_sys w) →
  session_closed (w_session w) = false → (∀ k, listing k = None) →
  ∃ w',
    wrun channel_name w [LoopWake 0 faults listing; Loop (Tick check_period)] = Some w' ∧
    periodic_turn faults (client_of w) = Some (client_of w', Ok ()) ∧
    w_loops w' = [clock (w_sys w')] ∧ session_closed (w_session w') = false.
Proof.
  intros Hw Hloops Hwake Hopen Hok. cbn [wrun wstep]. unfold periodic_wake.
  rewrite Hloops. simpl. rewrite decide_True, Hopen by done.
  unfold periodic_turn, periodic_role_check_round. simpl.
  destruct (get_guild (w_guilds w) home_guild_id) as [g|] eqn:Hg.
  - destruct (check_and_assign_role_listing_ok (H:=logging_logger) faults listing g
                auto_role_id Hok) as (g' & lines & -> & -> & Hid).
    { destruct Hw as (_&Hgs&_). by eapply get_guild_wf. }
    simpl. eexists. split; [done|]. split; [|done]. unfold client_of. simpl.
    apply get_guild_id in Hg. unfold put_guild. by rewrite Hid, Hg.
  - simpl. eexists. split; [done|]. split; [|done]. unfold client_of. simpl.
    by rewrite app_nil_r.
Qed.

(** C28: the periodic check as a task of the event loop refines
    [periodic_role_check] of [Lifecycle]: [n] turns of the task, each a
    wake with no listing failing and then the sleep, leave the client
    that [n] turns of the loop leave, with the task due again. *)
Theorem periodic_task_refines_loop n faults listing : ∀ w wake,
  world_wf w → w_loops w = [wake] → wake ≤ clock (w_sys w) →
  session_closed (w_session w) = false → (∀ k, listing k = None) →
  ∃ w' wake',
    wrun channel_name w (periodic_turns n faults listing) = Some w' ∧
    periodic_role_check faults n (client_of w) = Some (client_of w', Ok ()) ∧
    w_loops w' = [wake'] ∧ wake' ≤ clock (w_sys w').
Proof.
  induction n as [|n IH]; intros w wake Hw Hloops Hwake Hopen Hok; [by exists w, wake|].
  destruct (periodic_task_turn w wake faults listing)
    as (w1 & Hrun & Hturn & Hloops1 & Hopen1); [done..|].
  pose proof (wrun_wf channel_name w _ w1 Hw Hrun) as Hw1.
  destruct (IH w1 (clock (w_sys w1))) as (w' & wake' & Hrun' & Hloop' & Hw'); [done..|].
  exists w', wake'. split_and!; [| |apply Hw'..].
  - change (periodic_turns (S n) faults listing)
      with ([LoopWake 0 faults listing; Loop (Tick check_period)] ++
            periodic_turns n faults listing).
    by rewrite wrun_app, Hrun.
  - cbn [periodic_role_check].
    change (client_closed (client_of w)) with (session_closed (w_session w)).
    by rewrite Hopen, Hturn.
Qed.

(** [on_member_join] for a member that is to get the role: the role is
    added, and the gateway has the update of the member to deliver. *)
Lemma join_eq w gid g member faults presence_fault role :
  world_wf w → get_guild (w_guilds w) gid = Some g →
  member_id member ∉ member_id <$> guild_members g →
  member_id member ∉ excluded_member_ids →
  get_role g auto_role_id = Some role → role_in role (member_roles member) = false →
  faults (member_id member) = None →
  let g0 := with_members g (insert_member member (guild_members g)) in
  let w0 := set_guilds (put_guild g0 (w_guilds w)) w in
  let act := update_bot_activity (H:=logging_logger) (w_guilds w0) presence_fault in
  join gid member faults presence_fault w =
  Some (set_presence act.1
          (noted (settle_log (H:=logging_logger) faults role member ++ act.2) (escaped act.1)
             (mkWorld (w_sys w) (put_guild (add_roles g0 (member_id member) role) (w_guilds w0))
                      (w_session w) (w_loops w) (w_inbox w ++ [(member, grant role member)])
                      (w_replies w) (w_escaped w)))).
Proof.
  intros Hw Hg Hnew Hexcl Hrole Hin Hfault g0 w0 act. unfold join.
  rewrite Hg. simpl. rewrite bool_decide_eq_false_2 by done.
  unfold on_member_join. fold g0. subst act w0.
  rewrite (assign_role_to_member_eq faults g0 member auto_role_id role)
    by (unfold g0; by rewrite get_role_with_members).
  unfold wants_role. rewrite Hin, Hfault, !bool_decide_eq_true_2 by done. simpl.
  destruct (update_bot_activity _ _) as [r l2]. simpl. unfold with_guild. simpl.
  rewrite (guild_updates_add_roles g0 (member_id member) member role); [done| | |done].
  - apply insert_member_sorted. destruct Hw as (_&Hgs&_). by eapply get_guild_wf.
  - apply guild_member_insert.
Qed.

(** C16: a member who joins gets the automatic role, and nothing is
    announced: when the gateway has delivered the update that
    [add_roles] caused, the member has the role in the guild, and the
    queue, the tasks and the platform of the notification path are as
    they were. *)
Theorem join_gives_role_silently w gid g member faults presence_fault role :
  world_wf w → w_inbox w = [] → get_guild (w_guilds w) gid = Some g →
  member_id member ∉ member_id <$> guild_members g →
  member_id member ∉ excluded_member_ids →
  get_role g auto_role_id = Some role → role_in role (member_roles member) = false →
  faults (member_id member) = None →
  ∃ w',
    wrun channel_name w [Join gid member faults presence_fault; Deliver] = Some w' ∧
    bot (w_sys w') = bot (w_sys w) ∧ tasks (w_sys w') = tasks (w_sys w) ∧
    discord (w_sys w') = discord (w_sys w) ∧ w_inbox w' = [] ∧
    get_guild (w_guilds w') gid ≫= (λ g', guild_member g' (member_id member)) =
      Some (grant role member).
Proof.
  intros Hw Hin Hg Hnew Hexcl Hrole Hnot Hfault. cbn [wrun wstep].
  rewrite (join_eq w gid g member faults presence_fault role) by done.
  destruct (update_bot_activity _ _) as [r l2]. rewrite Hin.
  eexists. split; [done|]. cbn.
  destruct Hw as (((_&Htab&_)&_)&_).
  rewrite on_member_update_eq, (auto_role_never_notifies (bot (w_sys w)) member role);
    [|done|by apply get_role_id in Hrole as [? _]].
  cbn. rewrite app_nil_r. split_and!; [done..|].
  by apply (member_after_join (w_guilds w)).
Qed.

(** What [on_member_remove] changes: the guild loses the member, the
    presence and the log follow; the notification path and the gateway
    are as they were. *)
Lemma leave_eq gid mid fault w w' :
  leave gid mid fault w = Some w' →
  bot (w_sys w') = bot (w_sys w) ∧ tasks (w_sys w') = tasks (w_sys w) ∧
  clock (w_sys w') = clock (w_sys w) ∧ discord (w_sys w') = discord (w_sys w) ∧
  w_inbox w' = w_inbox w ∧
  get_guild (w_guilds w') gid ≫= (λ g, guild_member g mid) = None.
Proof.
  unfold leave. intros Hstep.
  destruct (get_guild _ gid) as [g|] eqn:Hg; simplify_eq/=.
  case_bool_decide; [|done]. destruct (on_member_remove _ _) as [r lines]. simplify_eq.
  split_and!; [done..|]. by apply (member_after_leave (w_guilds w)).
Qed.

(** C17: a member who leaves while roles are pending for it is still
    announced: [on_member_remove] touches neither the queue nor the
    settling task, so when the task wakes, the roles leave the queue
    and the notification is started, for a member the guild no longer
    has. *)
Theorem leaver_is_still_notified w gid i member wake url fault :
  world_wf w → tasks (w_sys w) !! i = Some (SettleSleep member wake) →
  wake ≤ clock (w_sys w) →
  verification_channel_id ∈ channels (discord (w_sys w)) →
  member_avatar member = Some url →
  is_Some (leave gid (member_id member) fault w) →
  ∃ w' roles embed,
    wrun channel_name w [Leave gid (member_id member) fault; Loop (Wake i)] = Some w' ∧
    get_guild (w_guilds w') gid ≫= (λ g, guild_member g (member_id member)) = None ∧
    role_update_queue (bot (w_sys w)) !! member_id member = Some roles ∧
    role_update_queue (bot (w_sys w')) !! member_id member = None ∧
    tasks (w_sys w') =
      delete i (tasks (w_sys w)) ++
      [SendPending member verification_channel_id (member_mention member) embed] ∧
    embed_fields embed ≡ₚ role_field (role_to_channel init_bot) <$> roles.
Proof.
  intros Hw Hi Hwake Hch Hav [w1 Hleave]. cbn [wrun wstep]. rewrite Hleave.
  pose proof (leave_wf gid _ fault w w1 Hw Hleave) as ((Hs&_)&_).
  destruct (leave_eq gid _ fault w w1 Hleave) as (Hbot & Htasks & Hclock & Hd & _ & Hgone).
  destruct (wake_settle (w_sys w1) i member wake Hs) as (roles & Hq & (Hne & _ & Hin) & ->);
    [by rewrite Htasks|by rewrite Hclock|].
  destruct (send_fields (discord (w_sys w1)) (clock (w_sys w1)) member roles
              (role_to_channel init_bot) url) as (embed & -> & Hfields);
    [by rewrite Hd|done..|].
  eexists _, roles, embed.
  split_and!; [done|done|by rewrite <-Hbot|apply lookup_delete_eq|by rewrite <-Htasks|done].
Qed.

(** C18: in every state of the program, the roles pending for a member are
    one at least and four at most, the number of roles of the table:
    a notification never lists more than the table has. *)
Theorem pending_roles_bounded w mid roles :
  wreachable channel_name w → role_update_queue (bot (w_sys w)) !! mid = Some roles →
  (1 ≤ length roles ≤ 4)%nat.
Proof.
  intros (((Hq&Htab&_)&_)&_)%(wreachable_wf channel_name) Hroles.
  apply (Hq mid), entry_wf_length in Hroles. by rewrite Htab in Hroles.
Qed.

(** C22: [clear] in the channel of a notification deletes it with the rest;
    the ticket of the notification then meets [NotFound] and ends: its
    task is gone, nothing is logged, the queue is untouched and the
    platform is left as [clear] left it. *)
Theorem cleared_notification_ends_silently w gid g i message wake channel amount
    handler_fault :
  get_guild (w_guilds w) gid = Some g →
  tasks (w_sys w) !! i = Some (DeleteSleep message wake) → wake ≤ clock (w_sys w) →
  0 < amount → message ∈ to_clear (discord (w_sys w)) channel amount →
  ∃ w',
    wrun channel_name w
      [Slash gid (CmdClear true channel amount None None None handler_fault);
       Loop (Wake i); Loop (DeleteReply i None)] = Some w' ∧
    bot (w_sys w') = bot (w_sys w) ∧ tasks (w_sys w') = delete i (tasks (w_sys w)) ∧
    log (w_sys w') = log (w_sys w) ∧
    discord (w_sys w') =
      delete_messages (discord (w_sys w)) (to_clear (discord (w_sys w)) channel amount).
Proof.
  intros Hg Hi Hwake Hpos Hm. cbn [wrun wstep command]. unfold interact.
  rewrite Hg. cbn [mbind option_bind]. rewrite clear_eq by done.
  cbn. rewrite Hi, decide_True by done. cbn.
  rewrite list_lookup_insert_eq by by eapply lookup_lt_Some.
  unfold delete_reply_step. cbn.
  rewrite delete_gone
    by (rewrite lookup_delete_messages; by apply decide_True, list_elem_of_fmap_2).
  eexists. split; [done|]. cbn.
  by rewrite app_nil_r, list_delete_insert.
Qed.

End program_properties.

(** ** Witnesses *)

Section program_witnesses.
Import Sample Deployment Plant.
#[local] Existing Instance insertion_order_runtime.

Lemma start_wf : world_wf start.
Proof. apply boot_wf; [compute_decide|]. constructor; [compute_decide|done]. Qed.

Lemma plant_reachable acts :
  is_Some (wrun names start acts) → wreachable names (run_from_start acts).
Proof.
  intros [w Hw]. unfold run_from_start. rewrite Hw. simpl.
  eapply wrun_reachable; [|done].
  apply wreachable_boot; [compute_decide|]. constructor; [compute_decide|done].
Qed.

Lemma plant_wf acts : is_Some (wrun names start acts) → world_wf (run_from_start acts).
Proof. intros Hrun. by apply (wreachable_wf names), plant_reachable. Qed.

Lemma first_ready_wf : world_wf (run_from_start [first_ready]).
Proof. apply (wstep_wf names start first_ready); [apply start_wf|by vm_compute]. Qed.


Lemma program_one_timer_per_member_witness :
  let w := run_from_start [first_ready; dan_gets_beta; Deliver] in
  (timers_of 4 (tasks (w_sys w)) ≤ 1)%nat ∧
  (timers_of 4 (tasks (w_sys w)) = 1%nat ↔
   is_Some (role_update_queue (bot (w_sys w)) !! 4)).
Proof.
  apply (program_one_timer_per_member names), plant_reachable. compute_decide.
Defined.

(** In that state Dan has the role pending and his one settling task. *)
Example dan_pending_sample :
  let w := run_from_start [first_ready; dan_gets_beta; Deliver] in
  role_update_queue (bot (w_sys w)) !! 4 = Some [beta] ∧
  timers_of 4 (tasks (w_sys w)) = 1%nat.
Proof. by vm_compute. Qed.

Lemma one_periodic_check_witness :
  (length (w_loops (run_from_start [first_ready; first_ready; sweep_ok; first_ready])) ≤ 1)%nat.
Proof. apply (one_periodic_check names), plant_reachable. compute_decide. Defined.

Lemma listing_fault_ends_periodic_check_witness :
  w_loops (run_from_start [first_ready; sweep_refused; Loop (Tick 43200); first_ready]) = [] ∧
  wstep names (run_from_start [first_ready]) sweep_refused =
    Some (set_loops []
            (noted [] [HTTPError (mkHTTP OtherHTTP "503 Service Unavailable")]
               (with_guild Town.five Town.five (run_from_start [first_ready])))).
Proof.
  apply (listing_fault_ends_periodic_check names (run_from_start [first_ready]) 1
           Town.faulty (page_fault 0) Town.five member_role
           (mkHTTP OtherHTTP "503 Service Unavailable")
           [Loop (Tick 43200); first_ready]);
    first [apply first_ready_wf|by vm_compute].
Defined.

Lemma periodic_task_refines_loop_witness :
  ∃ w' wake',
    wrun names (run_from_start [first_ready])
      (periodic_turns 2 Town.faulty no_listing_fault) = Some w' ∧
    periodic_role_check Town.faulty 2 (client_of (run_from_start [first_ready])) =
      Some (client_of w', Ok ()) ∧
    w_loops w' = [wake'] ∧ wake' ≤ clock (w_sys w').
Proof.
  apply (periodic_task_refines_loop names 2 Town.faulty no_listing_fault
           (run_from_start [first_ready]) 1);
    first [apply first_ready_wf|by vm_compute].
Defined.

Lemma join_gives_role_silently_witness :
  ∃ w',
    wrun names (run_from_start [first_ready]) [fay_joins; Deliver] = Some w' ∧
    bot (w_sys w') = bot (w_sys (run_from_start [first_ready])) ∧
    tasks (w_sys w') = tasks (w_sys (run_from_start [first_ready])) ∧
    discord (w_sys w') = discord (w_sys (run_from_start [first_ready])) ∧
    w_inbox w' = [] ∧
    get_guild (w_guilds w') home_guild_id ≫= (λ g', guild_member g' (member_id fay)) =
      Some (grant member_role fay).
Proof.
  apply (join_gives_role_silently names (run_from_start [first_ready]) home_guild_id
           Town.five fay Town.faulty None member_role);
    first [apply first_ready_wf|by vm_compute|compute_decide].
Defined.

Lemma leaver_is_still_notified_witness :
  let w := run_from_start gus_pending in
  ∃ w' roles embed,
    wrun names w [Leave home_guild_id 6 None; Loop (Wake 0)] = Some w' ∧
    get_guild (w_guilds w') home_guild_id ≫= (λ g, guild_member g 6) = None ∧
    role_update_queue (bot (w_sys w)) !! 6 = Some roles ∧
    role_update_queue (bot (w_sys w')) !! 6 = None ∧
    tasks (w_sys w') =
      delete 0%nat (tasks (w_sys w)) ++
      [SendPending (grant alpha (grant member_role gus)) verification_channel_id
         (member_mention (grant alpha (grant member_role gus))) embed] ∧
    embed_fields embed ≡ₚ role_field (role_to_channel init_bot) <$> roles.
Proof.
  apply (leaver_is_still_notified names (run_from_start gus_pending) home_guild_id 0
           (grant alpha (grant member_role gus)) 6 "https://cdn.example/gus.png" None);
    first [by vm_compute|compute_decide|apply plant_wf; compute_decide].
Defined.

Lemma pending_roles_bounded_witness :
  let w := run_from_start [first_ready; dan_gets_beta; Deliver] in
  role_update_queue (bot (w_sys w)) !! 4 = Some [beta] ∧ (1 ≤ length [beta] ≤ 4)%nat.
Proof.
  intros w. assert (role_update_queue (bot (w_sys w)) !! 4 = Some [beta]) as Hq
    by by vm_compute.
  split; [done|].
  apply (pending_roles_bounded names w 4 [beta]); [|done].
  apply plant_reachable. compute_decide.
Defined.

Lemma cleared_notification_ends_silently_witness :
  let w := run_from_start gus_notified in
  ∃ w',
    wrun names w
      [Slash home_guild_id (CmdClear true verification_channel_id 10 None None None None);
       Loop (Wake 0); Loop (DeleteReply 0 None)] = Some w' ∧
    bot (w_sys w') = bot (w_sys w) ∧ tasks (w_sys w') = delete 0%nat (tasks (w_sys w)) ∧
    log (w_sys w') = log (w_sys w) ∧
    discord (w_sys w') =
      delete_messages (discord (w_sys w)) (to_clear (discord (w_sys w)) verification_channel_id 10).
Proof.
  eapply (cleared_notification_ends_silently names (run_from_start gus_notified)
            home_guild_id _ 0 gus_notice 86406 verification_channel_id 10 None);
    [vm_compute; reflexivity|by vm_compute|by vm_compute|done|compute_decide].
Defined.

(** The program closed after start-up: the cogs are gone, [on_ready] is
    dispatched no more, and the periodic check ends at its next
    wake. *)
Example closed_program_sample :
  let w := run_from_start [first_ready; Close None] in
  session_cogs (w_session w) = [] ∧ session_closed (w_session w) = true ∧
  w_loops w = [1] ∧ wstep names w first_ready = None ∧
  w_loops <$> wstep names w sweep_ok = Some [].
Proof. by vm_compute. Qed.

(** The program after start-up and one sweep: one periodic check asleep
    until the next half day, three updates for the gateway to deliver,
    and a second [on_ready] that escapes at [add_cog]. *)
Example program_sample :
  let w := run_from_start [first_ready; sweep_ok; first_ready] in
  w_loops w = [1 + 43200] ∧ length (w_inbox w) = 2%nat ∧
  w_escaped w = [ClientException "Cog named 'Commands' already loaded"] ∧
  (member_name <$> (w_inbox w).*2) = ["ann"; "dan"].
Proof. by vm_compute. Qed.

End program_witnesses.
